(** * Firecracker microVM orchestration: a shallow embedding

    The development follows the Python sources module by module:
    [validation.py], [provider_client.py], [utils/provider_resolver.py],
    [providers/__init__.py], [network_manager.py], [launcher.py],
    [firecracker_client.py] and [vm_manager.py].

    Python values are an inductive type, dictionaries are [gmap]s, and code
    that talks to the host (subprocesses, the filesystem, HTTP, processes)
    runs in a small state-and-exception monad over a [World]; whatever the
    host decides (an exit status, an HTTP reply, whether a write succeeds)
    is read from an [Env] of oracles indexed by a logical clock. *)

From Stdlib Require Import ZArith QArith String Ascii List Lia Bool Sorted.
From stdpp Require Import gmap strings list fin_maps pretty.

Set Warnings "-register-all".
Open Scope string_scope.
Open Scope Z_scope.

(** ** Python values and exceptions *)

Inductive pyval : Type :=
  | PNone
  | PBool (b : bool)
  | PInt (z : Z)
  | PFloat (q : Q)
  | PStr (s : string)
  | PList (l : list pyval)
  | PDict (d : gmap string pyval).

(** Python's [bool(v)]. *)
Definition truthy (v : pyval) : bool :=
  match v with
  | PNone => false
  | PBool b => b
  | PInt z => negb (z =? 0)
  | PFloat q => negb (Qeq_bool q 0)
  | PStr s => negb (String.eqb s "")
  | PList l => match l with [] => false | _ => true end
  | PDict d => match map_to_list d with [] => false | _ => true end
  end.

(** [bool(d.get(k))] for a dictionary [d]. *)
Definition truthy_opt (o : option pyval) : bool :=
  match o with Some v => truthy v | None => false end.

(** The exception classes the sources raise or catch. *)
Inductive exn_class : Type :=
  | ValidationError
  | CalledProcessError
  | TimeoutExpired
  | ProcessLookupError
  | OSError
  | ValueError
  | TypeError
  | AddressValueError
  | NetmaskValueError
  | HTTPError
  | RequestException
  | JSONDecodeError
  | KeyError
  | IndexError
  | AttributeError.

#[global] Instance exn_class_eq_dec : EqDecision exn_class.
Proof. solve_decision. Defined.

Record exn : Type := Exn { exn_cls : exn_class; exn_msg : string }.

#[global] Instance exn_eq_dec : EqDecision exn.
Proof. solve_decision. Defined.

Inductive result (A : Type) : Type :=
  | Ok (a : A)
  | Raise (e : exn).
Arguments Ok {A} a.
Arguments Raise {A} e.

Definition is_ok {A} (r : result A) : bool :=
  match r with Ok _ => true | Raise _ => false end.

(** ** validation.py *)

Module Validation.

Inductive jtype : Type := TObject | TString | TInteger.

(** A JSON Schema restricted to the keywords [MCP_TASK_SCHEMA] uses.
    Every [enum] of the source lists string literals. *)
Inductive schema : Type :=
  Schema (ty : option jtype)
         (required : list string)
         (properties : list (string * schema))
         (enum : option (list string))
         (additionalProperties : option schema).

Definition just (t : jtype) : schema := Schema (Some t) [] [] None None.

Definition MCP_TASK_SCHEMA : schema :=
  Schema (Some TObject)
    ["task_id"; "prompt"; "provider"]
    [ ("task_id", just TString);
      ("prompt", just TString);
      ("provider", Schema (Some TString) [] [] (Some ["openai"; "ollama"]) None);
      ("model", just TString);
      ("timeout_seconds", just TInteger);
      ("env_overrides", Schema (Some TObject) [] [] None (Some (just TString))) ]
    None None.

(** jsonschema's type checker: a [bool] is not an integer, a float with
    an integral value is. *)
Definition is_type (t : jtype) (v : pyval) : bool :=
  match t, v with
  | TObject, PDict _ => true
  | TString, PStr _ => true
  | TInteger, PInt _ => true
  | TInteger, PFloat q => Z.rem (Qnum q) (Zpos (Qden q)) =? 0
  | _, _ => false
  end.

Definition type_ok (ty : option jtype) (v : pyval) : bool :=
  match ty with Some t => is_type t v | None => true end.

(** [required] constrains objects only. *)
Definition required_ok (req : list string) (v : pyval) : bool :=
  match v with
  | PDict d => forallb (fun k => bool_decide (is_Some (d !! k))) req
  | _ => true
  end.

Definition enum_ok (en : option (list string)) (v : pyval) : bool :=
  match en with
  | None => true
  | Some allowed =>
      match v with
      | PStr s => bool_decide (s ∈ allowed)
      | _ => false
      end
  end.

(** The values of an object stored under keys that [properties] does
    not name. *)
Definition additional_values (names : list string) (v : pyval) : list pyval :=
  match v with
  | PDict d =>
      snd <$> filter (fun kv => fst kv ∉ names) (map_to_list d)
  | _ => []
  end.

Definition member (k : string) (v : pyval) : option pyval :=
  match v with PDict d => d !! k | _ => None end.

(** [iter_errors] yields nothing. *)
Fixpoint conforms (s : schema) (v : pyval) : bool :=
  match s with
  | Schema ty req props en addl =>
      type_ok ty v
      && required_ok req v
      && (fix props_ok (ps : list (string * schema)) : bool :=
            match ps with
            | [] => true
            | (k, sk) :: ps' =>
                match member k v with
                | Some vk => conforms sk vk
                | None => true
                end && props_ok ps'
            end) props
      && enum_ok en v
      && match addl with
         | Some sa => forallb (conforms sa) (additional_values (fst <$> props) v)
         | None => true
         end
  end.

Definition validate_mcp_request (payload : pyval) : result bool :=
  if conforms MCP_TASK_SCHEMA payload
  then Ok true
  else Raise (Exn ValidationError "Invalid MCPTaskRequest").

End Validation.

(** ** The host: oracles, world and the effect monad *)

Inductive http_reply : Type :=
  | ConnectionError (msg : string)
  | Response (status : Z) (body : option pyval).

(** What the host decides.  Every oracle but the constants takes the value
    of the logical clock at the moment of the call, so the same call may
    be answered differently each time it is made. *)
Record Env : Type := {
  environ : gmap string string;          (* os.environ *)
  which_jailer : option string;          (* shutil.which("jailer") *)
  has_ollama_client : bool;              (* import providers.ollama works *)
  has_openai_client : bool;              (* import providers.openai_client works *)
  cmd_ok : nat → list string → bool;     (* a command is executed and exits with status 0 *)
  cmd_missing : nat → list string → bool; (* one that is not: its program cannot be executed *)
  fs_ok : nat → string → bool;           (* a write, rename, unlink or mkdir succeeds *)
  popen_pid : nat → list string → option Z;  (* Popen: the child's pid *)
  http : nat → string → http_reply;      (* requests.post / requests.put *)
  stays_up : nat → Z → bool;             (* the child has not exited by itself *)
  signal_ok : nat → Z → bool;            (* the signal reaches the child *)
  wait_exits : nat → Z → bool;           (* the child exits within the timeout *)
  gmtime : nat → string;                 (* the formatted UTC time *)
  route_stdout : nat → string            (* what "ip route show default" prints *)
}.

Inductive file : Type :=
  | FJson (v : pyval)
  | FBlob (what : string).

Inductive Event : Type :=
  | EvRun (cmd : list string) (ok : bool)
  | EvPopen (cmd : list string) (pid : option Z)
  | EvWrite (path : string) (content : file) (ok : bool)
  | EvRename (src dst : string) (moved : option file) (ok : bool)
  | EvUnlink (path : string) (ok : bool)
  | EvMkdir (path : string) (ok : bool)
  | EvRmdir (path : string) (ok : bool)
  | EvHttp (verb url : string) (reply : http_reply)
  | EvSleep (seconds : Q)
  | EvSignal (pid : Z) (name : string) (ok : bool)
  | EvWait (pid : Z) (exited : bool).

(** ** Data model *)

Record BootSource : Type := {
  kernel_image_path : string;
  boot_args : string
}.

Record Drive : Type := {
  drive_id : string;
  path_on_host : string;
  is_root_device : bool;
  is_read_only : bool
}.

Record NetIface : Type := {
  iface_id : string;
  guest_mac : string;
  host_dev_name : option string
}.

Record MachineConfig : Type := {
  vcpu_count : Z;
  mem_size_mib : Z;
  smt : bool
}.

(** The dictionary built by [_generate_vm_config]; [init_img] is the key
    [create_vm] adds later, [cfg_provider_response] the key
    [_write_manifest] looks up with [config.get]. *)
Record VmConfig : Type := {
  boot_source : BootSource;
  drives : list Drive;
  network_interfaces : list NetIface;
  machine_config : MachineConfig;
  init_img : option string;
  cfg_provider_response : option pyval
}.

(** class VMInstance.  [provider_response] is the attribute [create_vm]
    sets dynamically; [None] stands for its absence ([hasattr] false). *)
Record VMInstance : Type := {
  vm_id : string;
  config : option VmConfig;
  process : option Z;
  socket_path : option string;
  shared_disk_path : option string;
  tap_name : option string;
  provider_response : option pyval
}.

(** A value of [NetworkManager.active_interfaces]. *)
Record IfaceInfo : Type := {
  if_tap_name : string;
  if_cidr : string;
  if_gateway_ip : string;
  if_vm_ip : string
}.

(** A configured path.  [config/schema.py] and the tests make it a
    [pathlib.Path]; the dictionary that [mcp_server.py] builds leaves it
    the string it was given. *)
Inductive path_value : Type :=
  | PathObject (text : string)
  | PathString (text : string).

(** [str(p)], also the text of [Path(p)]. *)
Definition path_text (p : path_value) : string :=
  match p with
  | PathObject text => text
  | PathString text => text
  end.

(** The configuration object ([DictConfig]).  [providers] is [None] when
    the object has no [providers] attribute; a provider maps to [None] when
    its entry has no [url].  [paths_shared] and [paths_results] are only
    used through [Path(...)], so their text is all that matters;
    [paths_ubuntu_images] is also an operand of [/]. *)
Record Config : Type := {
  paths_shared : string;
  paths_results : string;
  paths_ubuntu_images : path_value;
  vm_memory_mb : Z;
  vm_vcpus : Z;
  vm_shutdown_timeout : Z;
  vm_use_jailer : bool;
  vm_use_real_init : bool;
  vm_network_cidr : string;
  providers : option (gmap string (option string))
}.

(** The state a run can observe or change: the filesystem, the child
    processes, the clock and the log of host interactions, the VMInstance
    objects (by address, since the registry and its callers share them),
    and the dictionaries owned by the two manager objects. *)
Record World : Type := {
  files : gmap string file;
  alive : gset Z;
  now : nat;
  trace : list Event;
  heap : gmap nat VMInstance;
  active_vms : gmap string nat;
  active_interfaces : gmap string IfaceInfo
}.

Definition with_files (f : gmap string file → gmap string file) (w : World) : World :=
  {| files := f (files w); alive := alive w; now := now w; trace := trace w;
     heap := heap w; active_vms := active_vms w;
     active_interfaces := active_interfaces w |}.

Definition with_alive (f : gset Z → gset Z) (w : World) : World :=
  {| files := files w; alive := f (alive w); now := now w; trace := trace w;
     heap := heap w; active_vms := active_vms w;
     active_interfaces := active_interfaces w |}.

Definition with_now (f : nat → nat) (w : World) : World :=
  {| files := files w; alive := alive w; now := f (now w); trace := trace w;
     heap := heap w; active_vms := active_vms w;
     active_interfaces := active_interfaces w |}.

Definition with_trace (f : list Event → list Event) (w : World) : World :=
  {| files := files w; alive := alive w; now := now w; trace := f (trace w);
     heap := heap w; active_vms := active_vms w;
     active_interfaces := active_interfaces w |}.

Definition with_heap (f : gmap nat VMInstance → gmap nat VMInstance) (w : World) : World :=
  {| files := files w; alive := alive w; now := now w; trace := trace w;
     heap := f (heap w); active_vms := active_vms w;
     active_interfaces := active_interfaces w |}.

Definition with_active_vms (f : gmap string nat → gmap string nat) (w : World) : World :=
  {| files := files w; alive := alive w; now := now w; trace := trace w;
     heap := heap w; active_vms := f (active_vms w);
     active_interfaces := active_interfaces w |}.

Definition with_active_interfaces
    (f : gmap string IfaceInfo → gmap string IfaceInfo) (w : World) : World :=
  {| files := files w; alive := alive w; now := now w; trace := trace w;
     heap := heap w; active_vms := active_vms w;
     active_interfaces := f (active_interfaces w) |}.

(** A fresh host: no files, no processes, nothing registered. *)
Definition empty_world : World :=
  {| files := ∅; alive := ∅; now := 0%nat; trace := [];
     heap := ∅; active_vms := ∅; active_interfaces := ∅ |}.

(** *** The monad: state over [World], with Python exceptions *)

Definition M (A : Type) : Type := World → result A * World.

Definition ret {A} (a : A) : M A := fun w => (Ok a, w).

Definition bind {A B} (m : M A) (k : A → M B) : M B :=
  fun w =>
    match m w with
    | (Ok a, w') => k a w'
    | (Raise e, w') => (Raise e, w')
    end.

#[global] Instance M_ret : MRet M := @ret.
#[global] Instance M_bind : MBind M := fun A B k m => bind m k.

Definition raise {A} (e : exn) : M A := fun w => (Raise e, w).

Definition gets {A} (f : World → A) : M A := fun w => (Ok (f w), w).

Definition modify (f : World → World) : M unit := fun w => (Ok tt, f w).

(** [try: m  except Exception as e: handler e] *)
Definition try_except {A} (m : M A) (handler : exn → M A) : M A :=
  fun w =>
    match m w with
    | (Ok a, w') => (Ok a, w')
    | (Raise e, w') => handler e w'
    end.

(** [try: m  except C1, ..., Cn as e: handler e]: other classes pass. *)
Definition try_except_of {A} (classes : list exn_class)
    (m : M A) (handler : exn → M A) : M A :=
  try_except m (fun e =>
    if bool_decide (exn_cls e ∈ classes) then handler e else raise e).

(** [try: m  finally: cleanup]: an exception of [cleanup] replaces the
    outcome of [m]. *)
Definition try_finally {A} (m : M A) (cleanup : M unit) : M A :=
  fun w =>
    match m w with
    | (r, w') =>
        match cleanup w' with
        | (Ok _, w'') => (r, w'')
        | (Raise e, w'') => (Raise e, w'')
        end
    end.

Definition when (b : bool) (m : M unit) : M unit :=
  if b then m else ret tt.

(** [for x in xs: body x] *)
Fixpoint for_each {A} (xs : list A) (body : A → M unit) : M unit :=
  match xs with
  | [] => ret tt
  | x :: xs' => body x ;; for_each xs' body
  end.

(** *** Host primitives *)

(** Reads the clock and advances it: one host interaction. *)
Definition tick : M nat := fun w => (Ok (now w), with_now S w).

Definition emit (ev : Event) : M unit :=
  modify (with_trace (fun tr => (tr ++ [ev])%list)).

(** [subprocess.run(cmd, check=check)].  A program that cannot be
    executed raises [FileNotFoundError] or [PermissionError], both of them
    [OSError]s, whatever [check] is.  For a command that ran the result is
    whether its exit status was 0; with [check=True] any other status
    raises [CalledProcessError]. *)
Definition run (env : Env) (check : bool) (cmd : list string) : M bool :=
  t ← tick;
  let ok := cmd_ok env t cmd in
  emit (EvRun cmd ok) ;;
  if ok then ret true
  else if cmd_missing env t cmd then raise (Exn OSError (hd "" cmd))
  else if check then raise (Exn CalledProcessError (String.concat " " cmd))
  else ret false.

(** [open(path, 'w')] followed by the write. *)
Definition write_file (env : Env) (path : string) (content : file) : M unit :=
  t ← tick;
  let ok := fs_ok env t path in
  emit (EvWrite path content ok) ;;
  if ok then modify (with_files (insert path content))
  else raise (Exn OSError path).

(** [Path.exists()] *)
Definition path_exists (path : string) : M bool :=
  gets (fun w => bool_decide (is_Some (files w !! path))).

(** [Path.rename(dst)]: atomic replacement of [dst]. *)
Definition rename (env : Env) (src dst : string) : M unit :=
  t ← tick;
  cur ← gets (fun w => files w !! src);
  match cur with
  | Some c =>
      let ok := fs_ok env t dst in
      emit (EvRename src dst cur ok) ;;
      if ok then modify (with_files (fun fs => <[dst := c]> (delete src fs)))
      else raise (Exn OSError dst)
  | None =>
      emit (EvRename src dst None false) ;;
      raise (Exn OSError src)
  end.

(** [Path.unlink()]: [FileNotFoundError] is an [OSError]. *)
Definition unlink (env : Env) (path : string) : M unit :=
  t ← tick;
  cur ← gets (fun w => files w !! path);
  let ok := bool_decide (is_Some cur) && fs_ok env t path in
  emit (EvUnlink path ok) ;;
  if ok then modify (with_files (delete path))
  else raise (Exn OSError path).

(** [Path.mkdir(parents=True, exist_ok=True)]; directories themselves are
    not part of [files]. *)
Definition mkdir (env : Env) (path : string) : M unit :=
  t ← tick;
  let ok := fs_ok env t path in
  emit (EvMkdir path ok) ;;
  if ok then ret tt else raise (Exn OSError path).

(** [Path.rmdir()] *)
Definition rmdir (env : Env) (path : string) : M unit :=
  t ← tick;
  let ok := fs_ok env t path in
  emit (EvRmdir path ok) ;;
  if ok then ret tt else raise (Exn OSError path).

(** [subprocess.Popen(cmd, ...)] *)
Definition popen (env : Env) (cmd : list string) : M Z :=
  t ← tick;
  let r := popen_pid env t cmd in
  emit (EvPopen cmd r) ;;
  match r with
  | Some pid => modify (with_alive (fun a => {[pid]} ∪ a)) ;; ret pid
  | None => raise (Exn OSError (String.concat " " cmd))
  end.

(** [proc.poll() is None]: the child is still running. *)
Definition poll_is_none (env : Env) (pid : Z) : M bool :=
  t ← tick;
  up ← gets (fun w => bool_decide (pid ∈ alive w));
  if up && stays_up env t pid then ret true
  else modify (with_alive (fun a => a ∖ {[pid]})) ;; ret false.

(** [proc.terminate()] and [proc.kill()].  A signal that finds no process
    raises [ProcessLookupError]; the child is gone then. *)
Definition send_signal (env : Env) (pid : Z) (name : string) : M unit :=
  t ← tick;
  let ok := signal_ok env t pid in
  emit (EvSignal pid name ok) ;;
  if ok then ret tt
  else modify (with_alive (fun a => a ∖ {[pid]})) ;;
       raise (Exn ProcessLookupError name).

(** [proc.wait(timeout=timeout)]; without a timeout it returns once the
    child has exited. *)
Definition wait (env : Env) (pid : Z) (timeout : option Z) : M unit :=
  match timeout with
  | None =>
      emit (EvWait pid true) ;;
      modify (with_alive (fun a => a ∖ {[pid]}))
  | Some _ =>
      t ← tick;
      let exited := wait_exits env t pid in
      emit (EvWait pid exited) ;;
      if exited then modify (with_alive (fun a => a ∖ {[pid]}))
      else raise (Exn TimeoutExpired "wait")
  end.

(** [requests.post] / [requests.put]: a status line and, when the body
    parses as JSON, the parsed body. *)
Definition requests_send (env : Env) (verb url : string) : M (Z * option pyval) :=
  t ← tick;
  let r := http env t url in
  emit (EvHttp verb url r) ;;
  match r with
  | ConnectionError msg => raise (Exn RequestException msg)
  | Response status body => ret (status, body)
  end.

(** [resp.raise_for_status()] *)
Definition raise_for_status (status : Z) : M unit :=
  if (400 <=? status) && (status <? 600)
  then raise (Exn HTTPError (pretty status))
  else ret tt.

(** [resp.json()] *)
Definition resp_json (body : option pyval) : M pyval :=
  match body with
  | Some v => ret v
  | None => raise (Exn JSONDecodeError "Expecting value")
  end.

(** [time.sleep(seconds)]: a negative length is a [ValueError]. *)
Definition sleep (seconds : Q) : M unit :=
  if Qlt_le_dec seconds 0
  then raise (Exn ValueError "sleep length must be non-negative")
  else emit (EvSleep seconds).

(** [time.strftime('%Y-%m-%dT%H:%M:%SZ', time.gmtime())] *)
Definition utc_now (env : Env) : M string :=
  t ← tick; ret (gmtime env t).

(** *** Strings and paths *)

(** [f"{a}{b}"] is [a +:+ b]. *)

Definition starts_with (p s : string) : bool := String.prefix p s.

(** [Path(a) / b] without normalisation: an absolute [b] replaces [a]. *)
Definition path_join (a b : string) : string :=
  if starts_with "/" b then b else a +:+ "/" +:+ b.

(** The part of [s] after its last ["/"]: [Path(s).name]. *)
Definition is_component (c : string) : bool :=
  negb (String.eqb c "") && negb (String.eqb c ".").

Fixpoint path_name_aux (s cur name : string) : string :=
  match s with
  | EmptyString => if is_component cur then cur else name
  | String c s' =>
      if Ascii.eqb c "/"%char
      then path_name_aux s' "" (if is_component cur then cur else name)
      else path_name_aux s' (cur +:+ String c "") name
  end.

Definition path_name (s : string) : string := path_name_aux s "" "".

(** The part of [s] before its last ["/"]: [Path(s).parent]. *)
Fixpoint dirname_aux (s seen acc : string) : string :=
  match s with
  | EmptyString => acc
  | String c s' =>
      if Ascii.eqb c "/"%char then dirname_aux s' (seen +:+ "/") seen
      else dirname_aux s' (seen +:+ String c "") acc
  end.

Definition dirname (s : string) : string :=
  match dirname_aux s "" "." with
  | EmptyString => "/"
  | d => d
  end.

(** [s.endswith(suffix)] *)
Definition ends_with (suffix s : string) : bool :=
  let n := String.length s in
  let m := String.length suffix in
  (m <=? n)%nat && String.eqb (String.substring (n - m) m s) suffix.

(** [str.upper()] on ASCII letters. *)
Definition upper_char (c : ascii) : ascii :=
  let n := nat_of_ascii c in
  if ((97 <=? n) && (n <=? 122))%nat then ascii_of_nat (n - 32) else c.

Fixpoint upper (s : string) : string :=
  match s with
  | EmptyString => EmptyString
  | String c s' => String (upper_char c) (upper s')
  end.

(** ** provider_client.py *)

Module ProviderClient.

(** The body of the [try]: one POST, its status check and the decoding
    of the reply. *)
Definition attempt_post (env : Env) (url : string) : M pyval :=
  '(status, body) ← requests_send env "POST" url;
  raise_for_status status ;;
  resp_json body.

(** The [for attempt in range(attempt, attempt + n)] loop followed by
    [raise last_exc].  A [return] inside the [try] leaves the loop; the
    [sleep] runs in the [except] block, so what it raises propagates. *)
Fixpoint retry_loop (env : Env) (url : string) (backoff : Q)
    (n : nat) (attempt : Z) (last_exc : option exn) : M pyval :=
  match n with
  | O =>
      match last_exc with
      | Some e => raise e
      | None => raise (Exn TypeError "exceptions must derive from BaseException")
      end
  | S n' =>
      r ← try_except
             (v ← attempt_post env url; ret (inl v))
             (fun e => sleep (Qmult backoff (inject_Z attempt)) ;; ret (inr e));
      match r with
      | inl v => ret v
      | inr e => retry_loop env url backoff n' (attempt + 1) (Some e)
      end
  end.

(** [range(1, retries + 1)] has [max retries 0] elements. *)
Definition post_with_retries (env : Env) (url : string)
    (retries : Z) (backoff : Q) : M pyval :=
  retry_loop env url backoff (Z.to_nat retries) 1 None.

Definition default_retries : Z := 3.
Definition default_backoff : Q := Qmake 1 2.

End ProviderClient.

(** ** utils/provider_resolver.py *)

Module ProviderResolver.

Definition DEFAULTS : gmap string string :=
  <["ollama" := "http://localhost:11434/api/generate"]>
    (<["openai" := "https://api.openai.com/v1/completions"]> ∅).

(** [getattr(getattr(config.providers, provider), 'url', None)] inside
    the [try]: a missing attribute ends in [except Exception: pass]. *)
Definition config_url (provider : string) (config : option Config) : option string :=
  match config with
  | None => None
  | Some c =>
      match providers c with
      | None => None
      | Some ps =>
          match ps !! provider with
          | Some (Some url) => Some url
          | _ => None
          end
      end
  end.

(** [if s:] for an optional string. *)
Definition nonempty (o : option string) : option string :=
  match o with
  | Some s => if String.eqb s "" then None else Some s
  | None => None
  end.

Definition resolve_provider_url (env : Env) (provider : string)
    (config : option Config) : option string :=
  let env_key := upper provider +:+ "_URL" in
  match nonempty (environ env !! env_key) with
  | Some env_val => Some env_val
  | None =>
      match nonempty (config_url provider config) with
      | Some url => Some url
      | None => DEFAULTS !! provider
      end
  end.

(** [result[p] = v] on a dictionary kept in insertion order: a key that is
    present keeps its place. *)
Fixpoint dict_set {V} (k : string) (v : V) (d : list (string * V)) : list (string * V) :=
  match d with
  | [] => [(k, v)]
  | (k', v') :: d' =>
      if String.eqb k' k then (k, v) :: d' else (k', v') :: dict_set k v d'
  end.

(** [validate_providers]: [required] is iterated in order; the result is
    the dictionary in insertion order.  For an empty [required] the early
    [return {}] and the loop agree. *)
Definition validate_providers (env : Env) (config : option Config)
    (required : list string) : list (string * bool) :=
  fold_left
    (fun result p =>
       dict_set p (bool_decide (is_Some (nonempty (resolve_provider_url env p config))))
         result)
    required [].

(** [ensure_providers] *)
Definition ensure_providers (env : Env) (config : option Config)
    (required : list string) : result unit :=
  let missing :=
    (filter (fun '(p, ok) => ok = false) (validate_providers env config required)).*1 in
  match missing with
  | [] => Ok tt
  | _ => Raise (Exn ValueError ("Missing provider URL for: " +:+ String.concat ", " missing))
  end.

End ProviderResolver.

(** ** providers/__init__.py, providers/ollama.py, providers/openai_client.py *)

Module Providers.

(** [a or b] *)
Definition py_or (a b : pyval) : pyval := if truthy a then a else b.

Definition _ensure_scheme (u : option string) : option string :=
  match ProviderResolver.nonempty u with
  | None => None
  | Some s =>
      if starts_with "http://" s || starts_with "https://" s
      then Some s
      else Some ("http://" +:+ s)
  end.

(** [providers.ollama.generate] *)
Definition ollama_generate (env : Env) (host : string) : M pyval :=
  '(status, body) ← requests_send env "POST" ("http://" +:+ host +:+ "/api/generate");
  raise_for_status status ;;
  resp_json body.

(** [providers.openai_client.complete] *)
Definition openai_complete (env : Env) : M pyval :=
  '(status, body) ← requests_send env "POST" "https://api.openai.com/v1/completions";
  raise_for_status status ;;
  resp_json body.

(** [try: return client(...)  except Exception: log]: [Some v] is the
    [return], [None] falls through to the code after the [try]. *)
Definition try_client (client : M pyval) : M (option pyval) :=
  try_except (v ← client; ret (Some v)) (fun _ => ret None).

(** [call_provider].  Both branches end in a [return post_with_retries],
    so the generic fall-back below them in the source is never reached. *)
Definition call_provider (env : Env) (provider : string)
    (url : option string) : M pyval :=
  if String.eqb provider "ollama" then
    r ← (if has_ollama_client env
         then try_client
                (ollama_generate env
                   (default "localhost:11434" (ProviderResolver.nonempty url)))
         else ret None);
    match r with
    | Some v => ret v
    | None =>
        ProviderClient.post_with_retries env
          (default "http://localhost:11434/api/generate" (_ensure_scheme url))
          ProviderClient.default_retries ProviderClient.default_backoff
    end
  else
    r ← (if String.eqb provider "openai"
            && bool_decide (is_Some (ProviderResolver.nonempty
                                       (environ env !! "OPENAI_API_KEY")))
            && has_openai_client env
         then try_client (openai_complete env)
         else ret None);
    match r with
    | Some v => ret v
    | None =>
        ProviderClient.post_with_retries env
          (default "https://api.openai.com/v1/completions" (_ensure_scheme url))
          ProviderClient.default_retries ProviderClient.default_backoff
    end.

End Providers.

(** ** The [ipaddress] module of the Python standard library

    [IPv4Network(address, strict=False)], [is_private] and address
    arithmetic, as [network_manager.py] uses them (CPython 3.11). *)

Module Ipaddress.

Definition ALL_ONES : Z := 4294967295.

(** [s.split(sep)] for a one-character separator. *)
Fixpoint split_aux (sep : ascii) (s cur : string) : list string :=
  match s with
  | EmptyString => [cur]
  | String c s' =>
      if Ascii.eqb c sep then cur :: split_aux sep s' ""
      else split_aux sep s' (cur +:+ String c "")
  end.

Definition split (sep : ascii) (s : string) : list string := split_aux sep s "".

Definition is_digit (c : ascii) : bool :=
  let n := nat_of_ascii c in ((48 <=? n) && (n <=? 57))%nat.

(** [s.isascii() and s.isdigit()] *)
Definition isdigit (s : string) : bool :=
  negb (String.eqb s "") && forallb is_digit (list_ascii_of_string s).

(** [int(s, 10)] for a string of digits. *)
Definition int_of_digits (s : string) : Z :=
  fold_left (fun acc c => 10 * acc + (Z.of_nat (nat_of_ascii c) - 48))
            (list_ascii_of_string s) 0.

(** [_parse_octet]; [None] stands for its [ValueError]. *)
Definition _parse_octet (octet_str : string) : option Z :=
  if negb (isdigit octet_str) then None
  else if (3 <? String.length octet_str)%nat then None
  else if negb (String.eqb octet_str "0") && starts_with "0" octet_str then None
  else
    let octet_int := int_of_digits octet_str in
    if 255 <? octet_int then None else Some octet_int.

(** [_ip_int_from_string]; [None] stands for [AddressValueError]. *)
Definition _ip_int_from_string (ip_str : string) : option Z :=
  match split "."%char ip_str with
  | [a; b; c; d] =>
      match _parse_octet a, _parse_octet b, _parse_octet c, _parse_octet d with
      | Some a, Some b, Some c, Some d =>
          Some (Z.shiftl a 24 + Z.shiftl b 16 + Z.shiftl c 8 + d)
      | _, _, _, _ => None
      end
  | _ => None
  end.

Definition bit_length (x : Z) : Z := if x =? 0 then 0 else Z.log2 x + 1.

Definition _count_righthand_zero_bits (number bits : Z) : Z :=
  if number =? 0 then bits
  else Z.min bits (bit_length (Z.land (Z.lnot number) (number - 1))).

(** [_prefix_from_ip_int]; [None] stands for its [ValueError]. *)
Definition _prefix_from_ip_int (ip_int : Z) : option Z :=
  let trailing_zeroes := _count_righthand_zero_bits ip_int 32 in
  let prefixlen := 32 - trailing_zeroes in
  let leading_ones := Z.shiftr ip_int trailing_zeroes in
  let all_ones := Z.shiftl 1 prefixlen - 1 in
  if leading_ones =? all_ones then Some prefixlen else None.

(** [_prefix_from_prefix_string]; [None] stands for [NetmaskValueError]. *)
Definition _prefix_from_prefix_string (prefixlen_str : string) : option Z :=
  if negb (isdigit prefixlen_str) then None
  else
    let prefixlen := int_of_digits prefixlen_str in
    if (0 <=? prefixlen) && (prefixlen <=? 32) then Some prefixlen else None.

(** [_prefix_from_ip_string]: a netmask, or else a hostmask. *)
Definition _prefix_from_ip_string (ip_str : string) : option Z :=
  match _ip_int_from_string ip_str with
  | None => None
  | Some ip_int =>
      match _prefix_from_ip_int ip_int with
      | Some p => Some p
      | None => _prefix_from_ip_int (Z.lxor ip_int ALL_ONES)
      end
  end.

(** [_make_netmask] for a string argument. *)
Definition _make_netmask (arg : string) : option Z :=
  match _prefix_from_prefix_string arg with
  | Some p => Some p
  | None => _prefix_from_ip_string arg
  end.

Record network : Type := {
  network_address : Z;
  prefixlen : Z
}.

Definition hostmask (n : network) : Z := Z.shiftr ALL_ONES (prefixlen n).
Definition netmask (n : network) : Z := Z.lxor ALL_ONES (hostmask n).
Definition broadcast_address (n : network) : Z :=
  Z.lor (network_address n) (hostmask n).

(** [IPv4Network(address, strict=False)]: host bits are masked away. *)
Definition IPv4Network (address : string) : result network :=
  match split "/"%char address with
  | [addr] =>
      match _ip_int_from_string addr with
      | Some packed => Ok {| network_address := packed; prefixlen := 32 |}
      | None => Raise (Exn AddressValueError address)
      end
  | [addr; mask] =>
      match _ip_int_from_string addr with
      | None => Raise (Exn AddressValueError address)
      | Some packed =>
          match _make_netmask mask with
          | None => Raise (Exn NetmaskValueError mask)
          | Some p =>
              let hm := Z.shiftr ALL_ONES p in
              Ok {| network_address := Z.land packed (Z.lxor ALL_ONES hm);
                    prefixlen := p |}
          end
      end
  | _ => Raise (Exn AddressValueError address)
  end.

Definition ipv4 (a b c d : Z) : Z :=
  Z.shiftl a 24 + Z.shiftl b 16 + Z.shiftl c 8 + d.

Definition net (a b c d p : Z) : network :=
  {| network_address := ipv4 a b c d; prefixlen := p |}.

(** [_private_networks] *)
Definition _private_networks : list network :=
  [ net 0 0 0 0 8; net 10 0 0 0 8; net 127 0 0 0 8; net 169 254 0 0 16;
    net 172 16 0 0 12; net 192 0 0 0 24; net 192 0 0 170 31;
    net 192 0 2 0 24; net 192 168 0 0 16; net 198 18 0 0 15;
    net 198 51 100 0 24; net 203 0 113 0 24; net 240 0 0 0 4;
    net 255 255 255 255 32 ].

(** [_private_networks_exceptions] *)
Definition _private_networks_exceptions : list network :=
  [ net 192 0 0 9 32; net 192 0 0 10 32 ].

(** [addr in n] *)
Definition contains (n : network) (addr : Z) : bool :=
  (network_address n <=? addr) && (addr <=? broadcast_address n).

(** [network.is_private]: inside one of the private networks, and
    neither end inside one of the exceptions. *)
Definition is_private (n : network) : bool :=
  existsb (fun priv => contains priv (network_address n)
                       && contains priv (broadcast_address n))
          _private_networks
  && forallb (fun exc => negb (contains exc (network_address n))
                         && negb (contains exc (broadcast_address n)))
             _private_networks_exceptions.

(** [str(IPv4Address(i))] *)
Definition str_address (i : Z) : string :=
  pretty (Z.land (Z.shiftr i 24) 255) +:+ "." +:+
  pretty (Z.land (Z.shiftr i 16) 255) +:+ "." +:+
  pretty (Z.land (Z.shiftr i 8) 255) +:+ "." +:+
  pretty (Z.land i 255).

(** [str(address + k)]: the sum must still be an IPv4 address. *)
Definition str_add (address k : Z) : result string :=
  let i := address + k in
  if (0 <=? i) && (i <=? ALL_ONES) then Ok (str_address i)
  else Raise (Exn AddressValueError (pretty i)).

(** [str(network)] *)
Definition str_network (n : network) : string :=
  str_address (network_address n) +:+ "/" +:+ pretty (prefixlen n).

End Ipaddress.

(** Runs a pure computation that may raise. *)
Definition lift {A} (r : result A) : M A := fun w => (r, w).

(** ** network_manager.py *)

Module NetworkManager.

Import Ipaddress.

(** [_validate_network_config] *)
Definition _validate_network_config (cfg : Config) : result unit :=
  match IPv4Network (vm_network_cidr cfg) with
  | Ok network =>
      if is_private network then Ok tt
      else Raise (Exn ValueError ("Network must be private: " +:+ vm_network_cidr cfg))
  | Raise e =>
      if bool_decide (exn_cls e = AddressValueError)
      then Raise (Exn ValueError ("Invalid network CIDR: " +:+ exn_msg e))
      else Raise e
  end.

(** [NetworkManager.__init__] *)
Definition __init__ (cfg : Config) : M unit :=
  modify (with_active_interfaces (fun _ => ∅)) ;;
  lift (_validate_network_config cfg).

(** [setup_tap_interface] *)
Definition setup_tap_interface (env : Env) (cfg : Config)
    (vm_id : string) (cidr : option string) : M (option string) :=
  let cidr := default (vm_network_cidr cfg) cidr in
  let tap_name := "tap" +:+ vm_id in
  try_except_of [CalledProcessError; AddressValueError]
    (network ← lift (IPv4Network cidr);
     gateway_ip ← lift (str_add (network_address network) 1);
     run env true ["sudo"; "ip"; "tuntap"; "add"; "dev"; tap_name; "mode"; "tap"] ;;
     run env true ["sudo"; "ip"; "addr"; "add";
                   gateway_ip +:+ "/" +:+ pretty (prefixlen network);
                   "dev"; tap_name] ;;
     run env true ["sudo"; "ip"; "link"; "set"; "dev"; tap_name; "mtu"; "1500"] ;;
     run env true ["sudo"; "ip"; "link"; "set"; "dev"; tap_name; "up"] ;;
     vm_ip ← lift (str_add (network_address network) 2);
     modify (with_active_interfaces
               (insert vm_id {| if_tap_name := tap_name; if_cidr := cidr;
                                if_gateway_ip := gateway_ip; if_vm_ip := vm_ip |})) ;;
     ret (Some tap_name))
    (fun _ => ret None).

(** [sub in s] *)
Fixpoint contains_str (sub s : string) : bool :=
  starts_with sub s
  || match s with
     | EmptyString => false
     | String _ s' => contains_str sub s'
     end.

Definition is_space (c : ascii) : bool :=
  let n := nat_of_ascii c in
  ((n =? 32) || ((9 <=? n) && (n <=? 13)))%nat.

(** [line.split()]: the maximal runs of non-blank characters. *)
Fixpoint words_aux (s cur : string) : list string :=
  match s with
  | EmptyString => if String.eqb cur "" then [] else [cur]
  | String c s' =>
      if is_space c
      then (if String.eqb cur "" then words_aux s' "" else cur :: words_aux s' "")
      else words_aux s' (cur +:+ String c "")
  end.

Definition words (s : string) : list string := words_aux s "".

(** The element after the first ["dev"]: [parts[parts.index('dev') + 1]],
    when both exist. *)
Fixpoint after_dev (parts : list string) : option string :=
  match parts with
  | [] => None
  | p :: rest =>
      if String.eqb p "dev" then head rest else after_dev rest
  end.

(** The loop over the lines of the output. *)
Fixpoint first_default_dev (lines : list string) : option string :=
  match lines with
  | [] => None
  | line :: rest =>
      if contains_str "default" line && contains_str "dev" line
      then match after_dev (words line) with
           | Some dev => Some dev
           | None => first_default_dev rest
           end
      else first_default_dev rest
  end.

(** [_get_default_interface] *)
Definition _get_default_interface (env : Env) : M (option string) :=
  try_except_of [CalledProcessError]
    (t ← gets now;
     run env true ["ip"; "route"; "show"; "default"] ;;
     ret (first_default_dev (split "010"%char (route_stdout env t))))
    (fun _ => ret None).

(** [_cleanup_iptables_rules] *)
Definition _cleanup_iptables_rules (env : Env) (info : IfaceInfo) : M unit :=
  let tap_name := if_tap_name info in
  default_iface ← _get_default_interface env;
  match ProviderResolver.nonempty default_iface with
  | None => ret tt
  | Some default_iface =>
      network ← lift (IPv4Network (if_cidr info));
      let network_cidr := str_network network in
      for_each
        [ ["sudo"; "iptables"; "-t"; "nat"; "-D"; "POSTROUTING";
           "-s"; network_cidr; "-o"; default_iface; "-j"; "MASQUERADE"];
          ["sudo"; "iptables"; "-D"; "FORWARD"; "-i"; tap_name;
           "-o"; default_iface; "-j"; "ACCEPT"];
          ["sudo"; "iptables"; "-D"; "FORWARD"; "-i"; default_iface;
           "-o"; tap_name; "-m"; "state"; "--state"; "RELATED,ESTABLISHED";
           "-j"; "ACCEPT"] ]
        (fun rule => run env false rule ;; ret tt)
  end.

(** [cleanup_networking] *)
Definition cleanup_networking (env : Env) (vm_id : string) : M unit :=
  info ← gets (fun w => active_interfaces w !! vm_id);
  match info with
  | None => ret tt
  | Some info =>
      try_except
        (_cleanup_iptables_rules env info ;;
         run env false ["sudo"; "ip"; "link"; "delete"; if_tap_name info] ;;
         modify (with_active_interfaces (delete vm_id)))
        (fun _ => ret tt)
  end.


(** [get_interface_info] *)
Definition get_interface_info (vm_id : string) : M (option IfaceInfo) :=
  gets (fun w => active_interfaces w !! vm_id).

(** [cleanup_all_networking].  [vm_ids] is [list(self.active_interfaces.keys())],
    in the order the dictionary holds its keys, which the registry of the
    model does not record. *)
Definition cleanup_all_networking (env : Env) (vm_ids : list string) : M unit :=
  for_each vm_ids (cleanup_networking env) ;;
  none_left ← gets (fun w => bool_decide (active_interfaces w = ∅));
  when none_left
    (try_except
       (run env false ["sudo"; "sysctl"; "-w"; "net.ipv4.ip_forward=0"] ;; ret tt)
       (fun _ => ret tt)).

End NetworkManager.

(** ** launcher.py *)

Module Launcher.

Definition dev_launcher : string :=
  ".specify/scripts/launch_firecracker_without_jailer.sh".

(** [start_launcher]: the child's pid and the results directory. *)
Definition start_launcher (env : Env) (vm_id config_path results_root : string)
    (use_jailer : bool) (extra_args : list string) : M (Z * string) :=
  let jailer_path := if use_jailer then which_jailer env else None in
  cmd ← (match ProviderResolver.nonempty jailer_path with
         | Some jailer => ret [jailer; "--vm-id"; vm_id; "--config"; config_path]
         | None =>
             bind (path_exists dev_launcher) (fun found : bool =>
               if found
               then ret ([dev_launcher; vm_id; config_path] ++ extra_args)%list
               else ret ["/bin/sleep"; "60"])
         end : M (list string));
  let results_dir := path_join results_root vm_id in
  mkdir env results_dir ;;
  write_file env (path_join results_dir "launcher.out") (FBlob "") ;;
  write_file env (path_join results_dir "launcher.err") (FBlob "") ;;
  pid ← popen env cmd;
  write_file env (path_join results_dir "launcher.pid") (FBlob (pretty pid)) ;;
  ret (pid, results_dir).

(** [stop_launcher], first block: terminate the child and give it five
    seconds; on any exception kill it, and ignore what that raises. *)
Definition terminate_launcher (env : Env) (proc : Z) : M unit :=
  try_except
    (running ← poll_is_none env proc;
     when running (send_signal env proc "SIGTERM" ;; wait env proc (Some 5)))
    (fun _ => try_except (send_signal env proc "SIGKILL") (fun _ => ret tt)).

(** [stop_launcher], second block: the pid file is removed if it is
    there, and a failure to do so is ignored. *)
Definition remove_pid_file (env : Env) (results_dir : string) : M unit :=
  try_except
    (let p := path_join results_dir "launcher.pid" in
     found ← path_exists p;
     when found (unlink env p))
    (fun _ => ret tt).

(** [stop_launcher] *)
Definition stop_launcher (env : Env) (proc : Z) (results_dir : string) : M unit :=
  terminate_launcher env proc ;;
  remove_pid_file env results_dir.

End Launcher.

(** ** firecracker_client.py *)

Module FirecrackerClient.

Definition _unix_socket_url (socket_path path : string) : string :=
  "http+unix://" +:+ socket_path +:+ ":" +:+ path.

(** [put_json]: [True] on 204, an exception on an error status, [False]
    on any other status. *)
Definition put_json (env : Env) (socket_path path : string) : M bool :=
  '(status, _) ← requests_send env "PUT" (_unix_socket_url socket_path path);
  if status =? 204 then ret true
  else raise_for_status status ;; ret false.

End FirecrackerClient.

(** ** tools/guest_tools.py *)

Module GuestTools.

(** [create_guest_tar]: [tarfile.open(out_path, 'w:gz')] creates the
    archive; what goes into it does not matter here. *)
Definition create_guest_tar (env : Env) (vm_id out_path : string) : M string :=
  mkdir env (dirname out_path) ;;
  write_file env out_path (FBlob "guest.tar.gz") ;;
  ret out_path.

Definition init_overlay_script : string := ".specify/scripts/create_init_overlay.sh".

(** [create_init_overlay] *)
Definition create_init_overlay (env : Env) (vm_id out_img : string)
    (dry_run : bool) : M string :=
  mkdir env (dirname out_img) ;;
  if dry_run then
    write_file env out_img (FBlob "DUMMY-INIT-IMG") ;; ret out_img
  else
    found ← path_exists init_overlay_script;
    if negb found then raise (Exn OSError init_overlay_script)
    else run env true [init_overlay_script; vm_id; out_img] ;; ret out_img.

End GuestTools.

(** ** Objects: VMInstance values live in [heap], code holds addresses *)

Definition deref (r : nat) : M VMInstance :=
  fun w =>
    match heap w !! r with
    | Some i => (Ok i, w)
    | None => (Raise (Exn AttributeError "dangling reference"), w)
    end.

Definition update (r : nat) (f : VMInstance → VMInstance) : M unit :=
  modify (with_heap (alter f r)).

Definition new_object (i : VMInstance) : M nat :=
  fun w =>
    let r := fresh (dom (heap w)) in
    (Ok r, with_heap (insert r i) w).

Definition set_config (c : option VmConfig) (i : VMInstance) : VMInstance :=
  {| vm_id := vm_id i; config := c; process := process i;
     socket_path := socket_path i; shared_disk_path := shared_disk_path i;
     tap_name := tap_name i; provider_response := provider_response i |}.

Definition set_process (p : option Z) (i : VMInstance) : VMInstance :=
  {| vm_id := vm_id i; config := config i; process := p;
     socket_path := socket_path i; shared_disk_path := shared_disk_path i;
     tap_name := tap_name i; provider_response := provider_response i |}.

Definition set_shared_disk_path (p : option string) (i : VMInstance) : VMInstance :=
  {| vm_id := vm_id i; config := config i; process := process i;
     socket_path := socket_path i; shared_disk_path := p;
     tap_name := tap_name i; provider_response := provider_response i |}.

Definition set_init_img (p : option string) (c : VmConfig) : VmConfig :=
  {| boot_source := boot_source c; drives := drives c;
     network_interfaces := network_interfaces c;
     machine_config := machine_config c; init_img := p;
     cfg_provider_response := cfg_provider_response c |}.

Definition set_boot_args (a : string) (c : VmConfig) : VmConfig :=
  {| boot_source := {| kernel_image_path := kernel_image_path (boot_source c);
                       boot_args := a |};
     drives := drives c;
     network_interfaces := network_interfaces c;
     machine_config := machine_config c; init_img := init_img c;
     cfg_provider_response := cfg_provider_response c |}.

(** [json.dump] of the configuration dictionary. *)
Definition opt_str (o : option string) : pyval :=
  match o with Some s => PStr s | None => PNone end.

Definition drive_json (d : Drive) : pyval :=
  PDict (<["drive_id" := PStr (drive_id d)]>
        (<["path_on_host" := PStr (path_on_host d)]>
        (<["is_root_device" := PBool (is_root_device d)]>
        (<["is_read_only" := PBool (is_read_only d)]> ∅)))).

Definition iface_json (n : NetIface) : pyval :=
  PDict (<["iface_id" := PStr (iface_id n)]>
        (<["guest_mac" := PStr (guest_mac n)]>
        (<["host_dev_name" := opt_str (host_dev_name n)]> ∅))).

Definition boot_source_json (b : BootSource) : pyval :=
  PDict (<["kernel_image_path" := PStr (kernel_image_path b)]>
        (<["boot_args" := PStr (boot_args b)]> ∅)).

Definition machine_config_json (m : MachineConfig) : pyval :=
  PDict (<["vcpu_count" := PInt (vcpu_count m)]>
        (<["mem_size_mib" := PInt (mem_size_mib m)]>
        (<["smt" := PBool (smt m)]> ∅))).

Definition config_json (c : option VmConfig) : pyval :=
  match c with
  | None => PNone
  | Some c =>
      let base : gmap string pyval :=
        <["boot-source" := boot_source_json (boot_source c)]>
        (<["drives" := PList (drive_json <$> drives c)]>
        (<["network-interfaces" := PList (iface_json <$> network_interfaces c)]>
        (<["machine-config" := machine_config_json (machine_config c)]> ∅))) in
      let base :=
        match init_img c with
        | Some p => <["init_img" := PStr p]> base
        | None => base
        end in
      PDict match cfg_provider_response c with
            | Some v => <["provider_response" := v]> base
            | None => base
            end
  end.

(** ** vm_manager.py *)

Module VMManager.

Definition shared_disk_file (vm_id : string) : string :=
  "/tmp/shared-" +:+ vm_id +:+ ".ext4".

Definition socket_file (vm_id : string) : string :=
  "/tmp/firecracker-" +:+ vm_id +:+ ".socket".

Definition config_file (vm_id : string) : string :=
  "/tmp/vm-config-" +:+ vm_id +:+ ".json".

Definition results_dir (cfg : Config) (vm_id : string) : string :=
  path_join (paths_results cfg) vm_id.

Definition manifest_file (cfg : Config) (vm_id : string) : string :=
  path_join (results_dir cfg vm_id) "manifest.json".

Definition guest_tar_file (cfg : Config) (vm_id : string) : string :=
  path_join (results_dir cfg vm_id) "guest.tar.gz".

(** [VMManager.__init__] *)
Definition __init__ (env : Env) (cfg : Config) : M unit :=
  modify (with_active_vms (fun _ => ∅)) ;;
  mkdir env (paths_shared cfg) ;;
  mkdir env (paths_results cfg).

(** [_write_manifest]: the dictionary goes to [manifest.json.tmp], which
    is then renamed over [manifest.json]. *)
Definition _write_manifest (env : Env) (cfg : Config) (r : nat)
    (state : string) : M unit :=
  vm_instance ← deref r;
  let dir := results_dir cfg (vm_id vm_instance) in
  mkdir env dir ;;
  created_at ← utc_now env;
  let manifest : gmap string pyval :=
    <["vm_id" := PStr (vm_id vm_instance)]>
    (<["image" := PStr (path_name (path_text (paths_ubuntu_images cfg)))]>
    (<["memory_mb" := PInt (vm_memory_mb cfg)]>
    (<["vcpus" := PInt (vm_vcpus cfg)]>
    (<["network_mode" := PStr "slirp"]>
    (<["created_at" := PStr created_at]>
    (<["state" := PStr state]> ∅)))))) in
  let prov :=
    match config vm_instance with
    | Some c => cfg_provider_response c
    | None => None
    end in
  let prov :=
    if negb (truthy_opt prov)
    then match provider_response vm_instance with
         | Some v => Some v
         | None => prov
         end
    else prov in
  let manifest :=
    match prov with
    | Some v => if truthy v then <["provider_response" := v]> manifest else manifest
    | None => manifest
    end in
  let manifest_path := path_join dir "manifest.json.tmp" in
  write_file env manifest_path (FJson (PDict manifest)) ;;
  rename env manifest_path (path_join dir "manifest.json").

(** [_generate_vm_config].  [self.config.paths.ubuntu_images / "vmlinux.bin"]
    is evaluated first: a [Path] joins, a [str] has no [/]. *)
Definition _generate_vm_config (cfg : Config) (vm_instance : VMInstance)
    : result VmConfig :=
  match paths_ubuntu_images cfg with
  | PathString _ =>
      Raise (Exn TypeError "unsupported operand type(s) for /: 'str' and 'str'")
  | PathObject ubuntu_images =>
      Ok {| boot_source :=
              {| kernel_image_path := path_join ubuntu_images "vmlinux.bin";
                 boot_args := "console=ttyS0 reboot=k panic=1 pci=off init=/ssl_agent.sh "
                              +:+ "VM_IP=172.50.0.2 GATEWAY_IP=172.50.0.1" |};
            drives :=
              [ {| drive_id := "rootfs";
                   path_on_host := path_join ubuntu_images "ubuntu-rootfs.ext4";
                   is_root_device := true; is_read_only := false |};
                {| drive_id := "shared";
                   path_on_host := default "None" (shared_disk_path vm_instance);
                   is_root_device := false; is_read_only := false |} ];
            network_interfaces :=
              [ {| iface_id := "eth0"; guest_mac := "AA:FC:00:00:00:01";
                   host_dev_name := tap_name vm_instance |} ];
            machine_config :=
              {| vcpu_count := vm_vcpus cfg; mem_size_mib := vm_memory_mb cfg;
                 smt := false |};
            init_img := None;
            cfg_provider_response := None |}
  end.

(** [task_data['task_id']] inside an f-string.  Validation has made it a
    string wherever this is reached from [create_vm]. *)
Definition task_id_of (task_data : gmap string pyval) : M string :=
  match task_data !! "task_id" with
  | Some (PStr s) => ret s
  | Some _ => raise (Exn TypeError "task_id")
  | None => raise (Exn KeyError "task_id")
  end.

(** [_preload_task_data] *)
Definition _preload_task_data (env : Env) (mount_point : string)
    (task_data : gmap string pyval) (vm_id : string) : M unit :=
  task_id ← task_id_of task_data;
  let task_file_path :=
    path_join (path_join mount_point "tasks") (task_id +:+ ".json") in
  let temp_file := "/tmp/task-" +:+ task_id +:+ ".json" in
  write_file env temp_file (FJson (PDict task_data)) ;;
  run env true ["sudo"; "cp"; temp_file; task_file_path] ;;
  unlink env temp_file ;;
  run env true ["sudo"; "chown"; "root:root"; task_file_path] ;;
  ret tt.

(** [tasks_dir.glob("*.json")]: the files directly inside [dir] whose
    name ends in [.json]. *)
Definition glob_json (dir : string) (fs : gmap string file) : list string :=
  filter (fun p => bool_decide (p = path_join dir (path_name p)
                                ∧ ends_with ".json" p = true))
         (fst <$> map_to_list fs).

(** [create_shared_disk].  Directories are not part of [files], so the
    [tasks_dir.exists()] guard is the emptiness of the glob. *)
Definition create_shared_disk (env : Env) (cfg : Config) (vm_id : string)
    (task_data : option (gmap string pyval)) : M string :=
  let shared_disk_path := shared_disk_file vm_id in
  run env true ["dd"; "if=/dev/zero"; "of=" +:+ shared_disk_path;
                "bs=1M"; "count=50"] ;;
  modify (with_files (insert shared_disk_path (FBlob "ext4"))) ;;
  run env true ["mkfs.ext4"; "-F"; shared_disk_path] ;;
  let mount_point := "/tmp/shared-mount-" +:+ vm_id in
  mkdir env mount_point ;;
  run env true ["sudo"; "mount"; shared_disk_path; mount_point] ;;
  try_finally
    (run env true ["sudo"; "mkdir"; "-p";
                   path_join mount_point "tasks";
                   path_join mount_point "results"] ;;
     let tasks_dir := path_join (paths_shared cfg) "tasks" in
     task_files ← gets (fun w => glob_json tasks_dir (files w));
     for_each task_files (fun task_file =>
       run env true ["sudo"; "cp"; task_file;
                     path_join (path_join mount_point "tasks") (path_name task_file)] ;;
       ret tt) ;;
     match task_data with
     | Some d =>
         when (truthy (PDict d)) (_preload_task_data env mount_point d vm_id)
     | None => ret tt
     end ;;
     run env true ["sudo"; "chmod"; "-R"; "777"; mount_point] ;;
     ret tt)
    (run env true ["sudo"; "umount"; mount_point] ;;
     rmdir env mount_point) ;;
  ret shared_disk_path.


(** The provider step of [create_vm]: the descriptor as the call leaves
    it.  The resolver runs outside the [try], the dispatcher inside. *)
Definition dispatch_provider (env : Env) (cfg : Config)
    (task_data : gmap string pyval) : M (gmap string pyval) :=
  match task_data !! "provider" with
  | Some provider =>
      if truthy provider then
        match provider with
        | PStr name =>
            let provider_url :=
              ProviderResolver.resolve_provider_url env name (Some cfg) in
            provider_resp ←
              try_except
                (Providers.call_provider env name provider_url)
                (fun e => ret (PDict {["error" := PStr (exn_msg e)]}));
            let task_data :=
              if negb (truthy_opt (task_data !! "env_overrides"))
              then <["env_overrides" := PDict ∅]> task_data
              else task_data in
            ret (<["provider_response" := provider_resp]> task_data)
        | _ => raise (Exn AttributeError "upper")
        end
      else ret task_data
  | None => ret task_data
  end.

(** The first block of [create_vm]: a descriptor that is present and not
    empty is validated, and its provider, if any, is called. *)
Definition validate_and_dispatch (env : Env) (cfg : Config)
    (task_data : option (gmap string pyval)) : M (option (gmap string pyval)) :=
  match task_data with
  | Some d =>
      if truthy (PDict d) then
        lift (Validation.validate_mcp_request (PDict d)) ;;
        d' ← dispatch_provider env cfg d;
        ret (Some d')
      else ret (Some d)
  | None => ret None
  end.

(** [VMInstance(vm_id)] and the attributes set right after it. *)
Definition new_instance (vm_id : string)
    (task_data : option (gmap string pyval)) : VMInstance :=
  {| vm_id := vm_id; config := None; process := None;
     socket_path := Some (socket_file vm_id);
     shared_disk_path := None;
     tap_name := Some ("tap" +:+ vm_id);
     provider_response :=
       match task_data with
       | Some d => if truthy (PDict d) then d !! "provider_response" else None
       | None => None
       end |}.

(** The body of the [try] that prepares the guest artifacts. *)
Definition prepare_guest_artifacts (env : Env) (cfg : Config)
    (vm_id : string) (r : nat) : M unit :=
  let dir := results_dir cfg vm_id in
  let guest_tar := path_join dir "guest.tar.gz" in
  GuestTools.create_guest_tar env vm_id guest_tar ;;
  let init_img := path_join dir "init-overlay.img" in
  GuestTools.create_init_overlay env vm_id init_img (negb (vm_use_real_init cfg)) ;;
  update r (set_shared_disk_path (Some guest_tar)) ;;
  update r (fun i => set_config (set_init_img (Some init_img) <$> config i) i).

(** [create_vm] up to the [try] that prepares the guest artifacts: the
    descriptor is validated and dispatched, the instance is allocated, the
    shared disk and the configuration are made.  The result is the address
    of the new instance and the descriptor, which the call updates in
    place. *)
Definition provision_vm (env : Env) (cfg : Config) (vm_id : string)
    (task_data : option (gmap string pyval))
    : M (nat * option (gmap string pyval)) :=
  task_data ← validate_and_dispatch env cfg task_data;
  r ← new_object (new_instance vm_id task_data);
  path ← create_shared_disk env cfg vm_id task_data;
  update r (set_shared_disk_path (Some path)) ;;
  vm_instance ← deref r;
  vm_config ← lift (_generate_vm_config cfg vm_instance);
  update r (set_config (Some vm_config)) ;;
  mkdir env (results_dir cfg vm_id) ;;
  ret (r, task_data).

(** [create_vm] *)
Definition create_vm (env : Env) (cfg : Config) (vm_id : string)
    (task_data : option (gmap string pyval))
    : M (nat * option (gmap string pyval)) :=
  '(r, task_data) ← provision_vm env cfg vm_id task_data;
  try_except (prepare_guest_artifacts env cfg vm_id r) (fun _ => ret tt) ;;
  try_except (_write_manifest env cfg r "pending") (fun _ => ret tt) ;;
  modify (with_active_vms (insert vm_id r)) ;;
  ret (r, task_data).

(** [start_vm], first block: the API key goes into the boot arguments. *)
Definition inject_api_key (r : nat) (openai_api_key : option string) : M unit :=
  vm_instance ← deref r;
  match ProviderResolver.nonempty openai_api_key with
  | Some key =>
      match config vm_instance with
      | Some c =>
          update r (set_config
            (Some (set_boot_args
                     (boot_args (boot_source c) +:+ " OPENAI_API_KEY=" +:+ key) c)))
      | None => raise (Exn TypeError "config")
      end
  | None => ret tt
  end.

(** [start_vm], third block: a socket left behind is removed. *)
Definition remove_stale_socket (env : Env) (r : nat) : M unit :=
  vm_instance ← deref r;
  match socket_path vm_instance with
  | Some sp => found ← path_exists sp; when found (unlink env sp)
  | None => ret tt
  end.

(** [start_vm], the body of the [try]: launch, manifest, control plane. *)
Definition launch_and_configure (env : Env) (cfg : Config) (r : nat) : M unit :=
  vm_instance ← deref r;
  c ← match config vm_instance with
      | Some c => ret c
      | None => raise (Exn TypeError "config")
      end;
  rootfs ← match drives c with
           | d :: _ => ret (path_on_host d)
           | [] => raise (Exn IndexError "drives")
           end;
  '(proc, _) ← Launcher.start_launcher env (vm_id vm_instance)
                 (config_file (vm_id vm_instance))
                 (paths_results cfg) (vm_use_jailer cfg)
                 [kernel_image_path (boot_source c); rootfs];
  update r (set_process (Some proc)) ;;
  _write_manifest env cfg r "running" ;;
  let sock := default "None" (socket_path vm_instance) in
  FirecrackerClient.put_json env sock "/boot-source" ;;
  FirecrackerClient.put_json env sock "/machine-config" ;;
  ret tt.

(** [start_vm], the [except] block: the manifest is marked failed, a
    failure to do so is logged, and the exception is raised again. *)
Definition mark_failed (env : Env) (cfg : Config) (r : nat) (e : exn) : M unit :=
  try_except (_write_manifest env cfg r "failed") (fun _ => ret tt) ;;
  raise e.

(** [start_vm] *)
Definition start_vm (env : Env) (cfg : Config) (r : nat)
    (openai_api_key : option string) : M (option Z) :=
  inject_api_key r openai_api_key ;;
  vm_instance ← deref r;
  write_file env (config_file (vm_id vm_instance))
    (FJson (config_json (config vm_instance))) ;;
  remove_stale_socket env r ;;
  try_except (launch_and_configure env cfg r) (mark_failed env cfg r) ;;
  vm_instance ← deref r;
  ret (process vm_instance).

(** One of the three blocks of [_cleanup_vm_files]:
    [if p and p.exists(): try: p.unlink() except OSError: log]. *)
Definition remove_if_exists (env : Env) (path : option string) : M unit :=
  match path with
  | Some p =>
      found ← path_exists p;
      when found (try_except_of [OSError] (unlink env p) (fun _ => ret tt))
  | None => ret tt
  end.

(** [_cleanup_vm_files] *)
Definition _cleanup_vm_files (env : Env) (r : nat) : M unit :=
  vm_instance ← deref r;
  remove_if_exists env (socket_path vm_instance) ;;
  remove_if_exists env (shared_disk_path vm_instance) ;;
  remove_if_exists env (Some (config_file (vm_id vm_instance))).

(** [stop_vm], first block: terminate, wait, and kill on a timeout. *)
Definition terminate_process (env : Env) (cfg : Config) (r : nat) : M unit :=
  vm_instance ← deref r;
  match process vm_instance with
  | Some pid =>
      running ← poll_is_none env pid;
      when running
        (try_except_of [ProcessLookupError]
           (send_signal env pid "SIGTERM" ;;
            try_except_of [TimeoutExpired]
              (wait env pid (Some (vm_shutdown_timeout cfg)))
              (fun _ => send_signal env pid "SIGKILL" ;; wait env pid None))
           (fun _ => ret tt))
  | None => ret tt
  end.

(** [stop_vm] *)
Definition stop_vm (env : Env) (cfg : Config) (r : nat) : M unit :=
  terminate_process env cfg r ;;
  _cleanup_vm_files env r ;;
  vm_instance ← deref r;
  registered ← gets (fun w => bool_decide (is_Some (active_vms w !! vm_id vm_instance)));
  when registered (modify (with_active_vms (delete (vm_id vm_instance)))).

(** [mount_shared_disk].  [FileNotFoundError] is an [OSError]. *)
Definition mount_shared_disk (env : Env) (vm_id : string) : M string :=
  let shared_disk_path := shared_disk_file vm_id in
  let mount_point := "/tmp/shared-mount-" +:+ vm_id in
  found ← path_exists shared_disk_path;
  if negb found
  then raise (Exn OSError ("Shared disk not found: " +:+ shared_disk_path))
  else
    mkdir env mount_point ;;
    run env true ["sudo"; "mount"; shared_disk_path; mount_point] ;;
    ret mount_point.

(** [cleanup_all_vms].  [instances] is [list(self.active_vms.values())], in
    the order the dictionary holds its values, which the registry of the
    model does not record. *)
Definition cleanup_all_vms (env : Env) (cfg : Config) (instances : list nat) : M unit :=
  for_each instances (stop_vm env cfg).

End VMManager.

(** ** mcp_server.py *)

Module McpServer.

(** What a handler comes to: the value it returns, or the
    [HTTPException(status_code, detail)] it raises. *)
Inductive http_result (A : Type) : Type :=
  | Reply (a : A)
  | HTTPException (status_code : Z) (detail : string).
Arguments Reply {A} a.
Arguments HTTPException {A} status_code detail.

(** One bound of [xs[start:stop]] for a list of length [len], as CPython
    adjusts it: a negative index counts from the end, and the result is
    clamped to the list. *)
Definition slice_index (len i : Z) : Z :=
  if i <? 0 then Z.max (i + len) 0 else Z.min i len.

(** [xs[start:stop]] *)
Definition py_slice {A} (xs : list A) (start stop : Z) : list A :=
  let len := Z.of_nat (length xs) in
  let lo := slice_index len start in
  let hi := slice_index len stop in
  take (Z.to_nat (hi - lo)) (drop (Z.to_nat lo) xs).

(** The dictionary [{"items", "page", "page_size", "total"}]. *)
Record Page (A : Type) : Type := {
  items : list A;
  page : Z;
  page_size : Z;
  total : Z
}.
Arguments items {A} _.
Arguments page {A} _.
Arguments page_size {A} _.
Arguments total {A} _.

(** The two shapes of what [get_vms_handler] returns. *)
Inductive vms_reply (A : Type) : Type :=
  | LegacyList (all_vms : list A)
  | Paged (p : Page A).
Arguments LegacyList {A} all_vms.
Arguments Paged {A} p.

(** [get_vms_handler], from [total = len(all_vms)] on.  [all_vms] is the
    list its loop has built, one status for every registered VM
    ([get_vm_status], or the fall-back dictionary when that raises); the
    parameters are integers, as their annotation says, so [int(page)] and
    [int(page_size)] are the parameters themselves. *)
Definition get_vms_handler {A} (all_vms : list A) (page page_size : option Z)
    : http_result (vms_reply A) :=
  let total := Z.of_nat (length all_vms) in
  match page, page_size with
  | None, None => Reply (LegacyList all_vms)
  | Some p, Some ps =>
      if ps <=? 0 then HTTPException 400 "page_size must be > 0"
      else
        let start := p * ps in
        let end_ := start + ps in
        Reply (Paged {| items := py_slice all_vms start end_;
                        page := p; page_size := ps; total := total |})
  | _, _ =>
      Reply (Paged {| items := all_vms; page := 0; page_size := total; total := total |})
  end.

End McpServer.

(** * Predicates and scenarios *)

(** The vocabulary of the properties below: what the specification says,
    written over the definitions above, and the hosts and worlds of its
    scenarios. *)

(** ** Task-descriptor validation *)

(** The descriptors [MCP_TASK_SCHEMA] admits, written out. *)
Definition well_formed_request (payload : pyval) : Prop :=
  ∃ d, payload = PDict d
    ∧ (∃ s, d !! "task_id" = Some (PStr s))
    ∧ (∃ s, d !! "prompt" = Some (PStr s))
    ∧ (d !! "provider" = Some (PStr "openai") ∨ d !! "provider" = Some (PStr "ollama"))
    ∧ (∀ v, d !! "model" = Some v → ∃ s, v = PStr s)
    ∧ (∀ v, d !! "timeout_seconds" = Some v → Validation.is_type Validation.TInteger v = true)
    ∧ (∀ v, d !! "env_overrides" = Some v →
         ∃ e, v = PDict e ∧ ∀ k x, e !! k = Some x → ∃ s, x = PStr s).

(** The descriptors the specification says are accepted: a string
    [task_id], a string [prompt] or [description], and a [provider] that is
    absent or one of the two known names. *)
Definition spec_accepts (payload : pyval) : Prop :=
  ∃ d, payload = PDict d
    ∧ (∃ s, d !! "task_id" = Some (PStr s))
    ∧ ((∃ s, d !! "prompt" = Some (PStr s)) ∨ (∃ s, d !! "description" = Some (PStr s)))
    ∧ (d !! "provider" = None
       ∨ d !! "provider" = Some (PStr "openai")
       ∨ d !! "provider" = Some (PStr "ollama")).

(** A descriptor with a [task_id] and a [prompt] and nothing else. *)
Definition request_without_provider : gmap string pyval :=
  <["task_id" := PStr "t1"]> (<["prompt" := PStr "hi"]> ∅).

(** ** Provider URL resolution *)

(** A host on which every command and filesystem operation succeeds and
    no HTTP endpoint can be reached. *)
Definition cooperative_host : Env :=
  {| environ := ∅;
     which_jailer := None;
     has_ollama_client := true;
     has_openai_client := true;
     cmd_ok := fun _ _ => true;
     cmd_missing := fun _ _ => false;
     fs_ok := fun _ _ => true;
     popen_pid := fun _ _ => Some 4242;
     http := fun _ _ => ConnectionError "unreachable";
     stays_up := fun _ _ => true;
     signal_ok := fun _ _ => true;
     wait_exits := fun _ _ => true;
     gmtime := fun _ => "2025-01-01T00:00:00Z";
     route_stdout := fun _ => "default via 192.168.1.1 dev eth0" |}.

Definition env_with_ollama_url : Env :=
  {| environ := <["OLLAMA_URL" := "http://x"]> ∅;
     which_jailer := None;
     has_ollama_client := true;
     has_openai_client := true;
     cmd_ok := fun _ _ => true;
     cmd_missing := fun _ _ => false;
     fs_ok := fun _ _ => true;
     popen_pid := fun _ _ => Some 4242;
     http := fun _ _ => ConnectionError "unreachable";
     stays_up := fun _ _ => true;
     signal_ok := fun _ _ => true;
     wait_exits := fun _ _ => true;
     gmtime := fun _ => "2025-01-01T00:00:00Z";
     route_stdout := fun _ => "default via 192.168.1.1 dev eth0" |}.

Definition config_with_ollama_url : Config :=
  {| paths_shared := "/srv/shared";
     paths_results := "/srv/results";
     paths_ubuntu_images := PathObject "/srv/images";
     vm_memory_mb := 1024;
     vm_vcpus := 1;
     vm_shutdown_timeout := 5;
     vm_use_jailer := false;
     vm_use_real_init := false;
     vm_network_cidr := "10.0.0.0/24";
     providers := Some (<["ollama" := Some "http://cfg-ollama"]> ∅) |}.

(** ** Runs of monadic code *)

(** The world after one host interaction logged as [ev]. *)
Definition after (ev : Event) (w : World) : World :=
  with_trace (fun tr => (tr ++ [ev])%list) (with_now S w).

(** The world after an event that does not consult the host. *)
Definition logged (ev : Event) (w : World) : World :=
  with_trace (fun tr => (tr ++ [ev])%list) w.

(** ** Retries *)

(** What one attempt makes of the host's reply. *)
Definition reply_result (r : http_reply) : result pyval :=
  match r with
  | ConnectionError msg => Raise (Exn RequestException msg)
  | Response status body =>
      if (400 <=? status) && (status <? 600)
      then Raise (Exn HTTPError (pretty status))
      else match body with
           | Some v => Ok v
           | None => Raise (Exn JSONDecodeError "Expecting value")
           end
  end.

(** The number of HTTP requests in a piece of trace. *)
Fixpoint posts (tr : list Event) : nat :=
  match tr with
  | [] => 0%nat
  | EvHttp _ _ _ :: tr' => S (posts tr')
  | _ :: tr' => posts tr'
  end.

(** The sleeps of a piece of trace, in order. *)
Fixpoint sleeps (tr : list Event) : list Q :=
  match tr with
  | [] => []
  | EvSleep d :: tr' => d :: sleeps tr'
  | _ :: tr' => sleeps tr'
  end.

(** [backoff * attempt] for the [k] attempts that follow attempt [first - 1]. *)
Definition delays_from (backoff : Q) (first : Z) (k : nat) : list Q :=
  map (fun i => Qmult backoff (inject_Z (first + Z.of_nat i))) (seq 0 k).

(** [backoff * 1, ..., backoff * k] *)
Definition delays (backoff : Q) (k : nat) : list Q :=
  map (fun i => Qmult backoff (inject_Z (Z.of_nat i))) (seq 1 k).



(** ** The network CIDR *)

(** The CIDR of the docstring of [setup_tap_interface]; Python does not
    count 172.50.0.0/24 as private (172.16.0.0/12 ends at 172.31). *)
Definition public_cidr : string := "172.50.0.0/24".

(** ** Frame reasoning: what a run cannot change *)

(** Every run of [m] relates the world it starts in to the one it ends in. *)
Definition preserves {A} (R : World → World → Prop) (m : M A) : Prop :=
  ∀ w r w', m w = (r, w') → R w w'.

(** Components of the world a relation does not look at. *)
Class IgnoresClock (R : World → World → Prop) : Prop :=
  ignores_clock : ∀ f w, R w (with_now f w).
Class IgnoresTrace (R : World → World → Prop) : Prop :=
  ignores_trace : ∀ f w, R w (with_trace f w).
Class IgnoresFiles (R : World → World → Prop) : Prop :=
  ignores_files : ∀ f w, R w (with_files f w).
Class IgnoresAlive (R : World → World → Prop) : Prop :=
  ignores_alive : ∀ f w, R w (with_alive f w).
Class IgnoresHeap (R : World → World → Prop) : Prop :=
  ignores_heap : ∀ f w, R w (with_heap f w).
Class IgnoresActiveVms (R : World → World → Prop) : Prop :=
  ignores_active_vms : ∀ f w, R w (with_active_vms f w).

(** The relation does not look at events other than HTTP requests. *)
Definition is_http (ev : Event) : bool :=
  match ev with EvHttp _ _ _ => true | _ => false end.

Class IgnoresQuiet (R : World → World → Prop) : Prop :=
  ignores_quiet : ∀ ev w, is_http ev = false → R w (logged ev w).

(** *** The relations used below *)

(** The registry of the Network Provisioner is what it was. *)
Definition same_interfaces (w w' : World) : Prop :=
  active_interfaces w' = active_interfaces w.

(** The VMInstance objects are what they were. *)
Definition same_heap (w w' : World) : Prop := heap w' = heap w.

(** The registry of the VM manager is what it was. *)
Definition same_active_vms (w w' : World) : Prop := active_vms w' = active_vms w.

(** The filesystem is what it was. *)
Definition same_files (w w' : World) : Prop := files w' = files w.

(** What the manifest and the cleanup read from an instance. *)
Definition recorded_response (i : VMInstance) : option pyval :=
  match config i with
  | Some c => cfg_provider_response c
  | None => None
  end.

(** The object at address [r] is still there, with the same identity. *)
Definition keeps_object (r : nat) (w w' : World) : Prop :=
  ∀ i, heap w !! r = Some i →
    ∃ i', heap w' !! r = Some i'
      ∧ vm_id i' = vm_id i
      ∧ socket_path i' = socket_path i
      ∧ provider_response i' = provider_response i
      ∧ recorded_response i' = recorded_response i.

(** An update that keeps the identity of every instance. *)
Definition keeps_identity (f : VMInstance → VMInstance) : Prop :=
  ∀ i, vm_id (f i) = vm_id i
     ∧ socket_path (f i) = socket_path i
     ∧ provider_response (f i) = provider_response i
     ∧ recorded_response (f i) = recorded_response i.

(** ** The manifest *)

(** The value stored under [key] in the manifest of [vm_id], if there is
    a manifest. *)
Definition manifest_field (cfg : Config) (vm_id key : string) (w : World)
    : option pyval :=
  match files w !! VMManager.manifest_file cfg vm_id with
  | Some (FJson v) => Validation.member key v
  | _ => None
  end.

(** What [_write_manifest] puts under [provider_response]. *)
Definition manifest_response (i : VMInstance) : option pyval :=
  let prov := recorded_response i in
  let prov :=
    if negb (truthy_opt prov)
    then match provider_response i with Some v => Some v | None => prov end
    else prov in
  match prov with
  | Some v => if truthy v then Some v else None
  | None => None
  end.

(** The three host interactions of a manifest write that succeeds. *)
Definition manifest_events (cfg : Config) (vm_id : string) (m : gmap string pyval)
    : list Event :=
  let dir := VMManager.results_dir cfg vm_id in
  [ EvMkdir dir true;
    EvWrite (path_join dir "manifest.json.tmp") (FJson (PDict m)) true;
    EvRename (path_join dir "manifest.json.tmp") (VMManager.manifest_file cfg vm_id)
      (Some (FJson (PDict m))) true ].

(** ** Starting a VM *)

(** The run added events to the trace, none of them an HTTP request. *)
Definition quiet (w w' : World) : Prop :=
  ∃ ext, trace w' = (trace w ++ ext)%list ∧ posts ext = 0%nat.

(** A status in the range [raise_for_status] raises for. *)
Definition error_status (status : Z) : bool := (400 <=? status) && (status <? 600).

(** The control-plane URL of an instance. *)
Definition control_url (i : VMInstance) (path : string) : string :=
  FirecrackerClient._unix_socket_url (default "None" (socket_path i)) path.

(** What a [start_vm] that returns has done. *)
Definition start_vm_order (cfg : Config) (i : VMInstance) (w w' : World) : Prop :=
  ∃ pre m s1 b1 s2 b2,
    trace w' = (trace w ++ pre ++ manifest_events cfg (vm_id i) m
                ++ [ EvHttp "PUT" (control_url i "/boot-source") (Response s1 b1);
                     EvHttp "PUT" (control_url i "/machine-config") (Response s2 b2) ])%list
    ∧ posts pre = 0%nat
    ∧ m !! "state" = Some (PStr "running")
    ∧ manifest_field cfg (vm_id i) "state" w' = Some (PStr "running")
    ∧ error_status s1 = false ∧ error_status s2 = false.

(** *** Scenarios *)

(** The descriptor of the specification's scenario. *)
Definition task_request : gmap string pyval :=
  <["task_id" := PStr "t1"]> (<["prompt" := PStr "hi"]> (<["provider" := PStr "ollama"]> ∅)).

(** A host like [cooperative_host] on which every HTTP request is
    answered with 204 and an empty body. *)
Definition responsive_host : Env :=
  {| environ := ∅;
     which_jailer := None;
     has_ollama_client := true;
     has_openai_client := true;
     cmd_ok := fun _ _ => true;
     cmd_missing := fun _ _ => false;
     fs_ok := fun _ _ => true;
     popen_pid := fun _ _ => Some 4242;
     http := fun _ _ => Response 204 None;
     stays_up := fun _ _ => true;
     signal_ok := fun _ _ => true;
     wait_exits := fun _ _ => true;
     gmtime := fun _ => "2025-01-01T00:00:00Z";
     route_stdout := fun _ => "default via 192.168.1.1 dev eth0" |}.

(** The provisioner has attached [vm1] on the configured network, and the
    VM has been created; its control socket cannot be reached. *)
Definition world_attached : World :=
  snd (NetworkManager.setup_tap_interface cooperative_host config_with_ollama_url
         "vm1" None empty_world).

Definition world_created : World :=
  snd (VMManager.create_vm cooperative_host config_with_ollama_url
         "vm1" (Some task_request) world_attached).

Definition attachment_vm1 : IfaceInfo :=
  {| if_tap_name := "tapvm1"; if_cidr := "10.0.0.0/24";
     if_gateway_ip := "10.0.0.1"; if_vm_ip := "10.0.0.2" |}.

(** The instance [create_vm] has registered for [vm1]. *)
Definition created_instance : VMInstance :=
  default (VMManager.new_instance "vm1" None) (heap world_created !! 0%nat).

Definition created_config : VmConfig :=
  match VMManager._generate_vm_config config_with_ollama_url created_instance with
  | Ok c => default c (config created_instance)
  | Raise _ =>
      {| boot_source := {| kernel_image_path := ""; boot_args := "" |};
         drives := []; network_interfaces := [];
         machine_config := {| vcpu_count := 0; mem_size_mib := 0; smt := false |};
         init_img := None; cfg_provider_response := None |}
  end.

(** The event publishes a manifest at ["running"] for [vm_id]. *)
Definition publishes_running (cfg : Config) (vm_id : string) (ev : Event) : bool :=
  match ev with
  | EvRename _ dst (Some (FJson v)) true =>
      String.eqb dst (VMManager.manifest_file cfg vm_id)
      && match Validation.member "state" v with
         | Some (PStr s) => String.eqb s "running"
         | _ => false
         end
  | _ => false
  end.

(** The event is a PUT to [url] that the control plane accepted. *)
Definition pushed (url : string) (ev : Event) : bool :=
  match ev with
  | EvHttp verb u (Response status _) =>
      String.eqb verb "PUT" && String.eqb u url && (status =? 204)
  | _ => false
  end.

(** What the specification asks of a trace: whenever the manifest is
    published at ["running"], both documents have already been pushed.
    [boot] and [machine] say whether they have been, so far. *)
Fixpoint running_only_after_pushes (cfg : Config) (i : VMInstance)
    (boot machine : bool) (tr : list Event) : bool :=
  match tr with
  | [] => true
  | ev :: tr' =>
      (if publishes_running cfg (vm_id i) ev then boot && machine else true)
      && running_only_after_pushes cfg i
           (boot || pushed (control_url i "/boot-source") ev)
           (machine || pushed (control_url i "/machine-config") ev)
           tr'
  end.

(** The VM has been created on a host whose control plane answers. *)
Definition world_created_responsive : World :=
  snd (VMManager.create_vm responsive_host config_with_ollama_url
         "vm1" (Some task_request) empty_world).

Definition responsive_instance : VMInstance :=
  default (VMManager.new_instance "vm1" None) (heap world_created_responsive !! 0%nat).

(** ** Runs that cannot raise *)

(** Every exception [m] raises has one of the classes [cs]. *)
Definition raises_within {A} (cs : list exn_class) (m : M A) : Prop :=
  ∀ w r w' e, m w = (r, w') → r = Raise e → exn_cls e ∈ cs.

(** ** Paths *)

(** The paths the manager builds differ in their last character, whatever
    the VM id and the configured directories are. *)
Fixpoint last_char (s : string) : option ascii :=
  match s with
  | EmptyString => None
  | String c s' =>
      match last_char s' with
      | Some d => Some d
      | None => Some c
      end
  end.

(** ** What a run does to one file *)

(** The file at [p] is what it was. *)
Definition keeps_file (p : string) (w w' : World) : Prop :=
  files w' !! p = files w !! p.

(** No file has appeared. *)
Definition only_deletes (w w' : World) : Prop :=
  ∀ q, files w !! q = None → files w' !! q = None.

(** ** Stopping a VM *)

(** The files [_cleanup_vm_files] removes for an instance. *)
Definition cleanup_targets (i : VMInstance) : list string :=
  (option_list (socket_path i) ++ option_list (shared_disk_path i)
   ++ [VMManager.config_file (vm_id i)])%list.

(** The processes are what they were. *)
Definition same_alive (w w' : World) : Prop := alive w' = alive w.

(** Nothing has happened on the host: no file has changed and no
    interaction has been logged. *)
Definition untouched (w w' : World) : Prop :=
  files w' = files w ∧ trace w' = trace w.

(** ** Creating a VM *)

(** What [create_vm] stores when the provider call raises [e]. *)
Definition error_payload (e : exn) : pyval :=
  PDict {["error" := PStr (exn_msg e)]}.

(** What the provider step stores under [provider_response]. *)
Definition provider_outcome (res : result pyval) : pyval :=
  match res with
  | Ok v => v
  | Raise e => error_payload e
  end.

(** The instance as [provision_vm] leaves it. *)
Definition provisioned_instance (cfg : Config) (vm_id : string)
    (task_data : option (gmap string pyval)) : VMInstance :=
  let i := set_shared_disk_path (Some (VMManager.shared_disk_file vm_id))
             (VMManager.new_instance vm_id task_data) in
  set_config (match VMManager._generate_vm_config cfg i with
              | Ok c => Some c
              | Raise _ => None
              end) i.

(** Every result of [m] is [v]. *)
Definition returns {A} (v : A) (m : M A) : Prop :=
  ∀ w a w', m w = (Ok a, w') → a = v.

(** The descriptor as the provider step leaves it on [cooperative_host]. *)
Definition dispatched_request : gmap string pyval :=
  <["provider_response" := PDict {["error" := PStr "unreachable"]}]>
    (<["env_overrides" := PDict ∅]> task_request).

(** ** The Network Provisioner *)

(** The three iptables rules of one attachment; [flag] is ["-A"] where
    [setup_nat_routing] adds them and ["-D"] where [_cleanup_iptables_rules]
    removes them. *)
Definition nat_rules (flag network_cidr default_iface tap_name : string)
    : list (list string) :=
  [ ["sudo"; "iptables"; "-t"; "nat"; flag; "POSTROUTING";
     "-s"; network_cidr; "-o"; default_iface; "-j"; "MASQUERADE"];
    ["sudo"; "iptables"; flag; "FORWARD"; "-i"; tap_name;
     "-o"; default_iface; "-j"; "ACCEPT"];
    ["sudo"; "iptables"; flag; "FORWARD"; "-i"; default_iface;
     "-o"; tap_name; "-m"; "state"; "--state"; "RELATED,ESTABLISHED";
     "-j"; "ACCEPT"] ].

(** The string has no blank character. *)
Fixpoint blank_free (s : string) : bool :=
  match s with
  | EmptyString => true
  | String c s' => negb (NetworkManager.is_space c) && blank_free s'
  end.

(** The CIDR of every registered attachment parses. *)
Definition interfaces_wf (w : World) : Prop :=
  ∀ id info, active_interfaces w !! id = Some info →
    is_ok (Ipaddress.IPv4Network (if_cidr info)) = true.

(** The attachments of the other VMs are what they were. *)
Definition keeps_others (id : string) (w w' : World) : Prop :=
  ∀ k, k ≠ id → active_interfaces w' !! k = active_interfaces w !! k.

(** The commands of a list of events, in order. *)
Fixpoint commands (tr : list Event) : list (list string) :=
  match tr with
  | [] => []
  | EvRun cmd _ :: tr' => cmd :: commands tr'
  | _ :: tr' => commands tr'
  end.

(** ** More on the VM manager *)

(** The event is a [sudo mount] that succeeded, or a [sudo umount],
    whatever its outcome. *)
Definition is_mounting (ev : Event) : bool :=
  match ev with
  | EvRun (program :: verb :: _) ok =>
      String.eqb program "sudo"
      && ((String.eqb verb "mount" && ok) || String.eqb verb "umount")
  | _ => false
  end.

(** None of the events mounts or unmounts. *)
Definition calm (evs : list Event) : bool :=
  forallb (fun ev => negb (is_mounting ev)) evs.

(** The run has logged events, none of which mounts or unmounts. *)
Definition no_mounting (w w' : World) : Prop :=
  ∃ evs, trace w' = (trace w ++ evs)%list ∧ calm evs = true.

(** Every registered id names an object that exists and carries that id. *)
Definition registry_wf (w : World) : Prop :=
  ∀ id r, active_vms w !! id = Some r →
    ∃ i, heap w !! r = Some i ∧ vm_id i = id.

(** Every object is still there, with the id it had. *)
Definition keeps_ids (w w' : World) : Prop :=
  ∀ r i, heap w !! r = Some i → ∃ i', heap w' !! r = Some i' ∧ vm_id i' = vm_id i.

(** No id has been registered, and no registration has changed. *)
Definition registry_shrinks (w w' : World) : Prop :=
  active_vms w' ⊆ active_vms w.

(** ** Provider calls *)

(** A URL that names its scheme. *)
Definition has_scheme (u : string) : bool :=
  starts_with "http://" u || starts_with "https://" u.

(** What a provider call does to the host: POSTs to URLs that name their
    scheme, and sleeps. *)
Definition provider_event (ev : Event) : Prop :=
  match ev with
  | EvHttp verb u _ => verb = "POST" ∧ has_scheme u = true
  | EvSleep _ => True
  | _ => False
  end.

(** The classes of what a failed HTTP attempt raises. *)
Definition http_failure : list exn_class :=
  [RequestException; HTTPError; JSONDecodeError].

(** ** Stopping the launcher *)

(** The signals of a piece of trace, in order. *)
Fixpoint signals (tr : list Event) : list (Z * string) :=
  match tr with
  | [] => []
  | EvSignal pid name _ :: tr' => (pid, name) :: signals tr'
  | _ :: tr' => signals tr'
  end.

(** ** The API key *)

(** The object at address [r] is still there, with the same
    configuration. *)
Definition keeps_config (r : nat) (w w' : World) : Prop :=
  ∀ i, heap w !! r = Some i →
    ∃ i', heap w' !! r = Some i' ∧ vm_id i' = vm_id i ∧ config i' = config i.

(** An event that has been logged stays in the trace. *)
Definition keeps_event (ev : Event) (w w' : World) : Prop :=
  ev ∈ trace w → ev ∈ trace w'.

(** ** Pages of VM statuses *)

(** The items of a reply of [get_vms_handler]. *)
Definition reply_items {A} (r : McpServer.http_result (McpServer.vms_reply A)) : list A :=
  match r with
  | McpServer.Reply (McpServer.Paged p) => McpServer.items p
  | McpServer.Reply (McpServer.LegacyList all_vms) => all_vms
  | McpServer.HTTPException _ _ => []
  end.

(** The number of pages of [page_size] items that hold [n] items. *)
Definition page_count (n : nat) (page_size : Z) : nat :=
  Z.to_nat ((Z.of_nat n + page_size - 1) / page_size).

(** ** Commands *)

(** What [run] comes to for each outcome of the command. *)
Definition run_result (env : Env) (check : bool) (cmd : list string) (t : nat)
    : result bool :=
  if cmd_ok env t cmd then Ok true
  else if cmd_missing env t cmd then Raise (Exn OSError (hd "" cmd))
  else if check then Raise (Exn CalledProcessError (String.concat " " cmd))
  else Ok false.

(** * Properties *)

(** ** Task-descriptor validation *)

Lemma is_string_spec (v : pyval) :
  Validation.is_type Validation.TString v = true ↔ ∃ s, v = PStr s.
Proof.
  split.
  - destruct v; simpl; try discriminate. eauto.
  - intros [s ->]. reflexivity.
Qed.

Lemma is_object_spec (v : pyval) :
  Validation.is_type Validation.TObject v = true ↔ ∃ d, v = PDict d.
Proof.
  split.
  - destruct v; simpl; try discriminate. eauto.
  - intros [s ->]. reflexivity.
Qed.

Lemma conforms_just (t : Validation.jtype) (v : pyval) :
  Validation.conforms (Validation.just t) v = Validation.is_type t v.
Proof.
  unfold Validation.just. simpl.
  destruct (Validation.is_type t v); simpl; [|reflexivity].
  destruct v; reflexivity.
Qed.

(** A property present under [k] conforms, an absent one is no error. *)
Lemma property_ok_spec (d : gmap string pyval) (k : string) (P : pyval → bool) :
  match d !! k with Some v => P v | None => true end = true
  ↔ ∀ v, d !! k = Some v → P v = true.
Proof.
  destruct (d !! k) as [v|]; split; intros H; try done.
  - intros v' [= <-]. exact H.
  - by apply H.
Qed.

Lemma all_strings_spec (e : gmap string pyval) :
  forallb (Validation.conforms (Validation.just Validation.TString))
          (Validation.additional_values [] (PDict e)) = true
  ↔ ∀ k x, e !! k = Some x → ∃ s, x = PStr s.
Proof.
  unfold Validation.additional_values.
  rewrite forallb_forall. split.
  - intros H k x Hk.
    apply is_string_spec. rewrite <- conforms_just. apply H.
    apply list_elem_of_In, list_elem_of_fmap. exists (k, x). split; [done|].
    apply list_elem_of_filter. split; [simpl; apply not_elem_of_nil|].
    by apply elem_of_map_to_list.
  - intros H x Hx.
    apply list_elem_of_In, list_elem_of_fmap in Hx as [[k x'] [-> Hin]].
    apply list_elem_of_filter in Hin as [_ Hin].
    apply elem_of_map_to_list in Hin.
    rewrite conforms_just. apply is_string_spec. eauto.
Qed.

Lemma env_overrides_spec (v : pyval) :
  Validation.conforms
    (Validation.Schema (Some Validation.TObject) [] [] None
       (Some (Validation.just Validation.TString))) v = true
  ↔ ∃ e, v = PDict e ∧ ∀ k x, e !! k = Some x → ∃ s, x = PStr s.
Proof.
  split.
  - intros H. simpl in H.
    destruct v; simpl in H; try discriminate.
    exists d. split; [done|]. apply all_strings_spec. exact H.
  - intros (e & -> & He).
    apply all_strings_spec in He. exact He.
Qed.

Lemma provider_spec (v : pyval) :
  Validation.conforms
    (Validation.Schema (Some Validation.TString) [] [] (Some ["openai"; "ollama"]) None) v
  = true
  ↔ v = PStr "openai" ∨ v = PStr "ollama".
Proof.
  split.
  - destruct v; simpl; try discriminate.
    rewrite andb_true_r. intros H%bool_decide_eq_true.
    apply elem_of_cons in H as [->|H]; [by left|].
    apply elem_of_cons in H as [->|H]; [by right|].
    by apply not_elem_of_nil in H.
  - intros [-> | ->]; reflexivity.
Qed.

Lemma conforms_unfold (s : Validation.schema) (v : pyval) :
  Validation.conforms s v =
  match s with
  | Validation.Schema ty req props en addl =>
      Validation.type_ok ty v
      && Validation.required_ok req v
      && forallb (fun p => match Validation.member (fst p) v with
                           | Some vk => Validation.conforms (snd p) vk
                           | None => true
                           end) props
      && Validation.enum_ok en v
      && match addl with
         | Some sa => forallb (Validation.conforms sa)
                        (Validation.additional_values (fst <$> props) v)
         | None => true
         end
  end.
Proof.
  destruct s as [ty req props en addl]. simpl.
  do 2 f_equal. f_equal.
  induction props as [|[k sk] props IH]; simpl; [reflexivity|].
  by rewrite IH.
Qed.

Lemma conforms_task_schema (payload : pyval) :
  Validation.conforms Validation.MCP_TASK_SCHEMA payload = true
  ↔ well_formed_request payload.
Proof.
  unfold well_formed_request, Validation.MCP_TASK_SCHEMA.
  rewrite conforms_unfold.
  destruct payload as [| | | | | |d];
    try (split; [simpl; discriminate | intros (d & [=] & _)]).
  cbn [Validation.type_ok Validation.is_type Validation.required_ok
       Validation.enum_ok Validation.member forallb fst snd].
  rewrite !andb_true_r. cbn [andb].
  rewrite !andb_true_iff, !bool_decide_eq_true, !property_ok_spec.
  split.
  - intros [[Hid [Hpr Hpv]] [Ht [Hp [Hv [Hm [Hto Heo]]]]]].
    exists d. split; [done|].
    destruct Hid as [vi Hid]. destruct Hpr as [vp Hpr]. destruct Hpv as [vv Hpv].
    pose proof (Ht _ Hid) as Hs1. rewrite conforms_just in Hs1.
    apply is_string_spec in Hs1 as [s1 ->].
    pose proof (Hp _ Hpr) as Hs2. rewrite conforms_just in Hs2.
    apply is_string_spec in Hs2 as [s2 ->].
    pose proof (Hv _ Hpv) as Hs3%provider_spec.
    repeat split; eauto.
    + destruct Hs3 as [-> | ->]; [by left | by right].
    + intros v Hv'. apply is_string_spec. rewrite <- conforms_just. eauto.
    + intros v Hv'.
      change (Validation.is_type Validation.TInteger v = true).
      rewrite <- conforms_just. eauto.
    + intros v Hv'. specialize (Heo _ Hv'). apply env_overrides_spec in Heo.
      destruct Heo as (e & -> & He). eauto.
  - intros (d' & [= <-] & [s1 Hid] & [s2 Hpr] & Hpv & Hm & Hto & Heo).
    split.
    + repeat split; try (rewrite ?Hid, ?Hpr; eauto; fail).
      destruct Hpv as [-> | ->]; eauto.
    + repeat split.
      * intros v. rewrite Hid. intros [= <-]. reflexivity.
      * intros v. rewrite Hpr. intros [= <-]. reflexivity.
      * intros v Hv. apply provider_spec.
        destruct Hpv as [H|H]; rewrite H in Hv; injection Hv as <-; auto.
      * intros v Hv. rewrite conforms_just. apply is_string_spec. eauto.
      * intros v Hv. rewrite conforms_just. apply (Hto _ Hv).
      * intros v Hv. apply env_overrides_spec. eauto.
Qed.

(** What validation guarantees to the code that runs after it. *)
Lemma validated_fields (d : gmap string pyval) :
  Validation.validate_mcp_request (PDict d) = Ok true →
  (∃ s, d !! "task_id" = Some (PStr s))
  ∧ (d !! "provider" = Some (PStr "openai") ∨ d !! "provider" = Some (PStr "ollama")).
Proof.
  unfold Validation.validate_mcp_request.
  destruct (Validation.conforms Validation.MCP_TASK_SCHEMA (PDict d)) eqn:H;
    [|discriminate].
  intros _. apply conforms_task_schema in H.
  destruct H as (d' & [= <-] & Hid & _ & Hp & _). auto.
Qed.

(** C7, as the specification states it, fails: a descriptor with a string
    [task_id] and a string [prompt] but no [provider] is one the
    specification accepts, and [validate_mcp_request] rejects it. *)
Lemma validate_mcp_request_requires_provider :
  spec_accepts (PDict request_without_provider)
  ∧ Validation.validate_mcp_request (PDict request_without_provider)
    = Raise (Exn ValidationError "Invalid MCPTaskRequest").
Proof.
  split.
  - exists request_without_provider. split; [reflexivity|].
    split; [by exists "t1"|]. split; [left; by exists "hi"|]. by left.
  - vm_compute. reflexivity.
Qed.

(** C7, amended: [validate_mcp_request] accepts exactly the dictionaries
    that hold a string [task_id], a string [prompt] and a [provider] equal
    to ["openai"] or ["ollama"] (all three are required; [description] does
    not stand in for [prompt]) and whose [model], [timeout_seconds] and
    [env_overrides], when present, are a string, an integer and an object
    of strings.  Every other payload raises a [ValidationError]. *)
Theorem validate_mcp_request_accepts_exactly (payload : pyval) :
  (Validation.validate_mcp_request payload = Ok true ↔ well_formed_request payload)
  ∧ (Validation.validate_mcp_request payload = Ok true
     ∨ Validation.validate_mcp_request payload
       = Raise (Exn ValidationError "Invalid MCPTaskRequest")).
Proof.
  unfold Validation.validate_mcp_request.
  rewrite <- conforms_task_schema.
  destruct (Validation.conforms Validation.MCP_TASK_SCHEMA payload); split;
    try (split; [done|done]); auto.
Qed.

(** ** Provider URL resolution *)

(** C9: the environment variable [<PROVIDER>_URL], when set and not empty,
    is the result whatever the configuration holds; otherwise a non-empty
    [providers.<provider>.url] of the configuration is; otherwise the entry
    of [DEFAULTS] for the provider (none for an unknown provider). *)
Theorem resolve_provider_url_precedence
    (env : Env) (provider : string) (config : option Config) :
  let env_val := environ env !! (upper provider +:+ "_URL") in
  (∀ v, env_val = Some v → v ≠ "" →
     ProviderResolver.resolve_provider_url env provider config = Some v)
  ∧ (env_val = None ∨ env_val = Some "" →
     ∀ c ps u, config = Some c → providers c = Some ps →
       ps !! provider = Some (Some u) → u ≠ "" →
       ProviderResolver.resolve_provider_url env provider config = Some u)
  ∧ (env_val = None ∨ env_val = Some "" →
     ProviderResolver.nonempty (ProviderResolver.config_url provider config) = None →
     ProviderResolver.resolve_provider_url env provider config
     = ProviderResolver.DEFAULTS !! provider).
Proof.
  intros env_val. unfold ProviderResolver.resolve_provider_url. fold env_val.
  assert (Hne : ∀ u, u ≠ "" → ProviderResolver.nonempty (Some u) = Some u).
  { intros u Hu. simpl. destruct (String.eqb_spec u ""); congruence. }
  assert (He : env_val = None ∨ env_val = Some "" →
               ProviderResolver.nonempty env_val = None).
  { intros [-> | ->]; reflexivity. }
  split; [|split].
  - intros v -> Hv. by rewrite Hne.
  - intros Henv c ps u -> Hps Hu Hnz. rewrite (He Henv).
    unfold ProviderResolver.config_url. rewrite Hps, Hu. by rewrite Hne.
  - intros Henv Hcfg. rewrite (He Henv), Hcfg. reflexivity.
Qed.

(** The scenario of the specification: with [OLLAMA_URL=http://x] set,
    [resolve("ollama", cfg)] is [http://x] although [cfg] has a URL. *)
Lemma resolve_provider_url_environment_wins :
  environ env_with_ollama_url !! (upper "ollama" +:+ "_URL") = Some "http://x"
  ∧ "http://x" ≠ ""
  ∧ ProviderResolver.resolve_provider_url env_with_ollama_url "ollama"
      (Some config_with_ollama_url) = Some "http://x".
Proof.
  split; [reflexivity|]. split; [discriminate|].
  apply (proj1 (resolve_provider_url_precedence env_with_ollama_url "ollama"
                  (Some config_with_ollama_url))).
  - reflexivity.
  - discriminate.
Defined.

(** ** Runs of monadic code *)

Lemma bind_run {A B} (m : M A) (k : A → M B) (w : World) :
  (m ≫= k) w =
  match m w with
  | (Ok a, w') => k a w'
  | (Raise e, w') => (Raise e, w')
  end.
Proof. reflexivity. Qed.

Lemma bind_ok {A B} (m : M A) (k : A → M B) (w w' : World) (a : A) :
  m w = (Ok a, w') → (m ≫= k) w = k a w'.
Proof. intros H. by rewrite bind_run, H. Qed.

Lemma bind_raise {A B} (m : M A) (k : A → M B) (w w' : World) (e : exn) :
  m w = (Raise e, w') → (m ≫= k) w = (Raise e, w').
Proof. intros H. by rewrite bind_run, H. Qed.

Lemma try_except_ok {A} (m : M A) (h : exn → M A) (w w' : World) (a : A) :
  m w = (Ok a, w') → try_except m h w = (Ok a, w').
Proof. intros H. unfold try_except. by rewrite H. Qed.

Lemma try_except_raise {A} (m : M A) (h : exn → M A) (w w' : World) (e : exn) :
  m w = (Raise e, w') → try_except m h w = h e w'.
Proof. intros H. unfold try_except. by rewrite H. Qed.

(** ** Retries *)

Lemma attempt_post_run (env : Env) (url : string) (w : World) :
  ProviderClient.attempt_post env url w
  = (reply_result (http env (now w) url),
     after (EvHttp "POST" url (http env (now w) url)) w).
Proof.
  unfold ProviderClient.attempt_post, requests_send, reply_result.
  rewrite !bind_run. simpl.
  destruct (http env (now w) url) as [msg|status body]; [reflexivity|].
  unfold raise_for_status.
  rewrite !bind_run. simpl.
  destruct ((400 <=? status) && (status <? 600)); [reflexivity|].
  destruct body; reflexivity.
Qed.

Lemma sleep_run (d : Q) (w : World) :
  (0 <= d)%Q → sleep d w = (Ok tt, logged (EvSleep d) w).
Proof.
  intros Hd. unfold sleep.
  destruct (Qlt_le_dec d 0) as [Hlt|_]; [|reflexivity].
  exfalso. exact (Qlt_not_le _ _ Hlt Hd).
Qed.

Lemma delay_nonneg (backoff : Q) (attempt : Z) :
  (0 <= backoff)%Q → 0 < attempt → (0 <= Qmult backoff (inject_Z attempt))%Q.
Proof.
  intros Hb Ha. apply Qmult_le_0_compat; [exact Hb|].
  change 0%Q with (inject_Z 0). rewrite <- Zle_Qle. lia.
Qed.

Lemma sleeps_app (a b : list Event) : sleeps (a ++ b) = (sleeps a ++ sleeps b)%list.
Proof.
  induction a as [|ev a IH]; [reflexivity|].
  destruct ev; simpl; rewrite ?IH; reflexivity.
Qed.

Lemma posts_app (a b : list Event) : posts (a ++ b) = (posts a + posts b)%nat.
Proof.
  induction a as [|ev a IH]; [reflexivity|].
  destruct ev; simpl; rewrite ?IH; reflexivity.
Qed.

Lemma delays_from_succ (backoff : Q) (first : Z) (k : nat) :
  delays_from backoff first (S k)
  = Qmult backoff (inject_Z first) :: delays_from backoff (first + 1) k.
Proof.
  unfold delays_from. simpl. rewrite Z.add_0_r. f_equal.
  rewrite <- seq_shift, map_map.
  apply map_ext. intros i. do 2 f_equal. lia.
Qed.

Lemma delays_from_one (backoff : Q) (k : nat) :
  delays_from backoff 1 k = delays backoff k.
Proof.
  unfold delays_from, delays. rewrite <- seq_shift, map_map.
  apply map_ext. intros i. do 2 f_equal. lia.
Qed.

Lemma retry_loop_succ (env : Env) (url : string) (backoff : Q)
    (n : nat) (attempt : Z) (last : option exn) (w : World) :
  ProviderClient.retry_loop env url backoff (S n) attempt last w =
  match ProviderClient.attempt_post env url w with
  | (Ok v, w1) => (Ok v, w1)
  | (Raise e, w1) =>
      match sleep (Qmult backoff (inject_Z attempt)) w1 with
      | (Ok _, w2) =>
          ProviderClient.retry_loop env url backoff n (attempt + 1) (Some e) w2
      | (Raise e', w2) => (Raise e', w2)
      end
  end.
Proof.
  cbn [ProviderClient.retry_loop].
  rewrite bind_run. unfold try_except at 1. rewrite bind_run.
  destruct (ProviderClient.attempt_post env url w) as [[v|e] w1]; [reflexivity|].
  rewrite bind_run.
  destruct (sleep (Qmult backoff (inject_Z attempt)) w1) as [[[]|e'] w2];
    reflexivity.
Qed.

(** The shape of every run of the loop: [j] failed attempts, each
    followed by its sleep, and then either a successful attempt or, after
    [n] failures, the last exception. *)
Lemma retry_loop_shape (env : Env) (url : string) (backoff : Q) :
  (0 <= backoff)%Q →
  ∀ (n : nat) (attempt : Z) (last : option exn) (w : World) r w',
    0 < attempt →
    ProviderClient.retry_loop env url backoff n attempt last w = (r, w') →
    let outcome i := reply_result (http env (now w + i)%nat url) in
    ∃ (ext : list Event) (j : nat),
      trace w' = (trace w ++ ext)%list
      ∧ (j ≤ n)%nat
      ∧ sleeps ext = delays_from backoff attempt j
      ∧ (∀ i, (i < j)%nat → is_ok (outcome i) = false)
      ∧ ((∃ v, r = Ok v ∧ outcome j = Ok v ∧ (j < n)%nat ∧ posts ext = S j)
         ∨ (j = n ∧ posts ext = n
            ∧ r = match n with
                  | O => Raise (default
                           (Exn TypeError "exceptions must derive from BaseException")
                           last)
                  | S n' => outcome n'
                  end)).
Proof.
  intros Hb n. induction n as [|n IH]; intros attempt last w r w' Ha Hrun outcome.
  - exists [], 0%nat. rewrite app_nil_r.
    destruct last; injection Hrun as <- <-;
      (repeat split; try done; try lia; right; by repeat split).
  - rewrite retry_loop_succ, attempt_post_run in Hrun.
    destruct (reply_result (http env (now w) url)) as [v|e] eqn:Hr.
    + injection Hrun as <- <-.
      exists [EvHttp "POST" url (http env (now w) url)], 0%nat.
      repeat split; try done; try lia.
      left. exists v. unfold outcome. rewrite Nat.add_0_r.
      repeat split; try done; lia.
    + rewrite sleep_run in Hrun by (by apply delay_nonneg).
      set (w1 := logged _ (after _ w)) in Hrun.
      destruct (IH (attempt + 1) (Some e) w1 r w' ltac:(lia) Hrun)
        as (ext & j & Htr & Hj & Hsl & Hfail & Hend).
      exists ([EvHttp "POST" url (http env (now w) url);
               EvSleep (Qmult backoff (inject_Z attempt))] ++ ext)%list, (S j).
      assert (Hnow : ∀ i, (now w1 + i = now w + S i)%nat) by (intros i; simpl; lia).
      split; [|split; [|split; [|split]]].
      * rewrite Htr. subst w1. simpl. by rewrite <- !app_assoc.
      * lia.
      * rewrite sleeps_app, Hsl, delays_from_succ. reflexivity.
      * intros [|i] Hi; unfold outcome.
        -- by rewrite Nat.add_0_r, Hr.
        -- rewrite <- Hnow. apply Hfail. lia.
      * destruct Hend as [(v & Hv & Ho & Hjn & Hp) | (-> & Hp & Hres)].
        -- left. exists v. unfold outcome. rewrite <- Hnow.
           repeat split; try done; try lia.
           rewrite posts_app, Hp. reflexivity.
        -- right. repeat split; [by rewrite posts_app, Hp|].
           rewrite Hres. unfold outcome. destruct n as [|n']; simpl.
           ++ by rewrite Nat.add_0_r, Hr.
           ++ by rewrite <- Hnow.
Qed.









(** ** Host primitives, as equations *)

Lemma run_eq (env : Env) (check : bool) (cmd : list string) (w : World) :
  run env check cmd w =
  (run_result env check cmd (now w), after (EvRun cmd (cmd_ok env (now w) cmd)) w).
Proof.
  unfold run, run_result. rewrite !bind_run. simpl.
  destruct (cmd_ok env (now w) cmd); [reflexivity|].
  destruct (cmd_missing env (now w) cmd); [reflexivity|].
  destruct check; reflexivity.
Qed.

Lemma run_ok (env : Env) (check : bool) (cmd : list string) (w : World) :
  cmd_ok env (now w) cmd = true →
  run env check cmd w = (Ok true, after (EvRun cmd true) w).
Proof.
  intros H. rewrite run_eq. unfold run_result. rewrite H. reflexivity.
Qed.

Lemma write_file_eq (env : Env) (path : string) (content : file) (w : World) :
  write_file env path content w =
  let ok := fs_ok env (now w) path in
  if ok
  then (Ok tt, with_files (insert path content) (after (EvWrite path content true) w))
  else (Raise (Exn OSError path), after (EvWrite path content false) w).
Proof.
  unfold write_file. rewrite !bind_run. simpl.
  destruct (fs_ok env (now w) path); reflexivity.
Qed.

Lemma mkdir_eq (env : Env) (path : string) (w : World) :
  mkdir env path w =
  let ok := fs_ok env (now w) path in
  (if ok then Ok tt else Raise (Exn OSError path), after (EvMkdir path ok) w).
Proof.
  unfold mkdir. rewrite !bind_run. simpl.
  destruct (fs_ok env (now w) path); reflexivity.
Qed.

Lemma rmdir_eq (env : Env) (path : string) (w : World) :
  rmdir env path w =
  let ok := fs_ok env (now w) path in
  (if ok then Ok tt else Raise (Exn OSError path), after (EvRmdir path ok) w).
Proof.
  unfold rmdir. rewrite !bind_run. simpl.
  destruct (fs_ok env (now w) path); reflexivity.
Qed.

Lemma rename_eq (env : Env) (src dst : string) (w : World) :
  rename env src dst w =
  match files w !! src with
  | Some c =>
      if fs_ok env (now w) dst
      then (Ok tt, with_files (fun fs => <[dst := c]> (delete src fs))
                     (after (EvRename src dst (Some c) true) w))
      else (Raise (Exn OSError dst), after (EvRename src dst (Some c) false) w)
  | None => (Raise (Exn OSError src), after (EvRename src dst None false) w)
  end.
Proof.
  unfold rename. rewrite bind_run. simpl. rewrite bind_run. simpl.
  destruct (files w !! src) as [c|]; [|reflexivity].
  rewrite !bind_run. simpl.
  destruct (fs_ok env (now w) dst); reflexivity.
Qed.

Lemma unlink_eq (env : Env) (path : string) (w : World) :
  unlink env path w =
  let ok := bool_decide (is_Some (files w !! path)) && fs_ok env (now w) path in
  if ok
  then (Ok tt, with_files (delete path) (after (EvUnlink path true) w))
  else (Raise (Exn OSError path), after (EvUnlink path false) w).
Proof.
  unfold unlink. rewrite bind_run. simpl. rewrite bind_run. simpl.
  rewrite bind_run. simpl.
  destruct (bool_decide (is_Some (files w !! path)) && fs_ok env (now w) path);
    reflexivity.
Qed.

Lemma requests_send_eq (env : Env) (verb url : string) (w : World) :
  requests_send env verb url w =
  (match http env (now w) url with
   | ConnectionError msg => Raise (Exn RequestException msg)
   | Response status body => Ok (status, body)
   end,
   after (EvHttp verb url (http env (now w) url)) w).
Proof.
  unfold requests_send. rewrite !bind_run. simpl.
  destruct (http env (now w) url); reflexivity.
Qed.

(** ** The network CIDR *)

Lemma int_of_digits_nonneg (s : string) :
  Ipaddress.isdigit s = true → 0 ≤ Ipaddress.int_of_digits s.
Proof.
  unfold Ipaddress.isdigit, Ipaddress.int_of_digits.
  intros [_ H]%andb_true_iff.
  assert (Hfold : ∀ l acc, forallb Ipaddress.is_digit l = true → 0 ≤ acc →
            0 ≤ fold_left (fun acc c => 10 * acc + (Z.of_nat (nat_of_ascii c) - 48)) l acc).
  { induction l as [|c l IH]; intros acc Hl Hacc; [exact Hacc|].
    simpl in *. apply andb_true_iff in Hl as [Hc Hl].
    apply IH; [exact Hl|].
    unfold Ipaddress.is_digit in Hc.
    apply andb_true_iff in Hc as [Hc _]. apply Nat.leb_le in Hc. lia. }
  by apply Hfold.
Qed.

Lemma parse_octet_nonneg (s : string) (n : Z) :
  Ipaddress._parse_octet s = Some n → 0 ≤ n.
Proof.
  unfold Ipaddress._parse_octet.
  destruct (Ipaddress.isdigit s) eqn:Hd; [|discriminate]. simpl.
  destruct (3 <? String.length s)%nat; [discriminate|].
  destruct (negb (String.eqb s "0") && starts_with "0" s); [discriminate|].
  destruct (255 <? Ipaddress.int_of_digits s); [discriminate|].
  intros [= <-]. by apply int_of_digits_nonneg.
Qed.

Lemma ip_int_from_string_nonneg (s : string) (n : Z) :
  Ipaddress._ip_int_from_string s = Some n → 0 ≤ n.
Proof.
  unfold Ipaddress._ip_int_from_string.
  destruct (Ipaddress.split "." s) as [|a [|b [|c [|d [|? ?]]]]]; try discriminate.
  destruct (Ipaddress._parse_octet a) as [a'|] eqn:Ha; [|discriminate].
  destruct (Ipaddress._parse_octet b) as [b'|] eqn:Hb; [|discriminate].
  destruct (Ipaddress._parse_octet c) as [c'|] eqn:Hc; [|discriminate].
  destruct (Ipaddress._parse_octet d) as [d'|] eqn:Hd; [|discriminate].
  intros [= <-].
  apply parse_octet_nonneg in Ha, Hb, Hc, Hd.
  pose proof (Z.shiftl_nonneg a' 24). pose proof (Z.shiftl_nonneg b' 16).
  pose proof (Z.shiftl_nonneg c' 8). lia.
Qed.

Lemma IPv4Network_nonneg (address : string) (n : Ipaddress.network) :
  Ipaddress.IPv4Network address = Ok n → 0 ≤ Ipaddress.network_address n.
Proof.
  unfold Ipaddress.IPv4Network.
  destruct (Ipaddress.split "/" address) as [|addr [|mask [|? ?]]]; try discriminate.
  - destruct (Ipaddress._ip_int_from_string addr) as [packed|] eqn:Hp; [|discriminate].
    intros [= <-]. simpl. by apply ip_int_from_string_nonneg in Hp.
  - destruct (Ipaddress._ip_int_from_string addr) as [packed|] eqn:Hp; [|discriminate].
    destruct (Ipaddress._make_netmask mask) as [p|]; [|discriminate].
    intros [= <-]. simpl.
    apply ip_int_from_string_nonneg in Hp.
    apply Z.land_nonneg. by left.
Qed.

Lemma IPv4Network_raises (address : string) (e : exn) :
  Ipaddress.IPv4Network address = Raise e →
  exn_cls e = AddressValueError ∨ exn_cls e = NetmaskValueError.
Proof.
  unfold Ipaddress.IPv4Network.
  destruct (Ipaddress.split "/" address) as [|addr [|mask [|? ?]]];
    try (intros [= <-]; by left).
  - destruct (Ipaddress._ip_int_from_string addr); [discriminate|].
    intros [= <-]; by left.
  - destruct (Ipaddress._ip_int_from_string addr); [|intros [= <-]; by left].
    destruct (Ipaddress._make_netmask mask); [discriminate|].
    intros [= <-]; by right.
Qed.

(** C6, as the specification states it, fails: attach with a CIDR that is
    not private is not rejected; the interface is created and recorded. *)
Lemma setup_tap_interface_accepts_public_cidr :
  (∃ n, Ipaddress.IPv4Network public_cidr = Ok n ∧ Ipaddress.is_private n = false)
  ∧ fst (NetworkManager.setup_tap_interface cooperative_host config_with_ollama_url
           "abc123" (Some public_cidr) empty_world)
    = Ok (Some "tapabc123")
  ∧ active_interfaces
      (snd (NetworkManager.setup_tap_interface cooperative_host config_with_ollama_url
              "abc123" (Some public_cidr) empty_world)) !! "abc123"
    = Some {| if_tap_name := "tapabc123"; if_cidr := public_cidr;
              if_gateway_ip := "172.50.0.1"; if_vm_ip := "172.50.0.2" |}.
Proof.
  split; [|split].
  - exists {| Ipaddress.network_address := 2888957952; Ipaddress.prefixlen := 24 |}.
    split; vm_compute; reflexivity.
  - vm_compute. reflexivity.
  - vm_compute. reflexivity.
Qed.

(** C6, amended: the private-network check is made once, on the configured
    CIDR, when the Network Provisioner is constructed: construction succeeds
    exactly when that CIDR parses to a private network, and otherwise
    raises a [ValueError] (for a malformed netmask, the
    [NetmaskValueError] of the parser).  Attach only parses its CIDR:
    whenever it parses, private or not, the address two above the network
    address exists and the [ip] commands succeed, the interface is created
    and recorded; a CIDR whose address part is malformed makes attach
    return [None] with no command run and nothing recorded, and one whose
    netmask is malformed makes it raise the [NetmaskValueError], also with
    no command run and nothing recorded. *)
Theorem network_cidr_is_checked_at_construction_only
    (env : Env) (cfg : Config) (vm_id cidr : string) (w : World) :
  (fst (NetworkManager.__init__ cfg w) = Ok tt
   ↔ ∃ n, Ipaddress.IPv4Network (vm_network_cidr cfg) = Ok n
          ∧ Ipaddress.is_private n = true)
  ∧ (∀ e, fst (NetworkManager.__init__ cfg w) = Raise e →
       exn_cls e = ValueError ∨ exn_cls e = NetmaskValueError)
  ∧ (∀ n, Ipaddress.IPv4Network cidr = Ok n →
       Ipaddress.network_address n + 2 ≤ Ipaddress.ALL_ONES →
       (∀ t c, cmd_ok env t c = true) →
       ∃ gateway_ip vm_ip w',
         NetworkManager.setup_tap_interface env cfg vm_id (Some cidr) w
         = (Ok (Some ("tap" +:+ vm_id)), w')
         ∧ active_interfaces w' !! vm_id
           = Some {| if_tap_name := "tap" +:+ vm_id; if_cidr := cidr;
                     if_gateway_ip := gateway_ip; if_vm_ip := vm_ip |})
  ∧ (∀ e, Ipaddress.IPv4Network cidr = Raise e →
       exn_cls e = AddressValueError →
       NetworkManager.setup_tap_interface env cfg vm_id (Some cidr) w = (Ok None, w))
  ∧ (∀ e, Ipaddress.IPv4Network cidr = Raise e →
       exn_cls e = NetmaskValueError →
       NetworkManager.setup_tap_interface env cfg vm_id (Some cidr) w = (Raise e, w)).
Proof.
  split; [|split; [|split; [|split]]].
  - unfold NetworkManager.__init__, NetworkManager._validate_network_config.
    rewrite bind_run. simpl. unfold lift. simpl.
    destruct (Ipaddress.IPv4Network (vm_network_cidr cfg)) as [n|e].
    + destruct (Ipaddress.is_private n) eqn:Hp; split.
      * eauto.
      * done.
      * discriminate.
      * intros (n' & [= <-] & Hp'). congruence.
    + split; [|intros (n' & [=] & _)].
      destruct (bool_decide (exn_cls e = AddressValueError)); discriminate.
  - intros e.
    unfold NetworkManager.__init__, NetworkManager._validate_network_config.
    rewrite bind_run. simpl. unfold lift. simpl.
    destruct (Ipaddress.IPv4Network (vm_network_cidr cfg)) as [n|e'] eqn:Hparse.
    + destruct (Ipaddress.is_private n); [discriminate|]. intros [= <-]. by left.
    + destruct (bool_decide (exn_cls e' = AddressValueError)) eqn:Hcls.
      * intros [= <-]. by left.
      * intros [= <-]. apply bool_decide_eq_false in Hcls.
        destruct (IPv4Network_raises _ _ Hparse); [done|by right].
  - intros n Hparse Hrange Hcmd.
    pose proof (IPv4Network_nonneg _ _ Hparse) as Hnn.
    unfold NetworkManager.setup_tap_interface, try_except_of. simpl.
    assert (H1 : Ipaddress.str_add (Ipaddress.network_address n) 1
                 = Ok (Ipaddress.str_address (Ipaddress.network_address n + 1))).
    { unfold Ipaddress.str_add.
      destruct (Z.leb_spec 0 (Ipaddress.network_address n + 1)); [|lia].
      destruct (Z.leb_spec (Ipaddress.network_address n + 1) Ipaddress.ALL_ONES); [|lia].
      reflexivity. }
    assert (H2 : Ipaddress.str_add (Ipaddress.network_address n) 2
                 = Ok (Ipaddress.str_address (Ipaddress.network_address n + 2))).
    { unfold Ipaddress.str_add.
      destruct (Z.leb_spec 0 (Ipaddress.network_address n + 2)); [|lia].
      destruct (Z.leb_spec (Ipaddress.network_address n + 2) Ipaddress.ALL_ONES); [|lia].
      reflexivity. }
    do 3 eexists.
    erewrite try_except_ok; [split; [reflexivity|]|].
    2:{ unfold lift. rewrite bind_run, Hparse. rewrite bind_run, H1.
        rewrite bind_run, run_ok by apply Hcmd.
        rewrite bind_run, run_ok by apply Hcmd.
        rewrite bind_run, run_ok by apply Hcmd.
        rewrite bind_run, run_ok by apply Hcmd.
        rewrite bind_run, H2. rewrite bind_run. reflexivity. }
    simpl. apply lookup_insert_eq.
  - intros e Hparse Hcls.
    unfold NetworkManager.setup_tap_interface, try_except_of. simpl.
    erewrite try_except_raise.
    2:{ unfold lift. rewrite bind_run, Hparse. reflexivity. }
    rewrite Hcls. reflexivity.
  - intros e Hparse Hcls.
    unfold NetworkManager.setup_tap_interface, try_except_of. simpl.
    erewrite try_except_raise.
    2:{ unfold lift. rewrite bind_run, Hparse. reflexivity. }
    rewrite Hcls. reflexivity.
Qed.

(** The attach clause at the CIDR of the docstring. *)
Lemma network_cidr_public_attach_witness :
  Ipaddress.IPv4Network public_cidr
  = Ok {| Ipaddress.network_address := 2888957952; Ipaddress.prefixlen := 24 |}
  ∧ 2888957952 + 2 ≤ Ipaddress.ALL_ONES
  ∧ (∀ t c, cmd_ok cooperative_host t c = true)
  ∧ ∃ gateway_ip vm_ip w',
      NetworkManager.setup_tap_interface cooperative_host config_with_ollama_url
        "abc123" (Some public_cidr) empty_world
      = (Ok (Some ("tap" +:+ "abc123")), w')
      ∧ active_interfaces w' !! "abc123"
        = Some {| if_tap_name := "tap" +:+ "abc123"; if_cidr := public_cidr;
                  if_gateway_ip := gateway_ip; if_vm_ip := vm_ip |}.
Proof.
  split; [vm_compute; reflexivity|].
  split; [vm_compute; discriminate|].
  split; [reflexivity|].
  apply (proj1 (proj2 (proj2 (network_cidr_is_checked_at_construction_only
                                cooperative_host config_with_ollama_url
                                "abc123" public_cidr empty_world)))
           {| Ipaddress.network_address := 2888957952; Ipaddress.prefixlen := 24 |}).
  - vm_compute. reflexivity.
  - vm_compute. discriminate.
  - reflexivity.
Defined.

(** ** Frame reasoning: what a run cannot change *)

#[global] Instance ignores_trace_quiet (R : World → World → Prop)
  `{!IgnoresTrace R} : IgnoresQuiet R.
Proof. intros ev w _. apply ignores_trace. Qed.

Section Preserves.

Context (R : World → World → Prop) `{!PreOrder R}.

Lemma preserves_ret {A} (a : A) : preserves R (ret a).
Proof. intros w r w' [= <- <-]. reflexivity. Qed.

Lemma preserves_mret {A} (a : A) : preserves R (mret a).
Proof. apply preserves_ret. Qed.

Lemma preserves_raise {A} (e : exn) : preserves R (@raise A e).
Proof. intros w r w' [= <- <-]. reflexivity. Qed.

Lemma preserves_gets {A} (f : World → A) : preserves R (gets f).
Proof. intros w r w' [= <- <-]. reflexivity. Qed.

Lemma preserves_lift {A} (x : result A) : preserves R (lift x).
Proof. intros w r w' [= <- <-]. reflexivity. Qed.

Lemma preserves_deref (r : nat) : preserves R (deref r).
Proof.
  intros w res w'. unfold deref.
  destruct (heap w !! r); intros [= <- <-]; reflexivity.
Qed.

Lemma preserves_path_exists (p : string) : preserves R (path_exists p).
Proof. apply preserves_gets. Qed.

Lemma preserves_bind {A B} (m : M A) (k : A → M B) :
  preserves R m → (∀ a, preserves R (k a)) → preserves R (m ≫= k).
Proof.
  intros Hm Hk w r w'. rewrite bind_run.
  destruct (m w) as [[a|e] w1] eqn:E.
  - intros H. etransitivity; [exact (Hm _ _ _ E)|exact (Hk _ _ _ _ H)].
  - intros [= <- <-]. exact (Hm _ _ _ E).
Qed.

Lemma preserves_try_except {A} (m : M A) (h : exn → M A) :
  preserves R m → (∀ e, preserves R (h e)) → preserves R (try_except m h).
Proof.
  intros Hm Hh w r w'. unfold try_except.
  destruct (m w) as [[a|e] w1] eqn:E.
  - intros [= <- <-]. exact (Hm _ _ _ E).
  - intros H. etransitivity; [exact (Hm _ _ _ E)|exact (Hh _ _ _ _ H)].
Qed.

Lemma preserves_try_except_of {A} (cs : list exn_class) (m : M A) (h : exn → M A) :
  preserves R m → (∀ e, preserves R (h e)) → preserves R (try_except_of cs m h).
Proof.
  intros Hm Hh. apply preserves_try_except; [exact Hm|].
  intros e. destruct (bool_decide (exn_cls e ∈ cs)); [apply Hh|apply preserves_raise].
Qed.

Lemma preserves_try_finally {A} (m : M A) (c : M unit) :
  preserves R m → preserves R c → preserves R (try_finally m c).
Proof.
  intros Hm Hc w r w'. unfold try_finally.
  destruct (m w) as [r1 w1] eqn:E.
  destruct (c w1) as [[[]|e] w2] eqn:E2; intros [= <- <-];
    (etransitivity; [exact (Hm _ _ _ E)|exact (Hc _ _ _ E2)]).
Qed.

Lemma preserves_when (b : bool) (m : M unit) :
  preserves R m → preserves R (when b m).
Proof. intros Hm. destruct b; [exact Hm|apply preserves_ret]. Qed.

Lemma preserves_for_each {A} (xs : list A) (body : A → M unit) :
  (∀ x, preserves R (body x)) → preserves R (for_each xs body).
Proof.
  intros Hb. induction xs as [|x xs IH]; simpl.
  - apply preserves_ret.
  - apply preserves_bind; [apply Hb|intros _; exact IH].
Qed.

Lemma preserves_modify (f : World → World) :
  (∀ w, R w (f w)) → preserves R (modify f).
Proof. intros Hf w r w' [= <- <-]. apply Hf. Qed.

Lemma preserves_tick `{!IgnoresClock R} : preserves R tick.
Proof. intros w r w' [= <- <-]. apply ignores_clock. Qed.

Lemma preserves_emit `{!IgnoresTrace R} (ev : Event) : preserves R (emit ev).
Proof. apply preserves_modify. intros w. apply ignores_trace. Qed.

Lemma related_after `{!IgnoresClock R} `{!IgnoresTrace R} (ev : Event) (w : World) :
  R w (after ev w).
Proof.
  unfold after. etransitivity; [apply (ignores_clock S)|apply ignores_trace].
Qed.

Lemma preserves_emit_quiet `{!IgnoresQuiet R} (ev : Event) :
  is_http ev = false → preserves R (emit ev).
Proof. intros Hq. apply preserves_modify. intros w. by apply ignores_quiet. Qed.

Lemma related_after_quiet `{!IgnoresClock R} `{!IgnoresQuiet R}
    (ev : Event) (w : World) :
  is_http ev = false → R w (after ev w).
Proof.
  intros Hq. unfold after.
  etransitivity; [apply (ignores_clock S)|by apply (ignores_quiet ev)].
Qed.

Lemma preserves_run `{!IgnoresClock R} `{!IgnoresQuiet R}
    (env : Env) (check : bool) (cmd : list string) :
  preserves R (run env check cmd).
Proof.
  intros w r w'. rewrite run_eq. intros [= <- <-]. by apply related_after_quiet.
Qed.

Lemma preserves_mkdir `{!IgnoresClock R} `{!IgnoresQuiet R} (env : Env) (p : string) :
  preserves R (mkdir env p).
Proof.
  intros w r w'. rewrite mkdir_eq. intros [= <- <-]. by apply related_after_quiet.
Qed.

Lemma preserves_rmdir `{!IgnoresClock R} `{!IgnoresQuiet R} (env : Env) (p : string) :
  preserves R (rmdir env p).
Proof.
  intros w r w'. rewrite rmdir_eq. intros [= <- <-]. by apply related_after_quiet.
Qed.

Lemma preserves_requests_send `{!IgnoresClock R} `{!IgnoresTrace R}
    (env : Env) (verb url : string) :
  preserves R (requests_send env verb url).
Proof.
  intros w r w'. rewrite requests_send_eq. intros [= <- <-]. apply related_after.
Qed.

Lemma preserves_raise_for_status (status : Z) : preserves R (raise_for_status status).
Proof.
  unfold raise_for_status.
  destruct ((400 <=? status) && (status <? 600));
    [apply preserves_raise|apply preserves_ret].
Qed.

Lemma preserves_resp_json (body : option pyval) : preserves R (resp_json body).
Proof. destruct body; [apply preserves_ret|apply preserves_raise]. Qed.

Lemma preserves_sleep `{!IgnoresQuiet R} (d : Q) : preserves R (sleep d).
Proof.
  unfold sleep.
  destruct (Qlt_le_dec d 0); [apply preserves_raise|by apply preserves_emit_quiet].
Qed.

Lemma preserves_utc_now `{!IgnoresClock R} (env : Env) : preserves R (utc_now env).
Proof.
  unfold utc_now. apply preserves_bind; [apply preserves_tick|].
  intros t. apply preserves_ret.
Qed.

Lemma preserves_write_file `{!IgnoresClock R} `{!IgnoresQuiet R} `{!IgnoresFiles R}
    (env : Env) (p : string) (c : file) :
  preserves R (write_file env p c).
Proof.
  intros w r w'. rewrite write_file_eq. cbn zeta.
  destruct (fs_ok env (now w) p); intros [= <- <-].
  - etransitivity; [|apply ignores_files]. by apply related_after_quiet.
  - by apply related_after_quiet.
Qed.

Lemma preserves_rename `{!IgnoresClock R} `{!IgnoresQuiet R} `{!IgnoresFiles R}
    (env : Env) (src dst : string) :
  preserves R (rename env src dst).
Proof.
  intros w r w'. rewrite rename_eq.
  destruct (files w !! src); [destruct (fs_ok env (now w) dst)|]; intros [= <- <-];
    try (by apply related_after_quiet).
  etransitivity; [|apply ignores_files]. by apply related_after_quiet.
Qed.

Lemma preserves_unlink `{!IgnoresClock R} `{!IgnoresQuiet R} `{!IgnoresFiles R}
    (env : Env) (p : string) :
  preserves R (unlink env p).
Proof.
  intros w r w'. rewrite unlink_eq. cbn zeta.
  destruct (_ && _); intros [= <- <-].
  - etransitivity; [|apply ignores_files]. by apply related_after_quiet.
  - by apply related_after_quiet.
Qed.

Lemma preserves_update `{!IgnoresHeap R} (r : nat) (f : VMInstance → VMInstance) :
  preserves R (update r f).
Proof. apply preserves_modify. intros w. apply ignores_heap. Qed.

Lemma preserves_new_object `{!IgnoresHeap R} (i : VMInstance) :
  preserves R (new_object i).
Proof. intros w r w' [= <- <-]. apply ignores_heap. Qed.

Lemma preserves_popen `{!IgnoresClock R} `{!IgnoresQuiet R} `{!IgnoresAlive R}
    (env : Env) (cmd : list string) :
  preserves R (popen env cmd).
Proof.
  unfold popen.
  apply preserves_bind; [apply preserves_tick|intros t].
  apply preserves_bind; [by apply preserves_emit_quiet|intros _].
  destruct (popen_pid env t cmd); [|apply preserves_raise].
  apply preserves_bind; [|intros _; apply preserves_ret].
  apply preserves_modify. intros w. apply ignores_alive.
Qed.

Lemma preserves_poll_is_none `{!IgnoresClock R} `{!IgnoresAlive R}
    (env : Env) (pid : Z) :
  preserves R (poll_is_none env pid).
Proof.
  unfold poll_is_none.
  apply preserves_bind; [apply preserves_tick|intros t].
  apply preserves_bind; [apply preserves_gets|intros up].
  destruct (up && stays_up env t pid); [apply preserves_ret|].
  apply preserves_bind; [|intros _; apply preserves_ret].
  apply preserves_modify. intros w. apply ignores_alive.
Qed.

Lemma preserves_send_signal `{!IgnoresClock R} `{!IgnoresQuiet R} `{!IgnoresAlive R}
    (env : Env) (pid : Z) (name : string) :
  preserves R (send_signal env pid name).
Proof.
  unfold send_signal.
  apply preserves_bind; [apply preserves_tick|intros t].
  apply preserves_bind; [by apply preserves_emit_quiet|intros _].
  destruct (signal_ok env t pid); [apply preserves_ret|].
  apply preserves_bind; [|intros _; apply preserves_raise].
  apply preserves_modify. intros w. apply ignores_alive.
Qed.

Lemma preserves_wait `{!IgnoresClock R} `{!IgnoresQuiet R} `{!IgnoresAlive R}
    (env : Env) (pid : Z) (timeout : option Z) :
  preserves R (wait env pid timeout).
Proof.
  unfold wait. destruct timeout.
  - apply preserves_bind; [apply preserves_tick|intros t].
    apply preserves_bind; [by apply preserves_emit_quiet|intros _].
    destruct (wait_exits env t pid); [|apply preserves_raise].
    apply preserves_modify. intros w. apply ignores_alive.
  - apply preserves_bind; [by apply preserves_emit_quiet|intros _].
    apply preserves_modify. intros w. apply ignores_alive.
Qed.

End Preserves.

(** [leaf L] closes a goal with the frame lemma [L] of a primitive;
    [node L] applies the frame lemma of a combinator. *)
Ltac leaf L := apply L; solve [typeclasses eauto].
Ltac node L := apply L; [solve [typeclasses eauto] | ..].

Ltac frame_step :=
  match goal with
  | |- ∀ _, _ => intros ?
  | |- preserves _ (_ ≫= _) => node @preserves_bind
  | |- preserves _ (bind _ _) => node @preserves_bind
  | |- preserves _ (ret _) => leaf @preserves_ret
  | |- preserves _ (mret _) => leaf @preserves_mret
  | |- preserves _ (raise _) => leaf @preserves_raise
  | |- preserves _ (gets _) => leaf @preserves_gets
  | |- preserves _ (lift _) => leaf @preserves_lift
  | |- preserves _ (deref _) => leaf @preserves_deref
  | |- preserves _ (path_exists _) => leaf @preserves_path_exists
  | |- preserves _ (try_except _ _) => node @preserves_try_except
  | |- preserves _ (try_except_of _ _ _) => node @preserves_try_except_of
  | |- preserves _ (try_finally _ _) => node @preserves_try_finally
  | |- preserves _ (when _ _) => node @preserves_when
  | |- preserves _ (for_each _ _) => node @preserves_for_each
  | |- preserves _ tick => leaf @preserves_tick
  | |- preserves _ (emit _) => leaf @preserves_emit
  | |- preserves _ (emit _) => apply preserves_emit_quiet; [typeclasses eauto .. | reflexivity]
  | |- preserves _ (run _ _ _) => leaf @preserves_run
  | |- preserves _ (mkdir _ _) => leaf @preserves_mkdir
  | |- preserves _ (rmdir _ _) => leaf @preserves_rmdir
  | |- preserves _ (requests_send _ _ _) => leaf @preserves_requests_send
  | |- preserves _ (raise_for_status _) => leaf @preserves_raise_for_status
  | |- preserves _ (resp_json _) => leaf @preserves_resp_json
  | |- preserves _ (sleep _) => leaf @preserves_sleep
  | |- preserves _ (utc_now _) => leaf @preserves_utc_now
  | |- preserves _ (write_file _ _ _) => leaf @preserves_write_file
  | |- preserves _ (rename _ _ _) => leaf @preserves_rename
  | |- preserves _ (unlink _ _) => leaf @preserves_unlink
  | |- preserves _ (update _ _) => leaf @preserves_update
  | |- preserves _ (new_object _) => leaf @preserves_new_object
  | |- preserves _ (popen _ _) => leaf @preserves_popen
  | |- preserves _ (poll_is_none _ _) => leaf @preserves_poll_is_none
  | |- preserves _ (send_signal _ _ _) => leaf @preserves_send_signal
  | |- preserves _ (wait _ _ _) => leaf @preserves_wait
  | |- preserves _ (match ?x with _ => _ end) => destruct x
  end.

Ltac frame := repeat frame_step.

Section PreservesCode.

Context (R : World → World → Prop) `{!PreOrder R}.
Context `{!IgnoresClock R} `{!IgnoresQuiet R}.

(** *** Code that makes no HTTP request *)

Lemma preserves_inject_api_key `{!IgnoresHeap R} (r : nat) (key : option string) :
  preserves R (VMManager.inject_api_key r key).
Proof. unfold VMManager.inject_api_key. frame. Qed.

Section Files.

Context `{!IgnoresFiles R}.

Lemma preserves_write_manifest (env : Env) (cfg : Config) (r : nat) (state : string) :
  preserves R (VMManager._write_manifest env cfg r state).
Proof. unfold VMManager._write_manifest. frame. Qed.

Lemma preserves_preload_task_data (env : Env) (mp : string)
    (d : gmap string pyval) (vm_id : string) :
  preserves R (VMManager._preload_task_data env mp d vm_id).
Proof. unfold VMManager._preload_task_data, VMManager.task_id_of. frame. Qed.

Lemma preserves_create_shared_disk (env : Env) (cfg : Config) (vm_id : string)
    (td : option (gmap string pyval)) :
  preserves R (VMManager.create_shared_disk env cfg vm_id td).
Proof.
  unfold VMManager.create_shared_disk.
  frame; try apply preserves_preload_task_data.
  apply preserves_modify. intros w. apply ignores_files.
Qed.

Lemma preserves_create_guest_tar (env : Env) (vm_id out : string) :
  preserves R (GuestTools.create_guest_tar env vm_id out).
Proof. unfold GuestTools.create_guest_tar. frame. Qed.

Lemma preserves_create_init_overlay (env : Env) (vm_id out : string) (dry : bool) :
  preserves R (GuestTools.create_init_overlay env vm_id out dry).
Proof. unfold GuestTools.create_init_overlay. frame. Qed.

Lemma preserves_prepare_guest_artifacts `{!IgnoresHeap R} (env : Env) (cfg : Config)
    (vm_id : string) (r : nat) :
  preserves R (VMManager.prepare_guest_artifacts env cfg vm_id r).
Proof.
  unfold VMManager.prepare_guest_artifacts. frame;
    first [ apply preserves_create_guest_tar
          | apply preserves_create_init_overlay ].
Qed.

Lemma preserves_remove_if_exists (env : Env) (p : option string) :
  preserves R (VMManager.remove_if_exists env p).
Proof. unfold VMManager.remove_if_exists. frame. Qed.

Lemma preserves_cleanup_vm_files (env : Env) (r : nat) :
  preserves R (VMManager._cleanup_vm_files env r).
Proof. unfold VMManager._cleanup_vm_files. frame; apply preserves_remove_if_exists. Qed.

Lemma preserves_remove_stale_socket (env : Env) (r : nat) :
  preserves R (VMManager.remove_stale_socket env r).
Proof. unfold VMManager.remove_stale_socket. frame. Qed.

Lemma preserves_mark_failed (env : Env) (cfg : Config) (r : nat) (e : exn) :
  preserves R (VMManager.mark_failed env cfg r e).
Proof. unfold VMManager.mark_failed. frame. apply preserves_write_manifest. Qed.

Context `{!IgnoresAlive R}.

Lemma preserves_start_launcher (env : Env) (vm_id config_path results_root : string)
    (use_jailer : bool) (extra_args : list string) :
  preserves R (Launcher.start_launcher env vm_id config_path results_root
                 use_jailer extra_args).
Proof. unfold Launcher.start_launcher. frame. Qed.

Lemma preserves_terminate_process (env : Env) (cfg : Config) (r : nat) :
  preserves R (VMManager.terminate_process env cfg r).
Proof. unfold VMManager.terminate_process. frame. Qed.

Lemma preserves_stop_vm `{!IgnoresActiveVms R} (env : Env) (cfg : Config) (r : nat) :
  preserves R (VMManager.stop_vm env cfg r).
Proof.
  unfold VMManager.stop_vm. frame.
  - apply preserves_terminate_process.
  - apply preserves_cleanup_vm_files.
  - apply preserves_modify. intros w. apply ignores_active_vms.
Qed.

End Files.

(** *** Code that talks HTTP *)

Context `{!IgnoresTrace R}.

Lemma preserves_attempt_post (env : Env) (url : string) :
  preserves R (ProviderClient.attempt_post env url).
Proof. unfold ProviderClient.attempt_post. frame. Qed.

Lemma preserves_retry_loop (env : Env) (url : string) (backoff : Q)
    (n : nat) (attempt : Z) (last : option exn) :
  preserves R (ProviderClient.retry_loop env url backoff n attempt last).
Proof.
  revert attempt last. induction n as [|n IH]; intros attempt last; simpl.
  - frame.
  - frame; try apply preserves_attempt_post. apply IH.
Qed.

Lemma preserves_post_with_retries (env : Env) (url : string) (retries : Z) (backoff : Q) :
  preserves R (ProviderClient.post_with_retries env url retries backoff).
Proof. apply preserves_retry_loop. Qed.

Lemma preserves_call_provider (env : Env) (provider : string) (url : option string) :
  preserves R (Providers.call_provider env provider url).
Proof.
  unfold Providers.call_provider, Providers.try_client,
    Providers.ollama_generate, Providers.openai_complete.
  frame; apply preserves_post_with_retries.
Qed.

Lemma preserves_dispatch_provider (env : Env) (cfg : Config) (d : gmap string pyval) :
  preserves R (VMManager.dispatch_provider env cfg d).
Proof.
  unfold VMManager.dispatch_provider.
  frame; apply preserves_call_provider.
Qed.

Lemma preserves_validate_and_dispatch (env : Env) (cfg : Config)
    (td : option (gmap string pyval)) :
  preserves R (VMManager.validate_and_dispatch env cfg td).
Proof.
  unfold VMManager.validate_and_dispatch. frame.
  apply preserves_dispatch_provider.
Qed.

Lemma preserves_put_json (env : Env) (sock path : string) :
  preserves R (FirecrackerClient.put_json env sock path).
Proof. unfold FirecrackerClient.put_json. frame. Qed.

Context `{!IgnoresFiles R} `{!IgnoresAlive R} `{!IgnoresHeap R}.

Lemma preserves_launch_and_configure (env : Env) (cfg : Config) (r : nat) :
  preserves R (VMManager.launch_and_configure env cfg r).
Proof.
  unfold VMManager.launch_and_configure. frame;
    first [ apply preserves_start_launcher
          | apply preserves_write_manifest
          | apply preserves_put_json ]; typeclasses eauto.
Qed.

Lemma preserves_start_vm (env : Env) (cfg : Config) (r : nat) (key : option string) :
  preserves R (VMManager.start_vm env cfg r key).
Proof.
  unfold VMManager.start_vm. frame.
  - apply preserves_inject_api_key.
  - apply preserves_remove_stale_socket; typeclasses eauto.
  - apply preserves_launch_and_configure.
  - apply preserves_mark_failed; typeclasses eauto.
Qed.

Lemma preserves_provision_vm (env : Env) (cfg : Config)
    (vm_id : string) (td : option (gmap string pyval)) :
  preserves R (VMManager.provision_vm env cfg vm_id td).
Proof.
  unfold VMManager.provision_vm. frame.
  - apply preserves_validate_and_dispatch.
  - apply preserves_create_shared_disk; typeclasses eauto.
Qed.

Lemma preserves_create_vm `{!IgnoresActiveVms R} (env : Env) (cfg : Config)
    (vm_id : string) (td : option (gmap string pyval)) :
  preserves R (VMManager.create_vm env cfg vm_id td).
Proof.
  unfold VMManager.create_vm. frame.
  - apply preserves_provision_vm.
  - apply preserves_prepare_guest_artifacts; typeclasses eauto.
  - apply preserves_write_manifest; typeclasses eauto.
  - apply preserves_modify. intros w. apply ignores_active_vms.
Qed.

End PreservesCode.

(** *** The relations used below *)

#[global] Instance same_interfaces_preorder : PreOrder same_interfaces.
Proof. split; unfold same_interfaces; [intros w|intros w1 w2 w3]; congruence. Qed.
#[global] Instance same_heap_preorder : PreOrder same_heap.
Proof. split; unfold same_heap; [intros w|intros w1 w2 w3]; congruence. Qed.
#[global] Instance same_active_vms_preorder : PreOrder same_active_vms.
Proof. split; unfold same_active_vms; [intros w|intros w1 w2 w3]; congruence. Qed.
#[global] Instance same_files_preorder : PreOrder same_files.
Proof. split; unfold same_files; [intros w|intros w1 w2 w3]; congruence. Qed.

#[global] Instance keeps_object_preorder (r : nat) : PreOrder (keeps_object r).
Proof.
  split.
  - intros w i Hi. eauto 10.
  - intros w1 w2 w3 H12 H23 i Hi.
    destruct (H12 i Hi) as (i2 & Hi2 & E1 & E2 & E3 & E4).
    destruct (H23 i2 Hi2) as (i3 & Hi3 & F1 & F2 & F3 & F4).
    exists i3. repeat split; congruence.
Qed.

#[global] Instance same_interfaces_clock : IgnoresClock same_interfaces.
Proof. by intros f w. Qed.
#[global] Instance same_interfaces_trace : IgnoresTrace same_interfaces.
Proof. by intros f w. Qed.
#[global] Instance same_interfaces_files : IgnoresFiles same_interfaces.
Proof. by intros f w. Qed.
#[global] Instance same_interfaces_alive : IgnoresAlive same_interfaces.
Proof. by intros f w. Qed.
#[global] Instance same_interfaces_heap : IgnoresHeap same_interfaces.
Proof. by intros f w. Qed.
#[global] Instance same_interfaces_active_vms : IgnoresActiveVms same_interfaces.
Proof. by intros f w. Qed.

#[global] Instance same_heap_clock : IgnoresClock same_heap.
Proof. by intros f w. Qed.
#[global] Instance same_heap_trace : IgnoresTrace same_heap.
Proof. by intros f w. Qed.
#[global] Instance same_heap_files : IgnoresFiles same_heap.
Proof. by intros f w. Qed.
#[global] Instance same_heap_alive : IgnoresAlive same_heap.
Proof. by intros f w. Qed.
#[global] Instance same_heap_active_vms : IgnoresActiveVms same_heap.
Proof. by intros f w. Qed.

#[global] Instance same_active_vms_clock : IgnoresClock same_active_vms.
Proof. by intros f w. Qed.
#[global] Instance same_active_vms_trace : IgnoresTrace same_active_vms.
Proof. by intros f w. Qed.
#[global] Instance same_active_vms_files : IgnoresFiles same_active_vms.
Proof. by intros f w. Qed.
#[global] Instance same_active_vms_alive : IgnoresAlive same_active_vms.
Proof. by intros f w. Qed.
#[global] Instance same_active_vms_heap : IgnoresHeap same_active_vms.
Proof. by intros f w. Qed.

#[global] Instance same_files_clock : IgnoresClock same_files.
Proof. by intros f w. Qed.
#[global] Instance same_files_trace : IgnoresTrace same_files.
Proof. by intros f w. Qed.
#[global] Instance same_files_alive : IgnoresAlive same_files.
Proof. by intros f w. Qed.
#[global] Instance same_files_heap : IgnoresHeap same_files.
Proof. by intros f w. Qed.
#[global] Instance same_files_active_vms : IgnoresActiveVms same_files.
Proof. by intros f w. Qed.

#[global] Instance keeps_object_clock (r : nat) : IgnoresClock (keeps_object r).
Proof. intros f w i Hi. simpl. eauto 10. Qed.
#[global] Instance keeps_object_trace (r : nat) : IgnoresTrace (keeps_object r).
Proof. intros f w i Hi. simpl. eauto 10. Qed.
#[global] Instance keeps_object_files (r : nat) : IgnoresFiles (keeps_object r).
Proof. intros f w i Hi. simpl. eauto 10. Qed.
#[global] Instance keeps_object_alive (r : nat) : IgnoresAlive (keeps_object r).
Proof. intros f w i Hi. simpl. eauto 10. Qed.
#[global] Instance keeps_object_active_vms (r : nat) : IgnoresActiveVms (keeps_object r).
Proof. intros f w i Hi. simpl. eauto 10. Qed.

Lemma preserves_keeps_update (r r0 : nat) (f : VMInstance → VMInstance) :
  keeps_identity f → preserves (keeps_object r) (update r0 f).
Proof.
  intros Hf w res w' [= <- <-] i Hi. simpl.
  destruct (decide (r0 = r)) as [->|Hne].
  - rewrite lookup_alter_eq, Hi. simpl.
    exists (f i). split; [done|]. apply Hf.
  - rewrite lookup_alter_ne by done. eauto 10.
Qed.

Lemma keeps_identity_process (p : option Z) : keeps_identity (set_process p).
Proof. by intros i. Qed.

Lemma keeps_identity_shared_disk (p : option string) :
  keeps_identity (set_shared_disk_path p).
Proof. by intros i. Qed.

Lemma keeps_identity_init_img (p : option string) :
  keeps_identity (fun i => set_config (set_init_img p <$> config i) i).
Proof.
  intros i. repeat split.
  unfold recorded_response. simpl. by destruct (config i).
Qed.

Lemma keeps_object_launch_and_configure (env : Env) (cfg : Config) (r : nat) :
  preserves (keeps_object r) (VMManager.launch_and_configure env cfg r).
Proof.
  unfold VMManager.launch_and_configure. frame;
    first [ apply preserves_start_launcher
          | apply preserves_write_manifest
          | apply preserves_put_json
          | apply preserves_keeps_update, keeps_identity_process ];
    typeclasses eauto.
Qed.

Lemma keeps_object_prepare_guest_artifacts (env : Env) (cfg : Config)
    (vm_id : string) (r : nat) :
  preserves (keeps_object r) (VMManager.prepare_guest_artifacts env cfg vm_id r).
Proof.
  unfold VMManager.prepare_guest_artifacts. frame;
    first [ apply preserves_create_guest_tar
          | apply preserves_create_init_overlay
          | apply preserves_keeps_update, keeps_identity_shared_disk
          | apply preserves_keeps_update, keeps_identity_init_img ];
    typeclasses eauto.
Qed.

(** ** The manifest *)

(** A run of [_write_manifest] on an object that exists either publishes
    the manifest with the given state, or stops at a filesystem operation
    the host refused. *)
Lemma write_manifest_run (env : Env) (cfg : Config) (r : nat) (state : string)
    (w : World) (i : VMInstance) (res : result unit) (w' : World) :
  heap w !! r = Some i →
  VMManager._write_manifest env cfg r state w = (res, w') →
  match res with
  | Ok _ =>
      ∃ m, m !! "state" = Some (PStr state)
        ∧ m !! "provider_response" = manifest_response i
        ∧ files w' !! VMManager.manifest_file cfg (vm_id i) = Some (FJson (PDict m))
        ∧ trace w' = (trace w ++ manifest_events cfg (vm_id i) m)%list
  | Raise _ => ∃ t p, fs_ok env t p = false
  end.
Proof.
  intros Hi. unfold VMManager._write_manifest.
  rewrite bind_run. unfold deref at 1. rewrite Hi.
  rewrite bind_run, mkdir_eq. cbn zeta.
  destruct (fs_ok env (now w) _) eqn:Hmk; cbv beta iota;
    [|intros [= <- <-]; eauto].
  rewrite bind_run. unfold utc_now, tick. rewrite bind_run. cbn [ret].
  cbv beta iota.
  fold (recorded_response i).
  set (base := <["vm_id" := _]> _).
  set (m := match _ with Some v => _ | None => base end).
  rewrite bind_run, write_file_eq. cbn zeta.
  match goal with
  | |- context [if ?b then _ else _] => destruct b eqn:Hwr
  end; cbv beta iota; [|intros [= <- <-]; eauto].
  rewrite rename_eq. cbn [files with_files after with_trace with_now].
  rewrite lookup_insert_eq.
  match goal with
  | |- context [if ?b then _ else _] => destruct b eqn:Hrn
  end; [|intros [= <- <-]; eauto].
  intros [= <- <-].
  exists m. split; [|split; [|split]].
  - subst m. destruct (if negb _ then _ else _) as [v|]; [destruct (truthy v)|];
      try rewrite lookup_insert_ne by done; subst base;
      (repeat (rewrite lookup_insert_ne by done)); apply lookup_insert_eq.
  - subst m. unfold manifest_response. cbn zeta.
    assert (Hbase : base !! "provider_response" = None).
    { subst base. repeat (rewrite lookup_insert_ne by done). apply lookup_empty. }
    destruct (if negb _ then _ else _) as [v|]; [destruct (truthy v)|];
      first [done | apply lookup_insert_eq].
  - simpl. apply lookup_insert_eq.
  - simpl. unfold manifest_events. rewrite <- !app_assoc. reflexivity.
Qed.

(** On a host whose filesystem never refuses, the manifest is written. *)
Lemma write_manifest_ok (env : Env) (cfg : Config) (r : nat) (state : string)
    (w : World) (i : VMInstance) :
  (∀ t p, fs_ok env t p = true) →
  heap w !! r = Some i →
  ∃ w', VMManager._write_manifest env cfg r state w = (Ok tt, w')
    ∧ manifest_field cfg (vm_id i) "state" w' = Some (PStr state)
    ∧ manifest_field cfg (vm_id i) "provider_response" w' = manifest_response i.
Proof.
  intros Hfs Hi.
  destruct (VMManager._write_manifest env cfg r state w) as [res w'] eqn:Hrun.
  pose proof (write_manifest_run _ _ _ _ _ _ _ _ Hi Hrun) as H.
  destruct res as [[]|e].
  - destruct H as (m & Hst & Hpr & Hf & _).
    exists w'. unfold manifest_field. rewrite Hf. simpl. auto.
  - destruct H as (t & p & H). rewrite Hfs in H. discriminate.
Qed.

(** ** Starting a VM *)

Lemma deref_run (r : nat) (w : World) (i : VMInstance) :
  heap w !! r = Some i → deref r w = (Ok i, w).
Proof. intros H. unfold deref. by rewrite H. Qed.

(** The first block only rewrites the boot arguments of the object. *)
Lemma inject_api_key_run (r : nat) (key : option string) (w : World)
    (i : VMInstance) (c : VmConfig) :
  heap w !! r = Some i → config i = Some c →
  ∃ f i', VMManager.inject_api_key r key w = (Ok tt, with_heap f w)
    ∧ f (heap w) !! r = Some i'
    ∧ vm_id i' = vm_id i ∧ socket_path i' = socket_path i
    ∧ provider_response i' = provider_response i
    ∧ is_Some (config i').
Proof.
  intros Hi Hc. unfold VMManager.inject_api_key.
  rewrite (bind_ok _ _ _ _ _ (deref_run _ _ _ Hi)).
  destruct (ProviderResolver.nonempty key) as [k|].
  - rewrite Hc. eexists _, _. split; [reflexivity|].
    rewrite lookup_alter_eq, Hi. simpl. split; [reflexivity|]. eauto 10.
  - exists id, i. split; [by destruct w|]. rewrite Hc. eauto 10.
Qed.

Lemma remove_stale_socket_ok (env : Env) (r : nat) (w : World) (i : VMInstance) :
  (∀ t p, fs_ok env t p = true) →
  heap w !! r = Some i →
  ∃ w', VMManager.remove_stale_socket env r w = (Ok tt, w').
Proof.
  intros Hfs Hi. unfold VMManager.remove_stale_socket.
  rewrite (bind_ok _ _ _ _ _ (deref_run _ _ _ Hi)).
  destruct (socket_path i) as [sp|]; [|by eexists].
  rewrite bind_run. unfold path_exists, gets.
  destruct (bool_decide (is_Some (files w !! sp))) eqn:Hex; [|by eexists].
  cbn [when]. rewrite unlink_eq. cbn zeta. rewrite Hex, Hfs. by eexists.
Qed.

(** Whatever [start_vm] does, it does not touch the registry of the
    Network Provisioner. *)
Lemma start_vm_same_interfaces (env : Env) (cfg : Config) (r : nat)
    (key : option string) :
  preserves same_interfaces (VMManager.start_vm env cfg r key).
Proof. apply preserves_start_vm; typeclasses eauto. Qed.

(** On a host whose filesystem never refuses, a [start_vm] that raises
    leaves the manifest at ["failed"]. *)
Lemma start_vm_raise_marks_failed (env : Env) (cfg : Config) (r : nat)
    (key : option string) (w : World) (i : VMInstance) (c : VmConfig)
    (e : exn) (w' : World) :
  (∀ t p, fs_ok env t p = true) →
  heap w !! r = Some i → config i = Some c →
  VMManager.start_vm env cfg r key w = (Raise e, w') →
  manifest_field cfg (vm_id i) "state" w' = Some (PStr "failed").
Proof.
  intros Hfs Hi Hc H. unfold VMManager.start_vm in H.
  destruct (inject_api_key_run r key w i c Hi Hc)
    as (f & i1 & Hinj & Hi1 & Hid & _).
  rewrite (bind_ok _ _ _ _ _ Hinj) in H.
  rewrite (bind_ok _ _ _ _ _ (deref_run r (with_heap f w) i1 Hi1)) in H.
  rewrite bind_run, write_file_eq in H. cbn zeta in H. rewrite Hfs in H.
  set (w2 := with_files _ _) in H.
  assert (Hi2 : heap w2 !! r = Some i1) by exact Hi1.
  destruct (remove_stale_socket_ok env r w2 i1 Hfs Hi2) as (w3 & Hrm).
  rewrite (bind_ok _ _ _ _ _ Hrm) in H.
  destruct (preserves_remove_stale_socket (keeps_object r) env r _ _ _ Hrm i1 Hi2)
    as (i3 & Hi3 & Hid3 & _).
  destruct (VMManager.launch_and_configure env cfg r w3) as [[[]|e0] w4] eqn:Hlc.
  - rewrite (bind_ok _ _ _ _ _ (try_except_ok _ _ _ _ _ Hlc)) in H.
    destruct (keeps_object_launch_and_configure env cfg r _ _ _ Hlc i3 Hi3)
      as (i4 & Hi4 & _).
    rewrite (bind_ok _ _ _ _ _ (deref_run r w4 i4 Hi4)) in H. discriminate.
  - destruct (keeps_object_launch_and_configure env cfg r _ _ _ Hlc i3 Hi3)
      as (i4 & Hi4 & Hid4 & _).
    destruct (write_manifest_ok env cfg r "failed" w4 i4 Hfs Hi4)
      as (w5 & Hwm & Hst & _).
    assert (Hmf : VMManager.mark_failed env cfg r e0 w4 = (Raise e0, w5)).
    { unfold VMManager.mark_failed.
      by rewrite (bind_ok _ _ _ _ _ (try_except_ok _ _ _ _ _ Hwm)). }
    rewrite bind_run in H. unfold try_except in H. rewrite Hlc, Hmf in H.
    injection H as _ <-. rewrite <- Hid, <- Hid3, <- Hid4. exact Hst.
Qed.

#[global] Instance quiet_preorder : PreOrder quiet.
Proof.
  split.
  - intros w. exists []. by rewrite app_nil_r.
  - intros w1 w2 w3 (e1 & H1 & P1) (e2 & H2 & P2).
    exists (e1 ++ e2)%list. rewrite H2, H1, posts_app, P1, P2, app_assoc. done.
Qed.

#[global] Instance quiet_clock : IgnoresClock quiet.
Proof. intros f w. exists []. by rewrite app_nil_r. Qed.
#[global] Instance quiet_files : IgnoresFiles quiet.
Proof. intros f w. exists []. by rewrite app_nil_r. Qed.
#[global] Instance quiet_alive : IgnoresAlive quiet.
Proof. intros f w. exists []. by rewrite app_nil_r. Qed.
#[global] Instance quiet_heap : IgnoresHeap quiet.
Proof. intros f w. exists []. by rewrite app_nil_r. Qed.
#[global] Instance quiet_active_vms : IgnoresActiveVms quiet.
Proof. intros f w. exists []. by rewrite app_nil_r. Qed.
#[global] Instance quiet_quiet : IgnoresQuiet quiet.
Proof. intros ev w Hq. exists [ev]. split; [done|]. by destruct ev. Qed.

(** A [put_json] that returns has made one PUT, answered with a status
    that is not an error status. *)
Lemma put_json_run (env : Env) (sock path : string) (w : World)
    (b : bool) (w' : World) :
  FirecrackerClient.put_json env sock path w = (Ok b, w') →
  ∃ status body,
    w' = after (EvHttp "PUT" (FirecrackerClient._unix_socket_url sock path)
                  (Response status body)) w
    ∧ error_status status = false.
Proof.
  unfold FirecrackerClient.put_json.
  rewrite bind_run, requests_send_eq.
  destruct (http env (now w) _) as [msg|status body]; [discriminate|].
  cbv beta iota.
  destruct (status =? 204) eqn:H204.
  - intros [= <- <-]. exists status, body. split; [done|].
    apply Z.eqb_eq in H204 as ->. reflexivity.
  - rewrite bind_run. unfold raise_for_status. fold (error_status status).
    destruct (error_status status) eqn:Herr; [discriminate|].
    intros [= <- <-]. eauto.
Qed.

(** What a run of the [try] body of [start_vm] that does not raise has
    done, in order: the launch (no HTTP request among its events), the
    manifest at ["running"], and only then the two PUTs. *)
Lemma launch_and_configure_run (env : Env) (cfg : Config) (r : nat)
    (w : World) (i : VMInstance) (w' : World) :
  heap w !! r = Some i →
  VMManager.launch_and_configure env cfg r w = (Ok tt, w') →
  ∃ pre m s1 b1 s2 b2,
    trace w' = (trace w ++ pre ++ manifest_events cfg (vm_id i) m
                ++ [ EvHttp "PUT" (control_url i "/boot-source") (Response s1 b1);
                     EvHttp "PUT" (control_url i "/machine-config") (Response s2 b2) ])%list
    ∧ posts pre = 0%nat
    ∧ m !! "state" = Some (PStr "running")
    ∧ manifest_field cfg (vm_id i) "state" w' = Some (PStr "running")
    ∧ error_status s1 = false ∧ error_status s2 = false.
Proof.
  intros Hi H. unfold VMManager.launch_and_configure in H.
  rewrite (bind_ok _ _ _ _ _ (deref_run _ _ _ Hi)) in H.
  destruct (config i) as [c|]; [|discriminate].
  rewrite bind_run in H. cbn [ret] in H. cbv beta iota in H.
  destruct (drives c) as [|d ds]; [discriminate|].
  rewrite bind_run in H. cbn [ret] in H. cbv beta iota in H.
  rewrite bind_run in H.
  destruct (Launcher.start_launcher _ _ _ _ _ _ w) as [[[proc dir]|e] wl] eqn:Hl;
    [|discriminate].
  pose proof (preserves_start_launcher quiet _ _ _ _ _ _ _ _ _ Hl)
    as (pre & Hpre & Hposts).
  pose proof (preserves_start_launcher same_heap _ _ _ _ _ _ _ _ _ Hl) as Hheap.
  unfold same_heap in Hheap.
  rewrite bind_run in H. unfold update, modify in H. cbv beta iota in H.
  set (wu := with_heap _ wl) in H.
  assert (Hiu : heap wu !! r = Some (set_process (Some proc) i)).
  { subst wu. simpl. by rewrite lookup_alter_eq, Hheap, Hi. }
  rewrite bind_run in H.
  destruct (VMManager._write_manifest env cfg r "running" wu) as [[[]|e] wm] eqn:Hm;
    [|discriminate].
  pose proof (write_manifest_run _ _ _ _ _ _ _ _ Hiu Hm) as (m & Hst & _ & Hf & Htr).
  cbn [vm_id set_process] in Hf, Htr.
  rewrite bind_run in H.
  destruct (FirecrackerClient.put_json env _ "/boot-source" wm) as [[b1|e] w1] eqn:H1;
    [|discriminate].
  apply put_json_run in H1 as (s1 & body1 & -> & Herr1).
  rewrite bind_run in H.
  destruct (FirecrackerClient.put_json env _ "/machine-config" _) as [[b2|e] w2] eqn:H2;
    [|discriminate].
  apply put_json_run in H2 as (s2 & body2 & -> & Herr2).
  injection H as <-.
  exists pre, m, s1, body1, s2, body2.
  split; [|split; [done|split; [done|split; [|done]]]].
  - simpl. rewrite Htr. subst wu. simpl. rewrite Hpre.
    by rewrite <- !app_assoc.
  - unfold manifest_field. simpl. rewrite Hf. exact Hst.
Qed.

Lemma keeps_object_inject_api_key (r : nat) (key : option string) :
  preserves (keeps_object r) (VMManager.inject_api_key r key).
Proof.
  intros w res w' H i Hi. unfold VMManager.inject_api_key in H.
  rewrite (bind_ok _ _ _ _ _ (deref_run _ _ _ Hi)) in H.
  destruct (ProviderResolver.nonempty key) as [k|].
  - destruct (config i) as [c|] eqn:Hc; injection H as <- <-; [|eauto 10].
    simpl. rewrite lookup_alter_eq, Hi. simpl.
    eexists. split; [reflexivity|]. repeat split.
    unfold recorded_response. simpl. by rewrite Hc.
  - injection H as <- <-. eauto 10.
Qed.

Lemma mark_failed_raises (env : Env) (cfg : Config) (r : nat) (e : exn)
    (w : World) (res : result unit) (w' : World) :
  VMManager.mark_failed env cfg r e w = (res, w') → res = Raise e.
Proof.
  unfold VMManager.mark_failed. rewrite bind_run.
  destruct (try_except _ _ w) as [[[]|e'] w1] eqn:Ht.
  - by intros [= <- <-].
  - unfold try_except in Ht.
    destruct (VMManager._write_manifest env cfg r "failed" w) as [[[]|e''] w2];
      discriminate.
Qed.

(** C2, amended: in every [start_vm] that returns, the manifest is
    rewritten to ["running"] before the first control-plane request is
    made; the boot-source and machine-config documents are pushed right
    after that, in this order and with nothing in between, neither is
    answered with an error status, and the manifest is still at
    ["running"] when [start_vm] returns. *)
Theorem start_vm_writes_running_before_configuring
    (env : Env) (cfg : Config) (r : nat) (key : option string)
    (w : World) (i : VMInstance) (p : option Z) (w' : World) :
  heap w !! r = Some i →
  VMManager.start_vm env cfg r key w = (Ok p, w') →
  start_vm_order cfg i w w'.
Proof.
  intros Hi H. unfold VMManager.start_vm in H.
  rewrite bind_run in H.
  destruct (VMManager.inject_api_key r key w) as [[[]|e] w1] eqn:Hinj; [|discriminate].
  destruct (keeps_object_inject_api_key r key _ _ _ Hinj i Hi)
    as (i1 & Hi1 & Hid1 & Hsp1 & _).
  pose proof (preserves_inject_api_key quiet r key _ _ _ Hinj) as Hq1.
  rewrite (bind_ok _ _ _ _ _ (deref_run _ _ _ Hi1)) in H.
  rewrite bind_run in H.
  destruct (write_file env _ _ w1) as [[[]|e] w2] eqn:Hwf; [|discriminate].
  pose proof (preserves_write_file quiet _ _ _ _ _ _ Hwf) as Hq2.
  pose proof (preserves_write_file (keeps_object r) _ _ _ _ _ _ Hwf i1 Hi1)
    as (i2 & Hi2 & Hid2 & Hsp2 & _).
  rewrite bind_run in H.
  destruct (VMManager.remove_stale_socket env r w2) as [[[]|e] w3] eqn:Hrm;
    [|discriminate].
  pose proof (preserves_remove_stale_socket quiet _ _ _ _ _ Hrm) as Hq3.
  pose proof (preserves_remove_stale_socket (keeps_object r) _ _ _ _ _ Hrm i2 Hi2)
    as (i3 & Hi3 & Hid3 & Hsp3 & _).
  rewrite bind_run in H. unfold try_except in H.
  destruct (VMManager.launch_and_configure env cfg r w3) as [[[]|e] w4] eqn:Hlc.
  - pose proof (keeps_object_launch_and_configure env cfg r _ _ _ Hlc i3 Hi3)
      as (i4 & Hi4 & _).
    rewrite (bind_ok _ _ _ _ _ (deref_run _ _ _ Hi4)) in H.
    injection H as _ <-.
    destruct (launch_and_configure_run _ _ _ _ _ _ Hi3 Hlc)
      as (pre & m & s1 & b1 & s2 & b2 & Htr & Hposts & Hst & Hmf & He1 & He2).
    assert (Hq : quiet w w3) by (etransitivity; [|etransitivity]; eassumption).
    destruct Hq as (pre0 & Hpre0 & Hposts0).
    assert (Ecu : ∀ path, control_url i3 path = control_url i path).
    { intros path. unfold control_url. congruence. }
    assert (Evm : vm_id i3 = vm_id i) by congruence.
    rewrite !Ecu, Evm in *.
    exists (pre0 ++ pre)%list, m, s1, b1, s2, b2.
    split; [|split; [|done]].
    + rewrite Htr, Hpre0. by rewrite <- !app_assoc.
    + by rewrite posts_app, Hposts0, Hposts.
  - destruct (VMManager.mark_failed env cfg r e w4) as [res w5] eqn:Hmf.
    rewrite (mark_failed_raises _ _ _ _ _ _ _ Hmf) in H. discriminate.
Qed.

(** *** Scenarios *)

(** C1, as the specification states it, fails: [start_vm] fails at the
    control-plane step, and the network attachment made for the VM before
    the start is still in the provisioner's active set afterwards. *)
Lemma start_vm_failure_leaves_attachment :
  active_interfaces world_created !! "vm1" = Some attachment_vm1
  ∧ active_vms world_created !! "vm1" = Some 0%nat
  ∧ fst (VMManager.start_vm cooperative_host config_with_ollama_url 0 None world_created)
    = Raise (Exn RequestException "unreachable")
  ∧ active_interfaces
      (snd (VMManager.start_vm cooperative_host config_with_ollama_url 0 None
              world_created)) !! "vm1"
    = Some attachment_vm1.
Proof. repeat split; vm_compute; reflexivity. Qed.

(** C1, amended: when [start_vm] raises, on a host whose filesystem
    operations succeed and for an instance that has its configuration, the
    manifest has been rewritten to ["failed"] by the time the error reaches
    the caller; and [start_vm] neither creates nor releases a network
    attachment: the provisioner's active set is exactly what it was before
    the call. *)
Theorem start_vm_failure_contract
    (env : Env) (cfg : Config) (r : nat) (key : option string)
    (w : World) (i : VMInstance) (c : VmConfig) (e : exn) (w' : World) :
  (∀ t p, fs_ok env t p = true) →
  heap w !! r = Some i → config i = Some c →
  VMManager.start_vm env cfg r key w = (Raise e, w') →
  manifest_field cfg (vm_id i) "state" w' = Some (PStr "failed")
  ∧ active_interfaces w' = active_interfaces w.
Proof.
  intros Hfs Hi Hc H. split.
  - exact (start_vm_raise_marks_failed _ _ _ _ _ _ _ _ _ Hfs Hi Hc H).
  - exact (start_vm_same_interfaces _ _ _ _ _ _ _ H).
Qed.

Lemma start_vm_failure_contract_witness :
  (∀ t p, fs_ok cooperative_host t p = true)
  ∧ heap world_created !! 0%nat = Some created_instance
  ∧ config created_instance = Some created_config
  ∧ VMManager.start_vm cooperative_host config_with_ollama_url 0 None world_created
    = (Raise (Exn RequestException "unreachable"),
       snd (VMManager.start_vm cooperative_host config_with_ollama_url 0 None
              world_created))
  ∧ manifest_field config_with_ollama_url (vm_id created_instance) "state"
      (snd (VMManager.start_vm cooperative_host config_with_ollama_url 0 None
              world_created))
    = Some (PStr "failed")
  ∧ active_interfaces
      (snd (VMManager.start_vm cooperative_host config_with_ollama_url 0 None
              world_created))
    = active_interfaces world_created.
Proof.
  assert (H1 : ∀ t p, fs_ok cooperative_host t p = true) by reflexivity.
  assert (H2 : heap world_created !! 0%nat = Some created_instance)
    by (vm_compute; reflexivity).
  assert (H3 : config created_instance = Some created_config)
    by (vm_compute; reflexivity).
  assert (H4 : VMManager.start_vm cooperative_host config_with_ollama_url 0 None
                 world_created
               = (Raise (Exn RequestException "unreachable"),
                  snd (VMManager.start_vm cooperative_host config_with_ollama_url
                         0 None world_created))).
  { rewrite (surjective_pairing (VMManager.start_vm _ _ _ _ _)) at 1.
    f_equal; vm_compute; reflexivity. }
  split; [exact H1|]. split; [exact H2|]. split; [exact H3|]. split; [exact H4|].
  exact (start_vm_failure_contract cooperative_host config_with_ollama_url 0 None
           world_created created_instance created_config _ _ H1 H2 H3 H4).
Defined.

(** C2, as the specification states it, fails: in a start that succeeds,
    the manifest is published at ["running"] before either document has
    been pushed. *)
Lemma start_vm_publishes_running_first :
  fst (VMManager.start_vm responsive_host config_with_ollama_url 0 None
         world_created_responsive) = Ok (Some 4242)
  ∧ running_only_after_pushes config_with_ollama_url responsive_instance false false
      (drop (length (trace world_created_responsive))
         (trace (snd (VMManager.start_vm responsive_host config_with_ollama_url 0 None
                        world_created_responsive))))
    = false.
Proof. split; vm_compute; reflexivity. Qed.

Lemma start_vm_order_witness :
  heap world_created_responsive !! 0%nat = Some responsive_instance
  ∧ VMManager.start_vm responsive_host config_with_ollama_url 0 None
      world_created_responsive
    = (Ok (Some 4242),
       snd (VMManager.start_vm responsive_host config_with_ollama_url 0 None
              world_created_responsive))
  ∧ start_vm_order config_with_ollama_url responsive_instance
      world_created_responsive
      (snd (VMManager.start_vm responsive_host config_with_ollama_url 0 None
              world_created_responsive)).
Proof.
  assert (H1 : heap world_created_responsive !! 0%nat = Some responsive_instance)
    by (vm_compute; reflexivity).
  assert (H2 : VMManager.start_vm responsive_host config_with_ollama_url 0 None
                 world_created_responsive
               = (Ok (Some 4242),
                  snd (VMManager.start_vm responsive_host config_with_ollama_url
                         0 None world_created_responsive))).
  { rewrite (surjective_pairing (VMManager.start_vm _ _ _ _ _)) at 1.
    f_equal; vm_compute; reflexivity. }
  split; [exact H1|]. split; [exact H2|].
  exact (start_vm_writes_running_before_configuring responsive_host
           config_with_ollama_url 0 None world_created_responsive
           responsive_instance _ _ H1 H2).
Defined.

(** ** Runs that cannot raise *)

Lemma never_raises_ok {A} (m : M A) (w : World) :
  raises_within [] m → ∃ a w', m w = (Ok a, w').
Proof.
  intros H. destruct (m w) as [[a|e] w'] eqn:E; [eauto|].
  pose proof (H _ _ _ _ E eq_refl) as Hin. by apply not_elem_of_nil in Hin.
Qed.

Lemma raises_within_ret {A} (cs : list exn_class) (a : A) : raises_within cs (ret a).
Proof. intros w r w' e [= <- <-]. discriminate. Qed.

Lemma raises_within_gets {A} (cs : list exn_class) (f : World → A) :
  raises_within cs (gets f).
Proof. intros w r w' e [= <- <-]. discriminate. Qed.

Lemma raises_within_modify (cs : list exn_class) (f : World → World) :
  raises_within cs (modify f).
Proof. intros w r w' e [= <- <-]. discriminate. Qed.

Lemma raises_within_raise {A} (cs : list exn_class) (e : exn) :
  exn_cls e ∈ cs → raises_within cs (@raise A e).
Proof. intros He w r w' e' [= <- <-] [= <-]. exact He. Qed.

Lemma raises_within_bind {A B} (cs : list exn_class) (m : M A) (k : A → M B) :
  raises_within cs m → (∀ a, raises_within cs (k a)) → raises_within cs (m ≫= k).
Proof.
  intros Hm Hk w r w' e. rewrite bind_run.
  destruct (m w) as [[a|e0] w1] eqn:E.
  - apply Hk.
  - intros [= <- <-] [= <-]. exact (Hm _ _ _ _ E eq_refl).
Qed.

Lemma raises_within_try_except_of {A} (cs caught : list exn_class)
    (m : M A) (h : exn → M A) :
  raises_within (caught ++ cs) m → (∀ e, raises_within cs (h e)) →
  raises_within cs (try_except_of caught m h).
Proof.
  intros Hm Hh w r w' e. unfold try_except_of, try_except.
  destruct (m w) as [[a|e0] w1] eqn:E; [intros [= <- <-]; discriminate|].
  destruct (bool_decide (exn_cls e0 ∈ caught)) eqn:Hc.
  - apply Hh.
  - intros [= <- <-] [= <-].
    pose proof (Hm _ _ _ _ E eq_refl) as Hin.
    apply bool_decide_eq_false in Hc.
    apply elem_of_app in Hin as [Hin|Hin]; [done|exact Hin].
Qed.

Lemma raises_within_when (cs : list exn_class) (b : bool) (m : M unit) :
  raises_within cs m → raises_within cs (when b m).
Proof. intros Hm. destruct b; [exact Hm|apply raises_within_ret]. Qed.

Lemma raises_within_poll (cs : list exn_class) (env : Env) (pid : Z) :
  raises_within cs (poll_is_none env pid).
Proof.
  unfold poll_is_none.
  apply raises_within_bind; [intros w r w' e [= <- <-]; discriminate|intros t].
  apply raises_within_bind; [apply raises_within_gets|intros up].
  destruct (up && stays_up env t pid); [apply raises_within_ret|].
  apply raises_within_bind; [apply raises_within_modify|intros _].
  apply raises_within_ret.
Qed.

Lemma raises_within_send_signal (cs : list exn_class) (env : Env) (pid : Z)
    (name : string) :
  ProcessLookupError ∈ cs → raises_within cs (send_signal env pid name).
Proof.
  intros Hcs. unfold send_signal.
  apply raises_within_bind; [intros w r w' e [= <- <-]; discriminate|intros t].
  apply raises_within_bind; [apply raises_within_modify|intros _].
  destruct (signal_ok env t pid); [apply raises_within_ret|].
  apply raises_within_bind; [apply raises_within_modify|intros _].
  by apply raises_within_raise.
Qed.

Lemma raises_within_wait (cs : list exn_class) (env : Env) (pid : Z)
    (timeout : option Z) :
  TimeoutExpired ∈ cs → raises_within cs (wait env pid timeout).
Proof.
  intros Hcs. unfold wait. destruct timeout.
  - apply raises_within_bind; [intros w r w' e [= <- <-]; discriminate|intros t].
    apply raises_within_bind; [apply raises_within_modify|intros _].
    destruct (wait_exits env t pid); [apply raises_within_modify|].
    by apply raises_within_raise.
  - apply raises_within_bind; [apply raises_within_modify|intros _].
    apply raises_within_modify.
Qed.

Lemma raises_within_wait_forever (cs : list exn_class) (env : Env) (pid : Z) :
  raises_within cs (wait env pid None).
Proof.
  unfold wait.
  apply raises_within_bind; [apply raises_within_modify|intros _].
  apply raises_within_modify.
Qed.

Lemma raises_within_unlink (cs : list exn_class) (env : Env) (p : string) :
  OSError ∈ cs → raises_within cs (unlink env p).
Proof.
  intros Hcs w r w' e. rewrite unlink_eq. cbn zeta.
  destruct (_ && _); intros [= <- <-]; [discriminate|].
  intros [= <-]. exact Hcs.
Qed.

Lemma remove_if_exists_never_raises (env : Env) (p : option string) :
  raises_within [] (VMManager.remove_if_exists env p).
Proof.
  unfold VMManager.remove_if_exists. destruct p as [p|]; [|apply raises_within_ret].
  apply raises_within_bind; [apply raises_within_gets|intros found].
  apply raises_within_when.
  apply raises_within_try_except_of; [|intros _; apply raises_within_ret].
  apply raises_within_unlink. set_solver.
Qed.

(** The escalation of [stop_vm] handles every exception it can meet. *)
Lemma escalation_never_raises (env : Env) (cfg : Config) (pid : Z) :
  raises_within []
    (try_except_of [ProcessLookupError]
       (send_signal env pid "SIGTERM" ;;
        try_except_of [TimeoutExpired]
          (wait env pid (Some (vm_shutdown_timeout cfg)))
          (fun _ => send_signal env pid "SIGKILL" ;; wait env pid None))
       (fun _ => ret tt)).
Proof.
  apply raises_within_try_except_of; [|intros _; apply raises_within_ret].
  apply raises_within_bind; [apply raises_within_send_signal; set_solver|intros _].
  apply raises_within_try_except_of.
  - apply raises_within_wait. set_solver.
  - intros _. apply raises_within_bind.
    + apply raises_within_send_signal. set_solver.
    + intros _. apply raises_within_wait_forever.
Qed.

Lemma terminate_process_ok (env : Env) (cfg : Config) (r : nat)
    (w : World) (i : VMInstance) :
  heap w !! r = Some i →
  ∃ w', VMManager.terminate_process env cfg r w = (Ok tt, w').
Proof.
  intros Hi. unfold VMManager.terminate_process.
  rewrite (bind_ok _ _ _ _ _ (deref_run _ _ _ Hi)).
  destruct (process i) as [pid|]; [|by eexists].
  match goal with
  | |- ∃ w', ?m w = _ =>
      assert (Hnr : raises_within [] m); [|destruct (never_raises_ok m w Hnr) as ([] & w' & ->); eauto]
  end.
  apply raises_within_bind; [apply raises_within_poll|intros running].
  apply raises_within_when, escalation_never_raises.
Qed.

Lemma cleanup_vm_files_ok (env : Env) (r : nat) (w : World) (i : VMInstance) :
  heap w !! r = Some i →
  ∃ w', VMManager._cleanup_vm_files env r w = (Ok tt, w').
Proof.
  intros Hi. unfold VMManager._cleanup_vm_files.
  rewrite (bind_ok _ _ _ _ _ (deref_run _ _ _ Hi)).
  match goal with
  | |- ∃ w', ?m w = _ =>
      assert (Hnr : raises_within [] m); [|destruct (never_raises_ok m w Hnr) as ([] & w' & ->); eauto]
  end.
  repeat (apply raises_within_bind; [apply remove_if_exists_never_raises|intros _]).
  apply remove_if_exists_never_raises.
Qed.

(** ** Paths *)

Lemma last_char_app (s t : string) (c : ascii) :
  last_char t = Some c → last_char (s +:+ t) = Some c.
Proof. intros Ht. induction s as [|x s IH]; simpl; [exact Ht|by rewrite IH]. Qed.

Lemma last_char_path_join (a b : string) (c : ascii) :
  last_char b = Some c → last_char (path_join a b) = Some c.
Proof.
  intros Hb. unfold path_join. destruct (starts_with "/" b); [exact Hb|].
  by do 2 apply last_char_app.
Qed.

Lemma last_char_neq (p q : string) (c d : ascii) :
  last_char p = Some c → last_char q = Some d → c ≠ d → p ≠ q.
Proof. intros Hp Hq Hne ->. congruence. Qed.

Ltac last_char :=
  repeat first [ reflexivity | apply last_char_path_join | apply last_char_app ].

(** [paths_differ] proves [p ≠ q] for two of the manager's paths. *)
Ltac paths_differ :=
  unfold VMManager.shared_disk_file, VMManager.socket_file, VMManager.config_file,
    VMManager.manifest_file, VMManager.guest_tar_file;
  eapply last_char_neq; [solve [last_char] | solve [last_char] | discriminate].

Lemma guest_tar_is_not_the_image (cfg : Config) (vm_id : string) :
  VMManager.guest_tar_file cfg vm_id ≠ VMManager.shared_disk_file vm_id.
Proof. paths_differ. Qed.

Lemma socket_is_not_the_image (vm_id : string) :
  VMManager.socket_file vm_id ≠ VMManager.shared_disk_file vm_id.
Proof. paths_differ. Qed.

Lemma config_is_not_the_image (vm_id : string) :
  VMManager.config_file vm_id ≠ VMManager.shared_disk_file vm_id.
Proof. paths_differ. Qed.

(** ** What a run does to one file *)

#[global] Instance keeps_file_preorder (p : string) : PreOrder (keeps_file p).
Proof. split; unfold keeps_file; [intros w|intros w1 w2 w3]; congruence. Qed.
#[global] Instance keeps_file_clock (p : string) : IgnoresClock (keeps_file p).
Proof. by intros f w. Qed.
#[global] Instance keeps_file_trace (p : string) : IgnoresTrace (keeps_file p).
Proof. by intros f w. Qed.
#[global] Instance keeps_file_alive (p : string) : IgnoresAlive (keeps_file p).
Proof. by intros f w. Qed.
#[global] Instance keeps_file_heap (p : string) : IgnoresHeap (keeps_file p).
Proof. by intros f w. Qed.
#[global] Instance keeps_file_active_vms (p : string) : IgnoresActiveVms (keeps_file p).
Proof. by intros f w. Qed.

#[global] Instance only_deletes_preorder : PreOrder only_deletes.
Proof. split; unfold only_deletes; [intros w|intros w1 w2 w3]; eauto. Qed.
#[global] Instance only_deletes_clock : IgnoresClock only_deletes.
Proof. by intros f w q Hq. Qed.
#[global] Instance only_deletes_trace : IgnoresTrace only_deletes.
Proof. by intros f w q Hq. Qed.
#[global] Instance only_deletes_alive : IgnoresAlive only_deletes.
Proof. by intros f w q Hq. Qed.
#[global] Instance only_deletes_heap : IgnoresHeap only_deletes.
Proof. by intros f w q Hq. Qed.
#[global] Instance only_deletes_active_vms : IgnoresActiveVms only_deletes.
Proof. by intros f w q Hq. Qed.

Lemma keeps_file_write_file (env : Env) (p q : string) (c : file) :
  q ≠ p → preserves (keeps_file p) (write_file env q c).
Proof.
  intros Hne w r w'. rewrite write_file_eq. cbn zeta.
  destruct (fs_ok env (now w) q); intros [= <- <-]; unfold keeps_file; simpl; [|done].
  by rewrite lookup_insert_ne.
Qed.

Lemma keeps_file_unlink (env : Env) (p q : string) :
  q ≠ p → preserves (keeps_file p) (unlink env q).
Proof.
  intros Hne w r w'. rewrite unlink_eq. cbn zeta.
  destruct (_ && _); intros [= <- <-]; unfold keeps_file; simpl; [|done].
  by rewrite lookup_delete_ne.
Qed.

Lemma keeps_file_rename (env : Env) (p src dst : string) :
  src ≠ p → dst ≠ p → preserves (keeps_file p) (rename env src dst).
Proof.
  intros Hs Hd w r w'. rewrite rename_eq.
  destruct (files w !! src); [destruct (fs_ok env (now w) dst)|]; intros [= <- <-];
    unfold keeps_file; simpl; try done.
  by rewrite lookup_insert_ne, lookup_delete_ne.
Qed.

Lemma only_deletes_unlink (env : Env) (q : string) :
  preserves only_deletes (unlink env q).
Proof.
  intros w r w'. rewrite unlink_eq. cbn zeta.
  destruct (_ && _); intros [= <- <-] p Hp; simpl; [|done].
  destruct (decide (q = p)) as [->|Hne];
    [apply lookup_delete_eq|by rewrite lookup_delete_ne].
Qed.

Lemma keeps_file_remove_if_exists (env : Env) (p : string) (q : option string) :
  q ≠ Some p → preserves (keeps_file p) (VMManager.remove_if_exists env q).
Proof.
  intros Hne. unfold VMManager.remove_if_exists. frame.
  apply keeps_file_unlink. congruence.
Qed.

Lemma only_deletes_remove_if_exists (env : Env) (q : option string) :
  preserves only_deletes (VMManager.remove_if_exists env q).
Proof. unfold VMManager.remove_if_exists. frame. apply only_deletes_unlink. Qed.

(** Where unlinking succeeds, the file is gone after its cleanup block. *)
Lemma remove_if_exists_gone (env : Env) (p : string) (w : World)
    (r : result unit) (w' : World) :
  (∀ t q, fs_ok env t q = true) →
  VMManager.remove_if_exists env (Some p) w = (r, w') →
  files w' !! p = None.
Proof.
  intros Hfs. unfold VMManager.remove_if_exists.
  rewrite bind_run. unfold path_exists, gets.
  destruct (bool_decide (is_Some (files w !! p))) eqn:Hex; cbn [when].
  - unfold try_except_of, try_except. rewrite unlink_eq. cbn zeta.
    rewrite Hex, Hfs. intros [= <- <-]. simpl. apply lookup_delete_eq.
  - intros [= <- <-]. apply bool_decide_eq_false in Hex.
    by apply eq_None_not_Some.
Qed.

(** ** Stopping a VM *)

#[global] Instance same_alive_preorder : PreOrder same_alive.
Proof. split; unfold same_alive; [intros w|intros w1 w2 w3]; congruence. Qed.
#[global] Instance same_alive_clock : IgnoresClock same_alive.
Proof. by intros f w. Qed.
#[global] Instance same_alive_trace : IgnoresTrace same_alive.
Proof. by intros f w. Qed.
#[global] Instance same_alive_files : IgnoresFiles same_alive.
Proof. by intros f w. Qed.
#[global] Instance same_alive_heap : IgnoresHeap same_alive.
Proof. by intros f w. Qed.
#[global] Instance same_alive_active_vms : IgnoresActiveVms same_alive.
Proof. by intros f w. Qed.

#[global] Instance untouched_preorder : PreOrder untouched.
Proof.
  split; unfold untouched; [intros w|intros w1 w2 w3 [] []]; split; congruence.
Qed.
#[global] Instance untouched_clock : IgnoresClock untouched.
Proof. by intros f w. Qed.
#[global] Instance untouched_alive : IgnoresAlive untouched.
Proof. by intros f w. Qed.
#[global] Instance untouched_heap : IgnoresHeap untouched.
Proof. by intros f w. Qed.
#[global] Instance untouched_active_vms : IgnoresActiveVms untouched.
Proof. by intros f w. Qed.

Lemma poll_is_none_eq (env : Env) (pid : Z) (w : World) :
  poll_is_none env pid w =
    if bool_decide (pid ∈ alive w) && stays_up env (now w) pid
    then (Ok true, with_now S w)
    else (Ok false, with_alive (fun a => a ∖ {[pid]}) (with_now S w)).
Proof.
  unfold poll_is_none. rewrite bind_run. unfold tick. cbv beta iota.
  rewrite bind_run. unfold gets. cbv beta iota. simpl.
  by destruct (bool_decide (pid ∈ alive w) && stays_up env (now w) pid).
Qed.

Lemma send_signal_eq (env : Env) (pid : Z) (name : string) (w : World) :
  send_signal env pid name w =
    let ok := signal_ok env (now w) pid in
    let w1 := after (EvSignal pid name ok) w in
    if ok then (Ok tt, w1)
    else (Raise (Exn ProcessLookupError name), with_alive (fun a => a ∖ {[pid]}) w1).
Proof.
  unfold send_signal. rewrite bind_run. unfold tick. cbv beta iota.
  rewrite bind_run. simpl.
  by destruct (signal_ok env (now w) pid).
Qed.

Lemma wait_eq (env : Env) (pid : Z) (timeout : Z) (w : World) :
  wait env pid (Some timeout) w =
    let exited := wait_exits env (now w) pid in
    let w1 := after (EvWait pid exited) w in
    if exited then (Ok tt, with_alive (fun a => a ∖ {[pid]}) w1)
    else (Raise (Exn TimeoutExpired "wait"), w1).
Proof.
  unfold wait. rewrite bind_run. unfold tick. cbv beta iota.
  rewrite bind_run. simpl.
  by destruct (wait_exits env (now w) pid).
Qed.

Lemma wait_forever_eq (env : Env) (pid : Z) (w : World) :
  wait env pid None w =
    (Ok tt, with_alive (fun a => a ∖ {[pid]}) (logged (EvWait pid true) w)).
Proof. reflexivity. Qed.

Lemma not_alive_after_removal (pid : Z) (a : gset Z) : pid ∉ a ∖ {[pid]}.
Proof. intros [_ Hn]%elem_of_difference. apply Hn. by apply elem_of_singleton. Qed.

(** However the escalation goes, the child is gone when
    [terminate_process] is over. *)
Lemma terminate_process_ends (env : Env) (cfg : Config) (r : nat) (w : World)
    (i : VMInstance) (pid : Z) (res : result unit) (w' : World) :
  heap w !! r = Some i → process i = Some pid →
  VMManager.terminate_process env cfg r w = (res, w') →
  pid ∉ alive w'.
Proof.
  intros Hi Hp. unfold VMManager.terminate_process.
  rewrite (bind_ok _ _ _ _ _ (deref_run _ _ _ Hi)), Hp.
  rewrite bind_run, poll_is_none_eq.
  destruct (_ && _); cbv beta iota; cbn [when];
    [|intros [= <- <-]; simpl; apply not_alive_after_removal].
  unfold try_except_of, try_except. rewrite bind_run, send_signal_eq. cbn zeta.
  destruct (signal_ok env _ pid); cbv beta iota.
  2:{ rewrite (bool_decide_eq_true_2 (_ ∈ [ProcessLookupError])) by (apply list_elem_of_singleton; reflexivity).
      intros [= <- <-]. simpl. apply not_alive_after_removal. }
  rewrite wait_eq. cbn zeta.
  destruct (wait_exits env _ pid); cbv beta iota;
    [intros [= <- <-]; simpl; apply not_alive_after_removal|].
  rewrite (bool_decide_eq_true_2 (_ ∈ [TimeoutExpired])) by (apply list_elem_of_singleton; reflexivity).
  rewrite bind_run, send_signal_eq. cbn zeta.
  destruct (signal_ok env _ pid); cbv beta iota.
  - rewrite wait_forever_eq. intros [= <- <-]. simpl. apply not_alive_after_removal.
  - rewrite (bool_decide_eq_true_2 (_ ∈ [ProcessLookupError])) by (apply list_elem_of_singleton; reflexivity).
    intros [= <- <-]. simpl. apply not_alive_after_removal.
Qed.

(** With the child gone, [terminate_process] only polls. *)
Lemma terminate_process_again (env : Env) (cfg : Config) (r : nat) (w : World)
    (i : VMInstance) :
  heap w !! r = Some i →
  (∀ pid, process i = Some pid → pid ∉ alive w) →
  ∃ w', VMManager.terminate_process env cfg r w = (Ok tt, w') ∧ untouched w w'.
Proof.
  intros Hi Hdead. unfold VMManager.terminate_process.
  rewrite (bind_ok _ _ _ _ _ (deref_run _ _ _ Hi)).
  destruct (process i) as [pid|]; [|by eexists].
  rewrite bind_run, poll_is_none_eq.
  rewrite (bool_decide_eq_false_2 _ (Hdead pid eq_refl)). simpl.
  by eexists.
Qed.

(** A cleanup block whose file is not there does nothing. *)
Lemma remove_if_exists_absent (env : Env) (p : option string) (w : World) :
  (∀ q, p = Some q → files w !! q = None) →
  VMManager.remove_if_exists env p w = (Ok tt, w).
Proof.
  intros Habs. unfold VMManager.remove_if_exists. destruct p as [q|]; [|done].
  rewrite bind_run. unfold path_exists, gets.
  rewrite bool_decide_eq_false_2; [done|].
  rewrite (Habs q eq_refl). by intros [? ?].
Qed.

Lemma cleanup_vm_files_again (env : Env) (r : nat) (w : World) (i : VMInstance) :
  heap w !! r = Some i →
  (∀ p, p ∈ cleanup_targets i → files w !! p = None) →
  VMManager._cleanup_vm_files env r w = (Ok tt, w).
Proof.
  intros Hi Habs. unfold VMManager._cleanup_vm_files.
  rewrite (bind_ok _ _ _ _ _ (deref_run _ _ _ Hi)).
  unfold cleanup_targets in Habs.
  rewrite bind_run, remove_if_exists_absent; cbv beta iota.
  2:{ intros q Hq. apply Habs. rewrite Hq. simpl. apply list_elem_of_here. }
  rewrite bind_run, remove_if_exists_absent; cbv beta iota.
  2:{ intros q Hq. apply Habs. rewrite Hq. apply elem_of_app. right.
      simpl. apply list_elem_of_here. }
  apply remove_if_exists_absent.
  intros q [= <-]. apply Habs. do 2 (apply elem_of_app; right).
  apply list_elem_of_here.
Qed.

(** Where unlinking succeeds, every file the cleanup names is gone. *)
Lemma cleanup_vm_files_gone (env : Env) (r : nat) (w : World) (i : VMInstance)
    (res : result unit) (w' : World) :
  (∀ t q, fs_ok env t q = true) →
  heap w !! r = Some i →
  VMManager._cleanup_vm_files env r w = (res, w') →
  ∀ p, p ∈ cleanup_targets i → files w' !! p = None.
Proof.
  intros Hfs Hi. unfold VMManager._cleanup_vm_files.
  rewrite (bind_ok _ _ _ _ _ (deref_run _ _ _ Hi)).
  rewrite bind_run.
  destruct (VMManager.remove_if_exists env (socket_path i) w) as [[[]|e] w1] eqn:E1.
  2:{ pose proof (remove_if_exists_never_raises env _ _ _ _ _ E1 eq_refl) as Hin.
      by apply not_elem_of_nil in Hin. }
  rewrite bind_run.
  destruct (VMManager.remove_if_exists env (shared_disk_path i) w1)
    as [[[]|e] w2] eqn:E2.
  2:{ pose proof (remove_if_exists_never_raises env _ _ _ _ _ E2 eq_refl) as Hin.
      by apply not_elem_of_nil in Hin. }
  intros E3 p Hp. unfold cleanup_targets in Hp.
  pose proof (only_deletes_remove_if_exists env _ _ _ _ E2) as D2.
  pose proof (only_deletes_remove_if_exists env _ _ _ _ E3) as D3.
  apply elem_of_app in Hp as [Hp|Hp]; [|apply elem_of_app in Hp as [Hp|Hp]].
  - destruct (socket_path i) as [q|]; [|by apply elem_of_nil in Hp].
    apply list_elem_of_singleton in Hp as ->.
    apply D3, D2. exact (remove_if_exists_gone _ _ _ _ _ Hfs E1).
  - destruct (shared_disk_path i) as [q|]; [|by apply elem_of_nil in Hp].
    apply list_elem_of_singleton in Hp as ->.
    apply D3. exact (remove_if_exists_gone _ _ _ _ _ Hfs E2).
  - apply list_elem_of_singleton in Hp as ->.
    exact (remove_if_exists_gone _ _ _ _ _ Hfs E3).
Qed.

(** [stop_vm] on an object that exists returns.  The object is still
    there, its id has left the registry, its process is gone, the
    provisioner's registry has not been touched, and where unlinking
    succeeds the files the cleanup names are gone. *)
Lemma stop_vm_run (env : Env) (cfg : Config) (r : nat) (w : World) (i : VMInstance) :
  heap w !! r = Some i →
  ∃ w', VMManager.stop_vm env cfg r w = (Ok tt, w')
    ∧ heap w' = heap w
    ∧ active_interfaces w' = active_interfaces w
    ∧ active_vms w' = delete (vm_id i) (active_vms w)
    ∧ (∀ pid, process i = Some pid → pid ∉ alive w')
    ∧ ((∀ t q, fs_ok env t q = true) →
       ∀ p, p ∈ cleanup_targets i → files w' !! p = None).
Proof.
  intros Hi.
  destruct (VMManager.stop_vm env cfg r w) as [res w'] eqn:Hrun.
  pose proof (preserves_stop_vm same_heap _ _ _ _ _ _ Hrun) as Hheap.
  pose proof (preserves_stop_vm same_interfaces _ _ _ _ _ _ Hrun) as Hif.
  unfold VMManager.stop_vm in Hrun.
  destruct (terminate_process_ok env cfg r w i Hi) as (w1 & Ht).
  pose proof (preserves_terminate_process same_heap _ _ _ _ _ _ Ht) as Hh1.
  pose proof (preserves_terminate_process same_active_vms _ _ _ _ _ _ Ht) as Hv1.
  rewrite (bind_ok _ _ _ _ _ Ht) in Hrun.
  assert (Hi1 : heap w1 !! r = Some i) by (by rewrite Hh1).
  destruct (cleanup_vm_files_ok env r w1 i Hi1) as (w2 & Hc).
  pose proof (preserves_cleanup_vm_files same_heap _ _ _ _ _ Hc) as Hh2.
  pose proof (preserves_cleanup_vm_files same_active_vms _ _ _ _ _ Hc) as Hv2.
  pose proof (preserves_cleanup_vm_files same_alive _ _ _ _ _ Hc) as Ha2.
  rewrite (bind_ok _ _ _ _ _ Hc) in Hrun.
  assert (Hi2 : heap w2 !! r = Some i) by (by rewrite Hh2).
  rewrite (bind_ok _ _ _ _ _ (deref_run _ _ _ Hi2)) in Hrun.
  rewrite bind_run in Hrun. unfold gets in Hrun. cbv beta iota in Hrun.
  assert (Hdead : ∀ pid, process i = Some pid → pid ∉ alive w2).
  { intros pid Hp. rewrite Ha2. exact (terminate_process_ends _ _ _ _ _ _ _ _ Hi Hp Ht). }
  assert (Hgone : (∀ t q, fs_ok env t q = true) →
                  ∀ p, p ∈ cleanup_targets i → files w2 !! p = None).
  { intros Hfs. exact (cleanup_vm_files_gone _ _ _ _ _ _ Hfs Hi1 Hc). }
  exists w'.
  destruct (bool_decide (is_Some (active_vms w2 !! vm_id i))) eqn:Hreg;
    injection Hrun as <- <-; (split; [done|split; [done|split; [done|]]]).
  - split; [|by split]. simpl. by rewrite Hv2, Hv1.
  - split; [|by split]. apply bool_decide_eq_false in Hreg.
    apply eq_None_not_Some in Hreg. rewrite Hv2, Hv1 in Hreg |- *.
    by rewrite delete_id.
Qed.

(** A stop that finds the process gone, the files removed and the id
    out of the registry does nothing. *)
Lemma stop_vm_again (env : Env) (cfg : Config) (r : nat) (w : World) (i : VMInstance) :
  heap w !! r = Some i →
  (∀ pid, process i = Some pid → pid ∉ alive w) →
  (∀ p, p ∈ cleanup_targets i → files w !! p = None) →
  active_vms w !! vm_id i = None →
  ∃ w', VMManager.stop_vm env cfg r w = (Ok tt, w')
    ∧ untouched w w' ∧ active_vms w' = active_vms w.
Proof.
  intros Hi Hdead Habs Hreg. unfold VMManager.stop_vm.
  destruct (terminate_process_again env cfg r w i Hi Hdead) as (w1 & Ht & Hfiles & Htrace).
  pose proof (preserves_terminate_process same_heap _ _ _ _ _ _ Ht) as Hh1.
  pose proof (preserves_terminate_process same_active_vms _ _ _ _ _ _ Ht) as Hv1.
  rewrite (bind_ok _ _ _ _ _ Ht).
  assert (Hi1 : heap w1 !! r = Some i) by (by rewrite Hh1).
  rewrite (bind_ok _ _ _ _ _ (cleanup_vm_files_again env r w1 i Hi1
             ltac:(intros p Hp; rewrite Hfiles; by apply Habs))).
  rewrite (bind_ok _ _ _ _ _ (deref_run _ _ _ Hi1)).
  rewrite bind_run. unfold gets. cbv beta iota.
  rewrite bool_decide_eq_false_2.
  2:{ rewrite Hv1, Hreg. by intros [? ?]. }
  exists w1. by repeat split.
Qed.

(** *** C4 *)

(** C4, as the specification states it, fails: the VM created after its
    network attachment is stopped without error, and afterwards the
    attachment is still in the provisioner's active set and the
    shared-channel image is still on disk. *)
Lemma stop_vm_leaves_attachment_and_image :
  fst (VMManager.stop_vm cooperative_host config_with_ollama_url 0 world_created) = Ok tt
  ∧ active_interfaces
      (snd (VMManager.stop_vm cooperative_host config_with_ollama_url 0 world_created))
      !! "vm1" = Some attachment_vm1
  ∧ files
      (snd (VMManager.stop_vm cooperative_host config_with_ollama_url 0 world_created))
      !! "/tmp/shared-vm1.ext4" = Some (FBlob "ext4").
Proof. repeat split; vm_compute; reflexivity. Qed.

(** C4, amended: for every instance, calling [stop_vm] twice in a row
    never raises.  The first call removes the instance from the registry
    and leaves the provisioner's active set exactly as it was; where
    unlinking succeeds, the control socket, the boot-config file and the
    file the instance's [shared_disk_path] names are gone.  The second call
    then changes no file, logs no host interaction and leaves both
    registries as the first call left them. *)
Theorem stop_vm_idempotent (env : Env) (cfg : Config) (r : nat)
    (w : World) (i : VMInstance) :
  heap w !! r = Some i →
  ∃ w1 w2,
    VMManager.stop_vm env cfg r w = (Ok tt, w1)
    ∧ VMManager.stop_vm env cfg r w1 = (Ok tt, w2)
    ∧ active_vms w1 !! vm_id i = None
    ∧ active_vms w2 = active_vms w1
    ∧ active_interfaces w1 = active_interfaces w
    ∧ active_interfaces w2 = active_interfaces w
    ∧ ((∀ t q, fs_ok env t q = true) →
       (∀ p, p ∈ cleanup_targets i → files w1 !! p = None)
       ∧ untouched w1 w2).
Proof.
  intros Hi.
  destruct (stop_vm_run env cfg r w i Hi) as (w1 & H1 & Hh1 & Hif1 & Hv1 & Hdead & Hgone).
  assert (Hi1 : heap w1 !! r = Some i) by (by rewrite Hh1).
  destruct (stop_vm_run env cfg r w1 i Hi1) as (w2 & H2 & _ & Hif2 & Hv2 & _ & _).
  assert (Hreg : active_vms w1 !! vm_id i = None)
    by (rewrite Hv1; apply lookup_delete_eq).
  exists w1, w2. repeat split; try done.
  - rewrite Hv2. by apply delete_id.
  - congruence.
  - by apply Hgone.
  - destruct (stop_vm_again env cfg r w1 i Hi1 Hdead (Hgone H) Hreg)
      as (w2' & H2' & [Hf _] & _).
    congruence.
  - destruct (stop_vm_again env cfg r w1 i Hi1 Hdead (Hgone H) Hreg)
      as (w2' & H2' & [_ Htr] & _).
    congruence.
Qed.

Lemma stop_vm_idempotent_witness :
  heap world_created !! 0%nat = Some created_instance
  ∧ ∃ w1 w2,
      VMManager.stop_vm cooperative_host config_with_ollama_url 0 world_created = (Ok tt, w1)
      ∧ VMManager.stop_vm cooperative_host config_with_ollama_url 0 w1 = (Ok tt, w2)
      ∧ active_vms w1 !! vm_id created_instance = None
      ∧ active_vms w2 = active_vms w1
      ∧ active_interfaces w1 = active_interfaces world_created
      ∧ active_interfaces w2 = active_interfaces world_created
      ∧ ((∀ t q, fs_ok cooperative_host t q = true) →
         (∀ p, p ∈ cleanup_targets created_instance → files w1 !! p = None)
         ∧ untouched w1 w2).
Proof.
  assert (H1 : heap world_created !! 0%nat = Some created_instance)
    by (vm_compute; reflexivity).
  split; [exact H1|].
  exact (stop_vm_idempotent cooperative_host config_with_ollama_url 0
           world_created created_instance H1).
Defined.

(** ** Creating a VM *)

Lemma bind_ok_inv {A B} (m : M A) (k : A → M B) (w : World) (b : B) (w' : World) :
  (m ≫= k) w = (Ok b, w') →
  ∃ a w1, m w = (Ok a, w1) ∧ k a w1 = (Ok b, w').
Proof.
  rewrite bind_run. destruct (m w) as [[a|e] w1]; [eauto|discriminate].
Qed.

Lemma returns_ret {A} (v : A) : returns v (ret v).
Proof. by intros w a w' [= <- <-]. Qed.

Lemma returns_bind {A B} (v : B) (m : M A) (k : A → M B) :
  (∀ a, returns v (k a)) → returns v (m ≫= k).
Proof.
  intros Hk w b w' H. apply bind_ok_inv in H as (a & w1 & _ & H).
  exact (Hk _ _ _ _ H).
Qed.

Lemma truthy_dict (d : gmap string pyval) (k : string) (v : pyval) :
  d !! k = Some v → truthy (PDict d) = true.
Proof.
  intros Hk. simpl. destruct (map_to_list d) eqn:E; [|reflexivity].
  apply map_to_list_empty_iff in E. subst d. by rewrite lookup_empty in Hk.
Qed.


(** The provider step never raises: what the call raises is stored. *)
Lemma dispatch_provider_run (env : Env) (cfg : Config) (d : gmap string pyval)
    (name : string) (w : World) (res : result pyval) (w1 : World) :
  d !! "provider" = Some (PStr name) → name ≠ "" →
  Providers.call_provider env name
    (ProviderResolver.resolve_provider_url env name (Some cfg)) w = (res, w1) →
  ∃ d1, VMManager.dispatch_provider env cfg d w
        = (Ok (<["provider_response" := provider_outcome res]> d1), w1)
      ∧ d1 !! "task_id" = d !! "task_id".
Proof.
  intros Hp Hne Hcall. unfold VMManager.dispatch_provider. rewrite Hp.
  assert (Ht : truthy (PStr name) = true).
  { simpl. apply negb_true_iff, String.eqb_neq. exact Hne. }
  rewrite Ht, bind_run. unfold try_except. rewrite Hcall.
  eexists. split.
  - destruct res as [v|e]; reflexivity.
  - destruct (negb _); [by rewrite lookup_insert_ne|done].
Qed.

(** A valid descriptor passes the first block of [create_vm], and leaves
    it with the outcome of the provider call under [provider_response]. *)
Lemma validate_and_dispatch_run (env : Env) (cfg : Config) (d : gmap string pyval)
    (name : string) (w : World) (res : result pyval) (w1 : World) :
  Validation.validate_mcp_request (PDict d) = Ok true →
  d !! "provider" = Some (PStr name) →
  Providers.call_provider env name
    (ProviderResolver.resolve_provider_url env name (Some cfg)) w = (res, w1) →
  ∃ d', VMManager.validate_and_dispatch env cfg (Some d) w = (Ok (Some d'), w1)
      ∧ d' !! "provider_response" = Some (provider_outcome res)
      ∧ ∃ s, d' !! "task_id" = Some (PStr s).
Proof.
  intros Hv Hp Hcall.
  destruct (validated_fields d Hv) as ([s Hid] & Hname).
  assert (Hne : name ≠ "").
  { destruct Hname as [H|H]; rewrite Hp in H; injection H as ->; discriminate. }
  destruct (dispatch_provider_run env cfg d name w res w1 Hp Hne Hcall)
    as (d1 & Hd & Hid1).
  unfold VMManager.validate_and_dispatch.
  rewrite (truthy_dict d _ _ Hid), Hv.
  rewrite bind_run. unfold lift. cbv beta iota.
  rewrite bind_run, Hd. cbv beta iota.
  eexists. split; [reflexivity|]. split.
  - apply lookup_insert_eq.
  - exists s. rewrite lookup_insert_ne by done. congruence.
Qed.

(** *** The shared disk *)

Section CooperativeHost.

Context (env : Env).
Hypothesis commands_succeed : ∀ t c, cmd_ok env t c = true.
Hypothesis filesystem_succeeds : ∀ t p, fs_ok env t p = true.

Lemma run_never_raises (check : bool) (cmd : list string) :
  raises_within [] (run env check cmd).
Proof.
  intros w r w' e. rewrite run_eq. unfold run_result.
  rewrite commands_succeed. by intros [= <- <-].
Qed.

Lemma mkdir_never_raises (p : string) : raises_within [] (mkdir env p).
Proof.
  intros w r w' e. rewrite mkdir_eq. cbn zeta.
  rewrite filesystem_succeeds. by intros [= <- <-].
Qed.

Lemma rmdir_never_raises (p : string) : raises_within [] (rmdir env p).
Proof.
  intros w r w' e. rewrite rmdir_eq. cbn zeta.
  rewrite filesystem_succeeds. by intros [= <- <-].
Qed.

Lemma write_file_never_raises (p : string) (c : file) :
  raises_within [] (write_file env p c).
Proof.
  intros w r w' e. rewrite write_file_eq. cbn zeta.
  rewrite filesystem_succeeds. by intros [= <- <-].
Qed.

(** The temporary file is unlinked right after it has been written. *)
Lemma preload_task_data_never_raises (mount_point : string)
    (d : gmap string pyval) (vm_id s : string) :
  d !! "task_id" = Some (PStr s) →
  raises_within [] (VMManager._preload_task_data env mount_point d vm_id).
Proof.
  intros Hid w r w' e. unfold VMManager._preload_task_data, VMManager.task_id_of.
  rewrite Hid, bind_run. cbn [ret]. cbv beta iota.
  rewrite bind_run, write_file_eq. cbn zeta.
  rewrite filesystem_succeeds. cbv beta iota.
  rewrite bind_run, run_ok by apply commands_succeed. cbv beta iota.
  rewrite bind_run, unlink_eq. cbn zeta.
  rewrite filesystem_succeeds, andb_true_r.
  rewrite bool_decide_eq_true_2.
  2:{ simpl. rewrite lookup_insert_eq. by eexists. }
  cbv beta iota.
  rewrite bind_run, run_ok by apply commands_succeed. cbv beta iota.
  by intros [= <- <-].
Qed.

End CooperativeHost.

Lemma raises_within_try_finally {A} (cs : list exn_class) (m : M A) (c : M unit) :
  raises_within cs m → raises_within cs c → raises_within cs (try_finally m c).
Proof.
  intros Hm Hc w r w' e. unfold try_finally.
  destruct (m w) as [r1 w1] eqn:E1.
  destruct (c w1) as [[[]|e2] w2] eqn:E2.
  - intros [= <- <-] ->. exact (Hm _ _ _ _ E1 eq_refl).
  - intros [= <- <-] [= <-]. exact (Hc _ _ _ _ E2 eq_refl).
Qed.

Lemma raises_within_for_each {A} (cs : list exn_class) (xs : list A)
    (body : A → M unit) :
  (∀ x, raises_within cs (body x)) → raises_within cs (for_each xs body).
Proof.
  intros Hb. induction xs as [|x xs IH]; simpl.
  - apply raises_within_ret.
  - apply raises_within_bind; [apply Hb|intros _; exact IH].
Qed.

Lemma raises_within_try_except {A} (cs : list exn_class) (m : M A) (h : exn → M A) :
  (∀ e, raises_within cs (h e)) → raises_within cs (try_except m h).
Proof.
  intros Hh w r w' e. unfold try_except.
  destruct (m w) as [[a|e0] w1] eqn:E; [by intros [= <- <-]|apply Hh].
Qed.

(** On a host that refuses nothing, [create_shared_disk] does not raise. *)
Lemma create_shared_disk_never_raises (env : Env) (cfg : Config) (vm_id : string)
    (td : option (gmap string pyval)) :
  (∀ t c, cmd_ok env t c = true) →
  (∀ t p, fs_ok env t p = true) →
  (∀ d, td = Some d → truthy (PDict d) = true → ∃ s, d !! "task_id" = Some (PStr s)) →
  raises_within [] (VMManager.create_shared_disk env cfg vm_id td).
Proof.
  intros Hcmd Hfs Hid. unfold VMManager.create_shared_disk.
  repeat first
    [ apply raises_within_ret
    | apply raises_within_modify
    | apply raises_within_gets
    | apply run_never_raises; assumption
    | apply mkdir_never_raises; assumption
    | apply rmdir_never_raises; assumption
    | apply raises_within_try_finally
    | apply raises_within_for_each; intros ?
    | apply raises_within_bind; [|intros ?] ].
  destruct td as [d|]; [|apply raises_within_ret].
  destruct (truthy (PDict d)) eqn:Ht; [|apply raises_within_ret].
  destruct (Hid d eq_refl Ht) as [s Hs].
  exact (preload_task_data_never_raises env Hcmd Hfs _ _ _ _ Hs).
Qed.

(** The temporary file of the preload is not the image. *)
Lemma keeps_file_preload_task_data (env : Env) (mount_point : string)
    (d : gmap string pyval) (vm_id p : string) :
  last_char p = Some "4"%char →
  preserves (keeps_file p) (VMManager._preload_task_data env mount_point d vm_id).
Proof.
  intros Hp. unfold VMManager._preload_task_data, VMManager.task_id_of.
  frame;
    first [ apply keeps_file_write_file | apply keeps_file_unlink ];
    (eapply last_char_neq; [solve [last_char] | exact Hp | discriminate]).
Qed.

(** A run of [create_shared_disk] that returns has made the image, returns
    its path and has touched no object. *)
Lemma create_shared_disk_run (env : Env) (cfg : Config) (vm_id : string)
    (td : option (gmap string pyval)) (w : World) (path : string) (w' : World) :
  VMManager.create_shared_disk env cfg vm_id td w = (Ok path, w') →
  path = VMManager.shared_disk_file vm_id
  ∧ files w' !! VMManager.shared_disk_file vm_id = Some (FBlob "ext4")
  ∧ heap w' = heap w.
Proof.
  intros H.
  split; [|split; [|exact (preserves_create_shared_disk same_heap _ _ _ _ _ _ _ H)]].
  - revert w path w' H. unfold VMManager.create_shared_disk.
    repeat (apply returns_bind; intros ?). apply returns_ret.
  - unfold VMManager.create_shared_disk in H.
    apply bind_ok_inv in H as (b & w1 & _ & H).
    apply bind_ok_inv in H as ([] & w2 & [= <-] & H).
    match type of H with
    | ?m _ = _ =>
        assert (Hk : preserves (keeps_file (VMManager.shared_disk_file vm_id)) m)
    end.
    { frame. apply keeps_file_preload_task_data.
      unfold VMManager.shared_disk_file. last_char. }
    rewrite (Hk _ _ _ H). simpl. apply lookup_insert_eq.
Qed.

(** *** The instance before the guest artifacts *)

(** A run of [provision_vm] that returns has passed the first block, has
    made the image, and has left the new instance at the address it
    returns. *)
Lemma provision_vm_run (env : Env) (cfg : Config) (vm_id : string)
    (td : option (gmap string pyval)) (w : World)
    (r : nat) (td' : option (gmap string pyval)) (wa : World) :
  VMManager.provision_vm env cfg vm_id td w = (Ok (r, td'), wa) →
  ∃ w0, VMManager.validate_and_dispatch env cfg td w = (Ok td', w0)
    ∧ heap wa !! r = Some (provisioned_instance cfg vm_id td')
    ∧ files wa !! VMManager.shared_disk_file vm_id = Some (FBlob "ext4").
Proof.
  intros H. unfold VMManager.provision_vm in H.
  apply bind_ok_inv in H as (td1 & w0 & Hv & H).
  apply bind_ok_inv in H as (r1 & w1 & [= <- <-] & H).
  apply bind_ok_inv in H as (path & w2 & Hc & H).
  apply create_shared_disk_run in Hc as (-> & Hfile & Hheap).
  apply bind_ok_inv in H as ([] & w3 & [= <-] & H).
  apply bind_ok_inv in H as (i & w4 & Hd & H).
  unfold deref in Hd. simpl in Hd.
  rewrite lookup_alter_eq, Hheap in Hd. simpl in Hd.
  rewrite lookup_insert_eq in Hd. simpl in Hd. injection Hd as <- <-.
  apply bind_ok_inv in H as (c & w5 & Hgen & H).
  unfold lift in Hgen. injection Hgen as Hgen <-.
  apply bind_ok_inv in H as ([] & w6 & [= <-] & H).
  apply bind_ok_inv in H as ([] & w7 & Hm & H).
  injection H as <- <- <-.
  rewrite mkdir_eq in Hm. injection Hm as _ <-.
  exists w0. split; [exact Hv|]. split.
  - unfold provisioned_instance. rewrite Hgen.
    simpl. rewrite lookup_alter_eq, lookup_alter_eq, Hheap. simpl.
    rewrite lookup_insert_eq. reflexivity.
  - exact Hfile.
Qed.

(** On a host that refuses nothing, [provision_vm] returns once the first
    block has. *)
Lemma provision_vm_ok (env : Env) (cfg : Config) (images vm_id : string)
    (td : option (gmap string pyval)) (w : World)
    (td' : option (gmap string pyval)) (w0 : World) :
  (∀ t c, cmd_ok env t c = true) →
  (∀ t p, fs_ok env t p = true) →
  paths_ubuntu_images cfg = PathObject images →
  VMManager.validate_and_dispatch env cfg td w = (Ok td', w0) →
  (∀ d, td' = Some d → truthy (PDict d) = true → ∃ s, d !! "task_id" = Some (PStr s)) →
  ∃ r wa, VMManager.provision_vm env cfg vm_id td w = (Ok (r, td'), wa).
Proof.
  intros Hcmd Hfs Himg Hv Hid. unfold VMManager.provision_vm.
  rewrite (bind_ok _ _ _ _ _ Hv).
  rewrite bind_run. unfold new_object. cbv beta iota zeta.
  set (r := fresh (dom (heap w0))).
  set (w1 := with_heap _ w0).
  destruct (never_raises_ok _ w1
              (create_shared_disk_never_raises env cfg vm_id td' Hcmd Hfs Hid))
    as (path & w2 & Hc).
  rewrite (bind_ok _ _ _ _ _ Hc).
  apply create_shared_disk_run in Hc as (-> & _ & Hheap).
  rewrite bind_run. unfold update at 1, modify at 1. cbv beta iota.
  rewrite bind_run. unfold deref. simpl.
  rewrite lookup_alter_eq, Hheap. subst w1. simpl.
  rewrite lookup_insert_eq. simpl.
  rewrite bind_run. unfold lift at 1, VMManager._generate_vm_config.
  rewrite Himg. cbv beta iota.
  rewrite bind_run. unfold update, modify. cbv beta iota.
  rewrite bind_run, mkdir_eq. cbn zeta. rewrite Hfs. cbv beta iota.
  by eexists _, _.
Qed.

(** *** The guest artifacts *)

Lemma keeps_file_create_guest_tar (env : Env) (vm_id out p : string) :
  out ≠ p → preserves (keeps_file p) (GuestTools.create_guest_tar env vm_id out).
Proof.
  intros Hne. unfold GuestTools.create_guest_tar. frame.
  by apply keeps_file_write_file.
Qed.

Lemma keeps_file_create_init_overlay (env : Env) (vm_id out p : string) (dry : bool) :
  out ≠ p → preserves (keeps_file p) (GuestTools.create_init_overlay env vm_id out dry).
Proof.
  intros Hne. unfold GuestTools.create_init_overlay. frame.
  by apply keeps_file_write_file.
Qed.

Lemma create_guest_tar_run (env : Env) (vm_id out : string) (w : World)
    (p : string) (w' : World) :
  GuestTools.create_guest_tar env vm_id out w = (Ok p, w') →
  files w' !! out = Some (FBlob "guest.tar.gz").
Proof.
  unfold GuestTools.create_guest_tar. intros H.
  apply bind_ok_inv in H as ([] & w1 & _ & H).
  apply bind_ok_inv in H as ([] & w2 & Hw & H).
  injection H as _ <-.
  rewrite write_file_eq in Hw. cbn zeta in Hw.
  destruct (fs_ok env (now w1) out); [|discriminate].
  injection Hw as <-. simpl. apply lookup_insert_eq.
Qed.

Lemma keeps_file_prepare_guest_artifacts (env : Env) (cfg : Config)
    (vm_id : string) (r : nat) (p : string) :
  last_char p = Some "4"%char →
  preserves (keeps_file p) (VMManager.prepare_guest_artifacts env cfg vm_id r).
Proof.
  intros Hp. unfold VMManager.prepare_guest_artifacts. frame;
    first [ apply keeps_file_create_guest_tar
          | apply keeps_file_create_init_overlay ];
    (eapply last_char_neq; [solve [last_char] | exact Hp | discriminate]).
Qed.

Lemma keeps_file_write_manifest (env : Env) (cfg : Config) (r : nat)
    (state p : string) (c : ascii) :
  last_char p = Some c → c ≠ "p"%char → c ≠ "n"%char →
  preserves (keeps_file p) (VMManager._write_manifest env cfg r state).
Proof.
  intros Hp H1 H2. unfold VMManager._write_manifest. frame.
  - apply keeps_file_write_file.
    eapply last_char_neq; [solve [last_char] | exact Hp | congruence].
  - apply keeps_file_rename;
      (eapply last_char_neq; [solve [last_char] | exact Hp | congruence]).
Qed.

(** A preparation that succeeds has written the archive and re-pointed
    [shared_disk_path] to it; one that fails has changed no object. *)
Lemma prepare_guest_artifacts_run (env : Env) (cfg : Config) (id : string)
    (r : nat) (w : World) (i : VMInstance) (res : result unit) (w' : World) :
  heap w !! r = Some i →
  VMManager.prepare_guest_artifacts env cfg id r w = (res, w') →
  match res with
  | Ok _ =>
      files w' !! VMManager.guest_tar_file cfg id = Some (FBlob "guest.tar.gz")
      ∧ ∃ i', heap w' !! r = Some i'
          ∧ shared_disk_path i' = Some (VMManager.guest_tar_file cfg id)
          ∧ vm_id i' = vm_id i
          ∧ socket_path i' = socket_path i
          ∧ provider_response i' = provider_response i
          ∧ recorded_response i' = recorded_response i
  | Raise _ => heap w' = heap w
  end.
Proof.
  intros Hi. unfold VMManager.prepare_guest_artifacts. cbn zeta.
  rewrite bind_run.
  destruct (GuestTools.create_guest_tar env id _ w) as [[p|e] w1] eqn:E1.
  2:{ intros [= <- <-].
      exact (preserves_create_guest_tar same_heap _ _ _ _ _ _ E1). }
  pose proof (preserves_create_guest_tar same_heap _ _ _ _ _ _ E1) as Hh1.
  rewrite bind_run.
  destruct (GuestTools.create_init_overlay env id _ _ w1) as [[q|e] w2] eqn:E2.
  2:{ intros [= <- <-].
      pose proof (preserves_create_init_overlay same_heap _ _ _ _ _ _ _ E2) as Hh2.
      unfold same_heap in *. congruence. }
  pose proof (preserves_create_init_overlay same_heap _ _ _ _ _ _ _ E2) as Hh2.
  assert (Hne : path_join (VMManager.results_dir cfg id) "init-overlay.img"
                ≠ VMManager.guest_tar_file cfg id).
  { unfold VMManager.guest_tar_file.
    eapply last_char_neq; [solve [last_char] | solve [last_char] | discriminate]. }
  pose proof (keeps_file_create_init_overlay env id _ _ _ Hne _ _ _ E2) as Hk.
  unfold keeps_file in Hk.
  intros [= <- <-]. split.
  - cbn [files with_heap update modify]. rewrite Hk.
    exact (create_guest_tar_run _ _ _ _ _ _ E1).
  - cbn [heap with_heap]. rewrite !lookup_alter_eq, Hh2, Hh1, Hi.
    cbn [fmap option_fmap option_map].
    eexists. split; [reflexivity|].
    split; [reflexivity|]. split; [reflexivity|]. split; [reflexivity|].
    split; [reflexivity|].
    unfold recorded_response. cbn [config set_config set_shared_disk_path].
    by destruct (config i).
Qed.

(** *** The whole of [create_vm] *)

(** Once the instance is there, [create_vm] returns it: neither the
    preparation of the guest artifacts nor the manifest can make it fail. *)
Lemma create_vm_run (env : Env) (cfg : Config) (vm_id : string)
    (td : option (gmap string pyval)) (w : World)
    (r : nat) (td' : option (gmap string pyval)) (wa : World) :
  VMManager.provision_vm env cfg vm_id td w = (Ok (r, td'), wa) →
  ∃ resp wb resm wc,
    VMManager.prepare_guest_artifacts env cfg vm_id r wa = (resp, wb)
    ∧ VMManager._write_manifest env cfg r "pending" wb = (resm, wc)
    ∧ VMManager.create_vm env cfg vm_id td w
      = (Ok (r, td'), with_active_vms (insert vm_id r) wc).
Proof.
  intros Hp.
  destruct (VMManager.prepare_guest_artifacts env cfg vm_id r wa) as [resp wb] eqn:E1.
  destruct (VMManager._write_manifest env cfg r "pending" wb) as [resm wc] eqn:E2.
  exists resp, wb, resm, wc. split; [reflexivity|]. split; [exact E2|].
  unfold VMManager.create_vm.
  rewrite (bind_ok _ _ _ _ _ Hp). cbv beta iota.
  rewrite bind_run. unfold try_except at 1. rewrite E1.
  assert (H1 : (let (r0, w'0) := (resp, wb) in
                match r0 with
                | Ok a => (Ok a, w'0)
                | Raise e => ret () w'0
                end) = (Ok tt, wb)) by (by destruct resp as [[]|]).
  rewrite H1. cbv beta iota.
  rewrite bind_run. unfold try_except at 1. rewrite E2.
  by destruct resm as [[]|].
Qed.

(** On a host that refuses nothing, [create_vm] with a valid descriptor
    returns the instance, registered, with the outcome of the provider
    call on the descriptor and in a manifest at ["pending"]. *)
Lemma create_vm_ok (env : Env) (cfg : Config) (images id : string)
    (d : gmap string pyval) (w : World)
    (name : string) (res : result pyval) (w1 : World) :
  (∀ t c, cmd_ok env t c = true) →
  (∀ t p, fs_ok env t p = true) →
  paths_ubuntu_images cfg = PathObject images →
  Validation.validate_mcp_request (PDict d) = Ok true →
  d !! "provider" = Some (PStr name) →
  Providers.call_provider env name
    (ProviderResolver.resolve_provider_url env name (Some cfg)) w = (res, w1) →
  ∃ r d' w' i,
    VMManager.create_vm env cfg id (Some d) w = (Ok (r, Some d'), w')
    ∧ d' !! "provider_response" = Some (provider_outcome res)
    ∧ active_vms w' !! id = Some r
    ∧ heap w' !! r = Some i
    ∧ vm_id i = id
    ∧ manifest_field cfg id "state" w' = Some (PStr "pending")
    ∧ manifest_field cfg id "provider_response" w'
      = (if truthy (provider_outcome res) then Some (provider_outcome res) else None).
Proof.
  intros Hcmd Hfs Himg Hv Hp Hcall.
  destruct (validate_and_dispatch_run env cfg d name w res w1 Hv Hp Hcall)
    as (d' & Hvd & Hresp & s & Hid).
  destruct (provision_vm_ok env cfg images id (Some d) w (Some d') w1 Hcmd Hfs Himg Hvd)
    as (r & wa & Hprov).
  { intros d0 [= <-] _. eauto. }
  destruct (provision_vm_run _ _ _ _ _ _ _ _ Hprov) as (w0 & _ & Hia & _).
  unfold provisioned_instance, VMManager._generate_vm_config in Hia.
  rewrite Himg in Hia.
  destruct (create_vm_run _ _ _ _ _ _ _ _ Hprov)
    as (resp & wb & resm & wc & Hprep & Hman & Hcreate).
  destruct (keeps_object_prepare_guest_artifacts _ _ _ _ _ _ _ Hprep _ Hia)
    as (ib & Hib & Hvm & _ & Hpr & Hrec).
  destruct (write_manifest_ok env cfg r "pending" wb ib Hfs Hib)
    as (wc' & Hman' & Hstate & Hresponse).
  rewrite Hman in Hman'. injection Hman' as -> <-.
  exists r, d', (with_active_vms (insert id r) wc), ib.
  split; [exact Hcreate|]. split; [exact Hresp|].
  split; [apply lookup_insert_eq|].
  pose proof (preserves_write_manifest same_heap _ _ _ _ _ _ _ Hman) as Hheap.
  unfold same_heap in Hheap.
  split; [cbn [heap with_active_vms]; by rewrite Hheap|].
  assert (Hvm' : vm_id ib = id) by exact Hvm.
  split; [exact Hvm'|].
  rewrite Hvm' in Hstate, Hresponse.
  split; [exact Hstate|].
  unfold manifest_field in *. cbn [files with_active_vms].
  rewrite Hresponse. unfold manifest_response.
  rewrite Hrec, Hpr.
  unfold recorded_response.
  cbn [config set_config provider_response set_shared_disk_path
       VMManager.new_instance cfg_provider_response truthy_opt negb].
  by rewrite (truthy_dict d' _ _ Hid), Hresp.
Qed.

(** *** What a stop does to the image *)

Lemma keeps_file_terminate_process (env : Env) (cfg : Config) (r : nat) (p : string) :
  preserves (keeps_file p) (VMManager.terminate_process env cfg r).
Proof. unfold VMManager.terminate_process. frame. Qed.

(** [stop_vm] changes no file its cleanup does not name. *)
Lemma stop_vm_keeps_file (env : Env) (cfg : Config) (r : nat) (w : World)
    (i : VMInstance) (p : string) (res : result unit) (w' : World) :
  heap w !! r = Some i →
  p ∉ cleanup_targets i →
  VMManager.stop_vm env cfg r w = (res, w') →
  files w' !! p = files w !! p.
Proof.
  intros Hi Hp H. unfold VMManager.stop_vm in H.
  destruct (terminate_process_ok env cfg r w i Hi) as (w1 & Ht).
  pose proof (preserves_terminate_process same_heap _ _ _ _ _ _ Ht) as Hh1.
  pose proof (keeps_file_terminate_process _ _ _ p _ _ _ Ht) as Hk1.
  rewrite (bind_ok _ _ _ _ _ Ht) in H.
  assert (Hi1 : heap w1 !! r = Some i) by (by rewrite Hh1).
  destruct (cleanup_vm_files_ok env r w1 i Hi1) as (w2 & Hc).
  pose proof (preserves_cleanup_vm_files same_heap _ _ _ _ _ Hc) as Hh2.
  rewrite (bind_ok _ _ _ _ _ Hc) in H.
  assert (Hi2 : heap w2 !! r = Some i) by (by rewrite Hh2).
  rewrite (bind_ok _ _ _ _ _ (deref_run _ _ _ Hi2)) in H.
  rewrite bind_run in H. unfold gets in H. cbv beta iota in H.
  assert (Hk2 : keeps_file p w1 w2).
  { unfold VMManager._cleanup_vm_files in Hc.
    rewrite (bind_ok _ _ _ _ _ (deref_run _ _ _ Hi1)) in Hc.
    revert Hc. generalize w1 (Ok tt : result unit) w2. clear -Hp.
    unfold cleanup_targets in Hp.
    change (preserves (keeps_file p)
              (VMManager.remove_if_exists env (socket_path i) ;;
               VMManager.remove_if_exists env (shared_disk_path i) ;;
               VMManager.remove_if_exists env (Some (VMManager.config_file (vm_id i))))).
    frame; apply keeps_file_remove_if_exists; intros Heq; apply Hp.
    - rewrite Heq. simpl. apply list_elem_of_here.
    - rewrite Heq. apply elem_of_app. right. simpl. apply list_elem_of_here.
    - injection Heq as ->. do 2 (apply elem_of_app; right). apply list_elem_of_here. }
  unfold keeps_file in *.
  destruct (bool_decide _); injection H as _ <-; cbn [files with_active_vms];
    congruence.
Qed.

(** *** C3 *)

(** [create_vm] reaches [_generate_vm_config] only to fail there when the
    image directory is configured as a string: on a host that refuses
    nothing, an accepted descriptor then makes it raise a [TypeError]. *)
Lemma create_vm_needs_path_object (env : Env) (cfg : Config) (images id : string)
    (d : gmap string pyval) (w : World) :
  (∀ t c, cmd_ok env t c = true) →
  (∀ t p, fs_ok env t p = true) →
  paths_ubuntu_images cfg = PathString images →
  Validation.validate_mcp_request (PDict d) = Ok true →
  ∃ e w', VMManager.create_vm env cfg id (Some d) w = (Raise e, w')
          ∧ exn_cls e = TypeError
          ∧ active_vms w' = active_vms w.
Proof.
  intros Hcmd Hfs Himg Hv.
  assert (∃ name, d !! "provider" = Some (PStr name)) as [name Hp].
  { destruct (validated_fields d Hv) as (_ & [H|H]); eauto. }
  destruct (Providers.call_provider env name
              (ProviderResolver.resolve_provider_url env name (Some cfg)) w)
    as [res w1] eqn:Hcall.
  destruct (validate_and_dispatch_run env cfg d name w res w1 Hv Hp Hcall)
    as (d' & Hvd & Hresp & s & Hid).
  pose proof (preserves_validate_and_dispatch same_active_vms _ _ _ _ _ _ Hvd) as Hreg.
  assert (∃ e w', VMManager.provision_vm env cfg id (Some d) w = (Raise e, w')
                  ∧ exn_cls e = TypeError ∧ active_vms w' = active_vms w)
    as (e & w' & Hprov & He & Hw).
  { unfold VMManager.provision_vm.
    rewrite (bind_ok _ _ _ _ _ Hvd).
    rewrite bind_run. unfold new_object. cbv beta iota zeta.
    set (r := fresh (dom (heap w1))).
    set (w2 := with_heap _ w1).
    assert (Hid' : ∀ d0, Some d' = Some d0 → truthy (PDict d0) = true →
                         ∃ s, d0 !! "task_id" = Some (PStr s)).
    { intros d0 [= <-] _. eauto. }
    destruct (never_raises_ok _ w2
               (create_shared_disk_never_raises env cfg id (Some d') Hcmd Hfs Hid'))
      as (path & w3 & Hc).
    pose proof (preserves_create_shared_disk same_active_vms _ _ _ _ _ _ _ Hc) as Hreg3.
    rewrite (bind_ok _ _ _ _ _ Hc).
    apply create_shared_disk_run in Hc as (-> & _ & Hheap).
    rewrite bind_run. unfold update at 1, modify at 1. cbv beta iota.
    rewrite bind_run. unfold deref. simpl.
    rewrite lookup_alter_eq, Hheap. subst w2. simpl.
    rewrite lookup_insert_eq. simpl.
    rewrite bind_run. unfold lift at 1, VMManager._generate_vm_config.
    rewrite Himg. cbv beta iota.
    eexists _, _. split; [reflexivity|]. split; [reflexivity|].
    simpl. unfold same_active_vms in *. simpl in Hreg3. congruence. }
  exists e, w'. split; [|by split].
  unfold VMManager.create_vm. by rewrite (bind_raise _ _ _ _ _ Hprov).
Qed.

(** C3, as the specification states it, fails: a descriptor with a string
    [task_id] and a string [prompt] and no [provider] is valid by the
    specification's rules, and on a host that refuses nothing [create_vm]
    raises a [ValidationError] on it, with no instance registered and no
    manifest written. *)
Lemma create_vm_refuses_descriptor_without_provider :
  spec_accepts (PDict request_without_provider)
  ∧ (∀ t c, cmd_ok cooperative_host t c = true)
  ∧ (∀ t p, fs_ok cooperative_host t p = true)
  ∧ ∃ e w',
      VMManager.create_vm cooperative_host config_with_ollama_url "vm1"
        (Some request_without_provider) empty_world = (Raise e, w')
      ∧ exn_cls e = ValidationError
      ∧ active_vms w' !! "vm1" = None
      ∧ manifest_field config_with_ollama_url "vm1" "state" w' = None.
Proof.
  split.
  { exists request_without_provider. split; [reflexivity|].
    split; [by exists "t1"|]. split; [left; by exists "hi"|]. by left. }
  split; [reflexivity|]. split; [reflexivity|].
  exists (Exn ValidationError "Invalid MCPTaskRequest"), empty_world.
  split; [vm_compute; reflexivity|]. split; [reflexivity|].
  split; vm_compute; reflexivity.
Qed.

(** C3, amended: on a host whose commands and filesystem operations
    succeed and with the image directory configured as a path, [create_vm]
    with a task descriptor that [validate_mcp_request] accepts returns
    without raising; the instance it returns is registered under the VM id,
    and the manifest of the VM exists with [state] equal to ["pending"]. *)
Theorem create_vm_writes_pending_manifest (env : Env) (cfg : Config)
    (images id : string) (d : gmap string pyval) (w : World) :
  (∀ t c, cmd_ok env t c = true) →
  (∀ t p, fs_ok env t p = true) →
  paths_ubuntu_images cfg = PathObject images →
  Validation.validate_mcp_request (PDict d) = Ok true →
  ∃ r d' w' i,
    VMManager.create_vm env cfg id (Some d) w = (Ok (r, Some d'), w')
    ∧ active_vms w' !! id = Some r
    ∧ heap w' !! r = Some i
    ∧ vm_id i = id
    ∧ manifest_field cfg id "state" w' = Some (PStr "pending").
Proof.
  intros Hcmd Hfs Himg Hv.
  assert (∃ name, d !! "provider" = Some (PStr name)) as [name Hp].
  { destruct (validated_fields d Hv) as (_ & [H|H]); eauto. }
  destruct (Providers.call_provider env name
              (ProviderResolver.resolve_provider_url env name (Some cfg)) w)
    as [res w1] eqn:Hcall.
  destruct (create_vm_ok env cfg images id d w name res w1 Hcmd Hfs Himg Hv Hp Hcall)
    as (r & d' & w' & i & H1 & _ & H2 & H3 & H4 & H5 & _).
  exists r, d', w', i. auto.
Qed.

Lemma create_vm_writes_pending_manifest_witness :
  (∀ t c, cmd_ok cooperative_host t c = true)
  ∧ (∀ t p, fs_ok cooperative_host t p = true)
  ∧ paths_ubuntu_images config_with_ollama_url = PathObject "/srv/images"
  ∧ Validation.validate_mcp_request (PDict task_request) = Ok true
  ∧ ∃ r d' w' i,
      VMManager.create_vm cooperative_host config_with_ollama_url "vm1"
        (Some task_request) empty_world = (Ok (r, Some d'), w')
      ∧ active_vms w' !! "vm1" = Some r
      ∧ heap w' !! r = Some i
      ∧ vm_id i = "vm1"
      ∧ manifest_field config_with_ollama_url "vm1" "state" w' = Some (PStr "pending").
Proof.
  assert (H1 : ∀ t c, cmd_ok cooperative_host t c = true) by reflexivity.
  assert (H2 : ∀ t p, fs_ok cooperative_host t p = true) by reflexivity.
  assert (H3 : paths_ubuntu_images config_with_ollama_url = PathObject "/srv/images")
    by reflexivity.
  assert (H4 : Validation.validate_mcp_request (PDict task_request) = Ok true)
    by (vm_compute; reflexivity).
  split; [exact H1|]. split; [exact H2|]. split; [exact H3|]. split; [exact H4|].
  exact (create_vm_writes_pending_manifest cooperative_host config_with_ollama_url
           "/srv/images" "vm1" task_request empty_world H1 H2 H3 H4).
Defined.

(** *** C5 *)



(** *** C10 *)

(** C10: in a [create_vm] whose preparation of the guest artifacts
    succeeds, the [shared_disk_path] of the instance ends up naming
    [<results>/<vm_id>/guest.tar.gz], which is not the shared-channel image
    [/tmp/shared-<vm_id>.ext4]; both files exist after the call.
    Consequently a later [stop_vm] of the instance, as long as its id and
    the two paths are what [create_vm] left, returns with the image
    untouched and, where unlinking succeeds, with [guest.tar.gz] deleted. *)
Theorem create_vm_repoints_shared_disk_path (env : Env) (cfg : Config) (id : string)
    (td : option (gmap string pyval)) (w : World)
    (r : nat) (td' : option (gmap string pyval)) (wa wb : World) :
  VMManager.provision_vm env cfg id td w = (Ok (r, td'), wa) →
  VMManager.prepare_guest_artifacts env cfg id r wa = (Ok tt, wb) →
  ∃ w' i,
    VMManager.create_vm env cfg id td w = (Ok (r, td'), w')
    ∧ heap w' !! r = Some i
    ∧ vm_id i = id
    ∧ shared_disk_path i = Some (VMManager.guest_tar_file cfg id)
    ∧ VMManager.guest_tar_file cfg id ≠ VMManager.shared_disk_file id
    ∧ files w' !! VMManager.guest_tar_file cfg id = Some (FBlob "guest.tar.gz")
    ∧ files w' !! VMManager.shared_disk_file id = Some (FBlob "ext4")
    ∧ ∀ env2 w2 i2,
        heap w2 !! r = Some i2 →
        vm_id i2 = id →
        socket_path i2 = socket_path i →
        shared_disk_path i2 = shared_disk_path i →
        ∃ w3, VMManager.stop_vm env2 cfg r w2 = (Ok tt, w3)
          ∧ files w3 !! VMManager.shared_disk_file id
            = files w2 !! VMManager.shared_disk_file id
          ∧ ((∀ t q, fs_ok env2 t q = true) →
             files w3 !! VMManager.guest_tar_file cfg id = None).
Proof.
  intros Hprov Hprep.
  destruct (provision_vm_run _ _ _ _ _ _ _ _ Hprov) as (w0 & _ & Hia & Himg).
  destruct (create_vm_run _ _ _ _ _ _ _ _ Hprov)
    as (resp & wb' & resm & wc & Hprep' & Hman & Hcreate).
  rewrite Hprep in Hprep'. injection Hprep' as <- <-.
  destruct (prepare_guest_artifacts_run _ _ _ _ _ _ _ _ Hia Hprep)
    as (Htar & ib & Hib & Hsd & Hvm & Hsock & _ & _).
  pose proof (keeps_file_prepare_guest_artifacts env cfg id r
                (VMManager.shared_disk_file id)
                ltac:(unfold VMManager.shared_disk_file; last_char)
                _ _ _ Hprep) as Hk1.
  pose proof (preserves_write_manifest same_heap _ _ _ _ _ _ _ Hman) as Hheap.
  pose proof (keeps_file_write_manifest env cfg r "pending"
                (VMManager.shared_disk_file id) "4"
                ltac:(unfold VMManager.shared_disk_file; last_char)
                ltac:(discriminate) ltac:(discriminate) _ _ _ Hman) as Hk2.
  pose proof (keeps_file_write_manifest env cfg r "pending"
                (VMManager.guest_tar_file cfg id) "z"
                ltac:(unfold VMManager.guest_tar_file; last_char)
                ltac:(discriminate) ltac:(discriminate) _ _ _ Hman) as Hk3.
  unfold same_heap, keeps_file in *.
  assert (Hvm' : vm_id ib = id) by exact Hvm.
  assert (Hsock' : socket_path ib = Some (VMManager.socket_file id)) by exact Hsock.
  exists (with_active_vms (insert id r) wc), ib.
  split; [exact Hcreate|].
  split; [cbn [heap with_active_vms]; by rewrite Hheap|].
  split; [exact Hvm'|]. split; [exact Hsd|].
  split; [apply guest_tar_is_not_the_image|].
  split; [cbn [files with_active_vms]; by rewrite Hk3|].
  split; [cbn [files with_active_vms]; by rewrite Hk2, Hk1|].
  intros env2 w2 i2 Hi2 Hid2 Hsock2 Hsd2.
  destruct (stop_vm_run env2 cfg r w2 i2 Hi2) as (w3 & Hstop & _ & _ & _ & _ & Hgone).
  exists w3. split; [exact Hstop|]. split.
  - eapply stop_vm_keeps_file; [exact Hi2| |exact Hstop].
    unfold cleanup_targets. rewrite Hsock2, Hsd2, Hsock', Hsd, Hid2. simpl.
    intros Hin.
    apply elem_of_cons in Hin as [Hin|Hin];
      [by apply (socket_is_not_the_image id)|].
    apply elem_of_cons in Hin as [Hin|Hin];
      [by apply (guest_tar_is_not_the_image cfg id)|].
    apply list_elem_of_singleton in Hin.
    by apply (config_is_not_the_image id).
  - intros Hfs. apply (Hgone Hfs).
    unfold cleanup_targets. rewrite Hsd2, Hsd.
    apply elem_of_app. right. simpl. apply list_elem_of_here.
Qed.

Lemma create_vm_repoints_shared_disk_path_witness :
  VMManager.provision_vm cooperative_host config_with_ollama_url "vm1"
    (Some task_request) empty_world
  = (Ok (0%nat, Some dispatched_request),
     snd (VMManager.provision_vm cooperative_host config_with_ollama_url "vm1"
            (Some task_request) empty_world))
  ∧ VMManager.prepare_guest_artifacts cooperative_host config_with_ollama_url "vm1" 0
      (snd (VMManager.provision_vm cooperative_host config_with_ollama_url "vm1"
              (Some task_request) empty_world))
    = (Ok tt,
       snd (VMManager.prepare_guest_artifacts cooperative_host config_with_ollama_url
              "vm1" 0
              (snd (VMManager.provision_vm cooperative_host config_with_ollama_url
                      "vm1" (Some task_request) empty_world))))
  ∧ ∃ w' i,
      VMManager.create_vm cooperative_host config_with_ollama_url "vm1"
        (Some task_request) empty_world = (Ok (0%nat, Some dispatched_request), w')
      ∧ heap w' !! 0%nat = Some i
      ∧ vm_id i = "vm1"
      ∧ shared_disk_path i = Some "/srv/results/vm1/guest.tar.gz"
      ∧ files w' !! "/srv/results/vm1/guest.tar.gz" = Some (FBlob "guest.tar.gz")
      ∧ files w' !! "/tmp/shared-vm1.ext4" = Some (FBlob "ext4").
Proof.
  assert (H1 : VMManager.provision_vm cooperative_host config_with_ollama_url "vm1"
                 (Some task_request) empty_world
               = (Ok (0%nat, Some dispatched_request),
                  snd (VMManager.provision_vm cooperative_host config_with_ollama_url
                         "vm1" (Some task_request) empty_world))).
  { rewrite (surjective_pairing (VMManager.provision_vm _ _ _ _ _)) at 1.
    f_equal; vm_compute; reflexivity. }
  assert (H2 : VMManager.prepare_guest_artifacts cooperative_host
                 config_with_ollama_url "vm1" 0
                 (snd (VMManager.provision_vm cooperative_host config_with_ollama_url
                         "vm1" (Some task_request) empty_world))
               = (Ok tt,
                  snd (VMManager.prepare_guest_artifacts cooperative_host
                         config_with_ollama_url "vm1" 0
                         (snd (VMManager.provision_vm cooperative_host
                                 config_with_ollama_url "vm1" (Some task_request)
                                 empty_world))))).
  { rewrite (surjective_pairing (VMManager.prepare_guest_artifacts _ _ _ _ _)) at 1.
    f_equal; vm_compute; reflexivity. }
  split; [exact H1|]. split; [exact H2|].
  destruct (create_vm_repoints_shared_disk_path cooperative_host
              config_with_ollama_url "vm1" (Some task_request) empty_world
              0 (Some dispatched_request) _ _ H1 H2)
    as (w' & i & Hc & Hi & Hid & Hsd & _ & Htar & Himg & _).
  exists w', i. repeat split; assumption.
Defined.

(** ** The Network Provisioner *)

#[global] Instance keeps_others_preorder (id : string) : PreOrder (keeps_others id).
Proof.
  split; unfold keeps_others; [intros w k _|intros w1 w2 w3 H1 H2 k Hk]; [done|].
  by rewrite H2, H1.
Qed.
#[global] Instance keeps_others_clock (id : string) : IgnoresClock (keeps_others id).
Proof. by intros f w k Hk. Qed.
#[global] Instance keeps_others_trace (id : string) : IgnoresTrace (keeps_others id).
Proof. by intros f w k Hk. Qed.
#[global] Instance keeps_others_files (id : string) : IgnoresFiles (keeps_others id).
Proof. by intros f w k Hk. Qed.
#[global] Instance keeps_others_alive (id : string) : IgnoresAlive (keeps_others id).
Proof. by intros f w k Hk. Qed.
#[global] Instance keeps_others_heap (id : string) : IgnoresHeap (keeps_others id).
Proof. by intros f w k Hk. Qed.

Lemma raises_within_run (cs : list exn_class) (env : Env) (check : bool)
    (cmd : list string) :
  CalledProcessError ∈ cs → OSError ∈ cs → raises_within cs (run env check cmd).
Proof.
  intros Hcs Hos w r w' e. rewrite run_eq. unfold run_result.
  destruct (cmd_ok env (now w) cmd); [by intros [= <- <-]|].
  destruct (cmd_missing env (now w) cmd); [by intros [= <- <-] [= <-]|].
  destruct check; intros [= <- <-]; [|discriminate].
  by intros [= <-].
Qed.

(** A command whose program can be executed. *)
Lemma run_result_present (env : Env) (check : bool) (cmd : list string) (t : nat) :
  cmd_missing env t cmd = false →
  run_result env check cmd t
  = if check && negb (cmd_ok env t cmd)
    then Raise (Exn CalledProcessError (String.concat " " cmd))
    else Ok (cmd_ok env t cmd).
Proof.
  intros H. unfold run_result. rewrite H.
  by destruct (cmd_ok env t cmd), check.
Qed.

Lemma run_unchecked_never_raises (env : Env) (cmd : list string) :
  (∀ t c, cmd_missing env t c = false) →
  raises_within [] (run env false cmd).
Proof.
  intros Hrun w r w' e. rewrite run_eq, run_result_present by apply Hrun.
  by intros [= <- <-].
Qed.

(** [run_cases env] steps through the next command: it leaves the run in
    which the command succeeded, the one in which its program could not
    be executed and the one in which it ran and failed. *)
Ltac run_cases env :=
  rewrite bind_run, run_eq; unfold run_result;
  match goal with
  | |- context [cmd_ok env ?t ?c] =>
      destruct (cmd_ok env t c) eqn:?; cbv beta iota;
      [|destruct (cmd_missing env t c) eqn:?; cbv beta iota]
  end.

(** *** The default interface *)

Lemma blank_free_app (s t : string) :
  blank_free (s +:+ t) = blank_free s && blank_free t.
Proof.
  induction s as [|c s IH]; simpl; [reflexivity|].
  by rewrite IH, andb_assoc.
Qed.

Lemma app_nonempty (s : string) (c : ascii) : s +:+ String c "" ≠ "".
Proof. by destruct s. Qed.

(** [split()] yields words that are not empty and hold no blank. *)
Lemma words_aux_spec (s cur : string) :
  blank_free cur = true →
  ∀ x, x ∈ NetworkManager.words_aux s cur → x ≠ "" ∧ blank_free x = true.
Proof.
  revert cur. induction s as [|c s IH]; intros cur Hcur x; simpl.
  - destruct (String.eqb cur "") eqn:E; [by intros ?%elem_of_nil|].
    intros ->%list_elem_of_singleton. split; [|exact Hcur].
    by apply String.eqb_neq in E.
  - destruct (NetworkManager.is_space c) eqn:Hc.
    + destruct (String.eqb cur "") eqn:E; [by apply IH|].
      intros [->|Hx]%elem_of_cons; [|by apply (IH "")].
      split; [|exact Hcur]. by apply String.eqb_neq in E.
    + apply IH. rewrite blank_free_app, Hcur. simpl. by rewrite Hc.
Qed.

Lemma after_dev_elem (parts : list string) (d : string) :
  NetworkManager.after_dev parts = Some d → "dev" ∈ parts ∧ d ∈ parts.
Proof.
  induction parts as [|p rest IH]; simpl; [discriminate|].
  destruct (String.eqb p "dev") eqn:E.
  - apply String.eqb_eq in E as ->. destruct rest as [|q rest]; [discriminate|].
    intros [= <-]. split; [apply list_elem_of_here|].
    apply list_elem_of_further, list_elem_of_here.
  - intros [H1 H2]%IH. split; by apply list_elem_of_further.
Qed.

Lemma first_default_dev_spec (lines : list string) (d : string) :
  NetworkManager.first_default_dev lines = Some d →
  ∃ line, line ∈ lines
    ∧ NetworkManager.contains_str "default" line = true
    ∧ "dev" ∈ NetworkManager.words line
    ∧ d ∈ NetworkManager.words line.
Proof.
  induction lines as [|line rest IH]; simpl; [discriminate|].
  destruct (NetworkManager.contains_str "default" line
            && NetworkManager.contains_str "dev" line) eqn:E.
  - destruct (NetworkManager.after_dev (NetworkManager.words line)) as [d'|] eqn:Hd.
    + intros [= <-]. apply after_dev_elem in Hd as [H1 H2].
      apply andb_true_iff in E as [E _].
      exists line. split; [apply list_elem_of_here|]. auto.
    + intros (l & Hl & H)%IH. exists l. split; [by apply list_elem_of_further|exact H].
  - intros (l & Hl & H)%IH. exists l. split; [by apply list_elem_of_further|exact H].
Qed.

(** What a run of [_get_default_interface] is: one [ip route] command,
    and the interface read off its output when the command succeeded.
    [except CalledProcessError] lets the [OSError] of a program that
    cannot be executed through. *)
Lemma get_default_interface_run (env : Env) (w : World) :
  let cmd := ["ip"; "route"; "show"; "default"] in
  NetworkManager._get_default_interface env w
  = (if cmd_ok env (now w) cmd
     then Ok (NetworkManager.first_default_dev
                (Ipaddress.split "010"%char (route_stdout env (now w))))
     else if cmd_missing env (now w) cmd then Raise (Exn OSError "ip")
     else Ok None,
     after (EvRun cmd (cmd_ok env (now w) cmd)) w).
Proof.
  cbn zeta. unfold NetworkManager._get_default_interface, try_except_of, try_except.
  rewrite bind_run. unfold gets at 1. cbv beta iota.
  rewrite bind_run, run_eq. unfold run_result.
  destruct (cmd_ok env (now w) _); [reflexivity|].
  by destruct (cmd_missing env (now w) _).
Qed.

(** X1: [_get_default_interface] runs [ip route show default] once.  It
    raises only when [ip] cannot be executed, and then an [OSError],
    which its [except CalledProcessError] does not catch; when the
    command runs and fails the result is [None]; a name it returns is a
    word of an output line that contains ["default"] and has the word
    ["dev"], so it is never empty and holds no blank. *)
Theorem get_default_interface_result (env : Env) (w : World) :
  let cmd := ["ip"; "route"; "show"; "default"] in
  ∃ res w',
    NetworkManager._get_default_interface env w = (res, w')
    ∧ trace w' = (trace w ++ [EvRun cmd (cmd_ok env (now w) cmd)])%list
    ∧ match res with
      | Raise e =>
          exn_cls e = OSError
          ∧ cmd_ok env (now w) cmd = false
          ∧ cmd_missing env (now w) cmd = true
      | Ok o =>
          (cmd_ok env (now w) cmd = false → o = None)
          ∧ ∀ d, o = Some d →
              d ≠ "" ∧ blank_free d = true
              ∧ ∃ line, line ∈ Ipaddress.split "010"%char (route_stdout env (now w))
                  ∧ NetworkManager.contains_str "default" line = true
                  ∧ "dev" ∈ NetworkManager.words line
                  ∧ d ∈ NetworkManager.words line
      end.
Proof.
  cbn zeta. eexists _, _. split; [apply get_default_interface_run|].
  split; [reflexivity|].
  destruct (cmd_ok env (now w) _) eqn:Hok.
  - split; [discriminate|]. intros d Hd.
    apply first_default_dev_spec in Hd as (line & Hl & Hdef & Hdev & Hw).
    destruct (words_aux_spec line "" eq_refl d Hw) as [Hne Hbf].
    split; [exact Hne|]. split; [exact Hbf|]. eauto.
  - destruct (cmd_missing env (now w) _) eqn:Hmiss; [done|].
    split; [done|]. intros d [=].
Qed.

(** *** Attaching *)

(** What a run of [setup_tap_interface] does to the registry. *)
Lemma setup_tap_interface_run (env : Env) (cfg : Config) (id : string)
    (cidr : option string) (w : World) (res : result (option string)) (w' : World) :
  NetworkManager.setup_tap_interface env cfg id cidr w = (res, w') →
  match res with
  | Ok (Some t) =>
      t = "tap" +:+ id
      ∧ ∃ n gateway_ip vm_ip,
          Ipaddress.IPv4Network (default (vm_network_cidr cfg) cidr) = Ok n
          ∧ active_interfaces w'
            = <[id := {| if_tap_name := "tap" +:+ id;
                         if_cidr := default (vm_network_cidr cfg) cidr;
                         if_gateway_ip := gateway_ip; if_vm_ip := vm_ip |}]>
                (active_interfaces w)
          ∧ length (trace w') = (length (trace w) + 4)%nat
  | Ok None => active_interfaces w' = active_interfaces w
  | Raise e =>
      (exn_cls e = NetmaskValueError ∧ w' = w)
      ∨ (exn_cls e = OSError
         ∧ (∃ t c, cmd_ok env t c = false ∧ cmd_missing env t c = true)
         ∧ active_interfaces w' = active_interfaces w)
  end.
Proof.
  unfold NetworkManager.setup_tap_interface, try_except_of, try_except.
  cbn zeta. rewrite bind_run. unfold lift at 1.
  destruct (Ipaddress.IPv4Network _) as [n|e] eqn:Hn; cbv beta iota.
  2:{ destruct (IPv4Network_raises _ _ Hn) as [He|He]; rewrite He.
      - intros [= <- <-]. reflexivity.
      - intros [= <- <-]. by left. }
  rewrite bind_run. unfold lift at 1.
  destruct (Ipaddress.str_add _ 1) as [gw|e] eqn:Hgw; cbv beta iota.
  2:{ unfold Ipaddress.str_add in Hgw. destruct (_ && _); [discriminate|].
      injection Hgw as <-. intros [= <- <-]. reflexivity. }
  do 4 (rewrite bind_run, run_eq; unfold run_result;
        match goal with
        | |- context [cmd_ok env ?t ?c] =>
            destruct (cmd_ok env t c) eqn:?; cbv beta iota;
            [|destruct (cmd_missing env t c) eqn:?; intros [= <- <-];
              [right; split; [reflexivity|]; split; [eauto|reflexivity]
              |reflexivity]]
        end).
  rewrite bind_run. unfold lift at 1.
  destruct (Ipaddress.str_add _ 2) as [ip|e] eqn:Hip; cbv beta iota.
  2:{ unfold Ipaddress.str_add in Hip. destruct (_ && _); [discriminate|].
      injection Hip as <-. intros [= <- <-]. reflexivity. }
  intros [= <- <-]. split; [reflexivity|].
  exists n, gw, ip. split; [reflexivity|]. split; [reflexivity|].
  simpl. rewrite !length_app. simpl. lia.
Qed.



(** *** Detaching *)

Lemma cleanup_iptables_rules_never_raises (env : Env) (info : IfaceInfo) :
  (∀ t c, cmd_missing env t c = false) →
  is_ok (Ipaddress.IPv4Network (if_cidr info)) = true →
  raises_within [] (NetworkManager._cleanup_iptables_rules env info).
Proof.
  intros Hrun Hok. unfold NetworkManager._cleanup_iptables_rules.
  apply raises_within_bind.
  { intros w r w' e. rewrite get_default_interface_run. cbn zeta. rewrite Hrun.
    by destruct (cmd_ok env (now w) _); intros [= <- <-]. }
  intros o. destruct (ProviderResolver.nonempty o); [|apply raises_within_ret].
  destruct (Ipaddress.IPv4Network (if_cidr info)) as [n|]; [|discriminate].
  apply raises_within_bind.
  { intros w r w' e. by intros [= <- <-]. }
  intros n'. apply raises_within_for_each. intros rule.
  apply raises_within_bind; [by apply run_unchecked_never_raises|intros _].
  apply raises_within_ret.
Qed.

Lemma preserves_get_default_interface (R : World → World → Prop)
    `{!PreOrder R} `{!IgnoresClock R} `{!IgnoresQuiet R} (env : Env) :
  preserves R (NetworkManager._get_default_interface env).
Proof. unfold NetworkManager._get_default_interface. frame. Qed.

Lemma preserves_cleanup_iptables_rules (R : World → World → Prop)
    `{!PreOrder R} `{!IgnoresClock R} `{!IgnoresQuiet R} (env : Env) (info : IfaceInfo) :
  preserves R (NetworkManager._cleanup_iptables_rules env info).
Proof.
  unfold NetworkManager._cleanup_iptables_rules. frame.
  apply preserves_get_default_interface; typeclasses eauto.
Qed.

(** [cleanup_networking] never raises and leaves the attachments of the
    other VMs alone; the attachment of the VM is removed or left as it
    is, and it is removed when its CIDR parses and every program can be
    executed. *)
Lemma cleanup_networking_run (env : Env) (id : string) (w : World) :
  ∃ w', NetworkManager.cleanup_networking env id w = (Ok tt, w')
    ∧ keeps_others id w w'
    ∧ (active_interfaces w !! id = None → w' = w)
    ∧ (active_interfaces w' = delete id (active_interfaces w)
       ∨ active_interfaces w' = active_interfaces w)
    ∧ (∀ info, active_interfaces w !! id = Some info →
         is_ok (Ipaddress.IPv4Network (if_cidr info)) = true →
         (∀ t c, cmd_missing env t c = false) →
         active_interfaces w' = delete id (active_interfaces w)
         ∧ ∃ ok, last (trace w')
                 = Some (EvRun ["sudo"; "ip"; "link"; "delete"; if_tap_name info] ok)).
Proof.
  unfold NetworkManager.cleanup_networking. rewrite bind_run. unfold gets.
  cbv beta iota.
  destruct (active_interfaces w !! id) as [info|] eqn:Hinfo.
  2:{ exists w. split; [reflexivity|]. split; [reflexivity|]. split; [done|].
      split; [by right|]. intros ? [=]. }
  unfold try_except.
  destruct (NetworkManager._cleanup_iptables_rules env info w) as [r1 w1] eqn:E1.
  pose proof (preserves_cleanup_iptables_rules same_interfaces _ _ _ _ _ E1) as Hs1.
  unfold same_interfaces in Hs1.
  rewrite bind_run, E1.
  destruct r1 as [[]|e1]; cbv beta iota.
  - rewrite bind_run, run_eq. unfold run_result.
    destruct (cmd_ok env (now w1) _) eqn:Hok; cbv beta iota;
      [|destruct (cmd_missing env (now w1) _) eqn:Hmiss; cbv beta iota].
    + eexists. split; [reflexivity|]. split; [|split; [done|split]].
      * intros k Hk. simpl. rewrite lookup_delete_ne, Hs1; done.
      * left. simpl. by rewrite Hs1.
      * intros info' [= <-] _ _. simpl. rewrite Hs1. split; [reflexivity|].
        eexists. apply last_snoc.
    + eexists. split; [reflexivity|]. split; [|split; [done|split]].
      * intros k _. simpl. by rewrite Hs1.
      * right. simpl. by rewrite Hs1.
      * intros info' _ _ Hrun. by rewrite Hrun in Hmiss.
    + eexists. split; [reflexivity|]. split; [|split; [done|split]].
      * intros k Hk. simpl. rewrite lookup_delete_ne, Hs1; done.
      * left. simpl. by rewrite Hs1.
      * intros info' [= <-] _ _. simpl. rewrite Hs1. split; [reflexivity|].
        eexists. apply last_snoc.
  - eexists. split; [reflexivity|]. split; [|split; [done|split]].
    + intros k _. by rewrite Hs1.
    + right. by rewrite Hs1.
    + intros info' [= <-] Hok Hrun.
      pose proof (cleanup_iptables_rules_never_raises env info Hrun Hok _ _ _ _ E1 eq_refl)
        as Hin.
      by apply not_elem_of_nil in Hin.
Qed.

(** When [ip] cannot be executed, [cleanup_networking] stops at its first
    command and the attachment stays registered. *)
Lemma cleanup_networking_without_ip (env : Env) (id : string) (w : World)
    (info : IfaceInfo) :
  active_interfaces w !! id = Some info →
  cmd_ok env (now w) ["ip"; "route"; "show"; "default"] = false →
  cmd_missing env (now w) ["ip"; "route"; "show"; "default"] = true →
  NetworkManager.cleanup_networking env id w
  = (Ok tt, after (EvRun ["ip"; "route"; "show"; "default"] false) w).
Proof.
  intros Hinfo Hok Hmiss.
  unfold NetworkManager.cleanup_networking. rewrite bind_run. unfold gets.
  cbv beta iota. rewrite Hinfo. unfold try_except.
  unfold NetworkManager._cleanup_iptables_rules.
  rewrite !bind_run, get_default_interface_run. cbn zeta.
  by rewrite Hok, Hmiss.
Qed.

(** X3: [cleanup_networking] never raises and never touches the
    attachment of another VM; the attachment of the VM is removed or left
    as it is.  When the CIDR of every registered attachment parses and
    every program can be executed, the attachment is gone afterwards, and
    a second call changes nothing at all: no command is run.  When [ip]
    cannot be executed, the exception is swallowed and the attachment
    stays registered. *)
Theorem cleanup_networking_removes_its_attachment (env : Env) (id : string) (w : World) :
  ∃ w1, NetworkManager.cleanup_networking env id w = (Ok tt, w1)
    ∧ keeps_others id w w1
    ∧ (active_interfaces w1 = delete id (active_interfaces w)
       ∨ active_interfaces w1 = active_interfaces w)
    ∧ (interfaces_wf w →
       (∀ t c, cmd_missing env t c = false) →
       active_interfaces w1 = delete id (active_interfaces w)
       ∧ NetworkManager.cleanup_networking env id w1 = (Ok tt, w1))
    ∧ (is_Some (active_interfaces w !! id) →
       cmd_ok env (now w) ["ip"; "route"; "show"; "default"] = false →
       cmd_missing env (now w) ["ip"; "route"; "show"; "default"] = true →
       active_interfaces w1 = active_interfaces w).
Proof.
  destruct (cleanup_networking_run env id w) as (w1 & H1 & Hk & Hnone & Hor & Hsome).
  exists w1. split; [exact H1|]. split; [exact Hk|]. split; [exact Hor|].
  split.
  - intros Hwf Hrun.
    assert (Hdel : active_interfaces w1 = delete id (active_interfaces w)).
    { destruct (active_interfaces w !! id) as [info|] eqn:Hinfo.
      - by apply (Hsome info eq_refl); [apply (Hwf id)|].
      - rewrite (Hnone eq_refl). by rewrite delete_id. }
    split; [exact Hdel|].
    destruct (cleanup_networking_run env id w1) as (w2 & H2 & _ & Hnone2 & _).
    rewrite H2. f_equal. apply Hnone2. rewrite Hdel. apply lookup_delete_eq.
  - intros [info Hinfo] Hok Hmiss.
    rewrite (cleanup_networking_without_ip env id w info Hinfo Hok Hmiss) in H1.
    by injection H1 as <-.
Qed.

(** X4: every attachment [setup_tap_interface] records has a CIDR that
    parses, and [cleanup_networking] records nothing: the registry that
    [__init__] leaves empty stays well formed under both. *)
Theorem interfaces_stay_well_formed (env : Env) (cfg : Config) (id : string)
    (cidr : option string) (w : World) :
  interfaces_wf (snd (NetworkManager.__init__ cfg w))
  ∧ (interfaces_wf w →
     interfaces_wf (snd (NetworkManager.setup_tap_interface env cfg id cidr w))
     ∧ interfaces_wf (snd (NetworkManager.cleanup_networking env id w))).
Proof.
  split; [|intros Hwf; split].
  - unfold NetworkManager.__init__. rewrite bind_run. simpl.
    unfold lift. intros k info. simpl. by rewrite lookup_empty.
  - destruct (NetworkManager.setup_tap_interface env cfg id cidr w) as [res w'] eqn:H.
    apply setup_tap_interface_run in H. simpl.
    destruct res as [[t|]|e].
    + destruct H as (_ & n & gw & ip & Hn & Hreg & _).
      intros k info. rewrite Hreg.
      destruct (decide (k = id)) as [->|Hne].
      * rewrite lookup_insert_eq. intros [= <-]. simpl. by rewrite Hn.
      * rewrite lookup_insert_ne by done. apply Hwf.
    + intros k info. rewrite H. apply Hwf.
    + destruct H as [[_ ->]|(_ & _ & H)]; [exact Hwf|].
      intros k info. rewrite H. apply Hwf.
  - destruct (cleanup_networking_run env id w) as (w1 & H1 & _ & _ & Hor & _).
    rewrite H1. simpl. intros k info Hlk.
    destruct Hor as [Hdel|Hsame].
    + rewrite Hdel in Hlk. apply lookup_delete_Some in Hlk as [_ Hlk].
      by apply (Hwf k).
    + rewrite Hsame in Hlk. by apply (Hwf k).
Qed.

Lemma interfaces_stay_well_formed_witness :
  interfaces_wf empty_world
  ∧ interfaces_wf (snd (NetworkManager.setup_tap_interface cooperative_host
                          config_with_ollama_url "vm1" None empty_world))
  ∧ interfaces_wf (snd (NetworkManager.cleanup_networking cooperative_host "vm1"
                          empty_world)).
Proof.
  assert (H : interfaces_wf empty_world).
  { intros k info. simpl. by rewrite lookup_empty. }
  split; [exact H|].
  exact (proj2 (interfaces_stay_well_formed cooperative_host config_with_ollama_url
                  "vm1" None empty_world) H).
Defined.

(** X5: an attachment that [setup_tap_interface] has made is removed by
    [cleanup_networking] on any host on which the programs can be
    executed: after the two calls the registry is the one before the
    attach without the entry of the VM (an older attachment of the same
    VM, overwritten by the attach, is gone too), and the last command run
    deletes the tap the attach created. *)
Theorem attach_then_cleanup (env1 env2 : Env) (cfg : Config) (id : string)
    (cidr : option string) (w : World) (t : string) (w1 : World) :
  NetworkManager.setup_tap_interface env1 cfg id cidr w = (Ok (Some t), w1) →
  (∀ t c, cmd_missing env2 t c = false) →
  ∃ w2 ok,
    NetworkManager.cleanup_networking env2 id w1 = (Ok tt, w2)
    ∧ active_interfaces w2 = delete id (active_interfaces w)
    ∧ last (trace w2) = Some (EvRun ["sudo"; "ip"; "link"; "delete"; t] ok).
Proof.
  intros H Hrun. apply setup_tap_interface_run in H.
  destruct H as (-> & n & gw & ip & Hn & Hreg & _).
  destruct (cleanup_networking_run env2 id w1) as (w2 & H2 & _ & _ & _ & Hsome).
  edestruct Hsome as (Hdel & ok & Hlast).
  { rewrite Hreg. apply lookup_insert_eq. }
  { simpl. by rewrite Hn. }
  { exact Hrun. }
  exists w2, ok. split; [exact H2|]. split; [|exact Hlast].
  rewrite Hdel, Hreg. apply delete_insert_eq.
Qed.

Lemma attach_then_cleanup_witness :
  NetworkManager.setup_tap_interface cooperative_host config_with_ollama_url "vm1" None
    empty_world
  = (Ok (Some "tapvm1"), world_attached)
  ∧ (∀ t c, cmd_missing responsive_host t c = false)
  ∧ ∃ w2 ok,
      NetworkManager.cleanup_networking responsive_host "vm1" world_attached = (Ok tt, w2)
      ∧ active_interfaces w2 = delete "vm1" (active_interfaces empty_world)
      ∧ last (trace w2) = Some (EvRun ["sudo"; "ip"; "link"; "delete"; "tapvm1"] ok).
Proof.
  assert (H : NetworkManager.setup_tap_interface cooperative_host
                config_with_ollama_url "vm1" None empty_world
              = (Ok (Some "tapvm1"), world_attached)).
  { unfold world_attached.
    rewrite (surjective_pairing (NetworkManager.setup_tap_interface _ _ _ _ _)) at 1.
    f_equal; vm_compute; reflexivity. }
  assert (Hrun : ∀ t c, cmd_missing responsive_host t c = false) by reflexivity.
  split; [exact H|]. split; [exact Hrun|].
  exact (attach_then_cleanup cooperative_host responsive_host config_with_ollama_url
           "vm1" None empty_world "tapvm1" world_attached H Hrun).
Defined.

(** *** NAT rules *)

Lemma nonempty_default_dev (lines : list string) :
  ProviderResolver.nonempty (NetworkManager.first_default_dev lines)
  = NetworkManager.first_default_dev lines.
Proof.
  destruct (NetworkManager.first_default_dev lines) as [d|] eqn:Hd; [|reflexivity].
  apply first_default_dev_spec in Hd as (line & _ & _ & _ & Hw).
  destruct (words_aux_spec line "" eq_refl d Hw) as [Hne _].
  simpl. apply String.eqb_neq in Hne. by rewrite Hne.
Qed.

Lemma new_events (w : World) (evs : list Event) :
  drop (length (trace w)) (trace w ++ evs) = evs.
Proof. apply drop_app_length. Qed.



(** X7: the commands of a [cleanup_networking] that finds the attachment
    of the VM, with a CIDR that parses, on a host on which the programs
    can be executed: the default route is asked for; when there is one,
    the three rules of [nat_rules] are deleted, for the network of the
    attachment, the default interface and the tap (the same rules
    [setup_nat_routing] adds, with [-D] for [-A]); then the tap is
    deleted.  The exit status of none of them matters. *)
Theorem cleanup_networking_commands (env : Env) (id : string) (w : World)
    (info : IfaceInfo) (n : Ipaddress.network) :
  active_interfaces w !! id = Some info →
  Ipaddress.IPv4Network (if_cidr info) = Ok n →
  (∀ t c, cmd_missing env t c = false) →
  ∃ o w1 w',
    NetworkManager._get_default_interface env w = (Ok o, w1)
    ∧ NetworkManager.cleanup_networking env id w = (Ok tt, w')
    ∧ commands (drop (length (trace w)) (trace w'))
      = (["ip"; "route"; "show"; "default"]
         :: match o with
            | Some d => nat_rules "-D" (Ipaddress.str_network n) d (if_tap_name info)
            | None => []
            end
         ++ [["sudo"; "ip"; "link"; "delete"; if_tap_name info]])%list.
Proof.
  intros Hinfo Hn Hrun.
  pose proof (get_default_interface_run env w) as Hg. cbn zeta in Hg.
  rewrite Hrun in Hg.
  remember (if cmd_ok env (now w) ["ip"; "route"; "show"; "default"]
            then NetworkManager.first_default_dev
                   (Ipaddress.split "010"%char (route_stdout env (now w)))
            else None) as o eqn:Ho.
  assert (Hg' : NetworkManager._get_default_interface env w
                = (Ok o, after (EvRun ["ip"; "route"; "show"; "default"]
                                  (cmd_ok env (now w) ["ip"; "route"; "show"; "default"]))
                           w)).
  { rewrite Hg, Ho. by destruct (cmd_ok env (now w) _). }
  clear Hg.
  assert (Hnon : ProviderResolver.nonempty o = o).
  { subst o. destruct (cmd_ok env (now w) _); [|reflexivity].
    apply nonempty_default_dev. }
  exists o. eexists. clear Ho.
  destruct o as [d|]; eexists; (split; [exact Hg'|]);
    unfold NetworkManager.cleanup_networking; rewrite bind_run; unfold gets;
    cbv beta iota; rewrite Hinfo; unfold try_except;
    unfold NetworkManager._cleanup_iptables_rules;
    rewrite !bind_run, Hg'; cbv beta iota; rewrite Hnon.
  - rewrite bind_run. unfold lift. rewrite Hn. cbv beta iota.
    cbn [for_each].
    repeat (rewrite ?bind_run, ?run_eq, ?run_result_present by apply Hrun;
            cbn [ret]; rewrite ?andb_false_l; cbv beta iota).
    split; [reflexivity|].
    cbn [trace with_active_interfaces after with_trace with_now].
    rewrite <- !app_assoc, new_events. reflexivity.
  - cbv beta iota.
    repeat (rewrite ?bind_run, ?run_eq, ?run_result_present by apply Hrun;
            cbn [ret]; rewrite ?andb_false_l; cbv beta iota).
    split; [reflexivity|].
    cbn [trace with_active_interfaces after with_trace with_now].
    rewrite <- !app_assoc, new_events. reflexivity.
Qed.

Lemma cleanup_networking_commands_witness :
  active_interfaces world_attached !! "vm1" = Some attachment_vm1
  ∧ Ipaddress.IPv4Network (if_cidr attachment_vm1) = Ok (Ipaddress.net 10 0 0 0 24)
  ∧ (∀ t c, cmd_missing cooperative_host t c = false)
  ∧ ∃ o w1 w',
      NetworkManager._get_default_interface cooperative_host world_attached = (Ok o, w1)
      ∧ NetworkManager.cleanup_networking cooperative_host "vm1" world_attached
        = (Ok tt, w')
      ∧ commands (drop (length (trace world_attached)) (trace w'))
        = (["ip"; "route"; "show"; "default"]
           :: match o with
              | Some d => nat_rules "-D" (Ipaddress.str_network (Ipaddress.net 10 0 0 0 24))
                            d (if_tap_name attachment_vm1)
              | None => []
              end
           ++ [["sudo"; "ip"; "link"; "delete"; if_tap_name attachment_vm1]])%list.
Proof.
  assert (H1 : active_interfaces world_attached !! "vm1" = Some attachment_vm1)
    by (vm_compute; reflexivity).
  assert (H2 : Ipaddress.IPv4Network (if_cidr attachment_vm1)
               = Ok (Ipaddress.net 10 0 0 0 24)) by (vm_compute; reflexivity).
  assert (H3 : ∀ t c, cmd_missing cooperative_host t c = false) by reflexivity.
  split; [exact H1|]. split; [exact H2|]. split; [exact H3|].
  exact (cleanup_networking_commands cooperative_host "vm1" world_attached
           attachment_vm1 (Ipaddress.net 10 0 0 0 24) H1 H2 H3).
Defined.

(** *** Detaching everything *)

Lemma cleanup_networking_deletes (env : Env) (id : string) (w : World) :
  (∀ t c, cmd_missing env t c = false) →
  interfaces_wf w →
  ∃ w1, NetworkManager.cleanup_networking env id w = (Ok tt, w1)
    ∧ active_interfaces w1 = delete id (active_interfaces w).
Proof.
  intros Hrun Hwf.
  destruct (cleanup_networking_run env id w) as (w1 & H1 & _ & Hnone & _ & Hsome).
  exists w1. split; [exact H1|].
  destruct (active_interfaces w !! id) as [info|] eqn:Hinfo.
  - by apply (Hsome info eq_refl); [apply (Hwf id)|].
  - rewrite (Hnone eq_refl). by rewrite delete_id.
Qed.

Lemma interfaces_wf_delete (id : string) (w w1 : World) :
  interfaces_wf w →
  active_interfaces w1 = delete id (active_interfaces w) →
  interfaces_wf w1.
Proof.
  intros Hwf Hdel k info. rewrite Hdel. intros [_ H]%lookup_delete_Some.
  by apply (Hwf k).
Qed.

Lemma cleanup_each_deletes (env : Env) (ids : list string) (w : World) :
  (∀ t c, cmd_missing env t c = false) →
  interfaces_wf w →
  ∃ w', for_each ids (NetworkManager.cleanup_networking env) w = (Ok tt, w')
    ∧ interfaces_wf w'
    ∧ ∀ k, active_interfaces w' !! k
           = if bool_decide (k ∈ ids) then None else active_interfaces w !! k.
Proof.
  intros Hrun. revert w. induction ids as [|id ids IH]; intros w Hwf.
  - exists w. split; [reflexivity|]. split; [exact Hwf|]. intros k.
    rewrite bool_decide_eq_false_2; [done|apply not_elem_of_nil].
  - destruct (cleanup_networking_deletes env id w Hrun Hwf) as (w1 & H1 & Hdel).
    destruct (IH w1 (interfaces_wf_delete _ _ _ Hwf Hdel)) as (w' & H' & Hwf' & Hlk).
    exists w'. split; [|split; [exact Hwf'|]].
    + cbn [for_each]. by rewrite (bind_ok _ _ _ _ _ H1).
    + intros k. rewrite Hlk, Hdel.
      destruct (decide (k = id)) as [->|Hne].
      * rewrite lookup_delete_eq.
        rewrite (bool_decide_eq_true_2 (id ∈ id :: ids)) by apply list_elem_of_here.
        by destruct (bool_decide _).
      * rewrite lookup_delete_ne by done.
        destruct (bool_decide (k ∈ ids)) eqn:E.
        -- apply bool_decide_eq_true in E.
           by rewrite bool_decide_eq_true_2 by (by apply list_elem_of_further).
        -- apply bool_decide_eq_false in E.
           rewrite bool_decide_eq_false_2; [done|].
           by intros [?|?]%elem_of_cons.
Qed.

(** [cleanup_all_networking] never raises: each [cleanup_networking]
    swallows what goes wrong, and so does the [try] around the last
    command. *)
Lemma cleanup_all_networking_never_raises (env : Env) (vm_ids : list string) :
  raises_within [] (NetworkManager.cleanup_all_networking env vm_ids).
Proof.
  unfold NetworkManager.cleanup_all_networking.
  apply raises_within_bind.
  { apply raises_within_for_each. intros id w r w' e H.
    destruct (cleanup_networking_run env id w) as (w1 & H1 & _).
    rewrite H1 in H. by injection H as <- <-. }
  intros _. apply raises_within_bind; [apply raises_within_gets|intros b].
  apply raises_within_when, raises_within_try_except.
  intros _. apply raises_within_ret.
Qed.

(** X8: [cleanup_all_networking] never raises, whatever the host does.
    For a registry whose CIDRs all parse, on a host on which the programs
    can be executed and in whatever order the keys are visited, it leaves
    the registry empty and ends by switching IP forwarding off. *)
Theorem cleanup_all_networking_empties (env : Env) (vm_ids : list string) (w : World) :
  (∃ w', NetworkManager.cleanup_all_networking env vm_ids w = (Ok tt, w'))
  ∧ (interfaces_wf w →
     (∀ k, is_Some (active_interfaces w !! k) → k ∈ vm_ids) →
     (∀ t c, cmd_missing env t c = false) →
     ∃ w' ok,
       NetworkManager.cleanup_all_networking env vm_ids w = (Ok tt, w')
       ∧ active_interfaces w' = ∅
       ∧ last (trace w')
         = Some (EvRun ["sudo"; "sysctl"; "-w"; "net.ipv4.ip_forward=0"] ok)).
Proof.
  split.
  { destruct (never_raises_ok (NetworkManager.cleanup_all_networking env vm_ids) w
                (cleanup_all_networking_never_raises env vm_ids)) as ([] & w' & H).
    by exists w'. }
  intros Hwf Hall Hrun.
  destruct (cleanup_each_deletes env vm_ids w Hrun Hwf) as (w1 & H1 & _ & Hlk).
  assert (Hempty : active_interfaces w1 = ∅).
  { apply map_eq. intros k. rewrite Hlk, lookup_empty.
    destruct (bool_decide (k ∈ vm_ids)) eqn:E; [reflexivity|].
    apply bool_decide_eq_false in E.
    destruct (active_interfaces w !! k) eqn:Hk; [|reflexivity].
    destruct E. apply Hall. by eexists. }
  unfold NetworkManager.cleanup_all_networking.
  rewrite (bind_ok _ _ _ _ _ H1).
  rewrite bind_run. unfold gets. cbv beta iota.
  rewrite (bool_decide_eq_true_2 _ Hempty). cbn [when]. unfold try_except.
  rewrite bind_run, run_eq, run_result_present by apply Hrun.
  rewrite andb_false_l. cbv beta iota.
  eexists _, _. split; [reflexivity|]. split; [exact Hempty|].
  simpl. apply last_snoc.
Qed.

Lemma cleanup_all_networking_empties_witness :
  interfaces_wf world_attached
  ∧ (∀ k, is_Some (active_interfaces world_attached !! k) → k ∈ ["vm1"])
  ∧ (∀ t c, cmd_missing cooperative_host t c = false)
  ∧ ∃ w' ok,
      NetworkManager.cleanup_all_networking cooperative_host ["vm1"] world_attached
      = (Ok tt, w')
      ∧ active_interfaces w' = ∅
      ∧ last (trace w')
        = Some (EvRun ["sudo"; "sysctl"; "-w"; "net.ipv4.ip_forward=0"] ok).
Proof.
  assert (Hreg : active_interfaces world_attached = {["vm1" := attachment_vm1]})
    by (vm_compute; reflexivity).
  assert (H1 : interfaces_wf world_attached).
  { intros k info. rewrite Hreg. intros [<- <-]%lookup_singleton_Some.
    vm_compute. reflexivity. }
  assert (H2 : ∀ k, is_Some (active_interfaces world_attached !! k) → k ∈ ["vm1"]).
  { intros k [info Hk]. rewrite Hreg in Hk.
    apply lookup_singleton_Some in Hk as [<- _]. apply list_elem_of_here. }
  assert (H3 : ∀ t c, cmd_missing cooperative_host t c = false) by reflexivity.
  split; [exact H1|]. split; [exact H2|]. split; [exact H3|].
  exact (proj2 (cleanup_all_networking_empties cooperative_host ["vm1"] world_attached)
           H1 H2 H3).
Defined.

(** ** More on the VM manager *)

(** *** The manifest is replaced atomically *)

Lemma manifest_tmp_is_not_manifest (cfg : Config) (id : string) :
  path_join (VMManager.results_dir cfg id) "manifest.json.tmp"
  ≠ VMManager.manifest_file cfg id.
Proof. paths_differ. Qed.

(** X9: [_write_manifest] replaces [manifest.json] atomically.  After a
    run that returns, the file holds the complete new manifest (the seven
    fixed fields and, when there is one, the provider response) and the
    temporary file is gone; after a run that raises, [manifest.json] is
    exactly what it was before.  No other file than these two is touched. *)
Theorem write_manifest_atomic (env : Env) (cfg : Config) (r : nat) (state : string)
    (w : World) (i : VMInstance) (res : result unit) (w' : World) :
  heap w !! r = Some i →
  VMManager._write_manifest env cfg r state w = (res, w') →
  let final := VMManager.manifest_file cfg (vm_id i) in
  let tmp := path_join (VMManager.results_dir cfg (vm_id i)) "manifest.json.tmp" in
  match res with
  | Ok _ =>
      files w' !! tmp = None
      ∧ ∃ m created_at,
          files w' !! final = Some (FJson (PDict m))
          ∧ m !! "provider_response" = manifest_response i
          ∧ delete "provider_response" m
            = <["vm_id" := PStr (vm_id i)]>
              (<["image" := PStr (path_name (path_text (paths_ubuntu_images cfg)))]>
              (<["memory_mb" := PInt (vm_memory_mb cfg)]>
              (<["vcpus" := PInt (vm_vcpus cfg)]>
              (<["network_mode" := PStr "slirp"]>
              (<["created_at" := PStr created_at]>
              (<["state" := PStr state]> ∅))))))
  | Raise _ => files w' !! final = files w !! final
  end
  ∧ ∀ p, p ≠ final → p ≠ tmp → files w' !! p = files w !! p.
Proof.
  intros Hi. cbn zeta.
  pose proof (manifest_tmp_is_not_manifest cfg (vm_id i)) as Hne.
  unfold VMManager._write_manifest.
  rewrite bind_run. unfold deref at 1. rewrite Hi.
  rewrite bind_run, mkdir_eq. cbn zeta.
  destruct (fs_ok env (now w) _) eqn:Hmk; cbv beta iota;
    [|intros [= <- <-]; split; [reflexivity|by intros p _ _]].
  rewrite bind_run. unfold utc_now, tick. rewrite bind_run. cbn [ret].
  cbv beta iota.
  fold (recorded_response i).
  set (base := <["vm_id" := _]> _).
  set (m := match _ with Some v => _ | None => base end).
  rewrite bind_run, write_file_eq. cbn zeta.
  match goal with
  | |- context [if ?b then _ else _] => destruct b eqn:Hwr
  end; cbv beta iota;
    [|intros [= <- <-]; split; [reflexivity|by intros p _ _]].
  rewrite rename_eq. cbn [files with_files after with_trace with_now].
  rewrite lookup_insert_eq.
  match goal with
  | |- context [if ?b then _ else _] => destruct b eqn:Hrn
  end; intros [= <- <-]; cbn [files with_files after with_trace with_now].
  - assert (Hbase : base !! "provider_response" = None).
    { subst base. repeat (rewrite lookup_insert_ne by done). apply lookup_empty. }
    split; [split|].
    + rewrite lookup_insert_ne by done. apply lookup_delete_eq.
    + exists m. eexists. split; [apply lookup_insert_eq|].
      subst m. unfold manifest_response. cbn zeta.
      destruct (if negb _ then _ else _) as [v|]; [destruct (truthy v)|].
      * split; [apply lookup_insert_eq|].
        rewrite delete_insert_eq. by apply delete_id.
      * split; [exact Hbase|]. by apply delete_id.
      * split; [exact Hbase|]. by apply delete_id.
    + intros p Hp1 Hp2.
      rewrite lookup_insert_ne by done. rewrite lookup_delete_ne by done.
      by rewrite lookup_insert_ne.
  - split.
    + by rewrite lookup_insert_ne.
    + intros p _ Hp2. by rewrite lookup_insert_ne.
Qed.

Lemma write_manifest_atomic_witness :
  heap world_created !! 0%nat = Some created_instance
  ∧ VMManager._write_manifest cooperative_host config_with_ollama_url 0 "running"
      world_created
    = (Ok tt,
       snd (VMManager._write_manifest cooperative_host config_with_ollama_url 0 "running"
              world_created))
  ∧ files (snd (VMManager._write_manifest cooperative_host config_with_ollama_url 0
                  "running" world_created))
      !! "/srv/results/vm1/manifest.json.tmp" = None.
Proof.
  assert (H1 : heap world_created !! 0%nat = Some created_instance)
    by (vm_compute; reflexivity).
  assert (H2 : VMManager._write_manifest cooperative_host config_with_ollama_url 0
                 "running" world_created
               = (Ok tt,
                  snd (VMManager._write_manifest cooperative_host
                         config_with_ollama_url 0 "running" world_created))).
  { rewrite (surjective_pairing (VMManager._write_manifest _ _ _ _ _)) at 1.
    f_equal; vm_compute; reflexivity. }
  split; [exact H1|]. split; [exact H2|].
  exact (proj1 (proj1 (write_manifest_atomic cooperative_host config_with_ollama_url 0
                         "running" world_created created_instance _ _ H1 H2))).
Defined.

(** *** The shared disk is always unmounted *)

Lemma calm_app (xs ys : list Event) : calm (xs ++ ys) = calm xs && calm ys.
Proof. apply forallb_app. Qed.

#[global] Instance no_mounting_preorder : PreOrder no_mounting.
Proof.
  split.
  - intros w. exists []. by rewrite app_nil_r.
  - intros w1 w2 w3 (e1 & H1 & C1) (e2 & H2 & C2).
    exists (e1 ++ e2)%list. rewrite H2, H1, <- app_assoc, calm_app, C1, C2. done.
Qed.
#[global] Instance no_mounting_clock : IgnoresClock no_mounting.
Proof. intros f w. exists []. by rewrite app_nil_r. Qed.
#[global] Instance no_mounting_files : IgnoresFiles no_mounting.
Proof. intros f w. exists []. by rewrite app_nil_r. Qed.
#[global] Instance no_mounting_alive : IgnoresAlive no_mounting.
Proof. intros f w. exists []. by rewrite app_nil_r. Qed.
#[global] Instance no_mounting_heap : IgnoresHeap no_mounting.
Proof. intros f w. exists []. by rewrite app_nil_r. Qed.

Lemma no_mounting_after (ev : Event) (w : World) :
  is_mounting ev = false → no_mounting w (after ev w).
Proof. intros H. exists [ev]. simpl. by rewrite H. Qed.

Lemma no_mounting_run (env : Env) (check : bool) (cmd : list string) :
  is_mounting (EvRun cmd true) = false →
  preserves no_mounting (run env check cmd).
Proof.
  intros H w r w'. rewrite run_eq. intros [= <- <-].
  apply no_mounting_after. revert H.
  destruct cmd as [|program [|verb rest]]; simpl; try done.
  destruct (String.eqb program "sudo"); simpl; [|done].
  destruct (String.eqb verb "umount"); [by rewrite !orb_true_r|].
  rewrite !orb_false_r, andb_true_r. by intros ->.
Qed.

Lemma no_mounting_mkdir (env : Env) (p : string) : preserves no_mounting (mkdir env p).
Proof. intros w r w'. rewrite mkdir_eq. intros [= <- <-]. by apply no_mounting_after. Qed.

Lemma no_mounting_rmdir (env : Env) (p : string) : preserves no_mounting (rmdir env p).
Proof. intros w r w'. rewrite rmdir_eq. intros [= <- <-]. by apply no_mounting_after. Qed.

Lemma no_mounting_write_file (env : Env) (p : string) (c : file) :
  preserves no_mounting (write_file env p c).
Proof.
  intros w r w'. rewrite write_file_eq. cbn zeta.
  destruct (fs_ok env (now w) p); intros [= <- <-].
  - etransitivity; [|apply ignores_files]. by apply no_mounting_after.
  - by apply no_mounting_after.
Qed.

Lemma no_mounting_unlink (env : Env) (p : string) : preserves no_mounting (unlink env p).
Proof.
  intros w r w'. rewrite unlink_eq. cbn zeta.
  destruct (_ && _); intros [= <- <-].
  - etransitivity; [|apply ignores_files]. by apply no_mounting_after.
  - by apply no_mounting_after.
Qed.

Ltac no_mounting :=
  frame;
  try first [ apply no_mounting_run; reflexivity
            | apply no_mounting_mkdir
            | apply no_mounting_rmdir
            | apply no_mounting_write_file
            | apply no_mounting_unlink ].

Lemma no_mounting_preload_task_data (env : Env) (mp : string)
    (d : gmap string pyval) (id : string) :
  preserves no_mounting (VMManager._preload_task_data env mp d id).
Proof.
  unfold VMManager._preload_task_data, VMManager.task_id_of. no_mounting.
Qed.

(** X10: whatever happens between them, a mount that [create_shared_disk]
    has made is followed by exactly one [sudo umount] of the mount point.
    The events of a run either contain no mount and no umount at all (the
    mount was not reached or failed, and the run raises), or they are: some
    events, the successful mount of the image, the events of the body (none
    of which mounts or unmounts, whether the body fails or not), the
    umount, and what follows it. *)
Theorem create_shared_disk_always_unmounts (env : Env) (cfg : Config) (id : string)
    (td : option (gmap string pyval)) (w : World)
    (res : result string) (w' : World) :
  VMManager.create_shared_disk env cfg id td w = (res, w') →
  let mount_point := "/tmp/shared-mount-" +:+ id in
  ∃ evs, trace w' = (trace w ++ evs)%list
    ∧ ((calm evs = true ∧ is_ok res = false)
       ∨ ∃ pre body ok tail,
           evs = (pre
                  ++ [EvRun ["sudo"; "mount"; VMManager.shared_disk_file id; mount_point]
                        true]
                  ++ body
                  ++ [EvRun ["sudo"; "umount"; mount_point] ok]
                  ++ tail)%list
           ∧ calm pre = true ∧ calm body = true ∧ calm tail = true).
Proof.
  cbn zeta. unfold VMManager.create_shared_disk.
  run_cases env.
  2,3: intros [= <- <-]; eexists; (split; [reflexivity|]); by left.
  rewrite bind_run. unfold modify at 1. cbv beta iota.
  run_cases env.
  2,3: intros [= <- <-]; eexists; (split; [simpl; by rewrite <- app_assoc|]); by left.
  rewrite bind_run, mkdir_eq. cbn zeta.
  match goal with
  | |- context [fs_ok env ?t ?p] => destruct (fs_ok env t p)
  end; cbv beta iota.
  2:{ intros [= <- <-]. eexists. split; [simpl; by rewrite <- !app_assoc|]. by left. }
  run_cases env.
  2,3: intros [= <- <-]; eexists; (split; [simpl; by rewrite <- !app_assoc|]); by left.
  rewrite bind_run. unfold try_finally at 1.
  match goal with
  | |- context [let (_, _) := ?m ?w0 in _] =>
      assert (Hbody : preserves no_mounting m);
        [|destruct (m w0) as [rb wb] eqn:Eb]
  end.
  { no_mounting. apply no_mounting_preload_task_data. }
  destruct (Hbody _ _ _ Eb) as (body & Hb & Cb).
  run_cases env.
  - rewrite rmdir_eq. cbn zeta.
    match goal with
    | |- context [fs_ok env ?t ?p] => destruct (fs_ok env t p)
    end; cbv beta iota.
    + destruct rb; intros [= <- <-];
        (eexists; split;
         [cbn [trace after with_trace with_now]; rewrite Hb;
          cbn [trace after with_trace with_now with_files];
          rewrite <- !app_assoc; reflexivity|]);
        right; eexists [_; _; _], body, true, [_];
        (split; [reflexivity|by repeat split]).
    + intros [= <- <-].
      eexists; split;
        [cbn [trace after with_trace with_now]; rewrite Hb;
         cbn [trace after with_trace with_now with_files];
         rewrite <- !app_assoc; reflexivity|].
      right. eexists [_; _; _], body, true, [_].
      split; [reflexivity|by repeat split].
  - intros [= <- <-].
    eexists; split;
      [cbn [trace after with_trace with_now]; rewrite Hb;
       cbn [trace after with_trace with_now with_files];
       rewrite <- !app_assoc; reflexivity|].
    right. eexists [_; _; _], body, false, [].
    split; [reflexivity|by repeat split].
  - intros [= <- <-].
    eexists; split;
      [cbn [trace after with_trace with_now]; rewrite Hb;
       cbn [trace after with_trace with_now with_files];
       rewrite <- !app_assoc; reflexivity|].
    right. eexists [_; _; _], body, false, [].
    split; [reflexivity|by repeat split].
Qed.

Lemma create_shared_disk_always_unmounts_witness :
  VMManager.create_shared_disk cooperative_host config_with_ollama_url "vm1"
    (Some task_request) empty_world
  = (Ok "/tmp/shared-vm1.ext4",
     snd (VMManager.create_shared_disk cooperative_host config_with_ollama_url "vm1"
            (Some task_request) empty_world))
  ∧ ∃ evs,
      trace (snd (VMManager.create_shared_disk cooperative_host config_with_ollama_url
                    "vm1" (Some task_request) empty_world))
      = (trace empty_world ++ evs)%list
      ∧ ((calm evs = true
          ∧ is_ok (Ok "/tmp/shared-vm1.ext4" : result string) = false)
         ∨ ∃ pre body ok tail,
             evs = (pre
                    ++ [EvRun ["sudo"; "mount"; VMManager.shared_disk_file "vm1";
                               "/tmp/shared-mount-" +:+ "vm1"] true]
                    ++ body
                    ++ [EvRun ["sudo"; "umount"; "/tmp/shared-mount-" +:+ "vm1"] ok]
                    ++ tail)%list
             ∧ calm pre = true ∧ calm body = true ∧ calm tail = true).
Proof.
  assert (H : VMManager.create_shared_disk cooperative_host config_with_ollama_url
                "vm1" (Some task_request) empty_world
              = (Ok "/tmp/shared-vm1.ext4",
                 snd (VMManager.create_shared_disk cooperative_host
                        config_with_ollama_url "vm1" (Some task_request)
                        empty_world))).
  { rewrite (surjective_pairing (VMManager.create_shared_disk _ _ _ _ _)) at 1.
    f_equal; vm_compute; reflexivity. }
  split; [exact H|].
  exact (create_shared_disk_always_unmounts _ _ _ _ _ _ _ H).
Defined.

(** *** Mounting the shared disk *)

Lemma mount_shared_disk_gone (env : Env) (id : string) (w : World) :
  files w !! VMManager.shared_disk_file id = None →
  VMManager.mount_shared_disk env id w
  = (Raise (Exn OSError ("Shared disk not found: " +:+ VMManager.shared_disk_file id)),
     w).
Proof.
  intros Habs. unfold VMManager.mount_shared_disk.
  rewrite bind_run. unfold path_exists, gets.
  rewrite bool_decide_eq_false_2; [reflexivity|].
  rewrite Habs. by intros [? ?].
Qed.

(** X11: [mount_shared_disk] looks for the image first: when
    [/tmp/shared-<vm_id>.ext4] does not exist it raises [FileNotFoundError]
    without any host interaction.  When the image exists, it creates the
    mount point and runs [sudo mount] on the image; it returns the mount
    point exactly when both succeed. *)
Theorem mount_shared_disk_outcome (env : Env) (id : string) (w : World) :
  let image := VMManager.shared_disk_file id in
  let mount_point := "/tmp/shared-mount-" +:+ id in
  (files w !! image = None →
   VMManager.mount_shared_disk env id w
   = (Raise (Exn OSError ("Shared disk not found: " +:+ image)), w))
  ∧ (is_Some (files w !! image) →
     ∃ res w',
       VMManager.mount_shared_disk env id w = (res, w')
       ∧ files w' = files w
       ∧ (res = Ok mount_point
          ↔ fs_ok env (now w) mount_point = true
            ∧ cmd_ok env (S (now w)) ["sudo"; "mount"; image; mount_point] = true)
       ∧ (res = Ok mount_point →
          trace w' = (trace w ++ [EvMkdir mount_point true;
                                  EvRun ["sudo"; "mount"; image; mount_point] true])%list)).
Proof.
  cbn zeta. unfold VMManager.mount_shared_disk. split.
  - intros Habs. rewrite bind_run. unfold path_exists, gets.
    rewrite bool_decide_eq_false_2; [reflexivity|].
    rewrite Habs. by intros [? ?].
  - intros Hex. rewrite bind_run. unfold path_exists, gets.
    rewrite (bool_decide_eq_true_2 _ Hex). cbn [negb]. cbv beta iota.
    rewrite bind_run, mkdir_eq. cbn zeta.
    destruct (fs_ok env (now w) _) eqn:Hfs; cbv beta iota.
    2:{ eexists _, _. split; [reflexivity|]. split; [reflexivity|].
        split; [split; [discriminate|intros [[=] _]]|discriminate]. }
    rewrite bind_run, run_eq. unfold run_result.
    cbn [now after with_trace with_now].
    destruct (cmd_ok env (S (now w)) _) eqn:Hcmd; cbv beta iota;
      [|destruct (cmd_missing env (S (now w)) _); cbv beta iota].
    + eexists _, _. split; [reflexivity|]. split; [reflexivity|].
      split; [done|]. intros _. simpl. by rewrite <- app_assoc.
    + eexists _, _. split; [reflexivity|]. split; [reflexivity|].
      split; [split; [discriminate|intros [_ [=]]]|discriminate].
    + eexists _, _. split; [reflexivity|]. split; [reflexivity|].
      split; [split; [discriminate|intros [_ [=]]]|discriminate].
Qed.

(** X12: whether the shared disk can still be mounted after a stop
    depends on the guest artifacts.  For a VM that [create_vm] has made and
    [stop_vm] then stops: when the preparation of the guest artifacts had
    succeeded, the image is still on disk and [mount_shared_disk] does not
    raise [FileNotFoundError]; when it had failed, and unlinking succeeds,
    the stop has deleted the image and [mount_shared_disk] raises
    [FileNotFoundError]. *)
Theorem mount_shared_disk_after_stop (env : Env) (cfg : Config) (id : string)
    (td : option (gmap string pyval)) (w : World)
    (r : nat) (td' : option (gmap string pyval)) (wa : World)
    (resp : result unit) (wb : World) :
  VMManager.provision_vm env cfg id td w = (Ok (r, td'), wa) →
  VMManager.prepare_guest_artifacts env cfg id r wa = (resp, wb) →
  let not_found :=
    Exn OSError ("Shared disk not found: " +:+ VMManager.shared_disk_file id) in
  ∃ w1,
    VMManager.create_vm env cfg id td w = (Ok (r, td'), w1)
    ∧ ∀ env2, ∃ w2,
        VMManager.stop_vm env2 cfg r w1 = (Ok tt, w2)
        ∧ (is_ok resp = true →
           ∀ env3, fst (VMManager.mount_shared_disk env3 id w2) ≠ Raise not_found)
        ∧ (is_ok resp = false →
           (∀ t q, fs_ok env2 t q = true) →
           ∀ env3, VMManager.mount_shared_disk env3 id w2 = (Raise not_found, w2)).
Proof.
  intros Hprov Hprep. cbn zeta.
  destruct (provision_vm_run _ _ _ _ _ _ _ _ Hprov) as (w0 & _ & Hia & Himg).
  destruct (create_vm_run _ _ _ _ _ _ _ _ Hprov)
    as (resp' & wb' & resm & wc & Hprep' & Hman & Hcreate).
  rewrite Hprep in Hprep'. injection Hprep' as <- <-.
  pose proof (prepare_guest_artifacts_run _ _ _ _ _ _ _ _ Hia Hprep) as Hrun.
  pose proof (keeps_file_prepare_guest_artifacts env cfg id r
                (VMManager.shared_disk_file id)
                ltac:(unfold VMManager.shared_disk_file; last_char)
                _ _ _ Hprep) as Hk1.
  pose proof (preserves_write_manifest same_heap _ _ _ _ _ _ _ Hman) as Hheap.
  pose proof (keeps_file_write_manifest env cfg r "pending"
                (VMManager.shared_disk_file id) "4"
                ltac:(unfold VMManager.shared_disk_file; last_char)
                ltac:(discriminate) ltac:(discriminate) _ _ _ Hman) as Hk2.
  unfold same_heap, keeps_file in *.
  exists (with_active_vms (insert id r) wc). split; [exact Hcreate|].
  intros env2.
  assert (∃ ib, heap wb !! r = Some ib
            ∧ vm_id ib = id
            ∧ socket_path ib = Some (VMManager.socket_file id)
            ∧ shared_disk_path ib
              = Some (if is_ok resp then VMManager.guest_tar_file cfg id
                      else VMManager.shared_disk_file id))
    as (ib & Hib & Hvm & Hsock & Hsd).
  { destruct resp as [[]|e].
    - destruct Hrun as (_ & ib & Hib & Hsd & Hvm & Hsock & _).
      exists ib. by repeat split.
    - rewrite Hrun. eexists. split; [exact Hia|]. by repeat split. }
  assert (Hi1 : heap (with_active_vms (insert id r) wc) !! r = Some ib).
  { cbn [heap with_active_vms]. by rewrite Hheap. }
  destruct (stop_vm_run env2 cfg r _ ib Hi1) as (w2 & Hstop & _ & _ & _ & _ & Hgone).
  exists w2. split; [exact Hstop|]. split.
  - intros Hok env3.
    assert (Hkeep : files w2 !! VMManager.shared_disk_file id
                    = Some (FBlob "ext4")).
    { erewrite stop_vm_keeps_file; [|exact Hi1| |exact Hstop].
      - cbn [files with_active_vms]. by rewrite Hk2, Hk1.
      - unfold cleanup_targets. rewrite Hsock, Hsd, Hvm, Hok. simpl.
        intros Hin.
        apply elem_of_cons in Hin as [Hin|Hin];
          [by apply (socket_is_not_the_image id)|].
        apply elem_of_cons in Hin as [Hin|Hin];
          [by apply (guest_tar_is_not_the_image cfg id)|].
        apply list_elem_of_singleton in Hin.
        by apply (config_is_not_the_image id). }
    unfold VMManager.mount_shared_disk. rewrite bind_run.
    unfold path_exists, gets.
    rewrite bool_decide_eq_true_2 by (rewrite Hkeep; by eexists).
    cbn [negb]. cbv beta iota.
    rewrite bind_run, mkdir_eq. cbn zeta.
    destruct (fs_ok env3 _ _); cbv beta iota; [|simpl; intros [=]].
    rewrite bind_run, run_eq. unfold run_result.
    destruct (cmd_ok env3 _ _); [simpl; discriminate|].
    destruct (cmd_missing env3 _ _); simpl; [|discriminate].
    by intros [= ?].
  - intros Hok Hfs env3.
    apply mount_shared_disk_gone.
    apply (Hgone Hfs). unfold cleanup_targets. rewrite Hsd, Hok.
    apply elem_of_app. right. simpl. apply list_elem_of_here.
Qed.

Lemma mount_shared_disk_after_stop_witness :
  VMManager.provision_vm cooperative_host config_with_ollama_url "vm1"
    (Some task_request) empty_world
  = (Ok (0%nat, Some dispatched_request),
     snd (VMManager.provision_vm cooperative_host config_with_ollama_url "vm1"
            (Some task_request) empty_world))
  ∧ VMManager.prepare_guest_artifacts cooperative_host config_with_ollama_url "vm1" 0
      (snd (VMManager.provision_vm cooperative_host config_with_ollama_url "vm1"
              (Some task_request) empty_world))
    = (Ok tt,
       snd (VMManager.prepare_guest_artifacts cooperative_host config_with_ollama_url
              "vm1" 0
              (snd (VMManager.provision_vm cooperative_host config_with_ollama_url
                      "vm1" (Some task_request) empty_world))))
  ∧ ∃ w1,
      VMManager.create_vm cooperative_host config_with_ollama_url "vm1"
        (Some task_request) empty_world = (Ok (0%nat, Some dispatched_request), w1)
      ∧ ∃ w2,
          VMManager.stop_vm cooperative_host config_with_ollama_url 0 w1 = (Ok tt, w2)
          ∧ fst (VMManager.mount_shared_disk cooperative_host "vm1" w2)
            ≠ Raise (Exn OSError ("Shared disk not found: "
                                  +:+ VMManager.shared_disk_file "vm1")).
Proof.
  assert (H1 : VMManager.provision_vm cooperative_host config_with_ollama_url "vm1"
                 (Some task_request) empty_world
               = (Ok (0%nat, Some dispatched_request),
                  snd (VMManager.provision_vm cooperative_host config_with_ollama_url
                         "vm1" (Some task_request) empty_world))).
  { rewrite (surjective_pairing (VMManager.provision_vm _ _ _ _ _)) at 1.
    f_equal; vm_compute; reflexivity. }
  assert (H2 : VMManager.prepare_guest_artifacts cooperative_host
                 config_with_ollama_url "vm1" 0
                 (snd (VMManager.provision_vm cooperative_host config_with_ollama_url
                         "vm1" (Some task_request) empty_world))
               = (Ok tt,
                  snd (VMManager.prepare_guest_artifacts cooperative_host
                         config_with_ollama_url "vm1" 0
                         (snd (VMManager.provision_vm cooperative_host
                                 config_with_ollama_url "vm1" (Some task_request)
                                 empty_world))))).
  { rewrite (surjective_pairing (VMManager.prepare_guest_artifacts _ _ _ _ _)) at 1.
    f_equal; vm_compute; reflexivity. }
  split; [exact H1|]. split; [exact H2|].
  destruct (mount_shared_disk_after_stop cooperative_host config_with_ollama_url "vm1"
              (Some task_request) empty_world 0 (Some dispatched_request) _ _ _ H1 H2)
    as (w1 & Hc & Hstop).
  exists w1. split; [exact Hc|].
  destruct (Hstop cooperative_host) as (w2 & Hs & Hok & _).
  exists w2. split; [exact Hs|]. exact (Hok eq_refl cooperative_host).
Defined.

(** *** The registry of instances *)

#[global] Instance keeps_ids_preorder : PreOrder keeps_ids.
Proof.
  split.
  - intros w r i Hi. eauto.
  - intros w1 w2 w3 H12 H23 r i Hi.
    destruct (H12 r i Hi) as (i2 & Hi2 & E2).
    destruct (H23 r i2 Hi2) as (i3 & Hi3 & E3).
    exists i3. split; [exact Hi3|congruence].
Qed.
#[global] Instance keeps_ids_clock : IgnoresClock keeps_ids.
Proof. intros f w r i Hi. simpl. eauto. Qed.
#[global] Instance keeps_ids_trace : IgnoresTrace keeps_ids.
Proof. intros f w r i Hi. simpl. eauto. Qed.
#[global] Instance keeps_ids_files : IgnoresFiles keeps_ids.
Proof. intros f w r i Hi. simpl. eauto. Qed.
#[global] Instance keeps_ids_alive : IgnoresAlive keeps_ids.
Proof. intros f w r i Hi. simpl. eauto. Qed.
#[global] Instance keeps_ids_active_vms : IgnoresActiveVms keeps_ids.
Proof. intros f w r i Hi. simpl. eauto. Qed.

#[global] Instance registry_shrinks_preorder : PreOrder registry_shrinks.
Proof.
  split; unfold registry_shrinks; [intros w|intros w1 w2 w3 H1 H2]; [done|].
  by etransitivity.
Qed.
#[global] Instance registry_shrinks_clock : IgnoresClock registry_shrinks.
Proof. intros f w. unfold registry_shrinks. reflexivity. Qed.
#[global] Instance registry_shrinks_trace : IgnoresTrace registry_shrinks.
Proof. intros f w. unfold registry_shrinks. reflexivity. Qed.
#[global] Instance registry_shrinks_files : IgnoresFiles registry_shrinks.
Proof. intros f w. unfold registry_shrinks. reflexivity. Qed.
#[global] Instance registry_shrinks_alive : IgnoresAlive registry_shrinks.
Proof. intros f w. unfold registry_shrinks. reflexivity. Qed.
#[global] Instance registry_shrinks_heap : IgnoresHeap registry_shrinks.
Proof. intros f w. unfold registry_shrinks. reflexivity. Qed.

Lemma keeps_ids_update (r : nat) (f : VMInstance → VMInstance) :
  (∀ i, vm_id (f i) = vm_id i) → preserves keeps_ids (update r f).
Proof.
  intros Hf w res w' [= <- <-] r' i Hi. simpl.
  destruct (decide (r = r')) as [->|Hne].
  - rewrite lookup_alter_eq, Hi. simpl. eauto.
  - rewrite lookup_alter_ne by done. eauto.
Qed.

Lemma keeps_ids_new_object (i : VMInstance) : preserves keeps_ids (new_object i).
Proof.
  intros w res w' [= <- <-] r' i' Hi. simpl.
  rewrite lookup_insert_ne; [eauto|].
  intros <-. pose proof (is_fresh (dom (heap w))) as Hfresh.
  apply Hfresh, elem_of_dom. by eexists.
Qed.

Ltac keeps_ids :=
  frame;
  try first [ apply keeps_ids_update; intros ?; reflexivity
            | apply keeps_ids_new_object ].

Lemma keeps_ids_provision_vm (env : Env) (cfg : Config) (id : string)
    (td : option (gmap string pyval)) :
  preserves keeps_ids (VMManager.provision_vm env cfg id td).
Proof.
  unfold VMManager.provision_vm. keeps_ids.
  - apply preserves_validate_and_dispatch; typeclasses eauto.
  - apply preserves_create_shared_disk; typeclasses eauto.
Qed.

Lemma keeps_ids_prepare_guest_artifacts (env : Env) (cfg : Config) (id : string)
    (r : nat) :
  preserves keeps_ids (VMManager.prepare_guest_artifacts env cfg id r).
Proof.
  unfold VMManager.prepare_guest_artifacts. keeps_ids.
  - apply preserves_create_guest_tar; typeclasses eauto.
  - apply preserves_create_init_overlay; typeclasses eauto.
Qed.

Lemma keeps_ids_start_vm (env : Env) (cfg : Config) (r : nat) (key : option string) :
  preserves keeps_ids (VMManager.start_vm env cfg r key).
Proof.
  unfold VMManager.start_vm, VMManager.inject_api_key,
    VMManager.launch_and_configure. keeps_ids;
    first [ apply preserves_remove_stale_socket
          | apply preserves_start_launcher
          | apply preserves_write_manifest
          | apply preserves_put_json
          | apply preserves_mark_failed ]; typeclasses eauto.
Qed.

Lemma registry_wf_step (w w' : World) :
  registry_wf w → keeps_ids w w' → registry_shrinks w w' → registry_wf w'.
Proof.
  intros Hwf Hk Hs id r Hr.
  destruct (Hwf id r (lookup_weaken _ _ _ _ Hr Hs)) as (i & Hi & Hid).
  destruct (Hk r i Hi) as (i' & Hi' & Hid').
  exists i'. split; [exact Hi'|congruence].
Qed.

Lemma same_heap_keeps_ids (w w' : World) : same_heap w w' → keeps_ids w w'.
Proof. intros H r i Hi. rewrite H. eauto. Qed.

Lemma same_active_vms_shrinks (w w' : World) :
  same_active_vms w w' → registry_shrinks w w'.
Proof. intros H. unfold registry_shrinks. by rewrite H. Qed.

Lemma registry_shrinks_stop_vm (env : Env) (cfg : Config) (r : nat) :
  preserves registry_shrinks (VMManager.stop_vm env cfg r).
Proof.
  unfold VMManager.stop_vm. frame.
  - apply preserves_terminate_process; typeclasses eauto.
  - apply preserves_cleanup_vm_files; typeclasses eauto.
  - apply preserves_modify. intros w. apply delete_subseteq.
Qed.

Lemma registry_wf_create_vm (env : Env) (cfg : Config) (id : string)
    (td : option (gmap string pyval)) (w : World) :
  registry_wf w → registry_wf (snd (VMManager.create_vm env cfg id td w)).
Proof.
  intros Hwf.
  destruct (VMManager.provision_vm env cfg id td w) as [[[r td']|e] wa] eqn:Hprov.
  - pose proof (keeps_ids_provision_vm _ _ _ _ _ _ _ Hprov) as Hk0.
    pose proof (preserves_provision_vm same_active_vms _ _ _ _ _ _ _ Hprov) as Hv0.
    destruct (provision_vm_run _ _ _ _ _ _ _ _ Hprov) as (w0 & _ & Hia & _).
    destruct (create_vm_run _ _ _ _ _ _ _ _ Hprov)
      as (resp & wb & resm & wc & Hprep & Hman & Hcreate).
    rewrite Hcreate. simpl.
    pose proof (keeps_ids_prepare_guest_artifacts _ _ _ _ _ _ _ Hprep) as Hk1.
    pose proof (preserves_prepare_guest_artifacts same_active_vms _ _ _ _ _ _ _ Hprep)
      as Hv1.
    pose proof (preserves_write_manifest same_heap _ _ _ _ _ _ _ Hman) as Hh2.
    pose proof (preserves_write_manifest same_active_vms _ _ _ _ _ _ _ Hman) as Hv2.
    assert (Hk : keeps_ids w wc).
    { etransitivity; [exact Hk0|]. etransitivity; [exact Hk1|].
      by apply same_heap_keeps_ids. }
    assert (Hka : keeps_ids wa wc).
    { etransitivity; [exact Hk1|]. by apply same_heap_keeps_ids. }
    unfold same_active_vms in *.
    intros id' r'. simpl.
    destruct (decide (id' = id)) as [->|Hne].
    + rewrite lookup_insert_eq. intros [= <-].
      destruct (Hka r _ Hia) as (i' & Hi' & Hid'). eauto.
    + rewrite lookup_insert_ne by done. rewrite Hv2, Hv1, Hv0. intros Hr.
      destruct (Hwf id' r' Hr) as (i & Hi & Hid).
      destruct (Hk r' i Hi) as (i' & Hi' & Hid').
      exists i'. split; [exact Hi'|congruence].
  - assert (Hc : VMManager.create_vm env cfg id td w = (Raise e, wa)).
    { unfold VMManager.create_vm. by rewrite (bind_raise _ _ _ _ _ Hprov). }
    rewrite Hc. simpl.
    apply (registry_wf_step w); [exact Hwf| |].
    + exact (keeps_ids_provision_vm _ _ _ _ _ _ _ Hprov).
    + apply same_active_vms_shrinks.
      exact (preserves_provision_vm same_active_vms _ _ _ _ _ _ _ Hprov).
Qed.

Lemma registry_wf_stop_vm (env : Env) (cfg : Config) (r : nat) (w : World) :
  registry_wf w → registry_wf (snd (VMManager.stop_vm env cfg r w)).
Proof.
  intros Hwf.
  destruct (VMManager.stop_vm env cfg r w) as [res w'] eqn:H. simpl.
  apply (registry_wf_step w); [exact Hwf| |].
  - apply same_heap_keeps_ids. exact (preserves_stop_vm same_heap _ _ _ _ _ _ H).
  - exact (registry_shrinks_stop_vm _ _ _ _ _ _ H).
Qed.

(** X13: every id in [active_vms] names an instance that exists and
    carries that id.  The registry [__init__] leaves is empty, and
    [create_vm], [start_vm] and [stop_vm] keep the property, whether they
    return or raise. *)
Theorem registry_stays_well_formed (env : Env) (cfg : Config) (id : string)
    (td : option (gmap string pyval)) (r : nat) (key : option string) (w : World) :
  registry_wf (snd (VMManager.__init__ env cfg w))
  ∧ (registry_wf w →
     registry_wf (snd (VMManager.create_vm env cfg id td w))
     ∧ registry_wf (snd (VMManager.start_vm env cfg r key w))
     ∧ registry_wf (snd (VMManager.stop_vm env cfg r w))).
Proof.
  split.
  - assert (Hempty : active_vms (snd (VMManager.__init__ env cfg w)) = ∅).
    { unfold VMManager.__init__. rewrite bind_run. unfold modify at 1.
      cbv beta iota.
      destruct ((mkdir env (paths_shared cfg) ≫= _) _) as [res w'] eqn:H.
      simpl.
      assert (Hp : preserves same_active_vms
                     (mkdir env (paths_shared cfg) ;; mkdir env (paths_results cfg)))
        by frame.
      by rewrite (Hp _ _ _ H). }
    intros id' r'. rewrite Hempty, lookup_empty. discriminate.
  - intros Hwf. split; [by apply registry_wf_create_vm|].
    split; [|by apply registry_wf_stop_vm].
    destruct (VMManager.start_vm env cfg r key w) as [res w'] eqn:H. simpl.
    apply (registry_wf_step w); [exact Hwf| |].
    + exact (keeps_ids_start_vm _ _ _ _ _ _ _ H).
    + apply same_active_vms_shrinks.
      exact (preserves_start_vm same_active_vms _ _ _ _ _ _ _ H).
Qed.

Lemma registry_stays_well_formed_witness :
  registry_wf empty_world
  ∧ registry_wf world_created
  ∧ registry_wf (snd (VMManager.start_vm cooperative_host config_with_ollama_url 0 None
                        world_created))
  ∧ registry_wf (snd (VMManager.stop_vm cooperative_host config_with_ollama_url 0
                        world_created)).
Proof.
  assert (H0 : registry_wf world_attached).
  { intros id r. assert (Hv : active_vms world_attached = ∅) by (vm_compute; reflexivity).
    rewrite Hv, lookup_empty. discriminate. }
  assert (H1 : registry_wf world_created).
  { exact (proj1 (proj2 (registry_stays_well_formed cooperative_host
                           config_with_ollama_url "vm1" (Some task_request) 0 None
                           world_attached) H0)). }
  split.
  - intros id r. simpl. rewrite lookup_empty. discriminate.
  - split; [exact H1|].
    exact (proj2 (proj2 (registry_stays_well_formed cooperative_host
                           config_with_ollama_url "vm1" None 0 None world_created) H1)).
Defined.

(** *** Stopping everything *)

Lemma stop_each (env : Env) (cfg : Config) (rs : list nat) (w : World) :
  (∀ r, r ∈ rs → is_Some (heap w !! r)) →
  ∃ w', for_each rs (VMManager.stop_vm env cfg) w = (Ok tt, w')
    ∧ heap w' = heap w
    ∧ active_interfaces w' = active_interfaces w
    ∧ active_vms w' ⊆ active_vms w
    ∧ ∀ r i, r ∈ rs → heap w !! r = Some i → active_vms w' !! vm_id i = None.
Proof.
  revert w. induction rs as [|r rs IH]; intros w Hall.
  - exists w. split; [reflexivity|]. split; [done|]. split; [done|]. split; [done|].
    by intros r i ?%elem_of_nil.
  - destruct (Hall r (list_elem_of_here _ _)) as [i Hi].
    destruct (stop_vm_run env cfg r w i Hi) as (w1 & H1 & Hh1 & Hif1 & Hv1 & _ & _).
    destruct (IH w1) as (w' & H' & Hh' & Hif' & Hsub & Hgone).
    { intros r' Hr'. rewrite Hh1. apply Hall. by apply list_elem_of_further. }
    exists w'. split; [|split; [congruence|split; [congruence|split]]].
    + cbn [for_each]. by rewrite (bind_ok _ _ _ _ _ H1).
    + etransitivity; [exact Hsub|]. rewrite Hv1. apply delete_subseteq.
    + intros r' i' [->|Hin]%elem_of_cons Hi'.
      * assert (i' = i) as -> by congruence.
        apply (lookup_weaken_None _ _ _ _ Hsub) || idtac.
        destruct (active_vms w' !! vm_id i) as [x|] eqn:E; [|reflexivity].
        pose proof (lookup_weaken _ _ _ _ E Hsub) as E1.
        rewrite Hv1, lookup_delete_eq in E1. discriminate.
      * apply (Hgone r' i' Hin). by rewrite Hh1.
Qed.

(** X14: [cleanup_all_vms], on a registry in which every id names an
    instance that carries it, and in whatever order the instances are
    visited, never raises and leaves [active_vms] empty.  The instances
    themselves and the registry of the Network Provisioner are left as
    they were. *)
Theorem cleanup_all_vms_empties (env : Env) (cfg : Config) (instances : list nat)
    (w : World) :
  registry_wf w →
  (∀ r, r ∈ instances ↔ ∃ id, active_vms w !! id = Some r) →
  ∃ w', VMManager.cleanup_all_vms env cfg instances w = (Ok tt, w')
    ∧ active_vms w' = ∅
    ∧ heap w' = heap w
    ∧ active_interfaces w' = active_interfaces w.
Proof.
  intros Hwf Hvals.
  destruct (stop_each env cfg instances w) as (w' & H' & Hh & Hif & Hsub & Hgone).
  { intros r [id Hr]%Hvals. destruct (Hwf id r Hr) as (i & Hi & _). by eexists. }
  exists w'. split; [exact H'|]. split; [|by split].
  apply map_eq. intros id. rewrite lookup_empty.
  destruct (active_vms w' !! id) as [r|] eqn:E; [|reflexivity].
  pose proof (lookup_weaken _ _ _ _ E Hsub) as E1.
  destruct (Hwf id r E1) as (i & Hi & Hid).
  rewrite <- Hid, (Hgone r i) in E; [discriminate| |exact Hi].
  apply Hvals. eauto.
Qed.

Lemma cleanup_all_vms_empties_witness :
  registry_wf world_created
  ∧ (∀ r, r ∈ [0%nat] ↔ ∃ id, active_vms world_created !! id = Some r)
  ∧ ∃ w', VMManager.cleanup_all_vms cooperative_host config_with_ollama_url [0%nat]
            world_created = (Ok tt, w')
      ∧ active_vms w' = ∅
      ∧ heap w' = heap world_created
      ∧ active_interfaces w' = active_interfaces world_created.
Proof.
  assert (Hreg : active_vms world_created = {["vm1" := 0%nat]})
    by (vm_compute; reflexivity).
  assert (Hheap : heap world_created !! 0%nat = Some created_instance)
    by (vm_compute; reflexivity).
  assert (H1 : registry_wf world_created).
  { intros id r. rewrite Hreg. intros [<- <-]%lookup_singleton_Some.
    exists created_instance. split; [exact Hheap|]. vm_compute. reflexivity. }
  assert (H2 : ∀ r, r ∈ [0%nat] ↔ ∃ id, active_vms world_created !! id = Some r).
  { intros r. rewrite Hreg. split.
    - intros ->%list_elem_of_singleton. exists "vm1". apply lookup_singleton_eq.
    - intros [id [_ <-]%lookup_singleton_Some]. apply list_elem_of_here. }
  split; [exact H1|]. split; [exact H2|].
  exact (cleanup_all_vms_empties cooperative_host config_with_ollama_url [0%nat]
           world_created H1 H2).
Defined.

(** *** Descriptors that are refused, and no descriptor at all *)

(** X15: a descriptor that is not empty and does not conform to
    [MCP_TASK_SCHEMA] makes [create_vm] raise the [ValidationError] before
    anything has happened: no host interaction, no instance, no
    registration. *)
Theorem create_vm_rejects_invalid_descriptor (env : Env) (cfg : Config) (id : string)
    (d : gmap string pyval) (w : World) :
  d ≠ ∅ →
  ¬ well_formed_request (PDict d) →
  ∃ e, exn_cls e = ValidationError
       ∧ VMManager.create_vm env cfg id (Some d) w = (Raise e, w).
Proof.
  intros Hne Hbad.
  assert (Ht : truthy (PDict d) = true).
  { simpl. destruct (map_to_list d) eqn:E; [|reflexivity].
    by apply map_to_list_empty_iff in E. }
  assert (Hv : Validation.validate_mcp_request (PDict d)
               = Raise (Exn ValidationError "Invalid MCPTaskRequest")).
  { unfold Validation.validate_mcp_request.
    destruct (Validation.conforms _ _) eqn:E; [|reflexivity].
    by apply conforms_task_schema in E. }
  exists (Exn ValidationError "Invalid MCPTaskRequest"). split; [reflexivity|].
  unfold VMManager.create_vm, VMManager.provision_vm, VMManager.validate_and_dispatch.
  rewrite Ht, Hv. reflexivity.
Qed.

Lemma create_vm_rejects_invalid_descriptor_witness :
  request_without_provider ≠ ∅
  ∧ ¬ well_formed_request (PDict request_without_provider)
  ∧ ∃ e, exn_cls e = ValidationError
         ∧ VMManager.create_vm cooperative_host config_with_ollama_url "vm1"
             (Some request_without_provider) empty_world
           = (Raise e, empty_world).
Proof.
  assert (H1 : request_without_provider ≠ ∅).
  { intros H. apply (f_equal (fun m : gmap string pyval => m !! "task_id")) in H.
    vm_compute in H. discriminate. }
  assert (H2 : ¬ well_formed_request (PDict request_without_provider)).
  { intros H. apply conforms_task_schema in H. vm_compute in H. discriminate. }
  split; [exact H1|]. split; [exact H2|].
  exact (create_vm_rejects_invalid_descriptor cooperative_host config_with_ollama_url
           "vm1" request_without_provider empty_world H1 H2).
Defined.

Lemma quiet_create_vm_without_descriptor (env : Env) (cfg : Config) (id : string)
    (td : option (gmap string pyval)) :
  td = None ∨ td = Some ∅ →
  preserves quiet (VMManager.create_vm env cfg id td).
Proof.
  intros Htd.
  assert (Hv : VMManager.validate_and_dispatch env cfg td = ret td).
  { destruct Htd as [-> | ->]; reflexivity. }
  unfold VMManager.create_vm, VMManager.provision_vm. rewrite Hv.
  frame;
    first [ apply preserves_create_shared_disk
          | apply preserves_prepare_guest_artifacts
          | apply preserves_write_manifest
          | apply preserves_modify; intros ?; apply ignores_active_vms ];
    typeclasses eauto.
Qed.

(** X16: without a descriptor ([None], or the empty dictionary) [create_vm]
    validates nothing and calls no provider: no run makes an HTTP request.
    A run that returns, on any host, returns the descriptor as it was and
    the instance, registered under the VM id, without a provider response;
    where the filesystem refuses nothing the manifest is then at
    ["pending"] with no [provider_response] field.  On a host whose
    commands and filesystem operations succeed, and with the image
    directory configured as a path, [create_vm] does return. *)
Theorem create_vm_without_descriptor (env : Env) (cfg : Config) (id : string)
    (td : option (gmap string pyval)) (w : World) :
  td = None ∨ td = Some ∅ →
  (∀ res w', VMManager.create_vm env cfg id td w = (res, w') → quiet w w')
  ∧ (∀ r td' w',
       VMManager.create_vm env cfg id td w = (Ok (r, td'), w') →
       td' = td
       ∧ active_vms w' !! id = Some r
       ∧ ∃ i, heap w' !! r = Some i
              ∧ vm_id i = id
              ∧ provider_response i = None
              ∧ ((∀ t p, fs_ok env t p = true) →
                 manifest_field cfg id "state" w' = Some (PStr "pending")
                 ∧ manifest_field cfg id "provider_response" w' = None))
  ∧ ((∀ t c, cmd_ok env t c = true) →
     (∀ t p, fs_ok env t p = true) →
     (∃ images, paths_ubuntu_images cfg = PathObject images) →
     ∃ r w', VMManager.create_vm env cfg id td w = (Ok (r, td), w')).
Proof.
  intros Htd.
  assert (Hvd : VMManager.validate_and_dispatch env cfg td w = (Ok td, w)).
  { destruct Htd as [-> | ->]; reflexivity. }
  split; [|split].
  - intros res w'. apply quiet_create_vm_without_descriptor, Htd.
  - intros r td' w' Hrun.
    pose proof Hrun as Hrun'. unfold VMManager.create_vm in Hrun'.
    apply bind_ok_inv in Hrun' as ([r0 td0] & wa & Hprov & _).
    destruct (provision_vm_run _ _ _ _ _ _ _ _ Hprov) as (w0 & Hvd' & Hia & _).
    rewrite Hvd in Hvd'. injection Hvd' as <- <-.
    destruct (create_vm_run _ _ _ _ _ _ _ _ Hprov)
      as (resp & wb & resm & wc & Hprep & Hman & Hcreate).
    rewrite Hcreate in Hrun. injection Hrun as <- <- <-.
    destruct (keeps_object_prepare_guest_artifacts _ _ _ _ _ _ _ Hprep _ Hia)
      as (ib & Hib & Hvm & _ & Hpr & Hrec).
    pose proof (preserves_write_manifest same_heap _ _ _ _ _ _ _ Hman) as Hheap.
    unfold same_heap in Hheap.
    assert (Hvm' : vm_id ib = id) by exact Hvm.
    assert (Hnone : provider_response ib = None).
    { rewrite Hpr. destruct Htd as [-> | ->]; reflexivity. }
    split; [reflexivity|]. split; [apply lookup_insert_eq|].
    exists ib. split; [cbn [heap with_active_vms]; by rewrite Hheap|].
    split; [exact Hvm'|]. split; [exact Hnone|].
    intros Hfs.
    destruct (write_manifest_ok env cfg r0 "pending" wb ib Hfs Hib)
      as (wc' & Hman' & Hstate & Hresponse).
    rewrite Hman in Hman'. injection Hman' as -> <-.
    rewrite Hvm' in Hstate, Hresponse.
    split; [exact Hstate|].
    unfold manifest_field in *. cbn [files with_active_vms].
    rewrite Hresponse. unfold manifest_response. rewrite Hrec, Hnone.
    unfold recorded_response, provisioned_instance, VMManager._generate_vm_config.
    by destruct (paths_ubuntu_images cfg).
  - intros Hcmd Hfs [images Himg].
    destruct (provision_vm_ok env cfg images id td w td w Hcmd Hfs Himg Hvd)
      as (r & wa & Hprov).
    { intros d Hd Ht. destruct Htd as [-> | ->]; [discriminate|].
      injection Hd as <-. discriminate. }
    destruct (create_vm_run _ _ _ _ _ _ _ _ Hprov)
      as (resp & wb & resm & wc & _ & _ & Hcreate).
    by eexists _, _.
Qed.

Lemma create_vm_without_descriptor_witness :
  ((None : option (gmap string pyval)) = None
   ∨ (None : option (gmap string pyval)) = Some ∅)
  ∧ (∀ t c, cmd_ok cooperative_host t c = true)
  ∧ (∀ t p, fs_ok cooperative_host t p = true)
  ∧ (∃ images, paths_ubuntu_images config_with_ollama_url = PathObject images)
  ∧ ∃ r w',
      VMManager.create_vm cooperative_host config_with_ollama_url "vm1" None empty_world
      = (Ok (r, None), w').
Proof.
  assert (H0 : (None : option (gmap string pyval)) = None
               ∨ (None : option (gmap string pyval)) = Some ∅) by (by left).
  assert (H1 : ∀ t c, cmd_ok cooperative_host t c = true) by reflexivity.
  assert (H2 : ∀ t p, fs_ok cooperative_host t p = true) by reflexivity.
  assert (H3 : ∃ images, paths_ubuntu_images config_with_ollama_url = PathObject images)
    by (by exists "/srv/images").
  split; [exact H0|]. split; [exact H1|]. split; [exact H2|]. split; [exact H3|].
  exact (proj2 (proj2 (create_vm_without_descriptor cooperative_host
                         config_with_ollama_url "vm1" None empty_world H0))
           H1 H2 H3).
Defined.

(** ** The launcher *)

Lemma popen_eq (env : Env) (cmd : list string) (w : World) :
  popen env cmd w =
  match popen_pid env (now w) cmd with
  | Some pid =>
      (Ok pid, with_alive (fun a => {[pid]} ∪ a) (after (EvPopen cmd (Some pid)) w))
  | None => (Raise (Exn OSError (String.concat " " cmd)), after (EvPopen cmd None) w)
  end.
Proof.
  unfold popen. rewrite bind_run. unfold tick. cbv beta iota.
  rewrite bind_run. simpl.
  by destruct (popen_pid env (now w) cmd).
Qed.

(** X17: what [start_launcher] leaves behind when it returns: the
    directory it returns is [<results_root>/<vm_id>]; the child it returns
    is running and was started with the command the host calls for (the
    jailer only when [use_jailer] is set and a jailer is on the path,
    otherwise the development script with the extra arguments when that
    script exists, otherwise [/bin/sleep 60]); [launcher.pid] holds the pid
    of that child, and [launcher.out] and [launcher.err] exist.  It raises
    nothing but [OSError]. *)
Theorem start_launcher_outcome (env : Env) (id config_path results_root : string)
    (use_jailer : bool) (extra_args : list string) (w : World)
    (res : result (Z * string)) (w' : World) :
  Launcher.start_launcher env id config_path results_root use_jailer extra_args w
  = (res, w') →
  match res with
  | Ok (pid, dir) =>
      dir = path_join results_root id
      ∧ pid ∈ alive w'
      ∧ files w' !! path_join dir "launcher.pid" = Some (FBlob (pretty pid))
      ∧ is_Some (files w' !! path_join dir "launcher.out")
      ∧ is_Some (files w' !! path_join dir "launcher.err")
      ∧ ∃ pre post,
          trace w'
          = (trace w ++ pre
             ++ [EvPopen
                   (match ProviderResolver.nonempty
                            (if use_jailer then which_jailer env else None) with
                    | Some jailer => [jailer; "--vm-id"; id; "--config"; config_path]
                    | None =>
                        if bool_decide (is_Some (files w !! Launcher.dev_launcher))
                        then ([Launcher.dev_launcher; id; config_path] ++ extra_args)%list
                        else ["/bin/sleep"; "60"]
                    end)
                   (Some pid)]
             ++ post)%list
  | Raise e => exn_cls e = OSError
  end.
Proof.
  unfold Launcher.start_launcher.
  set (cmd := match ProviderResolver.nonempty _ with
              | Some jailer => [jailer; "--vm-id"; id; "--config"; config_path]
              | None => _
              end).
  assert (Hcmd : ∀ (k : list string → M (Z * string)),
            ((match ProviderResolver.nonempty
                      (if use_jailer then which_jailer env else None) with
              | Some jailer => ret [jailer; "--vm-id"; id; "--config"; config_path]
              | None =>
                  bind (path_exists Launcher.dev_launcher) (fun found : bool =>
                    if found
                    then ret ([Launcher.dev_launcher; id; config_path] ++ extra_args)%list
                    else ret ["/bin/sleep"; "60"])
              end : M (list string)) ≫= k) w = k cmd w).
  { intros k. subst cmd. rewrite bind_run.
    destruct (ProviderResolver.nonempty _); [reflexivity|].
    unfold bind, path_exists, gets.
    by destruct (bool_decide _). }
  rewrite Hcmd. clear Hcmd. generalize cmd. clear cmd. intros cmd.
  rewrite bind_run, mkdir_eq. cbn zeta.
  destruct (fs_ok env (now w) _); cbv beta iota; [|by intros [= <- <-]].
  rewrite bind_run, write_file_eq. cbn zeta.
  match goal with
  | |- context [fs_ok env ?t ?p] => destruct (fs_ok env t p)
  end; cbv beta iota; [|by intros [= <- <-]].
  rewrite bind_run, write_file_eq. cbn zeta.
  match goal with
  | |- context [fs_ok env ?t ?p] => destruct (fs_ok env t p)
  end; cbv beta iota; [|by intros [= <- <-]].
  rewrite bind_run, popen_eq.
  match goal with
  | |- context [popen_pid env ?t ?c] => destruct (popen_pid env t c) as [pid|]
  end; cbv beta iota; [|by intros [= <- <-]].
  rewrite bind_run, write_file_eq. cbn zeta.
  match goal with
  | |- context [fs_ok env ?t ?p] => destruct (fs_ok env t p)
  end; cbv beta iota; [|by intros [= <- <-]].
  intros [= <- <-]. split; [reflexivity|].
  cbn [alive files trace with_files with_alive after with_trace with_now].
  split; [apply elem_of_union_l, elem_of_singleton; reflexivity|].
  split; [apply lookup_insert_eq|].
  assert (Hpo : path_join (path_join results_root id) "launcher.pid"
                ≠ path_join (path_join results_root id) "launcher.out").
  { eapply last_char_neq; [solve [last_char] | solve [last_char] | discriminate]. }
  assert (Hpe : path_join (path_join results_root id) "launcher.pid"
                ≠ path_join (path_join results_root id) "launcher.err").
  { eapply last_char_neq; [solve [last_char] | solve [last_char] | discriminate]. }
  assert (Heo : path_join (path_join results_root id) "launcher.err"
                ≠ path_join (path_join results_root id) "launcher.out").
  { eapply last_char_neq; [solve [last_char] | solve [last_char] | discriminate]. }
  split; [|split].
  - rewrite lookup_insert_ne by done. rewrite lookup_insert_ne by done.
    rewrite lookup_insert_eq. by eexists.
  - rewrite lookup_insert_ne by done. rewrite lookup_insert_eq. by eexists.
  - eexists [_; _; _], [_]. rewrite <- !app_assoc. reflexivity.
Qed.

Lemma start_launcher_outcome_witness :
  Launcher.start_launcher cooperative_host "vm1" "/tmp/vm-config-vm1.json" "/srv/results"
    false [] empty_world
  = (Ok (4242, "/srv/results/vm1"),
     snd (Launcher.start_launcher cooperative_host "vm1" "/tmp/vm-config-vm1.json"
            "/srv/results" false [] empty_world))
  ∧ 4242 ∈ alive (snd (Launcher.start_launcher cooperative_host "vm1"
                         "/tmp/vm-config-vm1.json" "/srv/results" false [] empty_world))
  ∧ files (snd (Launcher.start_launcher cooperative_host "vm1"
                  "/tmp/vm-config-vm1.json" "/srv/results" false [] empty_world))
      !! "/srv/results/vm1/launcher.pid" = Some (FBlob "4242").
Proof.
  assert (H : Launcher.start_launcher cooperative_host "vm1" "/tmp/vm-config-vm1.json"
                "/srv/results" false [] empty_world
              = (Ok (4242, "/srv/results/vm1"),
                 snd (Launcher.start_launcher cooperative_host "vm1"
                        "/tmp/vm-config-vm1.json" "/srv/results" false [] empty_world))).
  { rewrite (surjective_pairing (Launcher.start_launcher _ _ _ _ _ _ _)) at 1.
    f_equal; vm_compute; reflexivity. }
  split; [exact H|].
  destruct (start_launcher_outcome _ _ _ _ _ _ _ _ _ H) as (_ & Ha & Hp & _).
  split; [exact Ha|exact Hp].
Defined.

(** ** Provider calls *)

Lemma reply_result_raises (r : http_reply) (e : exn) :
  reply_result r = Raise e → exn_cls e ∈ http_failure.
Proof.
  unfold reply_result, http_failure.
  destruct r as [msg|status body].
  - intros [= <-]. set_solver.
  - destruct ((400 <=? status) && (status <? 600)).
    + intros [= <-]. set_solver.
    + destruct body; [discriminate|]. intros [= <-]. set_solver.
Qed.

Lemma retry_loop_events (env : Env) (url : string) (backoff : Q) (n : nat) :
  ∀ (attempt : Z) (last : option exn) (w : World) r w',
    ProviderClient.retry_loop env url backoff n attempt last w = (r, w') →
    ∃ ext, trace w' = (trace w ++ ext)%list
           ∧ Forall (fun ev => match ev with
                               | EvHttp verb u _ => verb = "POST" ∧ u = url
                               | EvSleep _ => True
                               | _ => False
                               end) ext.
Proof.
  induction n as [|n IH]; intros attempt last w r w' Hrun.
  - exists []. rewrite app_nil_r. split; [|constructor].
    cbn [ProviderClient.retry_loop] in Hrun. by destruct last; injection Hrun as <- <-.
  - rewrite retry_loop_succ, attempt_post_run in Hrun.
    destruct (reply_result (http env (now w) url)) as [v|e].
    + injection Hrun as <- <-. eexists [_]. split; [reflexivity|].
      repeat constructor.
    + unfold sleep in Hrun.
      destruct (Qlt_le_dec _ 0).
      * injection Hrun as <- <-. eexists [_]. split; [reflexivity|].
        repeat constructor.
      * apply IH in Hrun as (ext & Htr & Hall).
        eexists (_ :: _ :: ext). split.
        -- rewrite Htr. cbn [trace emit after logged with_trace with_now].
           rewrite <- !app_assoc. reflexivity.
        -- repeat constructor. exact Hall.
Qed.

(** With its default arguments [post_with_retries] makes one to three
    requests to [url] and raises only what the third attempt raised. *)
Lemma post_with_retries_default_effort (env : Env) (url : string) (w : World) r w' :
  ProviderClient.post_with_retries env url
    ProviderClient.default_retries ProviderClient.default_backoff w = (r, w') →
  ∃ (ext : list Event) (k : nat),
    trace w' = (trace w ++ ext)%list
    ∧ Forall (fun ev => match ev with
                        | EvHttp verb u _ => verb = "POST" ∧ u = url
                        | EvSleep _ => True
                        | _ => False
                        end) ext
    ∧ sleeps ext = delays ProviderClient.default_backoff k
    ∧ match r with
      | Ok _ => (k ≤ 2)%nat ∧ posts ext = S k
      | Raise e => exn_cls e ∈ http_failure ∧ k = 3%nat ∧ posts ext = 3%nat
      end.
Proof.
  unfold ProviderClient.post_with_retries. intros Hrun.
  destruct (retry_loop_events _ _ _ _ _ _ _ _ _ Hrun) as (ext & Htr & Hall).
  assert (Hb : (0 <= ProviderClient.default_backoff)%Q) by (vm_compute; discriminate).
  destruct (retry_loop_shape env url _ Hb _ 1 None w r w' ltac:(lia) Hrun)
    as (ext' & j & Htr' & Hj & Hsl & Hfail & Hend).
  assert (ext' = ext) as ->.
  { rewrite Htr in Htr'. by apply app_inv_head in Htr'. }
  rewrite delays_from_one in Hsl.
  exists ext, j. split; [exact Htr|]. split; [exact Hall|]. split; [exact Hsl|].
  change (Z.to_nat ProviderClient.default_retries) with 3%nat in *.
  destruct Hend as [(v & -> & _ & Hlt & Hp) | (-> & Hp & ->)].
  - split; [lia|exact Hp].
  - specialize (Hfail 2%nat ltac:(lia)).
    destruct (reply_result (http env (now w + 2) url)) as [v|e] eqn:E; [discriminate|].
    split; [|done]. by apply reply_result_raises in E.
Qed.

(** A client wrapped in [try ... except Exception] makes its one request
    and never raises. *)
Lemma try_client_attempt (env : Env) (url : string) (w : World) :
  Providers.try_client (ProviderClient.attempt_post env url) w
  = (Ok (match reply_result (http env (now w) url) with
         | Ok v => Some v
         | Raise _ => None
         end),
     after (EvHttp "POST" url (http env (now w) url)) w).
Proof.
  unfold Providers.try_client, try_except. rewrite bind_run, attempt_post_run.
  by destruct (reply_result _).
Qed.

Lemma starts_with_app (p s : string) : starts_with p (p +:+ s) = true.
Proof.
  unfold starts_with. induction p as [|a p IH]; [by destruct s|].
  change (String a p +:+ s) with (String a (p +:+ s)). cbn [String.prefix].
  destruct (ascii_dec a a); [exact IH|done].
Qed.

Lemma ensure_scheme_has_scheme (u : option string) (s : string) :
  Providers._ensure_scheme u = Some s → has_scheme s = true.
Proof.
  unfold Providers._ensure_scheme, has_scheme.
  destruct (ProviderResolver.nonempty u) as [s'|]; [|discriminate].
  destruct (starts_with "http://" s' || starts_with "https://" s') eqn:E.
  - by intros [= <-].
  - intros [= <-]. by rewrite starts_with_app.
Qed.

Lemma fallback_url_has_scheme (d : string) (u : option string) :
  has_scheme d = true → has_scheme (default d (Providers._ensure_scheme u)) = true.
Proof.
  intros Hd. destruct (Providers._ensure_scheme u) as [s|] eqn:E; [|exact Hd].
  exact (ensure_scheme_has_scheme _ _ E).
Qed.

(** A provider client tried first, the retrying POST as the fall-back. *)
Lemma client_then_fallback (env : Env) (client_url fallback_url : string)
    (tried : bool) (w : World) (res : result pyval) (w' : World) :
  has_scheme client_url = true →
  has_scheme fallback_url = true →
  (r ← (if tried
        then Providers.try_client (ProviderClient.attempt_post env client_url)
        else ret None);
   match r with
   | Some v => ret v
   | None =>
       ProviderClient.post_with_retries env fallback_url
         ProviderClient.default_retries ProviderClient.default_backoff
   end) w = (res, w') →
  ∃ ext : list Event,
    trace w' = (trace w ++ ext)%list
    ∧ Forall provider_event ext
    ∧ (1 ≤ posts ext ≤ 4)%nat
    ∧ match res with
      | Ok _ =>
          ∃ k, (k ≤ 2)%nat ∧ sleeps ext = delays ProviderClient.default_backoff k
      | Raise e =>
          exn_cls e ∈ http_failure
          ∧ (3 ≤ posts ext)%nat
          ∧ sleeps ext = delays ProviderClient.default_backoff 3
      end.
Proof.
  intros Hc Hf Hrun.
  assert (Hfall : ∀ (pre : list Event) (w0 : World),
            trace w0 = (trace w ++ pre)%list →
            Forall provider_event pre → (posts pre ≤ 1)%nat → sleeps pre = [] →
            ProviderClient.post_with_retries env fallback_url
              ProviderClient.default_retries ProviderClient.default_backoff w0
            = (res, w') →
            ∃ ext : list Event,
              trace w' = (trace w ++ ext)%list
              ∧ Forall provider_event ext
              ∧ (1 ≤ posts ext ≤ 4)%nat
              ∧ match res with
                | Ok _ =>
                    ∃ k, (k ≤ 2)%nat
                         ∧ sleeps ext = delays ProviderClient.default_backoff k
                | Raise e =>
                    exn_cls e ∈ http_failure
                    ∧ (3 ≤ posts ext)%nat
                    ∧ sleeps ext = delays ProviderClient.default_backoff 3
                end).
  { intros pre w0 Hpre Hall Hposts Hsl Hpost.
    apply post_with_retries_default_effort in Hpost as (ext & k & Htr & Hev & Hs & Hres).
    exists (pre ++ ext)%list. split; [by rewrite Htr, Hpre, app_assoc|].
    split.
    { apply Forall_app. split; [exact Hall|].
      eapply Forall_impl; [exact Hev|].
      intros [] Hx; try exact Hx. destruct Hx as [-> ->]. by split. }
    rewrite posts_app, sleeps_app, Hsl. cbn [app].
    destruct res as [v|e].
    - destruct Hres as [Hk Hp]. split; [lia|]. by exists k.
    - destruct Hres as (He & -> & Hp). split; [lia|]. split; [exact He|].
      split; [lia|exact Hs]. }
  rewrite bind_run in Hrun. destruct tried.
  - rewrite try_client_attempt in Hrun.
    destruct (reply_result (http env (now w) client_url)) as [v|e].
    + injection Hrun as <- <-. eexists [_]. split; [reflexivity|].
      split; [by repeat constructor|]. split; [cbn; lia|].
      exists 0%nat. split; [lia|reflexivity].
    + apply (Hfall [EvHttp "POST" client_url (http env (now w) client_url)]
                   (after (EvHttp "POST" client_url (http env (now w) client_url)) w));
        [reflexivity| |cbn; lia|reflexivity|exact Hrun].
      by repeat constructor.
  - apply (Hfall [] w); [by rewrite app_nil_r|constructor|cbn; lia|reflexivity|exact Hrun].
Qed.

(** X19: whatever the provider and the host, [call_provider] talks to the
    host only by POSTs to URLs that name their scheme and by sleeps; it
    makes at least one and at most four requests (the client's one and
    the three of [post_with_retries]); a failure of the client never
    escapes; what it raises is the exception of a failed HTTP attempt,
    and only after three failed POSTs of the fall-back and the sleeps
    of 0.5 s, 1 s and 1.5 s. *)
Theorem call_provider_effort (env : Env) (provider : string) (url : option string)
    (w : World) (res : result pyval) (w' : World) :
  Providers.call_provider env provider url w = (res, w') →
  ∃ ext : list Event,
    trace w' = (trace w ++ ext)%list
    ∧ Forall provider_event ext
    ∧ (1 ≤ posts ext ≤ 4)%nat
    ∧ match res with
      | Ok _ =>
          ∃ k, (k ≤ 2)%nat ∧ sleeps ext = delays ProviderClient.default_backoff k
      | Raise e =>
          exn_cls e ∈ http_failure
          ∧ (3 ≤ posts ext)%nat
          ∧ sleeps ext = delays ProviderClient.default_backoff 3
      end.
Proof.
  unfold Providers.call_provider.
  destruct (String.eqb provider "ollama").
  - apply client_then_fallback.
    + unfold has_scheme. by rewrite starts_with_app.
    + by apply fallback_url_has_scheme.
  - destruct (String.eqb provider "openai" && _ && has_openai_client env).
    + apply (client_then_fallback env "https://api.openai.com/v1/completions" _ true);
        [reflexivity|by apply fallback_url_has_scheme].
    + apply (client_then_fallback env "https://api.openai.com/v1/completions" _ false);
        [reflexivity|by apply fallback_url_has_scheme].
Qed.

Lemma call_provider_effort_witness :
  ∃ ext : list Event,
    trace (snd (Providers.call_provider cooperative_host "ollama" (Some "localhost:11434")
                  empty_world))
    = (trace empty_world ++ ext)%list
    ∧ posts ext = 4%nat
    ∧ sleeps ext = delays ProviderClient.default_backoff 3.
Proof.
  destruct (call_provider_effort cooperative_host "ollama" (Some "localhost:11434")
              empty_world
              (fst (Providers.call_provider cooperative_host "ollama"
                      (Some "localhost:11434") empty_world))
              (snd (Providers.call_provider cooperative_host "ollama"
                      (Some "localhost:11434") empty_world))
              ltac:(by rewrite <- surjective_pairing))
    as (ext & Htr & _).
  exists ext. split; [exact Htr|].
  assert (ext = drop (length (trace empty_world))
                  (trace (snd (Providers.call_provider cooperative_host "ollama"
                                 (Some "localhost:11434") empty_world)))) as ->.
  { rewrite Htr. by rewrite drop_app_length. }
  split; vm_compute; reflexivity.
Defined.

(** X20: [_ensure_scheme] gives nothing exactly for no URL and for the
    empty one; what it gives names its scheme; a URL that already does is
    returned as it is; and applying it to its own result changes
    nothing. *)
Theorem ensure_scheme_normalises (u : option string) :
  (Providers._ensure_scheme u = None ↔ u = None ∨ u = Some "")
  ∧ (∀ s, Providers._ensure_scheme u = Some s →
          has_scheme s = true
          ∧ Providers._ensure_scheme (Some s) = Some s)
  ∧ (∀ s, u = Some s → has_scheme s = true → Providers._ensure_scheme u = Some s).
Proof.
  assert (Hkeep : ∀ s, has_scheme s = true → Providers._ensure_scheme (Some s) = Some s).
  { intros s Hs. unfold Providers._ensure_scheme, ProviderResolver.nonempty.
    destruct (String.eqb s "") eqn:E.
    - apply String.eqb_eq in E. subst s. discriminate.
    - unfold has_scheme in Hs. by rewrite Hs. }
  split; [|split].
  - unfold Providers._ensure_scheme, ProviderResolver.nonempty.
    destruct u as [s|]; [|by split; [left|]].
    destruct (String.eqb s "") eqn:E.
    + apply String.eqb_eq in E. subst s. by split; [right|].
    + apply String.eqb_neq in E.
      split.
      * by destruct (starts_with "http://" s || starts_with "https://" s).
      * intros [?|[= ?]]; [discriminate|contradiction].
  - intros s Hs. pose proof (ensure_scheme_has_scheme _ _ Hs) as H.
    split; [exact H|exact (Hkeep s H)].
  - intros s -> Hs. exact (Hkeep s Hs).
Qed.

(** X18: [post_with_retries] outside the arguments it is meant for.  With
    [retries <= 0] it makes no request and raises the [TypeError] of
    [raise None].  With a negative [backoff] (and [retries >= 1]) it makes
    exactly one request: a success is returned, a failure is followed by
    [time.sleep] of a negative length, whose [ValueError] replaces the
    request's exception, and nothing is tried again. *)
Theorem post_with_retries_outside_contract (env : Env) (url : string)
    (retries : Z) (backoff : Q) (w : World) :
  (retries <= 0 →
   ProviderClient.post_with_retries env url retries backoff w
   = (Raise (Exn TypeError "exceptions must derive from BaseException"), w))
  ∧ (0 < retries → (backoff < 0)%Q →
     ProviderClient.post_with_retries env url retries backoff w
     = (match reply_result (http env (now w) url) with
        | Ok v => Ok v
        | Raise _ => Raise (Exn ValueError "sleep length must be non-negative")
        end,
        after (EvHttp "POST" url (http env (now w) url)) w)).
Proof.
  unfold ProviderClient.post_with_retries. split.
  - intros Hr. replace (Z.to_nat retries) with 0%nat by lia. reflexivity.
  - intros Hr Hb.
    destruct (Z.to_nat retries) as [|n] eqn:E; [lia|].
    rewrite retry_loop_succ, attempt_post_run.
    destruct (reply_result (http env (now w) url)) as [v|e]; [reflexivity|].
    unfold sleep.
    destruct (Qlt_le_dec (backoff * inject_Z 1) 0) as [_|Hge]; [reflexivity|].
    exfalso. apply (Qlt_not_le _ _ Hb).
    rewrite Qmult_1_r in Hge. exact Hge.
Qed.

Lemma post_with_retries_outside_contract_witness :
  ProviderClient.post_with_retries cooperative_host "http://x" 0 (Qmake 1 2) empty_world
  = (Raise (Exn TypeError "exceptions must derive from BaseException"), empty_world)
  ∧ ProviderClient.post_with_retries cooperative_host "http://x" 3 (Qmake (-1) 2) empty_world
    = (Raise (Exn ValueError "sleep length must be non-negative"),
       after (EvHttp "POST" "http://x" (ConnectionError "unreachable")) empty_world).
Proof.
  split.
  - apply (post_with_retries_outside_contract cooperative_host "http://x" 0 (Qmake 1 2)
             empty_world). lia.
  - apply (post_with_retries_outside_contract cooperative_host "http://x" 3
             (Qmake (-1) 2) empty_world); [lia|reflexivity].
Defined.

(** ** Required providers *)

Lemma resolve_provider_url_nonempty (env : Env) (p : string) (config : option Config) :
  ProviderResolver.nonempty (ProviderResolver.resolve_provider_url env p config)
  = ProviderResolver.resolve_provider_url env p config.
Proof.
  assert (Hn : ∀ o s, ProviderResolver.nonempty o = Some s →
                      ProviderResolver.nonempty (Some s) = Some s).
  { intros [s'|] s; [|discriminate]. unfold ProviderResolver.nonempty.
    destruct (String.eqb s' "") eqn:E; [discriminate|]. intros [= <-]. by rewrite E. }
  unfold ProviderResolver.resolve_provider_url.
  destruct (ProviderResolver.nonempty (environ env !! _)) eqn:E1; [by eapply Hn|].
  destruct (ProviderResolver.nonempty (ProviderResolver.config_url _ _)) eqn:E2;
    [by eapply Hn|].
  destruct (ProviderResolver.DEFAULTS !! p) as [d|] eqn:E3; [|reflexivity].
  unfold ProviderResolver.DEFAULTS in E3.
  apply lookup_insert_Some in E3 as [[_ <-]|[_ E3]]; [reflexivity|].
  apply lookup_insert_Some in E3 as [[_ <-]|[_ E3]]; [reflexivity|].
  by rewrite lookup_empty in E3.
Qed.

Lemma dict_set_keys {V} (k : string) (v : V) (d : list (string * V)) :
  (ProviderResolver.dict_set k v d).*1
  = if bool_decide (k ∈ d.*1) then d.*1 else (d.*1 ++ [k])%list.
Proof.
  induction d as [|[k' v'] d IH]; [reflexivity|].
  cbn [ProviderResolver.dict_set fmap list_fmap fst].
  destruct (String.eqb k' k) eqn:E.
  - apply String.eqb_eq in E. subst k'.
    rewrite bool_decide_eq_true_2 by apply list_elem_of_here. reflexivity.
  - apply String.eqb_neq in E. cbn [fmap list_fmap fst]. rewrite IH.
    destruct (bool_decide (k ∈ d.*1)) eqn:Ek.
    + apply bool_decide_eq_true in Ek.
      rewrite bool_decide_eq_true_2 by (by apply list_elem_of_further). reflexivity.
    + apply bool_decide_eq_false in Ek.
      rewrite bool_decide_eq_false_2; [reflexivity|].
      intros [?|?]%elem_of_cons; [by subst|done].
Qed.

Lemma dict_set_values {V} (f : string → V) (k : string) (d : list (string * V)) :
  Forall (fun kv => kv.2 = f kv.1) d →
  Forall (fun kv => kv.2 = f kv.1) (ProviderResolver.dict_set k (f k) d).
Proof.
  induction 1 as [|[k' v'] d Hkv Hd IH]; [by repeat constructor|].
  cbn [ProviderResolver.dict_set].
  destruct (String.eqb k' k); constructor; done.
Qed.

Lemma NoDup_fst_filter {V} (P : string * V → Prop) `{∀ x, Decision (P x)}
    (d : list (string * V)) :
  NoDup d.*1 → NoDup (filter P d).*1.
Proof.
  induction d as [|[k v] d IH]; [done|].
  cbn [fmap list_fmap fst]. intros [Hk Hd]%NoDup_cons.
  rewrite filter_cons. destruct (decide (P (k, v))); [|by apply IH].
  cbn [fmap list_fmap fst]. apply NoDup_cons. split; [|by apply IH].
  intros ([k' v'] & Hkk & [_ Hin]%list_elem_of_filter)%list_elem_of_fmap.
  cbn in Hkk. subst k'. apply Hk, list_elem_of_fmap. by exists (k, v').
Qed.

(** The dictionary [validate_providers] builds: every required provider
    once, with whether it resolves. *)
Lemma validate_providers_spec (env : Env) (config : option Config)
    (required : list string) :
  let resolves p :=
    bool_decide (is_Some (ProviderResolver.nonempty
                            (ProviderResolver.resolve_provider_url env p config))) in
  let d := ProviderResolver.validate_providers env config required in
  NoDup d.*1
  ∧ (∀ p, p ∈ d.*1 ↔ p ∈ required)
  ∧ Forall (fun kv => kv.2 = resolves kv.1) d.
Proof.
  intros resolves. unfold ProviderResolver.validate_providers.
  fold resolves.
  assert (H : ∀ (d0 : list (string * bool)),
            NoDup d0.*1 → Forall (fun kv => kv.2 = resolves kv.1) d0 →
            let d := fold_left (fun result p =>
                                  ProviderResolver.dict_set p (resolves p) result)
                               required d0 in
            NoDup d.*1
            ∧ (∀ p, p ∈ d.*1 ↔ p ∈ d0.*1 ∨ p ∈ required)
            ∧ Forall (fun kv => kv.2 = resolves kv.1) d).
  { induction required as [|q required IH]; intros d0 Hnd Hv.
    - cbn. split; [exact Hnd|]. split; [|exact Hv].
      intros p. split; [by left|]. intros [?|?%elem_of_nil]; done.
    - cbn [fold_left].
      destruct (IH (ProviderResolver.dict_set q (resolves q) d0)) as (H1 & H2 & H3).
      + rewrite dict_set_keys. destruct (bool_decide (q ∈ d0.*1)) eqn:E; [exact Hnd|].
        apply bool_decide_eq_false in E.
        apply NoDup_app. split; [exact Hnd|]. split; [|apply NoDup_singleton].
        intros x Hx ->%list_elem_of_singleton. done.
      + by apply dict_set_values.
      + split; [exact H1|]. split; [|exact H3].
        intros p. rewrite H2, dict_set_keys.
        destruct (bool_decide (q ∈ d0.*1)) eqn:E.
        * apply bool_decide_eq_true in E. rewrite elem_of_cons.
          split; [tauto|]. intros [?|[->|?]]; tauto.
        * rewrite elem_of_app, list_elem_of_singleton, elem_of_cons. tauto. }
  destruct (H [] (NoDup_nil_2) (Forall_nil_2 _)) as (H1 & H2 & H3).
  split; [exact H1|]. split; [|exact H3].
  intros p. destruct (H2 p) as [Ha Hb]. split.
  - intros Hp. by destruct (Ha Hp) as [?%elem_of_nil|?].
  - intros Hp. apply Hb. by right.
Qed.

(** X21: [ensure_providers] passes exactly when every required provider
    resolves to a URL; otherwise it raises a [ValueError] whose message
    names, once each, exactly the required providers that do not.
    ["ollama"] and ["openai"] always resolve, so requiring only them
    never fails. *)
Theorem ensure_providers_outcome (env : Env) (config : option Config)
    (required : list string) :
  let unresolved p := (ProviderResolver.resolve_provider_url env p config = None) in
  match ProviderResolver.ensure_providers env config required with
  | Ok _ => ∀ p, p ∈ required → ¬ unresolved p
  | Raise e =>
      ∃ missing,
        e = Exn ValueError ("Missing provider URL for: " +:+ String.concat ", " missing)
        ∧ missing ≠ []
        ∧ NoDup missing
        ∧ (∀ p, p ∈ missing ↔ p ∈ required ∧ unresolved p)
        ∧ ("ollama" ∉ missing)
        ∧ ("openai" ∉ missing)
  end.
Proof.
  intros unresolved.
  destruct (validate_providers_spec env config required) as (Hnd & Hkeys & Hvals).
  unfold ProviderResolver.ensure_providers.
  set (d := ProviderResolver.validate_providers env config required) in *.
  set (missing := (filter (fun '(p, ok) => ok = false) d).*1).
  assert (Hm : ∀ p, p ∈ missing ↔ p ∈ required ∧ unresolved p).
  { intros p. unfold missing. rewrite list_elem_of_fmap. split.
    - intros ([k v] & -> & [Hf Hin]%list_elem_of_filter). cbn in *. subst v.
      split; [apply Hkeys; apply list_elem_of_fmap; by exists (k, false)|].
      rewrite Forall_forall in Hvals. specialize (Hvals _ Hin). cbn in Hvals.
      symmetry in Hvals. apply bool_decide_eq_false in Hvals.
      rewrite resolve_provider_url_nonempty in Hvals.
      unfold unresolved. by apply eq_None_not_Some.
    - intros [Hreq Hun]. apply Hkeys, list_elem_of_fmap in Hreq as ([k v] & -> & Hin).
      exists (k, v). split; [reflexivity|]. apply list_elem_of_filter. split; [|exact Hin].
      rewrite Forall_forall in Hvals. specialize (Hvals _ Hin). cbn in *.
      rewrite Hvals. apply bool_decide_eq_false.
      rewrite resolve_provider_url_nonempty. unfold unresolved in Hun. rewrite Hun.
      by intros [? ?]. }
  assert (Hdef : ∀ p d0, ProviderResolver.DEFAULTS !! p = Some d0 → p ∉ missing).
  { intros p d0 Hd [_ Hun]%Hm. unfold unresolved, ProviderResolver.resolve_provider_url in Hun.
    destruct (ProviderResolver.nonempty (environ env !! _)); [discriminate|].
    destruct (ProviderResolver.nonempty (ProviderResolver.config_url _ _));
      [discriminate|].
    by rewrite Hd in Hun. }
  destruct missing as [|m0 ms] eqn:E.
  - intros p Hp Hun. by apply (not_elem_of_nil p), Hm.
  - exists (m0 :: ms). split; [reflexivity|]. split; [discriminate|].
    split.
    { rewrite <- E. unfold missing.
      by apply NoDup_fst_filter. }
    split; [exact Hm|].
    split; [by eapply Hdef|by eapply Hdef].
Qed.

(** ** A VM that was started and is stopped *)

Lemma string_length_app (a b : string) :
  String.length (a +:+ b) = (String.length a + String.length b)%nat.
Proof.
  induction a as [|c a IH]; [reflexivity|].
  change (String c a +:+ b) with (String c (a +:+ b)).
  cbn [String.length]. by rewrite IH.
Qed.

(** The manifest and the configuration file both end in [.json]; they
    differ all the same, whatever the VM id and the results directory. *)
Lemma manifest_is_not_config (cfg : Config) (id : string) :
  VMManager.manifest_file cfg id ≠ VMManager.config_file id.
Proof.
  unfold VMManager.manifest_file, VMManager.results_dir, VMManager.config_file.
  unfold path_join at 1.
  change (starts_with "/" "manifest.json") with false. cbv iota.
  intros H. pose proof (f_equal String.length H) as Hlen.
  rewrite !string_length_app in Hlen.
  unfold path_join in H, Hlen.
  destruct (starts_with "/" id).
  - cbn [String.length] in Hlen. lia.
  - rewrite !string_length_app in Hlen. cbn [String.length] in Hlen.
    destruct (paths_results cfg) as [|a1 [|a2 [|a3 [|a4 [|a5 [|a6 R]]]]]];
      cbn [String.length] in Hlen; try lia.
    apply (f_equal (String.get 5)) in H. cbv in H. discriminate.
Qed.

(** A launcher that has started left its child running and the pid of
    the child in [launcher.pid]. *)
Lemma start_launcher_ok (env : Env) (id config_path results_root : string)
    (use_jailer : bool) (extra_args : list string) (w : World)
    (pid : Z) (dir : string) (w' : World) :
  Launcher.start_launcher env id config_path results_root use_jailer extra_args w
  = (Ok (pid, dir), w') →
  pid ∈ alive w'
  ∧ files w' !! path_join (path_join results_root id) "launcher.pid"
    = Some (FBlob (pretty pid)).
Proof.
  unfold Launcher.start_launcher. rewrite bind_run.
  match goal with
  | |- context [match ?c w with _ => _ end] => destruct (c w) as [[cmd|e] w0]
  end; [|discriminate].
  rewrite bind_run, mkdir_eq. cbn zeta.
  destruct (fs_ok env (now w0) _); cbv beta iota; [|discriminate].
  rewrite bind_run, write_file_eq. cbn zeta.
  match goal with
  | |- context [fs_ok env ?t ?p] => destruct (fs_ok env t p)
  end; cbv beta iota; [|discriminate].
  rewrite bind_run, write_file_eq. cbn zeta.
  match goal with
  | |- context [fs_ok env ?t ?p] => destruct (fs_ok env t p)
  end; cbv beta iota; [|discriminate].
  rewrite bind_run, popen_eq.
  match goal with
  | |- context [popen_pid env ?t ?c] => destruct (popen_pid env t c) as [pid0|]
  end; cbv beta iota; [|discriminate].
  rewrite bind_run, write_file_eq. cbn zeta.
  match goal with
  | |- context [fs_ok env ?t ?p] => destruct (fs_ok env t p)
  end; cbv beta iota; [|discriminate].
  intros [= <- <- <-].
  cbn [alive files trace with_files with_alive after with_trace with_now].
  split; [apply elem_of_union_l, elem_of_singleton; reflexivity|].
  apply lookup_insert_eq.
Qed.

(** A [start_vm] that returns has been through its [try] block without
    an exception; the object it was given has kept its paths until then. *)
Lemma start_vm_ok_run (env : Env) (cfg : Config) (r : nat) (key : option string)
    (w : World) (i : VMInstance) (p : option Z) (w' : World) :
  heap w !! r = Some i →
  VMManager.start_vm env cfg r key w = (Ok p, w') →
  ∃ w3 i3,
    heap w3 !! r = Some i3
    ∧ vm_id i3 = vm_id i
    ∧ socket_path i3 = socket_path i
    ∧ shared_disk_path i3 = shared_disk_path i
    ∧ VMManager.launch_and_configure env cfg r w3 = (Ok tt, w')
    ∧ (∀ i4, heap w' !! r = Some i4 → p = process i4).
Proof.
  intros Hi H. unfold VMManager.start_vm in H.
  rewrite bind_run in H.
  destruct (VMManager.inject_api_key r key w) as [[[]|e] w1] eqn:Hinj; [|discriminate].
  assert (∃ i1, heap w1 !! r = Some i1 ∧ vm_id i1 = vm_id i
                ∧ socket_path i1 = socket_path i
                ∧ shared_disk_path i1 = shared_disk_path i) as (i1 & Hi1 & Hv1 & Hs1 & Hd1).
  { unfold VMManager.inject_api_key in Hinj.
    rewrite (bind_ok _ _ _ _ _ (deref_run _ _ _ Hi)) in Hinj.
    destruct (ProviderResolver.nonempty key).
    - destruct (config i); [|discriminate]. injection Hinj as <-.
      eexists. simpl. rewrite lookup_alter_eq, Hi. simpl. by repeat split.
    - injection Hinj as <-. by exists i. }
  rewrite (bind_ok _ _ _ _ _ (deref_run _ _ _ Hi1)) in H.
  rewrite bind_run in H.
  destruct (write_file env _ _ w1) as [[[]|e] w2] eqn:Hwf; [|discriminate].
  pose proof (preserves_write_file same_heap _ _ _ _ _ _ Hwf) as Hh2.
  rewrite bind_run in H.
  destruct (VMManager.remove_stale_socket env r w2) as [[[]|e] w3] eqn:Hrm;
    [|discriminate].
  pose proof (preserves_remove_stale_socket same_heap _ _ _ _ _ Hrm) as Hh3.
  unfold same_heap in Hh2, Hh3.
  rewrite bind_run in H. unfold try_except in H.
  destruct (VMManager.launch_and_configure env cfg r w3) as [[[]|e] w4] eqn:Hlc.
  - exists w3, i1. rewrite Hh3, Hh2.
    destruct (keeps_object_launch_and_configure env cfg r _ _ _ Hlc i1
                ltac:(by rewrite Hh3, Hh2)) as (i4 & Hi4 & _).
    rewrite (bind_ok _ _ _ _ _ (deref_run _ _ _ Hi4)) in H.
    injection H as <- <-.
    repeat split; try done. intros i4' Hi4'. congruence.
  - destruct (VMManager.mark_failed env cfg r e w4) as [res w5] eqn:Hmf.
    rewrite (mark_failed_raises _ _ _ _ _ _ _ Hmf) in H. discriminate.
Qed.

(** What the [try] block of [start_vm] leaves when it has succeeded: the
    object holds the child, the child runs, and [launcher.pid] names it. *)
Lemma launch_and_configure_process (env : Env) (cfg : Config) (r : nat)
    (w : World) (i : VMInstance) (w' : World) :
  heap w !! r = Some i →
  VMManager.launch_and_configure env cfg r w = (Ok tt, w') →
  ∃ pid,
    heap w' !! r = Some (set_process (Some pid) i)
    ∧ pid ∈ alive w'
    ∧ files w' !! path_join (VMManager.results_dir cfg (vm_id i)) "launcher.pid"
      = Some (FBlob (pretty pid)).
Proof.
  intros Hi H. unfold VMManager.launch_and_configure in H.
  rewrite (bind_ok _ _ _ _ _ (deref_run _ _ _ Hi)) in H.
  destruct (config i) as [c|]; [|discriminate].
  rewrite bind_run in H. cbn [ret] in H. cbv beta iota in H.
  destruct (drives c) as [|d ds]; [discriminate|].
  rewrite bind_run in H. cbn [ret] in H. cbv beta iota in H.
  rewrite bind_run in H.
  destruct (Launcher.start_launcher _ _ _ _ _ _ w) as [[[proc dir]|e] wl] eqn:Hl;
    [|discriminate].
  destruct (start_launcher_ok _ _ _ _ _ _ _ _ _ _ Hl) as [Halive Hpid].
  pose proof (preserves_start_launcher same_heap _ _ _ _ _ _ _ _ _ Hl) as Hheap.
  unfold same_heap in Hheap.
  rewrite bind_run in H. unfold update, modify in H. cbv beta iota in H.
  set (wu := with_heap _ wl) in H.
  assert (Hiu : heap wu !! r = Some (set_process (Some proc) i)).
  { subst wu. simpl. by rewrite lookup_alter_eq, Hheap, Hi. }
  rewrite bind_run in H.
  destruct (VMManager._write_manifest env cfg r "running" wu) as [[[]|e] wm] eqn:Hm;
    [|discriminate].
  pose proof (preserves_write_manifest same_heap _ _ _ _ _ _ _ Hm) as Hhm.
  pose proof (preserves_write_manifest same_alive _ _ _ _ _ _ _ Hm) as Ham.
  pose proof (keeps_file_write_manifest env cfg r "running"
                (path_join (path_join (paths_results cfg) (vm_id i)) "launcher.pid")
                "d"%char ltac:(last_char) ltac:(discriminate) ltac:(discriminate)
                _ _ _ Hm) as Hfm.
  unfold same_heap in Hhm. unfold same_alive in Ham. unfold keeps_file in Hfm.
  rewrite bind_run in H.
  destruct (FirecrackerClient.put_json env _ "/boot-source" wm) as [[b1|e] w1] eqn:H1;
    [|discriminate].
  apply put_json_run in H1 as (s1 & body1 & -> & Herr1).
  rewrite bind_run in H.
  destruct (FirecrackerClient.put_json env _ "/machine-config" _) as [[b2|e] w2] eqn:H2;
    [|discriminate].
  apply put_json_run in H2 as (s2 & body2 & -> & Herr2).
  injection H as <-.
  exists proc. unfold VMManager.results_dir.
  cbn [heap alive files after with_trace with_now].
  rewrite Hhm, Ham, Hfm. split; [exact Hiu|].
  subst wu. cbn [alive files with_heap]. split; [exact Halive|exact Hpid].
Qed.

(** X22: a VM that [start_vm] has started and [stop_vm] then stops, for an
    instance with the paths [create_vm] gives it (its socket, and the
    image or the guest archive as [shared_disk_path]).  The
    child [start_vm] returned was running and is gone after [stop_vm],
    which always returns; but [stop_vm] touches neither the manifest nor
    the launcher's pid file: the manifest still reports the state
    ["running"], and [launcher.pid] still names the child that has
    exited. *)
Theorem stop_vm_leaves_manifest_running (env : Env) (cfg : Config) (r : nat)
    (key : option string) (w : World) (i : VMInstance) (p : option Z) (w1 : World) :
  heap w !! r = Some i →
  socket_path i = Some (VMManager.socket_file (vm_id i)) →
  shared_disk_path i = Some (VMManager.shared_disk_file (vm_id i))
  ∨ shared_disk_path i = Some (VMManager.guest_tar_file cfg (vm_id i)) →
  VMManager.start_vm env cfg r key w = (Ok p, w1) →
  ∃ pid w2,
    p = Some pid
    ∧ pid ∈ alive w1
    ∧ VMManager.stop_vm env cfg r w1 = (Ok tt, w2)
    ∧ (pid ∉ alive w2)
    ∧ manifest_field cfg (vm_id i) "state" w2 = Some (PStr "running")
    ∧ files w2 !! path_join (VMManager.results_dir cfg (vm_id i)) "launcher.pid"
      = Some (FBlob (pretty pid)).
Proof.
  intros Hi Hsock Hdisk Hstart.
  destruct (start_vm_ok_run _ _ _ _ _ _ _ _ Hi Hstart)
    as (w3 & i3 & Hi3 & Hv3 & Hs3 & Hd3 & Hlc & Hp).
  destruct (launch_and_configure_run _ _ _ _ _ _ Hi3 Hlc)
    as (_ & _ & _ & _ & _ & _ & _ & _ & _ & Hman & _).
  destruct (launch_and_configure_process _ _ _ _ _ _ Hi3 Hlc)
    as (pid & Hi4 & Halive & Hpid).
  rewrite Hv3 in Hman, Hpid.
  destruct (stop_vm_run env cfg r w1 _ Hi4) as (w2 & Hstop & _ & _ & _ & Hdead & _).
  exists pid, w2.
  split; [exact (Hp _ Hi4)|]. split; [exact Halive|]. split; [exact Hstop|].
  split; [by apply Hdead|].
  assert (Htargets : ∃ disk,
            cleanup_targets (set_process (Some pid) i3)
            = [VMManager.socket_file (vm_id i); disk; VMManager.config_file (vm_id i)]
            ∧ (disk = VMManager.shared_disk_file (vm_id i)
               ∨ disk = VMManager.guest_tar_file cfg (vm_id i))).
  { unfold cleanup_targets. cbn [socket_path shared_disk_path vm_id set_process].
    rewrite Hs3, Hd3, Hv3, Hsock.
    destruct Hdisk as [-> | ->]; eexists; (split; [reflexivity|]); [by left|by right]. }
  destruct Htargets as (disk & Htargets & Hdisk').
  assert (Hm1 : VMManager.manifest_file cfg (vm_id i)
                 ∉ cleanup_targets (set_process (Some pid) i3)).
  { rewrite Htargets. intros Hin.
    apply elem_of_cons in Hin as [Hin|Hin]; [revert Hin; paths_differ|].
    apply elem_of_cons in Hin as [Hin|Hin];
      [destruct Hdisk' as [-> | ->]; revert Hin; paths_differ|].
    apply list_elem_of_singleton in Hin. by apply manifest_is_not_config in Hin. }
  assert (Hm2 : path_join (VMManager.results_dir cfg (vm_id i)) "launcher.pid"
                 ∉ cleanup_targets (set_process (Some pid) i3)).
  { rewrite Htargets. unfold VMManager.results_dir. intros Hin.
    apply elem_of_cons in Hin as [Hin|Hin]; [revert Hin; paths_differ|].
    apply elem_of_cons in Hin as [Hin|Hin];
      [destruct Hdisk' as [-> | ->]; revert Hin; paths_differ|].
    apply list_elem_of_singleton in Hin. revert Hin. paths_differ. }
  split.
  - unfold manifest_field in *.
    by rewrite (stop_vm_keeps_file env cfg r w1 _ _ _ _ Hi4 Hm1 Hstop).
  - by rewrite (stop_vm_keeps_file env cfg r w1 _ _ _ _ Hi4 Hm2 Hstop).
Qed.

Lemma stop_vm_leaves_manifest_running_witness :
  heap world_created_responsive !! 0%nat = Some responsive_instance
  ∧ VMManager.start_vm responsive_host config_with_ollama_url 0 None
      world_created_responsive
    = (Ok (Some 4242),
       snd (VMManager.start_vm responsive_host config_with_ollama_url 0 None
              world_created_responsive))
  ∧ ∃ pid w2,
      Some 4242 = Some pid
      ∧ pid ∈ alive (snd (VMManager.start_vm responsive_host config_with_ollama_url
                            0 None world_created_responsive))
      ∧ VMManager.stop_vm responsive_host config_with_ollama_url 0
          (snd (VMManager.start_vm responsive_host config_with_ollama_url 0 None
                  world_created_responsive))
        = (Ok tt, w2)
      ∧ (pid ∉ alive w2)
      ∧ manifest_field config_with_ollama_url (vm_id responsive_instance) "state" w2
        = Some (PStr "running")
      ∧ files w2 !! path_join (VMManager.results_dir config_with_ollama_url
                                 (vm_id responsive_instance)) "launcher.pid"
        = Some (FBlob (pretty pid)).
Proof.
  assert (H1 : heap world_created_responsive !! 0%nat = Some responsive_instance)
    by (vm_compute; reflexivity).
  assert (Hs : socket_path responsive_instance
               = Some (VMManager.socket_file (vm_id responsive_instance)))
    by (vm_compute; reflexivity).
  assert (Hd : shared_disk_path responsive_instance
               = Some (VMManager.shared_disk_file (vm_id responsive_instance))
               ∨ shared_disk_path responsive_instance
                 = Some (VMManager.guest_tar_file config_with_ollama_url
                           (vm_id responsive_instance)))
    by (right; vm_compute; reflexivity).
  assert (H2 : VMManager.start_vm responsive_host config_with_ollama_url 0 None
                 world_created_responsive
               = (Ok (Some 4242),
                  snd (VMManager.start_vm responsive_host config_with_ollama_url
                         0 None world_created_responsive))).
  { rewrite (surjective_pairing (VMManager.start_vm _ _ _ _ _)) at 1.
    f_equal; vm_compute; reflexivity. }
  split; [exact H1|]. split; [exact H2|].
  exact (stop_vm_leaves_manifest_running responsive_host config_with_ollama_url 0 None
           world_created_responsive responsive_instance _ _ H1 Hs Hd H2).
Defined.

(** ** Stopping the launcher *)

Lemma terminate_launcher_never_raises (env : Env) (proc : Z) :
  raises_within [] (Launcher.terminate_launcher env proc).
Proof.
  unfold Launcher.terminate_launcher.
  apply raises_within_try_except. intros _.
  apply raises_within_try_except. intros _. apply raises_within_ret.
Qed.

Lemma same_files_terminate_launcher (env : Env) (proc : Z) :
  preserves same_files (Launcher.terminate_launcher env proc).
Proof. unfold Launcher.terminate_launcher. frame. Qed.

(** A child that has exited is not signalled. *)
Lemma terminate_launcher_exited (env : Env) (proc : Z) (w : World) :
  proc ∉ alive w →
  ∃ w', Launcher.terminate_launcher env proc w = (Ok tt, w') ∧ trace w' = trace w.
Proof.
  intros Hdead. unfold Launcher.terminate_launcher, try_except.
  rewrite bind_run, poll_is_none_eq.
  rewrite (bool_decide_eq_false_2 _ Hdead). cbn [andb when].
  by eexists.
Qed.

Lemma remove_pid_file_run (env : Env) (dir : string) (w : World) :
  let p := path_join dir "launcher.pid" in
  ∃ w', Launcher.remove_pid_file env dir w = (Ok tt, w')
    ∧ (∀ q, q ≠ p → files w' !! q = files w !! q)
    ∧ (files w' !! p = None ∨ files w' !! p = files w !! p)
    ∧ ((∀ t, fs_ok env t p = true) → files w' !! p = None)
    ∧ ∃ ext, trace w' = (trace w ++ ext)%list ∧ signals ext = [].
Proof.
  intros p. unfold Launcher.remove_pid_file, try_except. fold p.
  rewrite bind_run. unfold path_exists, gets. cbv beta iota.
  destruct (bool_decide (is_Some (files w !! p))) eqn:Hex; cbn [when].
  - rewrite unlink_eq. cbn zeta. rewrite Hex. cbn [andb].
    destruct (fs_ok env (now w) p) eqn:Hok.
    + eexists. split; [reflexivity|].
      cbn [files trace with_files after with_trace with_now].
      split; [intros q Hq; by rewrite lookup_delete_ne|].
      split; [left; apply lookup_delete_eq|].
      split; [intros _; apply lookup_delete_eq|].
      by eexists [_].
    + eexists. split; [reflexivity|].
      cbn [files trace with_files after with_trace with_now ret].
      split; [done|]. split; [by right|].
      split; [intros Hfs; by rewrite Hfs in Hok|].
      by eexists [_].
  - apply bool_decide_eq_false in Hex.
    exists w. split; [reflexivity|]. split; [done|].
    assert (Hnone : files w !! p = None) by (by apply eq_None_not_Some).
    split; [by left|]. split; [done|].
    exists []. by rewrite app_nil_r.
Qed.

(** X23: [stop_launcher] always returns, whatever the host does.  It
    changes no file but [launcher.pid], which it removes or, when the
    host refuses, leaves as it was; on a host that does not refuse, the
    pid file is gone afterwards.  A child that has already exited is
    sent no signal. *)
Theorem stop_launcher_outcome (env : Env) (proc : Z) (results_dir : string)
    (w : World) :
  let p := path_join results_dir "launcher.pid" in
  ∃ w', Launcher.stop_launcher env proc results_dir w = (Ok tt, w')
    ∧ (∀ q, q ≠ p → files w' !! q = files w !! q)
    ∧ (files w' !! p = None ∨ files w' !! p = files w !! p)
    ∧ ((∀ t, fs_ok env t p = true) → files w' !! p = None)
    ∧ (proc ∉ alive w →
       ∃ ext, trace w' = (trace w ++ ext)%list ∧ signals ext = []).
Proof.
  intros p. unfold Launcher.stop_launcher.
  destruct (never_raises_ok (Launcher.terminate_launcher env proc) w
              (terminate_launcher_never_raises env proc)) as ([] & w1 & Ht).
  pose proof (same_files_terminate_launcher env proc _ _ _ Ht) as Hf1.
  unfold same_files in Hf1.
  destruct (remove_pid_file_run env results_dir w1)
    as (w' & Hr & Hothers & Hpid & Hgone & ext & Hext & Hsig).
  fold p in Hothers, Hpid, Hgone.
  exists w'. rewrite (bind_ok _ _ _ _ _ Ht). split; [exact Hr|].
  rewrite <- Hf1. split; [exact Hothers|]. split; [exact Hpid|]. split; [exact Hgone|].
  intros Hdead.
  destruct (terminate_launcher_exited env proc w Hdead) as (w1' & Ht' & Htr).
  rewrite Ht in Ht'. injection Ht' as <-.
  exists ext. by rewrite Hext, Htr.
Qed.

(** ** The API key *)

#[global] Instance keeps_config_preorder (r : nat) : PreOrder (keeps_config r).
Proof.
  split.
  - intros w i Hi. eauto.
  - intros w1 w2 w3 H12 H23 i Hi.
    destruct (H12 i Hi) as (i2 & Hi2 & E1 & E2).
    destruct (H23 i2 Hi2) as (i3 & Hi3 & F1 & F2).
    exists i3. repeat split; congruence.
Qed.
#[global] Instance keeps_config_clock (r : nat) : IgnoresClock (keeps_config r).
Proof. intros f w i Hi. eauto. Qed.
#[global] Instance keeps_config_trace (r : nat) : IgnoresTrace (keeps_config r).
Proof. intros f w i Hi. eauto. Qed.
#[global] Instance keeps_config_files (r : nat) : IgnoresFiles (keeps_config r).
Proof. intros f w i Hi. eauto. Qed.
#[global] Instance keeps_config_alive (r : nat) : IgnoresAlive (keeps_config r).
Proof. intros f w i Hi. eauto. Qed.
#[global] Instance keeps_config_active_vms (r : nat) : IgnoresActiveVms (keeps_config r).
Proof. intros f w i Hi. eauto. Qed.

#[global] Instance keeps_event_preorder (ev : Event) : PreOrder (keeps_event ev).
Proof. split; unfold keeps_event; [intros w|intros w1 w2 w3]; tauto. Qed.
#[global] Instance keeps_event_clock (ev : Event) : IgnoresClock (keeps_event ev).
Proof. intros f w Hin. exact Hin. Qed.
#[global] Instance keeps_event_quiet (ev : Event) : IgnoresQuiet (keeps_event ev).
Proof. intros ev' w _ Hin. simpl. apply elem_of_app. by left. Qed.
#[global] Instance keeps_event_files (ev : Event) : IgnoresFiles (keeps_event ev).
Proof. intros f w Hin. exact Hin. Qed.
#[global] Instance keeps_event_alive (ev : Event) : IgnoresAlive (keeps_event ev).
Proof. intros f w Hin. exact Hin. Qed.
#[global] Instance keeps_event_heap (ev : Event) : IgnoresHeap (keeps_event ev).
Proof. intros f w Hin. exact Hin. Qed.
#[global] Instance keeps_event_active_vms (ev : Event) : IgnoresActiveVms (keeps_event ev).
Proof. intros f w Hin. exact Hin. Qed.

Lemma keeps_config_update_process (r r0 : nat) (p : option Z) :
  preserves (keeps_config r) (update r0 (set_process p)).
Proof.
  intros w res w' [= <- <-] i Hi. simpl.
  destruct (decide (r0 = r)) as [->|Hne].
  - rewrite lookup_alter_eq, Hi. simpl. by eexists.
  - rewrite lookup_alter_ne by done. eauto.
Qed.

Lemma keeps_event_put_json (ev : Event) (env : Env) (sock path : string) :
  preserves (keeps_event ev) (FirecrackerClient.put_json env sock path).
Proof.
  assert (Hafter : ∀ ev' w, keeps_event ev w (after ev' w)).
  { intros ev' w Hin. simpl. apply elem_of_app. by left. }
  intros w res w'. unfold FirecrackerClient.put_json.
  rewrite bind_run, requests_send_eq.
  destruct (http env (now w) _) as [msg|status body];
    [intros [= <- <-]; apply Hafter|].
  cbv beta iota. destruct (status =? 204); [intros [= <- <-]; apply Hafter|].
  rewrite bind_run. unfold raise_for_status.
  destruct ((400 <=? status) && (status <? 600)); intros [= <- <-]; apply Hafter.
Qed.

(** What follows the writing of the configuration file in [start_vm]
    neither changes the configuration of the object nor forgets what has
    been logged. *)
Lemma start_vm_rest_keeps (env : Env) (cfg : Config) (r : nat) (ev : Event) :
  let rest : M (option Z) :=
    VMManager.remove_stale_socket env r ;;
    try_except (VMManager.launch_and_configure env cfg r)
      (VMManager.mark_failed env cfg r) ;;
    vm_instance ← deref r;
    ret (process vm_instance) in
  preserves (keeps_config r) rest ∧ preserves (keeps_event ev) rest.
Proof.
  split.
  - frame;
      first [ apply preserves_remove_stale_socket
            | apply preserves_mark_failed
            | idtac ]; try typeclasses eauto.
    unfold VMManager.launch_and_configure. frame;
      first [ apply preserves_start_launcher
            | apply preserves_write_manifest
            | apply preserves_put_json
            | apply keeps_config_update_process ];
      typeclasses eauto.
  - frame;
      first [ apply preserves_remove_stale_socket
            | apply preserves_mark_failed
            | idtac ]; try typeclasses eauto.
    unfold VMManager.launch_and_configure. frame;
      first [ apply preserves_start_launcher
            | apply preserves_write_manifest
            | apply keeps_event_put_json
            | apply preserves_update ];
      typeclasses eauto.
Qed.

(** X24: [start_vm] with an API key.  Whether the start succeeds or
    fails, the key has been appended to the boot arguments of the
    instance and stays there (so a second [start_vm] with a key appends
    it a second time); and when the configuration file could be
    written, what was written to [/tmp/vm-config-<vm_id>.json] is the
    configuration with the key in its boot arguments. *)
Theorem start_vm_api_key (env : Env) (cfg : Config) (r : nat) (key : string)
    (w : World) (i : VMInstance) (c : VmConfig)
    (res : result (option Z)) (w' : World) :
  heap w !! r = Some i →
  config i = Some c →
  key ≠ "" →
  VMManager.start_vm env cfg r (Some key) w = (res, w') →
  let c' := set_boot_args (boot_args (boot_source c) +:+ " OPENAI_API_KEY=" +:+ key) c in
  (∃ i', heap w' !! r = Some i' ∧ vm_id i' = vm_id i ∧ config i' = Some c')
  ∧ (fs_ok env (now w) (VMManager.config_file (vm_id i)) = true →
     EvWrite (VMManager.config_file (vm_id i)) (FJson (config_json (Some c'))) true
     ∈ trace w').
Proof.
  intros Hi Hc Hkey H c'. unfold VMManager.start_vm in H.
  assert (Hinj : VMManager.inject_api_key r (Some key) w
                 = (Ok tt, with_heap (alter (set_config (Some c')) r) w)).
  { unfold VMManager.inject_api_key.
    rewrite (bind_ok _ _ _ _ _ (deref_run _ _ _ Hi)).
    unfold ProviderResolver.nonempty.
    destruct (String.eqb key "") eqn:E; [by apply String.eqb_eq in E|].
    rewrite Hc. reflexivity. }
  rewrite (bind_ok _ _ _ _ _ Hinj) in H.
  set (w1 := with_heap _ w) in H.
  assert (Hi1 : heap w1 !! r = Some (set_config (Some c') i)).
  { subst w1. simpl. by rewrite lookup_alter_eq, Hi. }
  rewrite (bind_ok _ _ _ _ _ (deref_run _ _ _ Hi1)) in H.
  cbn [vm_id config set_config] in H.
  rewrite bind_run, write_file_eq in H. cbn zeta in H.
  change (now w1) with (now w) in H.
  destruct (fs_ok env (now w) (VMManager.config_file (vm_id i))) eqn:Hok.
  - set (ev := EvWrite (VMManager.config_file (vm_id i))
                 (FJson (config_json (Some c'))) true) in *.
    destruct (start_vm_rest_keeps env cfg r ev) as [Hkc Hke].
    cbv zeta in Hkc, Hke.
    set (w2 := with_files _ (after ev w1)) in H.
    split.
    + destruct (Hkc _ _ _ H (set_config (Some c') i)) as (i' & Hi' & Hv & Hc').
      { subst w2. simpl. exact Hi1. }
      exists i'. by repeat split.
    + intros _. apply (Hke _ _ _ H). subst w2. simpl.
      apply elem_of_app. right. by apply list_elem_of_singleton.
  - injection H as <- <-. split; [|discriminate].
    exists (set_config (Some c') i). simpl. by repeat split.
Qed.

Lemma start_vm_api_key_witness :
  heap world_created !! 0%nat = Some created_instance
  ∧ config created_instance = Some created_config
  ∧ (∃ i', heap (snd (VMManager.start_vm cooperative_host config_with_ollama_url 0
                        (Some "sk-1") world_created)) !! 0%nat = Some i'
           ∧ (boot_args <$> (boot_source <$> config i'))
             = Some ("console=ttyS0 reboot=k panic=1 pci=off init=/ssl_agent.sh "
                     +:+ "VM_IP=172.50.0.2 GATEWAY_IP=172.50.0.1 OPENAI_API_KEY=sk-1")).
Proof.
  assert (H1 : heap world_created !! 0%nat = Some created_instance)
    by (vm_compute; reflexivity).
  assert (H2 : config created_instance = Some created_config)
    by (vm_compute; reflexivity).
  split; [exact H1|]. split; [exact H2|].
  destruct (start_vm_api_key cooperative_host config_with_ollama_url 0 "sk-1"
              world_created created_instance created_config
              (fst (VMManager.start_vm cooperative_host config_with_ollama_url 0
                      (Some "sk-1") world_created))
              (snd (VMManager.start_vm cooperative_host config_with_ollama_url 0
                      (Some "sk-1") world_created))
              H1 H2 ltac:(discriminate) ltac:(by rewrite <- surjective_pairing))
    as [(i' & Hi' & _ & Hc') _].
  exists i'. split; [exact Hi'|]. rewrite Hc'. vm_compute. reflexivity.
Defined.

(** ** Pages of VM statuses *)

(** A slice between two bounds inside the list. *)
Lemma py_slice_inside {A} (xs : list A) (lo hi : Z) :
  0 <= lo → 0 <= hi →
  McpServer.py_slice xs lo hi
  = take (Z.to_nat hi - Z.to_nat lo) (drop (Z.to_nat lo) xs).
Proof.
  intros Hlo Hhi. unfold McpServer.py_slice, McpServer.slice_index.
  destruct (lo <? 0) eqn:E1; [lia|]. destruct (hi <? 0) eqn:E2; [lia|].
  clear E1 E2.
  destruct (Z.le_gt_cases lo (Z.of_nat (length xs))) as [Hl|Hl].
  - rewrite (Z.min_l lo) by lia.
    destruct (Z.le_gt_cases hi (Z.of_nat (length xs))) as [Hh|Hh].
    + rewrite (Z.min_l hi) by lia. f_equal. lia.
    + rewrite (Z.min_r hi) by lia.
      rewrite !take_ge; [reflexivity| |]; rewrite length_drop; lia.
  - rewrite (Z.min_r lo) by lia.
    rewrite !(drop_ge xs) by lia. by rewrite !take_nil.
Qed.

Lemma pages_concat {A} (m : nat) :
  (0 < m)%nat →
  ∀ (n : nat) (xs : list A),
    (length xs ≤ n * m)%nat →
    concat ((fun k => take m (drop (k * m) xs)) <$> seq 0 n) = xs.
Proof.
  intros Hm n. induction n as [|n IH]; intros xs Hlen.
  - destruct xs; [reflexivity|simpl in Hlen; lia].
  - cbn [seq fmap list_fmap concat]. rewrite <- seq_shift.
    rewrite <- list_fmap_compose.
    change (0 * m)%nat with 0%nat. rewrite drop_0.
    transitivity (take m xs ++ drop m xs)%list; [|apply take_drop].
    f_equal.
    rewrite <- (IH (drop m xs)) by (rewrite length_drop; lia).
    f_equal. apply list_fmap_ext. intros _ k _. cbn [compose].
    rewrite drop_drop. reflexivity.
Qed.

(** X25: the pages of [get_vms_handler].  For a positive [page_size], the
    items of the pages [0], [1], ... up to the last one, put one after
    the other, are exactly the statuses, each once and in order; no
    page holds more than [page_size] items, and the pages after the last
    one are empty. *)
Theorem get_vms_pages_partition {A} (all_vms : list A) (ps : Z) :
  0 < ps →
  let page_items (p : Z) :=
    reply_items (McpServer.get_vms_handler all_vms (Some p) (Some ps)) in
  concat ((fun k => page_items (Z.of_nat k)) <$> seq 0 (page_count (length all_vms) ps))
  = all_vms
  ∧ (∀ p, 0 <= p → (length (page_items p) ≤ Z.to_nat ps)%nat)
  ∧ (∀ p, Z.of_nat (page_count (length all_vms) ps) <= p → page_items p = []).
Proof.
  intros Hps page_items.
  assert (Hitems : ∀ p, 0 <= p →
            page_items p = take (Z.to_nat ps) (drop (Z.to_nat p * Z.to_nat ps) all_vms)).
  { intros p Hp. unfold page_items, McpServer.get_vms_handler.
    destruct (ps <=? 0) eqn:E; [lia|]. cbn [reply_items McpServer.items].
    rewrite py_slice_inside by nia. f_equal; [nia|]. f_equal. nia. }
  assert (Hcount : (length all_vms ≤ page_count (length all_vms) ps * Z.to_nat ps)%nat).
  { unfold page_count.
    pose proof (Z.mul_succ_div_gt (Z.of_nat (length all_vms) + ps - 1) ps Hps) as Hd.
    assert (0 <= (Z.of_nat (length all_vms) + ps - 1) / ps)
      by (apply Z.div_pos; lia).
    nia. }
  split; [|split].
  - rewrite <- (pages_concat (Z.to_nat ps) ltac:(lia) _ all_vms Hcount) at 2.
    f_equal. apply list_fmap_ext. intros _ k _.
    rewrite Hitems by lia. by rewrite Nat2Z.id.
  - intros p Hp. rewrite Hitems by exact Hp. rewrite length_take. lia.
  - intros p Hp.
    assert (0 <= p) by lia.
    rewrite Hitems by lia. rewrite drop_ge; [by rewrite take_nil|]. nia.
Qed.

Lemma get_vms_pages_partition_witness :
  concat ((fun k =>
             reply_items (McpServer.get_vms_handler [1; 2; 3; 4; 5]
                            (Some (Z.of_nat k)) (Some 2)))
          <$> seq 0 (page_count 5 2))
  = [1; 2; 3; 4; 5].
Proof.
  exact (proj1 (get_vms_pages_partition [1; 2; 3; 4; 5] 2 ltac:(lia))).
Defined.

(** X26: the edges of [get_vms_handler].  Without parameters it returns
    the bare list; with only one of them, the whole list as page [0]
    with [page_size = total].  A [page_size] that is not positive is
    refused with status 400.  A negative [page] is not refused: page
    [-1] is always empty, and a page [p <= -2] is a window counted from
    the end of the list (when the list is long enough, the [page_size]
    items that start [-p * page_size] before its end). *)
Theorem get_vms_handler_edges {A} (all_vms : list A) :
  let n := Z.of_nat (length all_vms) in
  let whole := McpServer.Reply (McpServer.Paged
                 {| McpServer.items := all_vms; McpServer.page := 0;
                    McpServer.page_size := n; McpServer.total := n |}) in
  McpServer.get_vms_handler all_vms None None
  = McpServer.Reply (McpServer.LegacyList all_vms)
  ∧ (∀ p, McpServer.get_vms_handler all_vms (Some p) None = whole)
  ∧ (∀ ps, McpServer.get_vms_handler all_vms None (Some ps) = whole)
  ∧ (∀ p ps, ps <= 0 →
       McpServer.get_vms_handler all_vms (Some p) (Some ps)
       = McpServer.HTTPException 400 "page_size must be > 0")
  ∧ (∀ ps, 0 < ps →
       McpServer.get_vms_handler all_vms (Some (-1)) (Some ps)
       = McpServer.Reply (McpServer.Paged
           {| McpServer.items := []; McpServer.page := -1;
              McpServer.page_size := ps; McpServer.total := n |}))
  ∧ (∀ p ps, 0 < ps → p <= -2 → - (p * ps) <= n →
       McpServer.get_vms_handler all_vms (Some p) (Some ps)
       = McpServer.Reply (McpServer.Paged
           {| McpServer.items :=
                take (Z.to_nat ps) (drop (Z.to_nat (n + p * ps)) all_vms);
              McpServer.page := p;
              McpServer.page_size := ps; McpServer.total := n |})).
Proof.
  intros n whole. unfold McpServer.get_vms_handler. fold n.
  split; [reflexivity|]. split; [reflexivity|]. split; [reflexivity|].
  split; [|split].
  - intros p ps Hps. destruct (ps <=? 0) eqn:E; [reflexivity|lia].
  - intros ps Hps. destruct (ps <=? 0) eqn:E; [lia|].
    unfold McpServer.py_slice, McpServer.slice_index. fold n.
    destruct (-1 * ps <? 0) eqn:E1; [|lia].
    destruct (-1 * ps + ps <? 0) eqn:E2; [lia|].
    rewrite (Z.min_l (-1 * ps + ps)) by lia.
    replace (Z.to_nat _) with 0%nat by lia. by rewrite take_0.
  - intros p ps Hps Hp Hlen. destruct (ps <=? 0) eqn:E; [lia|].
    unfold McpServer.py_slice, McpServer.slice_index. fold n.
    destruct (p * ps <? 0) eqn:E1; [|nia].
    destruct (p * ps + ps <? 0) eqn:E2; [|nia].
    rewrite (Z.max_l (p * ps + n)) by lia.
    rewrite (Z.max_l (p * ps + ps + n)) by lia.
    replace (p * ps + ps + n - (p * ps + n)) with ps by lia.
    replace (p * ps + n) with (n + p * ps) by lia.
    reflexivity.
Qed.

Lemma get_vms_handler_edges_witness :
  McpServer.get_vms_handler [1; 2; 3; 4; 5] (Some 0) (Some 0)
  = McpServer.HTTPException 400 "page_size must be > 0"
  ∧ reply_items (McpServer.get_vms_handler [1; 2; 3; 4; 5] (Some (-1)) (Some 2)) = []
  ∧ reply_items (McpServer.get_vms_handler [1; 2; 3; 4; 5] (Some (-2)) (Some 2)) = [2; 3].
Proof.
  pose proof (get_vms_handler_edges [1; 2; 3; 4; 5]) as (_ & _ & _ & H400 & Hlast & Hneg).
  split; [apply H400; lia|]. split.
  - rewrite Hlast by lia. reflexivity.
  - rewrite (Hneg (-2) 2) by (cbn; lia). reflexivity.
Defined.
